(** * AppNVM flash translation layer core (app_core.c)

    A shallow embedding of [hw/block/ox-ctrl/ftl/appnvm/app_core.c] and the
    properties of its buffer geometry, plane I/O, sequential table transfer,
    recency scan and bad-block table.

    Conventions of the embedding:
    - byte buffers live in one flat byte-addressed memory ([memory]); a
      pointer into a byte buffer is its address, [0] is [NULL];
    - the pointer arrays owned by an I/O descriptor ([pl_vec], [oob_vec],
      [sec_vec]) are lists with the capacity the source allocates; an index
      outside the capacity, like the dereference of a null structure
      pointer, is undefined behaviour and yields [Undef];
    - [malloc], [calloc] and [free] go through an allocator that can be
      made to fail at chosen calls and that logs what it does;
    - the media manager, the registered collaborators and the constants of
      the headers ([ssd.h], [appnvm.h]) are not part of this file of the
      source; they are parameters ([Header], [MediaManager], [AppGlobal]);
    - fields declared in those headers carry mathematical integers;
      integer types written in [app_core.c] itself wrap as written. *)

From Stdlib Require Import ZArith Lia List Bool.
From stdpp Require Import base option list gmap.
Import ListNotations.
Local Open Scope Z_scope.

(** ** Machine integers *)

Definition u16 (x : Z) : Z := x mod 2 ^ 16.
Definition u32 (x : Z) : Z := x mod 2 ^ 32.
(** [size_t] arithmetic. *)
Definition usz (x : Z) : Z := x mod 2 ^ 64.

(** ** Byte memory *)

Definition memory := Z -> Z.

Definition in_range (p n a : Z) : bool := (p <=? a) && (a <? p + n).

Definition memset (m : memory) (p c n : Z) : memory :=
  fun a => if in_range p n a then c else m a.

Definition memcpy (m : memory) (to from n : Z) : memory :=
  fun a => if in_range to n a then m (from + (a - to)) else m a.

Definition read_bytes (m : memory) (p : Z) (n : Z) : list Z :=
  map (fun i => m (p + Z.of_nat i)) (seq 0 (Z.to_nat n)).

(** ** Allocator

    [script] decides the outcome of the coming allocation calls, one
    boolean per call ([false]: the call returns [NULL]); calls beyond the
    script succeed.  [events] logs every successful allocation and every
    release, in order. *)

Inductive heap_event : Type :=
| EvAlloc (p sz : Z)
| EvFree (p : Z).

Record allocator : Type := {
  brk : Z;
  live : list (Z * Z);
  script : list bool;
  events : list heap_event
}.

Definition malloc (sz : Z) (h : allocator) : Z * allocator :=
  match script h with
  | false :: s =>
      (0, {| brk := brk h; live := live h; script := s; events := events h |})
  | _ =>
      (brk h, {| brk := brk h + Z.max sz 1;
                 live := (brk h, sz) :: live h;
                 script := tl (script h);
                 events := events h ++ [EvAlloc (brk h) sz] |})
  end.

Definition free (p : Z) (h : allocator) : allocator :=
  {| brk := brk h;
     live := filter (fun b => fst b ≠ p) (live h);
     script := script h;
     events := events h ++ [EvFree p] |}.

(** The allocator's invariant: blocks lie below [brk], none at [NULL]. *)
Definition heap_ok (h : allocator) : Prop :=
  0 < brk h /\ Forall (fun b => 0 < fst b < brk h) (live h).

(** The blocks [m] successive allocations of [sz] bytes return when the
    first is placed at [b]. *)
Fixpoint row_blocks (b sz : Z) (m : nat) : list (Z * Z) :=
  match m with
  | O => []
  | S m' => (b, sz) :: row_blocks (b + Z.max sz 1) sz m'
  end.

Definition ev_alloc (b : Z * Z) : heap_event := EvAlloc (fst b) (snd b).

(** The coming allocation call succeeds; every coming call succeeds. *)
Definition next_succeeds (h : allocator) : Prop :=
  match script h with false :: _ => False | _ => True end.

Definition never_fails (h : allocator) : Prop :=
  Forall (fun b => b = true) (script h).

(** ** Structures of the headers *)

Record nvm_mmgr_geometry : Type := {
  n_of_planes : Z;
  pg_size : Z;
  sec_size : Z;
  sec_per_pg : Z;
  sec_oob_sz : Z;
  sec_per_pl_pg : Z;
  pg_per_blk : Z;
  blk_per_lun : Z
}.

Record nvm_channel : Type := {
  ch_mmgr_id : Z;
  geometry : nvm_mmgr_geometry
}.

(** The generic view [g] of a physical address. *)
Record nvm_ppa_addr : Type := {
  g_ch : Z;
  g_lun : Z;
  g_blk : Z;
  g_pl : Z;
  g_pg : Z
}.

Definition set_g_pg (a : nvm_ppa_addr) (pg : Z) : nvm_ppa_addr :=
  {| g_ch := g_ch a; g_lun := g_lun a; g_blk := g_blk a; g_pl := g_pl a; g_pg := pg |}.

(** A command descriptor after [memset (cmd, 0, ...)] and the stores of the
    plane loop: only the address is set. *)
Record nvm_mmgr_io_cmd : Type := {
  cmd_ppa : nvm_ppa_addr
}.

Inductive mmgr_cmdtype : Type :=
| MMGR_READ_PG
| MMGR_WRITE_PG
| MMGR_ERASE_BLK
| MMGR_OTHER (code : Z).

Definition is_erase (t : mmgr_cmdtype) : bool :=
  match t with MMGR_ERASE_BLK => true | _ => false end.

Inductive app_direction : Type :=
| APP_TRANS_FROM_NVM
| APP_TRANS_TO_NVM
| APP_TRANS_OTHER (code : Z).

Inductive app_io_type : Type :=
| APP_IO_NORMAL
| APP_IO_RESERVED
| APP_IO_OTHER (code : Z).

(** [lch->ch] may be null ([None]); [bbtbl_tbl] is [lch->bbtbl->tbl]. *)
Record app_channel : Type := {
  ch : option nvm_channel;
  bbtbl_tbl : Z
}.

(** One slot of [sec_vec]: the row pointer and the row it points to. *)
Record sec_row : Type := {
  row_p : Z;
  row : list Z
}.

Record app_io_data : Type := {
  io_self : Z;
  io_lch : app_channel;
  io_ch : option nvm_channel;
  n_pl : Z;
  pg_sz : Z;
  meta_sz : Z;
  buf_sz : Z;
  buf : Z;
  pl_vec_p : Z;
  pl_vec : list Z;
  oob_vec_p : Z;
  oob_vec : list Z;
  sec_vec_p : Z;
  sec_vec : list sec_row
}.

Definition set_pl_vec (d : app_io_data) (v : list Z) : app_io_data :=
  {| io_self := io_self d; io_lch := io_lch d; io_ch := io_ch d; n_pl := n_pl d;
     pg_sz := pg_sz d; meta_sz := meta_sz d; buf_sz := buf_sz d; buf := buf d;
     pl_vec_p := pl_vec_p d; pl_vec := v;
     oob_vec_p := oob_vec_p d; oob_vec := oob_vec d;
     sec_vec_p := sec_vec_p d; sec_vec := sec_vec d |}.

Definition set_oob_vec (d : app_io_data) (v : list Z) : app_io_data :=
  {| io_self := io_self d; io_lch := io_lch d; io_ch := io_ch d; n_pl := n_pl d;
     pg_sz := pg_sz d; meta_sz := meta_sz d; buf_sz := buf_sz d; buf := buf d;
     pl_vec_p := pl_vec_p d; pl_vec := pl_vec d;
     oob_vec_p := oob_vec_p d; oob_vec := v;
     sec_vec_p := sec_vec_p d; sec_vec := sec_vec d |}.

Definition set_sec_vec (d : app_io_data) (v : list sec_row) : app_io_data :=
  {| io_self := io_self d; io_lch := io_lch d; io_ch := io_ch d; n_pl := n_pl d;
     pg_sz := pg_sz d; meta_sz := meta_sz d; buf_sz := buf_sz d; buf := buf d;
     pl_vec_p := pl_vec_p d; pl_vec := pl_vec d;
     oob_vec_p := oob_vec_p d; oob_vec := oob_vec d;
     sec_vec_p := sec_vec_p d; sec_vec := v |}.

(** Array accesses with the capacity checked. *)
Definition arr_get {A} (l : list A) (i : Z) : option A :=
  if (0 <=? i) && (i <? Z.of_nat (length l)) then l !! Z.to_nat i else None.

Definition arr_set {A} (l : list A) (i : Z) (x : A) : option (list A) :=
  if (0 <=? i) && (i <? Z.of_nat (length l)) then Some (<[Z.to_nat i := x]> l) else None.

(** ** app_pg_io_prepare *)

(** The body of the sector loop for one [sec]. *)
Definition prepare_sector (g : nvm_mmgr_geometry) (pl sec : Z) (d : app_io_data)
  : option app_io_data :=
  p ← arr_get (pl_vec d) pl;
  oob' ← arr_set (oob_vec d) (sec_per_pg g * pl + sec) (p + pg_sz d + sec_oob_sz g * sec);
  let d1 := set_oob_vec d oob' in
  r ← arr_get (sec_vec d1) pl;
  row' ← arr_set (row r) sec (p + sec_size g * sec);
  sv' ← arr_set (sec_vec d1) pl {| row_p := row_p r; row := row' |};
  Some (set_sec_vec d1 sv').

Fixpoint prepare_sectors (g : nvm_mmgr_geometry) (pl : Z) (k : nat) (sec : Z)
  (d : app_io_data) : option app_io_data :=
  match k with
  | O => Some d
  | S k' => d1 ← prepare_sector g pl sec d; prepare_sectors g pl k' (u16 (sec + 1)) d1
  end.

(** The body of the plane loop for one [pl]. *)
Definition prepare_plane (g : nvm_mmgr_geometry) (pl : Z) (d : app_io_data)
  : option app_io_data :=
  plv' ← arr_set (pl_vec d) pl (buf d + u32 (u32 pl * (buf_sz d / u32 (n_pl d))));
  let d1 := set_pl_vec d plv' in
  d2 ← prepare_sectors g pl (Z.to_nat (sec_per_pg g)) 0 d1;
  o ← arr_get (oob_vec d2) (sec_per_pg g * pl);
  r ← arr_get (sec_vec d2) pl;
  row' ← arr_set (row r) (sec_per_pg g) o;
  sv' ← arr_set (sec_vec d2) pl {| row_p := row_p r; row := row' |};
  Some (set_sec_vec d2 sv').

Fixpoint prepare_planes (g : nvm_mmgr_geometry) (k : nat) (pl : Z)
  (d : app_io_data) : option app_io_data :=
  match k with
  | O => Some d
  | S k' => d1 ← prepare_plane g pl d; prepare_planes g k' (u16 (pl + 1)) d1
  end.

(** [None] is undefined behaviour (null [lch->ch], index outside an
    array).  The loops run [sec_per_pg] and [n_pl] times: both counters are
    [uint16_t] and the bounds fit them. *)
Definition app_pg_io_prepare (lch : app_channel) (d : app_io_data)
  : option app_io_data :=
  c ← ch lch;
  prepare_planes (geometry c) (Z.to_nat (n_pl d)) 0 d.

(** ** Parameters: headers, media manager *)

(** Constants and layouts declared in [ssd.h] and [appnvm.h].
    [magic_of] is the field [magic] of a [struct app_magic] whose
    [sizeof_app_magic] bytes are given. *)
Class Header : Type := {
  EMEM : Z;
  APP_MAGIC : Z;
  sizeof_app_magic : Z;
  magic_of : list Z -> Z;
  sizeof_app_io_data : Z;
  sizeof_ptr : Z;
  sizeof_io_cmd : Z
}.

(** The media manager's synchronous submission primitive:
    [nvm_submit_sync_io ch cmd buf cmdtype] acts on the media and on the
    memory behind [buf] and returns a status, [0] for success. *)
Class MediaManager : Type := {
  mmgr : Type;
  nvm_submit_sync_io :
    nvm_channel -> nvm_mmgr_io_cmd -> Z -> mmgr_cmdtype ->
    mmgr -> memory -> Z * mmgr * memory
}.

(** One call of [nvm_submit_sync_io] as it is logged. *)
Record io_record : Type := {
  io_cmd : nvm_mmgr_io_cmd;
  io_buf : Z;
  io_type : mmgr_cmdtype;
  io_status : Z
}.

Section Core.
Context {HD : Header} {MM : MediaManager}.

(** ** The state the functions act on *)

Record world : Type := {
  heap : allocator;
  mem : memory;
  (** address structures, by pointer *)
  ppas : gmap Z nvm_ppa_addr;
  media : mmgr;
  (** every command submitted to the media manager, oldest first *)
  issued : list io_record;
  (** every call of the registered flush operation, with its status *)
  flushed : list (app_channel * Z)
}.

Definition set_heap (w : world) (h : allocator) : world :=
  {| heap := h; mem := mem w; ppas := ppas w; media := media w;
     issued := issued w; flushed := flushed w |}.

Definition set_mem (w : world) (m : memory) : world :=
  {| heap := heap w; mem := m; ppas := ppas w; media := media w;
     issued := issued w; flushed := flushed w |}.

Definition set_ppas (w : world) (s : gmap Z nvm_ppa_addr) : world :=
  {| heap := heap w; mem := mem w; ppas := s; media := media w;
     issued := issued w; flushed := flushed w |}.

(** Outcome of a call: a value and the state after it, undefined
    behaviour, or a loop that has not finished within the fuel. *)
Inductive result (A : Type) : Type :=
| Ok (a : A) (w : world)
| Undef
| OutOfFuel.
Arguments Ok {A} a w.
Arguments Undef {A}.
Arguments OutOfFuel {A}.

Definition M (A : Type) : Type := world -> result A.

Definition ret {A} (a : A) : M A := fun w => Ok a w.

Definition bind {A B} (m : M A) (f : A -> M B) : M B :=
  fun w => match m w with
           | Ok a w' => f a w'
           | Undef => Undef
           | OutOfFuel => OutOfFuel
           end.

Notation "'do' x <- m ; k" := (bind m (fun x => k))
  (at level 10, x name, m at level 100, k at level 200).

(** The fields of a descriptor other than the contents of its arrays. *)
Definition scalars (d : app_io_data) :=
  (io_self d, io_lch d, io_ch d, n_pl d, pg_sz d, meta_sz d, buf_sz d, buf d,
   pl_vec_p d, oob_vec_p d, sec_vec_p d).

(** What the source relies on to stay inside its arrays and integer types:
    counts fit the [uint16_t] loop counters, the buffer size fits 32 bits,
    and [sec_per_pl_pg], the capacity of [oob_vec] and [sec_vec], covers
    the sectors of all planes. *)
Definition geometry_fits (g : nvm_mmgr_geometry) : Prop :=
  0 <= n_of_planes g < 2 ^ 16 /\ 0 <= sec_per_pg g < 2 ^ 16 /\
  0 <= pg_size g /\ 0 <= sec_oob_sz g /\
  (pg_size g + sec_oob_sz g * sec_per_pg g) * n_of_planes g < 2 ^ 32 /\
  n_of_planes g * sec_per_pg g <= sec_per_pl_pg g /\
  n_of_planes g <= sec_per_pl_pg g.

(** Plane [pl] of a descriptor is laid out with [stride] bytes per
    plane: its plane pointer, its sector pointers, its out-of-band
    pointers and the sentinel after its last sector pointer. *)
Definition plane_laid (g : nvm_mmgr_geometry) (d : app_io_data) (stride pl : Z) : Prop :=
  arr_get (pl_vec d) pl = Some (buf d + pl * stride) /\
  exists r, arr_get (sec_vec d) pl = Some r /\
    (forall s, 0 <= s < sec_per_pg g ->
       arr_get (row r) s = Some (buf d + pl * stride + s * sec_size g) /\
       arr_get (oob_vec d) (sec_per_pg g * pl + s) =
         Some (buf d + pl * stride + pg_sz d + s * sec_oob_sz g)) /\
    exists o, arr_get (row r) (sec_per_pg g) = Some o /\
              arr_get (oob_vec d) (sec_per_pg g * pl) = Some o.

(** The capacities [app_alloc_pg_io] gives the arrays of a descriptor. *)
Definition arrays_sized (g : nvm_mmgr_geometry) (d : app_io_data) : Prop :=
  n_pl d <= Z.of_nat (length (pl_vec d)) /\
  n_pl d * sec_per_pg g <= Z.of_nat (length (oob_vec d)) /\
  n_pl d <= Z.of_nat (length (oob_vec d)) /\
  forall pl, 0 <= pl < n_pl d ->
    exists r, arr_get (sec_vec d) pl = Some r /\
              sec_per_pg g < Z.of_nat (length (row r)).

(** ** app_alloc_pg_io *)

Definition calloc (n sz : Z) (h : allocator) (m : memory) : Z * allocator * memory :=
  let '(p, h') := malloc (n * sz) h in
  if p =? 0 then (p, h', m) else (p, h', memset m p 0 (n * sz)).

(** The row loop: [Some (true, ..)] when every row was allocated,
    [Some (false, pl, ..)] when the allocation for [pl] failed. *)
Fixpoint alloc_rows (g : nvm_mmgr_geometry) (k : nat) (pl : Z) (d : app_io_data)
  (h : allocator) : option (bool * Z * app_io_data * allocator) :=
  match k with
  | O => Some (true, pl, d, h)
  | S k' =>
      let '(p, h1) := malloc (sizeof_ptr * (sec_per_pg g + 1)) h in
      sv' ← arr_set (sec_vec d) pl
              {| row_p := p; row := replicate (Z.to_nat (sec_per_pg g + 1)) 0 |};
      let d1 := set_sec_vec d sv' in
      if p =? 0 then Some (false, pl, d1, h1)
      else alloc_rows g k' (u16 (pl + 1)) d1 h1
  end.

(** [while (pl) { pl--; free (data->sec_vec[pl]); }] *)
Fixpoint free_rows_down (k : nat) (pl : Z) (d : app_io_data) (h : allocator)
  : option allocator :=
  match k with
  | O => Some h
  | S k' =>
      let pl' := u16 (pl - 1) in
      r ← arr_get (sec_vec d) pl';
      free_rows_down k' pl' d (free (row_p r) h)
  end.

(** The unwinding labels, innermost last. *)
Definition unwind_FREE (d : app_io_data) (h : allocator) : allocator :=
  free (io_self d) h.
Definition unwind_FREE_BUF (d : app_io_data) (h : allocator) : allocator :=
  unwind_FREE d (free (buf d) h).
Definition unwind_FREE_VEC (d : app_io_data) (h : allocator) : allocator :=
  unwind_FREE_BUF d (free (pl_vec_p d) h).
Definition unwind_FREE_OOB (d : app_io_data) (h : allocator) : allocator :=
  unwind_FREE_VEC d (free (oob_vec_p d) h).
Definition unwind_FREE_SEC (pl : Z) (d : app_io_data) (h : allocator)
  : option allocator :=
  h' ← free_rows_down (Z.to_nat pl) pl d h;
  Some (unwind_FREE_OOB d (free (sec_vec_p d) h')).

Definition app_alloc_pg_io (lch : app_channel) : M (option app_io_data) := fun w =>
  let '(data, h1) := malloc sizeof_app_io_data (heap w) in
  if data =? 0 then Ok None (set_heap w h1) else
  match ch lch with
  | None => Undef
  | Some c =>
    let g := geometry c in
    let npl := n_of_planes g in
    let pgsz := pg_size g in
    let metasz := sec_oob_sz g * sec_per_pg g in
    let bufsz := (pgsz + metasz) * npl in
    let d0 := {| io_self := data; io_lch := lch; io_ch := ch lch; n_pl := npl;
                 pg_sz := pgsz; meta_sz := metasz; buf_sz := bufsz; buf := 0;
                 pl_vec_p := 0; pl_vec := []; oob_vec_p := 0; oob_vec := [];
                 sec_vec_p := 0; sec_vec := [] |} in
    let '(b, h2, m2) := calloc bufsz 1 h1 (mem w) in
    let d1 := {| io_self := data; io_lch := lch; io_ch := ch lch; n_pl := npl;
                 pg_sz := pgsz; meta_sz := metasz; buf_sz := bufsz; buf := b;
                 pl_vec_p := 0; pl_vec := []; oob_vec_p := 0; oob_vec := [];
                 sec_vec_p := 0; sec_vec := [] |} in
    if b =? 0 then Ok None (set_mem (set_heap w (unwind_FREE d1 h2)) m2) else
    let '(pv, h3) := malloc (sizeof_ptr * npl) h2 in
    let d2 := {| io_self := data; io_lch := lch; io_ch := ch lch; n_pl := npl;
                 pg_sz := pgsz; meta_sz := metasz; buf_sz := bufsz; buf := b;
                 pl_vec_p := pv; pl_vec := replicate (Z.to_nat npl) 0;
                 oob_vec_p := 0; oob_vec := []; sec_vec_p := 0; sec_vec := [] |} in
    if pv =? 0 then Ok None (set_mem (set_heap w (unwind_FREE_BUF d2 h3)) m2) else
    let '(ov, h4) := malloc (sizeof_ptr * sec_per_pl_pg g) h3 in
    let d3 := {| io_self := data; io_lch := lch; io_ch := ch lch; n_pl := npl;
                 pg_sz := pgsz; meta_sz := metasz; buf_sz := bufsz; buf := b;
                 pl_vec_p := pv; pl_vec := replicate (Z.to_nat npl) 0;
                 oob_vec_p := ov; oob_vec := replicate (Z.to_nat (sec_per_pl_pg g)) 0;
                 sec_vec_p := 0; sec_vec := [] |} in
    if ov =? 0 then Ok None (set_mem (set_heap w (unwind_FREE_VEC d3 h4)) m2) else
    let '(sv, h5) := malloc (sizeof_ptr * sec_per_pl_pg g) h4 in
    let d4 := {| io_self := data; io_lch := lch; io_ch := ch lch; n_pl := npl;
                 pg_sz := pgsz; meta_sz := metasz; buf_sz := bufsz; buf := b;
                 pl_vec_p := pv; pl_vec := replicate (Z.to_nat npl) 0;
                 oob_vec_p := ov; oob_vec := replicate (Z.to_nat (sec_per_pl_pg g)) 0;
                 sec_vec_p := sv;
                 sec_vec := replicate (Z.to_nat (sec_per_pl_pg g))
                              {| row_p := 0; row := [] |} |} in
    if sv =? 0 then Ok None (set_mem (set_heap w (unwind_FREE_OOB d4 h5)) m2) else
    match alloc_rows g (Z.to_nat npl) 0 d4 h5 with
    | None => Undef
    | Some (false, pl, d5, h6) =>
        match unwind_FREE_SEC pl d5 h6 with
        | None => Undef
        | Some h7 => Ok None (set_mem (set_heap w h7) m2)
        end
    | Some (true, _, d5, h6) =>
        match app_pg_io_prepare lch d5 with
        | None => Undef
        | Some d6 => Ok (Some d6) (set_mem (set_heap w h6) m2)
        end
    end
  end.

(** ** app_free_pg_io *)

Fixpoint free_rows_up (k : nat) (pl : Z) (d : app_io_data) (h : allocator)
  : option allocator :=
  match k with
  | O => Some h
  | S k' =>
      r ← arr_get (sec_vec d) pl;
      free_rows_up k' (u32 (pl + 1)) d (free (row_p r) h)
  end.

Definition app_free_pg_io (d : app_io_data) : M unit := fun w =>
  match free_rows_up (Z.to_nat (n_pl d)) 0 d (heap w) with
  | None => Undef
  | Some h =>
      Ok tt (set_heap w
        (free (io_self d) (free (buf d) (free (pl_vec_p d)
          (free (oob_vec_p d) (free (sec_vec_p d) h))))))
  end.

(** ** app_pg_io and app_io_rsv_blk *)

Definition log_io (w : world) (r : io_record) (mm : mmgr) (m : memory) : world :=
  {| heap := heap w; mem := m; ppas := ppas w; media := mm;
     issued := issued w ++ [r]; flushed := flushed w |}.

(** The plane loop shared by the two functions.  [addr] is the lun, block
    and page the body stores into the command; [None] stands for an address
    structure that cannot be read.  [buf] and [ret] are the locals of the
    same names. *)
Fixpoint plane_loop (c : nvm_channel) (cmdtype : mmgr_cmdtype) (plv : list Z)
  (addr : option (Z * Z * Z)) (k : nat) (pl buf ret : Z) : M Z := fun w =>
  match k with
  | O => Ok ret w
  | S k' =>
      match addr with
      | None => Undef
      | Some (lun, blk, pg) =>
          let cmd := {| cmd_ppa := {| g_ch := ch_mmgr_id c; g_lun := lun;
                                      g_blk := blk; g_pl := pl; g_pg := pg |} |} in
          match (if is_erase cmdtype then Some buf else arr_get plv pl) with
          | None => Undef
          | Some b =>
              let '(r, mm', m') :=
                nvm_submit_sync_io c cmd b cmdtype (media w) (mem w) in
              let w' := log_io w {| io_cmd := cmd; io_buf := b;
                                    io_type := cmdtype; io_status := r |} mm' m' in
              if r =? 0 then plane_loop c cmdtype plv addr k' (pl + 1) b r w'
              else Ok r w'
          end
      end
  end.

(** The command the plane loop builds for plane [pl]. *)
Definition plane_cmd (c : nvm_channel) (lun blk pg pl : Z) : nvm_mmgr_io_cmd :=
  {| cmd_ppa := {| g_ch := ch_mmgr_id c; g_lun := lun; g_blk := blk;
                   g_pl := pl; g_pg := pg |} |}.

(** The log of one run of the plane loop of [n] planes for [cmdtype] at
    lun, block and page: the commands of planes 0, 1, ... in this order,
    each with the plane's buffer; every command but the last succeeded;
    the run covers all [n] planes unless its last command failed. *)
Definition plane_run (c : nvm_channel) (cmdtype : mmgr_cmdtype) (plv : list Z)
  (lun blk pg : Z) (n : Z) (recs : list io_record) : Prop :=
  (forall (i : nat) rec, recs !! i = Some rec ->
     io_cmd rec = plane_cmd c lun blk pg (Z.of_nat i) /\
     io_type rec = cmdtype /\
     (is_erase cmdtype = false -> arr_get plv (Z.of_nat i) = Some (io_buf rec))) /\
  (forall (i : nat) rec, recs !! i = Some rec -> (S i < length recs)%nat ->
     io_status rec = 0) /\
  (Z.of_nat (length recs) = n \/
   exists rec, last recs = Some rec /\ io_status rec <> 0) /\
  Z.of_nat (length recs) <= n.

(** The commands of a log handed to [nvm_submit_sync_io] one after the
    other, first from the media [mm] and the memory [m]: the status of
    every entry is the value the media manager returned for it, and [mm']
    and [m'] are the media and the memory it left after the last one. *)
Fixpoint answered (c : nvm_channel) (recs : list io_record)
  (mm : mmgr) (m : memory) (mm' : mmgr) (m' : memory) : Prop :=
  match recs with
  | [] => mm' = mm /\ m' = m
  | rec :: rest =>
      let '(r, mm1, m1) :=
        nvm_submit_sync_io c (io_cmd rec) (io_buf rec) (io_type rec) mm m in
      io_status rec = r /\ answered c rest mm1 m1 mm' m'
  end.

Definition app_pg_io (lch : app_channel) (cmdtype : mmgr_cmdtype)
  (plv : list Z) (ppa : Z) : M Z := fun w =>
  let '(cmd, h1) := malloc sizeof_io_cmd (heap w) in
  if cmd =? 0 then Ok EMEM (set_heap w h1) else
  match ch lch with
  | None => Undef
  | Some c =>
      let addr := a ← ppas w !! ppa; Some (g_lun a, g_blk a, g_pg a) in
      match plane_loop c cmdtype plv addr
              (Z.to_nat (n_of_planes (geometry c))) 0 0 (-1) (set_heap w h1) with
      | Ok r w' => Ok r (set_heap w' (free cmd (heap w')))
      | Undef => Undef
      | OutOfFuel => OutOfFuel
      end
  end.

(** [blk] and [pg] are [uint16_t] parameters: callers convert. *)
Definition app_io_rsv_blk (lch : app_channel) (cmdtype : mmgr_cmdtype)
  (plv : list Z) (blk pg : Z) : M Z := fun w =>
  let '(cmd, h1) := malloc sizeof_io_cmd (heap w) in
  if cmd =? 0 then Ok EMEM (set_heap w h1) else
  match ch lch with
  | None => Undef
  | Some c =>
      match plane_loop c cmdtype plv (Some (0, blk, pg))
              (Z.to_nat (n_of_planes (geometry c))) 0 0 (-1) (set_heap w h1) with
      | Ok r w' => Ok r (set_heap w' (free cmd (heap w')))
      | Undef => Undef
      | OutOfFuel => OutOfFuel
      end
  end.

Definition app_pg_io_switch (lch : app_channel) (cmdtype : mmgr_cmdtype)
  (plv : list Z) (ppa : Z) (type : app_io_type) : M Z :=
  match type with
  | APP_IO_NORMAL => app_pg_io lch cmdtype plv ppa
  | APP_IO_RESERVED => fun w =>
      match ppas w !! ppa with
      | None => Undef
      | Some a => app_io_rsv_blk lch cmdtype plv (u16 (g_blk a)) (u16 (g_pg a)) w
      end
  | APP_IO_OTHER _ => ret (-1)
  end.

(** ** app_nvm_seq_transfer *)

Definition is_to_nvm (d : app_direction) : bool :=
  match d with APP_TRANS_TO_NVM => true | _ => false end.
Definition is_from_nvm (d : app_direction) : bool :=
  match d with APP_TRANS_FROM_NVM => true | _ => false end.

(** The plane loop of one page [i]: returns [ent_left] and the memory. *)
Fixpoint transfer_planes (io : app_io_data) (user_buf i pg_ent_sz ent_per_pg
  entry_sz : Z) (direction : app_direction) (k : nat) (pl ent_left : Z)
  (m : memory) : option (Z * memory) :=
  match k with
  | O => Some (ent_left, m)
  | S k' =>
      let trf_sz := if ent_left >=? ent_per_pg / n_pl io
                    then usz (ent_per_pg / n_pl io * entry_sz)
                    else usz (ent_left * entry_sz) in
      p ← arr_get (pl_vec io) pl;
      let ub := user_buf + usz (pg_ent_sz * i) + usz (pl * (pg_ent_sz / n_pl io)) in
      let from := if is_to_nvm direction then ub else p in
      let to := if is_to_nvm direction then p else ub in
      let m' := memcpy m to from trf_sz in
      let ent_left' := if ent_left >=? ent_per_pg / n_pl io
                       then u32 (ent_left - ent_per_pg / n_pl io) else 0 in
      if ent_left' =? 0 then Some (ent_left', m')
      else transfer_planes io user_buf i pg_ent_sz ent_per_pg entry_sz direction
             k' (u32 (pl + 1)) ent_left' m'
  end.

(** The page loop; [l] is the address of the local [ppa_io].  The value is
    what the function returns. *)
Fixpoint transfer_pages (io : app_io_data) (l user_buf pg_ent_sz ent_per_pg
  entry_sz : Z) (direction : app_direction) (reserved : app_io_type)
  (start_pg : Z) (k : nat) (i ent_left : Z) : M Z := fun w =>
  match k with
  | O => Ok 0 w
  | S k' =>
      match ppas w !! l with
      | None => Undef
      | Some a =>
          let w1 := set_ppas w (<[l := set_g_pg a (u32 (start_pg + i))]> (ppas w)) in
          match (if is_from_nvm direction
                 then app_pg_io_switch (io_lch io) MMGR_READ_PG (pl_vec io) l reserved w1
                 else Ok 0 w1) with
          | Ok r w2 =>
              if negb (r =? 0) then Ok (-1) w2 else
              match transfer_planes io user_buf i pg_ent_sz ent_per_pg entry_sz
                      direction (Z.to_nat (n_pl io)) 0 ent_left (mem w2) with
              | None => Undef
              | Some (el, m3) =>
                  let w3 := set_mem w2 m3 in
                  match (if is_to_nvm direction
                         then app_pg_io_switch (io_lch io) MMGR_WRITE_PG (pl_vec io)
                                l reserved w3
                         else Ok 0 w3) with
                  | Ok r' w4 =>
                      if negb (r' =? 0) then Ok (-1) w4 else
                      transfer_pages io l user_buf pg_ent_sz ent_per_pg entry_sz
                        direction reserved start_pg k' (u32 (i + 1)) el w4
                  | Undef => Undef
                  | OutOfFuel => OutOfFuel
                  end
              end
          | Undef => Undef
          | OutOfFuel => OutOfFuel
          end
      end
  end.

(** [ppa] points to the caller's address structure; the local [ppa_io]
    takes a fresh place in the store for the time of the call. *)
Definition app_nvm_seq_transfer (io : app_io_data) (ppa user_buf pgs ent_per_pg
  ent_left entry_sz : Z) (direction : app_direction) (reserved : app_io_type)
  : M Z := fun w =>
  let pg_ent_sz := usz (ent_per_pg * entry_sz) in
  match ppas w !! ppa with
  | None => Undef
  | Some a =>
      let l := fresh (dom (ppas w)) in
      let w0 := set_ppas w (<[l := a]> (ppas w)) in
      let start_pg := u32 (g_pg a) in
      match transfer_pages io l user_buf pg_ent_sz ent_per_pg entry_sz direction
              reserved start_pg (Z.to_nat pgs) 0 ent_left w0 with
      | Ok r w' => Ok r (set_ppas w' (delete l (ppas w')))
      | Undef => Undef
      | OutOfFuel => OutOfFuel
      end
  end.

(** ** app_blk_current_page *)

(** The [do ... while] loop; the value is the pair of the locals [pg] and
    [ret] at its exit. *)
Fixpoint scan_loop (fuel : nat) (lch : app_channel) (io : app_io_data)
  (blk_id offset pg : Z) : M (Z * Z) := fun w =>
  match fuel with
  | O => OutOfFuel
  | S fuel' =>
      let w1 := set_mem w (memset (mem w) (buf io) 0 (buf_sz io)) in
      match app_io_rsv_blk lch MMGR_READ_PG (pl_vec io) blk_id (u16 pg) w1 with
      | Ok r w2 =>
          let oob := read_bytes (mem w2) (buf io + pg_sz io) sizeof_app_magic in
          if negb (r =? 0) || negb (magic_of oob =? APP_MAGIC) then Ok (pg, r) w2
          else
            match io_ch io with
            | None => Undef
            | Some c =>
                if pg + offset <? pg_per_blk (geometry c) - offset
                then scan_loop fuel' lch io blk_id offset (pg + offset) w2
                else Ok (pg + offset, r) w2
            end
      | Undef => Undef
      | OutOfFuel => OutOfFuel
      end
  end.

(** [io = None] is the null pointer.  [fuel] bounds the iterations of the
    loop. *)
Definition app_blk_current_page (fuel : nat) (lch : app_channel)
  (io : option app_io_data) (blk_id offset : Z) : M Z := fun w =>
  match (match io with
         | Some d => Ok (Some (d, false)) w
         | None =>
             match app_alloc_pg_io lch w with
             | Ok (Some d) w' => Ok (Some (d, true)) w'
             | Ok None w' => Ok None w'
             | Undef => Undef
             | OutOfFuel => OutOfFuel
             end
         end) with
  | Ok None w0 => Ok (-1) w0
  | Ok (Some (d, fr)) w0 =>
      match scan_loop fuel lch d blk_id offset 0 w0 with
      | Ok (pg, r) w1 =>
          if fr then
            match app_free_pg_io d w1 with
            | Ok _ w2 => Ok (if r =? 0 then pg else -1) w2
            | Undef => Undef
            | OutOfFuel => OutOfFuel
            end
          else Ok (if r =? 0 then pg else -1) w1
      | Undef => Undef
      | OutOfFuel => OutOfFuel
      end
  | Undef => Undef
  | OutOfFuel => OutOfFuel
  end.

(** ** Bad-block table *)

(** The registered collaborators this file calls through [appnvm()]:
    the channel lookup and the flush of the bad-block table, which reads
    the memory, acts on the media and returns a status. *)
Class AppGlobal : Type := {
  channels_get_fn : Z -> option app_channel;
  bbt_flush_fn : app_channel -> memory -> mmgr -> Z * mmgr
}.
Context {AG : AppGlobal}.

(** Modelled from the spec: [nvm_memcheck] (declared outside this file)
    reports an invalid pointer; the invalid pointer is the null one.
    One definition for byte pointers, one for structure pointers. *)
Definition nvm_memcheck_buf (p : Z) : bool := p =? 0.
Definition nvm_memcheck {A} (p : option A) : bool :=
  match p with None => true | Some _ => false end.

(** The address of the table byte of the location [a] in the table of
    [lch]: flat index [lun * blk_per_lun * n_of_planes + blk * n_of_planes
    + pl]. *)
Definition bbtbl_cell (lch : app_channel) (c : nvm_channel) (a : nvm_ppa_addr) : Z :=
  bbtbl_tbl lch
  + (g_lun a * blk_per_lun (geometry c) * n_of_planes (geometry c)
     + (g_blk a * n_of_planes (geometry c) + g_pl a)).

Definition app_ftl_get_bbtbl (ppa bbtbl nb : Z) : M Z := fun w =>
  match ppas w !! ppa with
  | None => Undef
  | Some a =>
      match channels_get_fn (g_ch a) with
      | None => Undef
      | Some lch =>
          let chp := ch lch in
          (* l_addr reads ch->geometry before ch is checked *)
          match chp with
          | None => Undef
          | Some c =>
              let g := geometry c in
              let l_addr := g_lun a * blk_per_lun g * n_of_planes g in
              if nvm_memcheck_buf bbtbl || nvm_memcheck chp
                 || negb (nb =? u32 (blk_per_lun g * Z.land (n_of_planes g) 65535))
              then Ok (-1) w
              else Ok 0 (set_mem w (memcpy (mem w) bbtbl (bbtbl_tbl lch + l_addr) nb))
          end
      end
  end.

Definition app_ftl_set_bbtbl (ppa value : Z) : M Z := fun w =>
  match ppas w !! ppa with
  | None => Undef
  | Some a =>
      match channels_get_fn (g_ch a) with
      | None => Undef
      | Some lch =>
          match ch lch with
          | None => Undef
          | Some c =>
              let g := geometry c in
              let npl := n_of_planes g in
              if g_blk a * npl + g_pl a >? blk_per_lun g * npl - 1 then Ok (-1) w
              else
                let l_addr := g_lun a * blk_per_lun g * npl in
                let cell := bbtbl_tbl lch + (l_addr + (g_blk a * npl + g_pl a)) in
                let flush := if mem w cell =? value then 0 else 1 in
                let m1 := fun x => if x =? cell then value else mem w x in
                if negb (flush =? 0) then
                  let '(r, mm') := bbt_flush_fn lch m1 (media w) in
                  Ok 0 {| heap := heap w; mem := m1; ppas := ppas w; media := mm';
                          issued := issued w; flushed := flushed w ++ [(lch, r)] |}
                else Ok 0 (set_mem w m1)
          end
      end
  end.

End Core.

Arguments Ok {MM A} a w.
Arguments Undef {MM A}.
Arguments OutOfFuel {MM A}.

(** ** A media manager: flash that keeps what is written *)

#[global] Instance nvm_ppa_addr_eq_dec : EqDecision nvm_ppa_addr.
Proof. solve_decision. Defined.

(** Modelled from the spec: the state of the media behind the
    media-manager I/O primitive, which is outside this file: the bytes
    each page-plane unit keeps and the units that are bad. *)
Record flash : Type := {
  fl_data : nvm_ppa_addr -> Z -> Z;
  fl_bad : nvm_ppa_addr -> bool
}.

(** The bytes of one plane's unit of a page: its data and the out-of-band
    bytes of its sectors, as [app_alloc_pg_io] sizes it. *)
Definition plane_bytes (g : nvm_mmgr_geometry) : Z :=
  pg_size g + sec_oob_sz g * sec_per_pg g.

(** Modelled from the spec: an erase acts on the block of one plane. *)
Definition same_block (a b : nvm_ppa_addr) : bool :=
  (g_ch a =? g_ch b) && (g_lun a =? g_lun b) && (g_blk a =? g_blk b)
  && (g_pl a =? g_pl b).

(** Modelled from the spec: the media-manager I/O primitive is outside
    this file; the spec describes it as the synchronous submission of one
    physical command (read page, write page, erase block) with a data
    buffer, returning success or failure.  Here a page-plane unit keeps
    the [pg_size] bytes of data followed by the out-of-band bytes of its
    sectors, a write stores them from the buffer, a read loads them into
    it, and a command on a unit marked bad fails and transfers nothing. *)
Definition flash_submit (c : nvm_channel) (cmd : nvm_mmgr_io_cmd) (b : Z)
  (t : mmgr_cmdtype) (fl : flash) (m : memory) : Z * flash * memory :=
  if fl_bad fl (cmd_ppa cmd) then (-1, fl, m) else
  match t with
  | MMGR_READ_PG =>
      (0, fl, fun x => if in_range b (plane_bytes (geometry c)) x
                       then fl_data fl (cmd_ppa cmd) (x - b) else m x)
  | MMGR_WRITE_PG =>
      (0, {| fl_data := fun k off =>
                          if decide (k = cmd_ppa cmd)
                          then (if in_range 0 (plane_bytes (geometry c)) off
                                then m (b + off) else fl_data fl k off)
                          else fl_data fl k off;
             fl_bad := fl_bad fl |}, m)
  | MMGR_ERASE_BLK =>
      (0, {| fl_data := fun k off =>
                          if same_block k (cmd_ppa cmd) then 255
                          else fl_data fl k off;
             fl_bad := fl_bad fl |}, m)
  | MMGR_OTHER _ => (0, fl, m)
  end.

(** Modelled from the spec: the media manager over [flash]. *)
#[global] Instance flash_mmgr : MediaManager :=
  {| mmgr := flash; nvm_submit_sync_io := flash_submit |}.

(** ** Where a table lies on the flash *)

(** The lun and block that the plane commands of a page I/O carry in
    each addressing mode. *)
Definition target_lun (reserved : app_io_type) (a : nvm_ppa_addr) : Z :=
  match reserved with APP_IO_RESERVED => 0 | _ => g_lun a end.

Definition target_blk (reserved : app_io_type) (a : nvm_ppa_addr) : Z :=
  match reserved with APP_IO_RESERVED => u16 (g_blk a) | _ => g_blk a end.

(** The page-plane unit of page [i], plane [pl] of a transfer that starts
    at the address [a]. *)
Definition table_unit (c : nvm_channel) (reserved : app_io_type)
  (a : nvm_ppa_addr) (i pl : Z) : nvm_ppa_addr :=
  {| g_ch := ch_mmgr_id c; g_lun := target_lun reserved a;
     g_blk := target_blk reserved a; g_pl := pl; g_pg := g_pg a + i |}.

(** The first [pages] pages of the flash hold the table of [total] bytes
    whose byte [y] is [src y], [n] planes per page and [T] bytes of the
    table per plane. *)
Definition table_stored (fl : flash) (c : nvm_channel) (reserved : app_io_type)
  (a : nvm_ppa_addr) (n T total pages : Z) (src : Z -> Z) : Prop :=
  forall i pl off,
    0 <= i < pages -> 0 <= pl < n -> 0 <= off < T ->
    (i * n + pl) * T + off < total ->
    fl_data fl (table_unit c reserved a i pl) off = src ((i * n + pl) * T + off).

(** The pages a transfer can address in each mode: [app_io_rsv_blk]
    takes the page as [uint16_t], the local [start_pg] is [uint32_t]. *)
Definition page_limit (reserved : app_io_type) : Z :=
  match reserved with APP_IO_RESERVED => 2 ^ 16 | _ => 2 ^ 32 end.

(** The entries still to transfer when page [i] starts, for a table of
    [N] entries and [per] entries a page. *)
Definition entries_left (N per i : Z) : Z := Z.max 0 (N - i * per).

(** ** What the recency scan reads *)

Section Stamp.
Context {HD : Header}.

(** The unit of plane [pl] of page [pg] in the reserved block [blk]. *)
Definition rsv_unit (c : nvm_channel) (blk pg pl : Z) : nvm_ppa_addr :=
  cmd_ppa (plane_cmd c 0 blk pg pl).

(** Every plane of the page can be read. *)
Definition page_readable (fl : flash) (c : nvm_channel) (blk pg : Z) : Prop :=
  forall pl, 0 <= pl < n_of_planes (geometry c) ->
    fl_bad fl (rsv_unit c blk pg pl) = false.

(** The field [magic] of the stamp in the out-of-band bytes of plane 0. *)
Definition page_stamp (fl : flash) (c : nvm_channel) (blk pg : Z) : Z :=
  magic_of (map (fun i => fl_data fl (rsv_unit c blk pg 0)
                            (pg_size (geometry c) + Z.of_nat i))
                (seq 0 (Z.to_nat sizeof_app_magic))).

Definition page_stamped (fl : flash) (c : nvm_channel) (blk pg : Z) : Prop :=
  page_stamp fl c blk pg = APP_MAGIC.

(** The buffer the scan works with: one of the caller, laid out for the
    channel, or none, in which case the scan allocates one. *)
Definition scan_buffer_ok (c : nvm_channel) (io : option app_io_data)
  (h : allocator) : Prop :=
  match io with
  | Some d =>
      io_ch d = Some c /\ pg_sz d = pg_size (geometry c) /\
      forall pl, 0 <= pl < n_of_planes (geometry c) ->
        arr_get (pl_vec d) pl = Some (buf d + pl * plane_bytes (geometry c))
  | None => geometry_fits (geometry c) /\ heap_ok h
  end.

End Stamp.

(** ** A small configuration

    Two planes of four data bytes and one out-of-band byte, eight pages a
    block; the stamp is one byte, [0x3c].  Used to run the functions. *)

Definition ex_header : Header :=
  {| EMEM := 12; APP_MAGIC := 60; sizeof_app_magic := 1;
     magic_of := fun l => hd 0 l;
     sizeof_app_io_data := 96; sizeof_ptr := 8; sizeof_io_cmd := 64 |}.

Definition ex_geometry : nvm_mmgr_geometry :=
  {| n_of_planes := 2; pg_size := 4; sec_size := 4; sec_per_pg := 1;
     sec_oob_sz := 1; sec_per_pl_pg := 2; pg_per_blk := 8; blk_per_lun := 4 |}.

Definition ex_channel : nvm_channel := {| ch_mmgr_id := 0; geometry := ex_geometry |}.

Definition ex_lch : app_channel := {| ch := Some ex_channel; bbtbl_tbl := 1000 |}.

(** A channel structure whose [ch] is null. *)
Definition ex_lch_null : app_channel := {| ch := None; bbtbl_tbl := 1000 |}.

Definition ex_addr : nvm_ppa_addr :=
  {| g_ch := 0; g_lun := 1; g_blk := 3; g_pl := 1; g_pg := 0 |}.

(** A descriptor laid out for [ex_channel] on a buffer at address 100. *)
Definition ex_io : app_io_data :=
  {| io_self := 90; io_lch := ex_lch; io_ch := Some ex_channel; n_pl := 2;
     pg_sz := 4; meta_sz := 1; buf_sz := 10; buf := 100;
     pl_vec_p := 110; pl_vec := [100; 105];
     oob_vec_p := 120; oob_vec := [104; 109];
     sec_vec_p := 130;
     sec_vec := [ {| row_p := 140; row := [100; 104] |};
                  {| row_p := 150; row := [105; 109] |} ] |}.

(** Flash whose pages below [stamped] carry the stamp in plane 0. *)
Definition ex_flash (stamped : Z) (bad_from : Z) : flash :=
  {| fl_data := fun k off =>
       if (g_pg k <? stamped) && (g_pl k =? 0) && (off =? 4) then 60 else 255;
     fl_bad := fun k => bad_from <=? g_pg k |}.

(** A three-entry table of one-byte entries at address 200. *)
Definition ex_mem : memory :=
  fun x => if x =? 200 then 11 else if x =? 201 then 22 else if x =? 202 then 33 else 0.

Definition ex_world (fl : flash) (s : list bool) : @world flash_mmgr :=
  {| heap := {| brk := 2000; live := []; script := s; events := [] |};
     mem := ex_mem; ppas := {[ 1 := ex_addr ]}; media := fl;
     issued := []; flushed := [] |}.

(** A later state: the flash as [w1] left it, the memory cleared. *)
Definition ex_world_later (w1 : @world flash_mmgr) : @world flash_mmgr :=
  {| heap := {| brk := 2000; live := []; script := []; events := [] |};
     mem := fun _ => 0; ppas := {[ 1 := ex_addr ]}; media := media w1;
     issued := []; flushed := [] |}.

(** Collaborators: every channel id gives [lch]; the flush fails. *)
Definition ex_global (lch : app_channel) : @AppGlobal flash_mmgr :=
  {| channels_get_fn := fun _ => Some lch;
     bbt_flush_fn := fun _ _ fl => (-1, fl) |}.

(** The value and the state of an outcome. *)
Definition value_of {MM : MediaManager} {A} (r : result A) : option A :=
  match r with Ok x _ => Some x | _ => None end.

Definition state_of {MM : MediaManager} {A} (r : result A) : option world :=
  match r with Ok _ w => Some w | _ => None end.

(** ** More of the small configuration *)

(** The same block and plane as [ex_addr] on lun 0; a block beyond the
    last of the lun. *)
Definition ex_addr_lun0 : nvm_ppa_addr :=
  {| g_ch := 0; g_lun := 0; g_blk := 3; g_pl := 1; g_pg := 0 |}.

Definition ex_addr_out : nvm_ppa_addr :=
  {| g_ch := 0; g_lun := 1; g_blk := 4; g_pl := 0; g_pg := 0 |}.

(** [ex_world] with the three address structures at 1, 2 and 3. *)
Definition ex_world3 (fl : flash) (s : list bool) : @world flash_mmgr :=
  {| heap := {| brk := 2000; live := []; script := s; events := [] |};
     mem := ex_mem;
     ppas := {[ 1 := ex_addr; 2 := ex_addr_lun0; 3 := ex_addr_out ]};
     media := fl; issued := []; flushed := [] |}.

(** ** Releases in a row *)

(** [free] of the pointers of [ps], first to last. *)
Definition free_all (ps : list Z) (h : allocator) : allocator :=
  foldl (fun h p => free p h) h ps.

(** The row pointers of the first [k] slots of [sec_vec]. *)
Definition row_pointers (d : app_io_data) (k : nat) : list Z :=
  map row_p (take k (sec_vec d)).

(** ** The commands of a table transfer *)

(** The page a page I/O carries in each addressing mode:
    [app_io_rsv_blk] takes it as [uint16_t]. *)
Definition target_pg (reserved : app_io_type) (pg : Z) : Z :=
  match reserved with APP_IO_RESERVED => u16 pg | _ => pg end.

(** The command type a transfer submits in each direction. *)
Definition transfer_cmdtype (direction : app_direction) : mmgr_cmdtype :=
  match direction with APP_TRANS_FROM_NVM => MMGR_READ_PG | _ => MMGR_WRITE_PG end.

(** [rec] is a command of type [t] for a plane of page [pg] of the block
    and lun that the mode [reserved] takes from [a]. *)
Definition page_command (c : nvm_channel) (reserved : app_io_type) (a : nvm_ppa_addr)
  (t : mmgr_cmdtype) (pg : Z) (rec : io_record) : Prop :=
  io_type rec = t /\
  exists pl, 0 <= pl < n_of_planes (geometry c) /\
    io_cmd rec = plane_cmd c (target_lun reserved a) (target_blk reserved a)
                   (target_pg reserved pg) pl.

(** ** The commands of the recency scan *)

(** [rec] reads a plane of a page of block [blk] on lun 0 that the scan
    reaches from page [pg] in steps of [offset]: [pg] itself, or a later
    page that passed the test of the loop. *)
Definition scan_command (c : nvm_channel) (blk offset pg : Z) (rec : io_record) : Prop :=
  io_type rec = MMGR_READ_PG /\
  exists j pl, 0 <= j /\
    (j = 0 \/ pg + j * offset < pg_per_blk (geometry c) - offset) /\
    0 <= pl < n_of_planes (geometry c) /\
    io_cmd rec = plane_cmd c 0 blk (pg + j * offset) pl.

(** ** Channel lifecycle, global functions and registration

    The second half of [app_core.c] drives the registered subsystems, the
    thread library and the controller.  Those functions are not part of
    this file of the source: a call to one of them is a constructor of
    [ext_call], what it returns and what it does outside is given by the
    parameter [respond], and the calls made are logged in order. *)

Module Lifecycle.

Inductive gl_mutex : Type := gc_ns_mutex | gc_map_mutex.

(** The spin locks of [lch->flags]. *)
Inductive ch_spin : Type := busy_spin | active_spin | need_gc_spin.

(** [struct nvm_ftl], with the fields that [app_ftl] initialises or
    [ftl_appnvm_init] sets; [name] as character codes. *)
Record nvm_ftl : Type := {
  ftl_id : Z;
  name : list Z;
  nq : Z;
  cap : Z;
  bbtbl_format : Z
}.

Inductive ext_call : Type :=
(* the function tables of appnvm() *)
| gl_prov_init_fn | gl_prov_exit_fn
| gl_map_init_fn | gl_map_exit_fn
| lba_io_init_fn | lba_io_exit_fn
| lba_io_submit_fn (cmd : Z)
| ppa_io_callback_fn (cmd : Z)
| channels_init_fn (ch : nvm_channel) (id : Z)
| channels_get_fn (id : Z)
| channels_get_list_fn (nch : Z)
| channels_exit_fn (lch : Z)
(* appnvm.h *)
| appnvm_ch_active_set (lch : Z)
| appnvm_ch_need_gc_unset (lch : Z)
| appnvm_ch_nthreads (lch : Z)
(* registration *)
| channels_register | bbt_byte_register | blk_md_register | ch_prov_register
| gl_prov_register | ch_map_register | gl_map_register | ppa_io_register
| lba_io_register | gc_register
| nvm_register_ftl (ftl : nvm_ftl)
(* thread library, libc, logging *)
| pthread_spin_init (lch : Z) (s : ch_spin)
| pthread_spin_destroy (lch : Z) (s : ch_spin)
| pthread_mutex_init (m : gl_mutex)
| pthread_mutex_destroy (m : gl_mutex)
| usleep (usec : Z)
| log_err
| log_info.

(** The world outside: [respond c e] is the value the call [c] returns
    in the state [e] and the state after it (the value of a [void]
    function is not looked at); [listed nch e] is what
    [channels.get_list_fn] writes to the array it is given, first slot
    first. *)
Class Outside : Type := {
  env : Type;
  respond : ext_call -> env -> Z * env;
  listed : Z -> env -> list Z
}.

(** Constants and macros of [ssd.h], [appnvm.h] and [uatomic.h]. *)
Class FtlHeader : Type := {
  APP_FN_GLOBAL : Z;
  FTL_ID_APPNVM : Z;
  ZERO_32FLAG : Z;
  FTL_CAP_GET_BBTBL : Z;
  FTL_CAP_SET_BBTBL : Z;
  FTL_CAP_INIT_FN : Z;
  FTL_CAP_EXIT_FN : Z;
  FTL_BBTBL_BYTE : Z;
  U_ATOMIC_INIT_RUNTIME : Z -> Z
}.

Section Functions.
Context {FH : FtlHeader} {OS : Outside}.

(** The globals of the file ([gl_fn], [app_nch], [app_ftl]), the busy
    counters [lch->flags.busy.counter] by channel pointer, the world
    outside and the log of the calls. *)
Record state : Type := {
  gl_fn : Z;
  app_nch : Z;
  app_ftl : nvm_ftl;
  busy_counter : gmap Z Z;
  outside : env;
  calls : list ext_call
}.

Definition set_gl_fn (s : state) (v : Z) : state :=
  {| gl_fn := v; app_nch := app_nch s; app_ftl := app_ftl s;
     busy_counter := busy_counter s; outside := outside s; calls := calls s |}.

Definition set_app_nch (s : state) (v : Z) : state :=
  {| gl_fn := gl_fn s; app_nch := v; app_ftl := app_ftl s;
     busy_counter := busy_counter s; outside := outside s; calls := calls s |}.

Definition set_app_ftl (s : state) (v : nvm_ftl) : state :=
  {| gl_fn := gl_fn s; app_nch := app_nch s; app_ftl := v;
     busy_counter := busy_counter s; outside := outside s; calls := calls s |}.

Definition set_busy_counter (s : state) (v : gmap Z Z) : state :=
  {| gl_fn := gl_fn s; app_nch := app_nch s; app_ftl := app_ftl s;
     busy_counter := v; outside := outside s; calls := calls s |}.

(** A call: its value and the state after it. *)
Definition call (c : ext_call) (s : state) : Z * state :=
  let '(r, e) := respond c (outside s) in
  (r, {| gl_fn := gl_fn s; app_nch := app_nch s; app_ftl := app_ftl s;
         busy_counter := busy_counter s; outside := e; calls := calls s ++ [c] |}).

(** A call whose value is not used. *)
Definition call_ (c : ext_call) (s : state) : state := snd (call c s).

Definition app_callback_io (cmd : Z) (s : state) : state :=
  call_ (ppa_io_callback_fn cmd) s.

Definition app_submit_io (cmd : Z) (s : state) : Z * state :=
  call (lba_io_submit_fn cmd) s.

(** [None]: the channel pointer that [channels.get_fn] returns is null
    and is written through. *)
Definition app_init_channel (ch : nvm_channel) (s : state) : option (Z * state) :=
  let '(ret, s1) := call (channels_init_fn ch (app_nch s)) s in
  if negb (ret =? 0) then Some (ret, s1) else
  let '(lch, s2) := call (channels_get_fn (app_nch s1)) s1 in
  if lch =? 0 then None else
  let s3 := set_busy_counter s2 (<[lch := U_ATOMIC_INIT_RUNTIME 0]> (busy_counter s2)) in
  let s4 := call_ (pthread_spin_init lch busy_spin) s3 in
  let s5 := call_ (pthread_spin_init lch active_spin) s4 in
  let s6 := call_ (pthread_spin_init lch need_gc_spin) s5 in
  let s7 := call_ (appnvm_ch_active_set lch) s6 in
  let s8 := call_ (appnvm_ch_need_gc_unset lch) s7 in
  Some (0, set_app_nch s8 (u16 (app_nch s8 + 1))).

(** The wait for the threads of one channel:
    [do { nth = ...; if (nth) { usleep (5000); retry++; } }
     while (nth && retry < 200)].  [fuel] bounds the iterations. *)
Fixpoint drain (fuel : nat) (lch retry : Z) (s : state) : option state :=
  match fuel with
  | O => None
  | S fuel' =>
      let '(nth, s1) := call (appnvm_ch_nthreads lch) s in
      if nth =? 0 then Some s1 else
      let s2 := call_ (usleep 5000) s1 in
      if retry + 1 <? 200 then drain fuel' lch (retry + 1) s2 else Some s2
  end.

(** The loop of [app_exit] over the array [lch] of [nch] channel
    pointers; [None]: a slot that was not written is read, or the wait
    has not ended within its fuel. *)
Fixpoint exit_channels (k : nat) (i : Z) (lch : list Z) (s : state) : option state :=
  match k with
  | O => Some s
  | S k' =>
      l ← arr_get lch i;
      s1 ← drain 200 l 0 s;
      let s2 := call_ (pthread_spin_destroy l busy_spin) s1 in
      let s3 := call_ (pthread_spin_destroy l active_spin) s2 in
      let s4 := call_ (pthread_spin_destroy l need_gc_spin) s3 in
      let s5 := call_ (channels_exit_fn l) s4 in
      exit_channels k' (i + 1) lch (set_app_nch s5 (u16 (app_nch s5 - 1)))
  end.

(** [struct app_channel *lch[app_nch]]: an array of no element is
    undefined ([None]). *)
Definition app_exit (s : state) : option state :=
  let nch := app_nch s in
  if nch =? 0 then None else
  let lch := listed nch (outside s) in
  let s1 := call_ (channels_get_list_fn nch) s in
  exit_channels (Z.to_nat nch) 0 lch s1.

(** The labels of [app_global_init], innermost last. *)
Definition EXIT_GL_PROV (s : state) : state := call_ gl_prov_exit_fn s.
Definition EXIT_GL_MAP (s : state) : state := EXIT_GL_PROV (call_ gl_map_exit_fn s).
Definition EXIT_LBA_IO (s : state) : state := EXIT_GL_MAP (call_ lba_io_exit_fn s).
Definition NS_MUTEX (s : state) : state :=
  EXIT_LBA_IO (call_ (pthread_mutex_destroy gc_ns_mutex) s).

Definition app_global_init (s : state) : Z * state :=
  let '(r1, s1) := call gl_prov_init_fn s in
  if negb (r1 =? 0) then (-1, call_ log_err s1) else
  let '(r2, s2) := call gl_map_init_fn s1 in
  if negb (r2 =? 0) then (-1, EXIT_GL_PROV (call_ log_err s2)) else
  let '(r3, s3) := call lba_io_init_fn s2 in
  if negb (r3 =? 0) then (-1, EXIT_GL_MAP (call_ log_err s3)) else
  let '(r4, s4) := call (pthread_mutex_init gc_ns_mutex) s3 in
  if negb (r4 =? 0) then (-1, EXIT_LBA_IO s4) else
  let '(r5, s5) := call (pthread_mutex_init gc_map_mutex) s4 in
  if negb (r5 =? 0) then (-1, NS_MUTEX s5) else (0, s5).

Definition app_global_exit (s : state) : state :=
  let s1 := call_ (pthread_mutex_destroy gc_map_mutex) s in
  let s2 := call_ (pthread_mutex_destroy gc_ns_mutex) s1 in
  let s3 := call_ lba_io_exit_fn s2 in
  let s4 := call_ gl_map_exit_fn s3 in
  call_ gl_prov_exit_fn s4.

Definition app_init_fn (fn_id : Z) (s : state) : Z * state :=
  if fn_id =? APP_FN_GLOBAL then app_global_init (set_gl_fn s 1)
  else (-1, call_ log_info s).

Definition app_exit_fn (fn_id : Z) (s : state) : state :=
  if fn_id =? APP_FN_GLOBAL
  then (if negb (gl_fn s =? 0) then app_global_exit s else s)
  else call_ log_info s.

(** [cap |= 1 << k] on the 32-bit field [cap]; [None] where the shift of
    the [int] 1 is undefined. *)
Definition cap_set (c k : Z) : option Z :=
  if (0 <=? k) && (k <? 31) then Some (u32 (Z.lor c (Z.shiftl 1 k))) else None.

Definition set_cap (f : nvm_ftl) (v : Z) : nvm_ftl :=
  {| ftl_id := ftl_id f; name := name f; nq := nq f; cap := v;
     bbtbl_format := bbtbl_format f |}.

Definition set_bbtbl_format (f : nvm_ftl) (v : Z) : nvm_ftl :=
  {| ftl_id := ftl_id f; name := name f; nq := nq f; cap := cap f;
     bbtbl_format := v |}.

(** The registrations of [ftl_appnvm_init], in the order of the source. *)
Definition registrations : list ext_call :=
  [channels_register; bbt_byte_register; blk_md_register; ch_prov_register;
   gl_prov_register; ch_map_register; gl_map_register; ppa_io_register;
   lba_io_register; gc_register].

Definition ftl_appnvm_init (s : state) : option (Z * state) :=
  let s0 := set_app_nch (set_gl_fn s 0) 0 in
  let s1 := foldl (fun s c => call_ c s) s0 registrations in
  c1 ← cap_set (cap (app_ftl s1)) FTL_CAP_GET_BBTBL;
  c2 ← cap_set c1 FTL_CAP_SET_BBTBL;
  c3 ← cap_set c2 FTL_CAP_INIT_FN;
  c4 ← cap_set c3 FTL_CAP_EXIT_FN;
  let f := set_bbtbl_format (set_cap (app_ftl s1) c4) FTL_BBTBL_BYTE in
  let s2 := set_app_ftl s1 f in
  Some (call (nvm_register_ftl f) s2).

(** The file's globals as their initialisers leave them. *)
Definition initial_state (e : env) : state :=
  {| gl_fn := 0; app_nch := 0;
     app_ftl := {| ftl_id := FTL_ID_APPNVM; name := [65; 80; 80; 78; 86; 77];
                   nq := 2; cap := ZERO_32FLAG; bbtbl_format := 0 |};
     busy_counter := ∅; outside := e; calls := [] |}.

End Functions.

(** ** What the statements about these functions speak of *)

(** The steps of [app_global_init] and what undoes each. *)
Definition global_steps : list ext_call :=
  [gl_prov_init_fn; gl_map_init_fn; lba_io_init_fn;
   pthread_mutex_init gc_ns_mutex; pthread_mutex_init gc_map_mutex].

Definition undo_step (c : ext_call) : ext_call :=
  match c with
  | gl_prov_init_fn => gl_prov_exit_fn
  | gl_map_init_fn => gl_map_exit_fn
  | lba_io_init_fn => lba_io_exit_fn
  | pthread_mutex_init m => pthread_mutex_destroy m
  | c => c
  end.

(** The number of steps at the head of [steps] that succeed when the
    environment [e] is asked for them in turn; a step succeeds when its
    answer is 0. *)
Fixpoint started {OS : Outside} (steps : list ext_call) (e : env) : nat :=
  match steps with
  | [] => O
  | c :: rest =>
      let '(r, e') := respond c e in
      if r =? 0 then S (started rest e') else O
  end.

(** The environment after it has answered the calls [cs] in turn. *)
Definition answer_all {OS : Outside} (cs : list ext_call) (e : env) : env :=
  fold_left (fun e c => snd (respond c e)) cs e.

(** The rounds a wait of [limit] rounds at most spends on channel [l]
    from the environment [e]: the thread counts other than 0 that [e]
    gives in a row, a sleep of 5 ms after each. *)
Fixpoint waited {OS : Outside} (limit : nat) (l : Z) (e : env) : nat :=
  match limit with
  | O => O
  | S limit' =>
      let '(nth, e1) := respond (appnvm_ch_nthreads l) e in
      if nth =? 0 then O
      else S (waited limit' l (snd (respond (usleep 5000) e1)))
  end.

(** The calls of a wait of [n] rounds out of [limit]: a thread count and
    a sleep per round, and the thread count that ended the wait when it
    ended before the last round. *)
Definition wait_calls (l : Z) (n limit : nat) : list ext_call :=
  concat (replicate n [appnvm_ch_nthreads l; usleep 5000])
  ++ (if (n <? limit)%nat then [appnvm_ch_nthreads l] else []).

(** The calls of [app_exit] for channel [l] when it waits [n] rounds. *)
Definition exit_calls (l : Z) (n : nat) : list ext_call :=
  wait_calls l n 200
  ++ [pthread_spin_destroy l busy_spin; pthread_spin_destroy l active_spin;
      pthread_spin_destroy l need_gc_spin; channels_exit_fn l].

(** The rounds [app_exit] waits for each channel of [ls], first channel
    first, from the environment [e]. *)
Fixpoint exit_waits {OS : Outside} (ls : list Z) (e : env) : list nat :=
  match ls with
  | [] => []
  | l :: rest =>
      let n := waited 200 l e in
      n :: exit_waits rest (answer_all (exit_calls l n) e)
  end.

Definition is_log (c : ext_call) : bool :=
  match c with log_err | log_info => true | _ => false end.

(** The calls of a log that are not log messages. *)
Definition acts (l : list ext_call) : list ext_call :=
  List.filter (fun c => negb (is_log c)) l.

Definition is_usleep (c : ext_call) : bool :=
  match c with usleep _ => true | _ => false end.

Definition is_channels_exit (c : ext_call) : bool :=
  match c with channels_exit_fn _ => true | _ => false end.

Definition is_channels_init (c : ext_call) : bool :=
  match c with channels_init_fn _ _ => true | _ => false end.

(** Successive calls of [app_init_channel], one per channel of [chs],
    with the values they return, first call first.  Not a function of
    the source: the sequence of calls that the statement about the
    numbering of the channels is about. *)
Fixpoint app_init_channels {FH : FtlHeader} {OS : Outside}
  (chs : list nvm_channel) (s : state) : option (list Z * state) :=
  match chs with
  | [] => Some ([], s)
  | ch :: chs' =>
      '(r, s1) ← app_init_channel ch s;
      '(rs, s2) ← app_init_channels chs' s1;
      Some (r :: rs, s2)
  end.

(** The calls of [channels.init_fn] that successive initialisations
    with the values [rs] make when the first id is [id]: an id is used up
    by a call that returns 0 only. *)
Fixpoint init_calls (chs : list nvm_channel) (rs : list Z) (id : Z) : list ext_call :=
  match chs, rs with
  | ch :: chs', r :: rs' =>
      channels_init_fn ch id :: init_calls chs' rs' (if r =? 0 then id + 1 else id)
  | _, _ => []
  end.

(** The number of calls that returned 0. *)
Definition successes (rs : list Z) : Z :=
  Z.of_nat (length (List.filter (fun r => r =? 0) rs)).

End Lifecycle.

(** ** A small configuration of the lifecycle part *)

Definition ex_ftl_header : Lifecycle.FtlHeader :=
  {| Lifecycle.APP_FN_GLOBAL := 0; Lifecycle.FTL_ID_APPNVM := 1;
     Lifecycle.ZERO_32FLAG := 0;
     Lifecycle.FTL_CAP_GET_BBTBL := 0; Lifecycle.FTL_CAP_SET_BBTBL := 1;
     Lifecycle.FTL_CAP_INIT_FN := 3; Lifecycle.FTL_CAP_EXIT_FN := 4;
     Lifecycle.FTL_BBTBL_BYTE := 1;
     Lifecycle.U_ATOMIC_INIT_RUNTIME := fun i => i |}.

(** An outside that answers from a script, one value per call, 0 once
    the script is used up; channel [id] lives at [4096 + id]. *)
Definition ex_outside : Lifecycle.Outside :=
  {| Lifecycle.env := list Z;
     Lifecycle.respond := fun c e =>
       match c with
       | Lifecycle.channels_get_fn id => (4096 + Z.max id 0, e)
       | _ => (hd 0 e, tl e)
       end;
     Lifecycle.listed := fun n _ =>
       map (fun i => 4096 + Z.of_nat i) (seq 0 (Z.to_nat n)) |}.

(** The state after the registration, with [nch] channels and the
    script [e]. *)
Definition ex_state (nch : Z) (e : list Z) : @Lifecycle.state ex_outside :=
  @Lifecycle.Build_state ex_outside 0 nch
    {| Lifecycle.ftl_id := 1; Lifecycle.name := [65; 80; 80; 78; 86; 77];
       Lifecycle.nq := 2; Lifecycle.cap := 0; Lifecycle.bbtbl_format := 0 |}
    ∅ e [].

(** * Proofs *)

(** * Integers and arrays *)

Lemma u16_small (x : Z) : 0 <= x < 2 ^ 16 -> u16 x = x.
Proof. intros H. unfold u16. apply Z.mod_small. exact H. Qed.

Lemma u32_small (x : Z) : 0 <= x < 2 ^ 32 -> u32 x = x.
Proof. intros H. unfold u32. apply Z.mod_small. exact H. Qed.

Lemma usz_small (x : Z) : 0 <= x < 2 ^ 64 -> usz x = x.
Proof. intros H. unfold usz. apply Z.mod_small. exact H. Qed.

Lemma in_range_true (p n a : Z) : p <= a < p + n -> in_range p n a = true.
Proof. intros H. unfold in_range. apply andb_true_intro. split; [apply Z.leb_le | apply Z.ltb_lt]; lia. Qed.

Lemma in_range_false (p n a : Z) : a < p \/ p + n <= a -> in_range p n a = false.
Proof.
  intros H. unfold in_range. apply andb_false_iff.
  destruct H; [left; apply Z.leb_gt | right; apply Z.ltb_ge]; lia.
Qed.

Lemma in_range_spec (p n a : Z) : in_range p n a = true <-> p <= a < p + n.
Proof. unfold in_range. rewrite andb_true_iff, Z.leb_le, Z.ltb_lt. tauto. Qed.

(** Case analysis on the integer comparisons of the goal. *)
Ltac zbool_step :=
  match goal with
  | |- context [Z.geb ?x ?y] => rewrite (Z.geb_leb x y)
  | |- context [Z.gtb ?x ?y] => rewrite (Z.gtb_ltb x y)
  | |- context [?x <=? ?y] => destruct (Z.leb_spec x y)
  | |- context [?x <? ?y] => destruct (Z.ltb_spec x y)
  | |- context [?x =? ?y] => destruct (Z.eqb_spec x y)
  end.

Ltac zbool := repeat zbool_step; simpl; try lia; try reflexivity.

Ltac neq0 := symmetry; apply Z.eqb_neq; lia.

Section Arrays.
Context {A : Type}.
Implicit Types (l : list A) (i j : Z) (x : A).

Lemma arr_get_in l i x : arr_get l i = Some x -> 0 <= i < Z.of_nat (length l).
Proof.
  unfold arr_get. destruct ((0 <=? i) && (i <? Z.of_nat (length l))) eqn:E; [|discriminate].
  intros _. apply andb_true_iff in E. rewrite Z.leb_le, Z.ltb_lt in E. exact E.
Qed.

Lemma arr_get_is_Some l i : 0 <= i < Z.of_nat (length l) -> exists x, arr_get l i = Some x.
Proof.
  intros H. unfold arr_get.
  replace ((0 <=? i) && (i <? Z.of_nat (length l))) with true
    by (symmetry; apply andb_true_intro; split; [apply Z.leb_le | apply Z.ltb_lt]; lia).
  destruct (lookup_lt_is_Some_2 l (Z.to_nat i)) as [x Hx]; [lia|]. eauto.
Qed.

Lemma arr_get_out l i : ~ (0 <= i < Z.of_nat (length l)) -> arr_get l i = None.
Proof.
  intros H. unfold arr_get.
  destruct ((0 <=? i) && (i <? Z.of_nat (length l))) eqn:E; [|reflexivity].
  apply andb_true_iff in E. rewrite Z.leb_le, Z.ltb_lt in E. contradiction.
Qed.

Lemma arr_set_in l i x :
  0 <= i < Z.of_nat (length l) -> arr_set l i x = Some (<[Z.to_nat i := x]> l).
Proof.
  intros H. unfold arr_set.
  replace ((0 <=? i) && (i <? Z.of_nat (length l))) with true
    by (symmetry; apply andb_true_intro; split; [apply Z.leb_le | apply Z.ltb_lt]; lia).
  reflexivity.
Qed.

Lemma arr_get_insert l i j x :
  0 <= i < Z.of_nat (length l) ->
  arr_get (<[Z.to_nat i := x]> l) j = if j =? i then Some x else arr_get l j.
Proof.
  intros H. unfold arr_get. rewrite length_insert.
  destruct (Z.eqb_spec j i) as [->|Hne].
  - replace ((0 <=? i) && (i <? Z.of_nat (length l))) with true
      by (symmetry; apply andb_true_intro; split; [apply Z.leb_le | apply Z.ltb_lt]; lia).
    apply list_lookup_insert_eq. lia.
  - destruct ((0 <=? j) && (j <? Z.of_nat (length l))) eqn:E; [|reflexivity].
    apply andb_true_iff in E. rewrite Z.leb_le, Z.ltb_lt in E.
    apply list_lookup_insert_ne. lia.
Qed.

Lemma arr_get_replicate (n : nat) x i :
  0 <= i < Z.of_nat n -> arr_get (replicate n x) i = Some x.
Proof.
  intros H. unfold arr_get. rewrite length_replicate.
  replace ((0 <=? i) && (i <? Z.of_nat n)) with true
    by (symmetry; apply andb_true_intro; split; [apply Z.leb_le | apply Z.ltb_lt]; lia).
  apply lookup_replicate_2. lia.
Qed.

End Arrays.

(** * Allocator *)

Lemma malloc_succeeds (sz : Z) (h : allocator) :
  next_succeeds h ->
  malloc sz h = (brk h, {| brk := brk h + Z.max sz 1;
                           live := (brk h, sz) :: live h;
                           script := tl (script h);
                           events := events h ++ [EvAlloc (brk h) sz] |}).
Proof.
  unfold next_succeeds, malloc. destruct (script h) as [|[] s]; intros H; try reflexivity.
  destruct H.
Qed.

Lemma malloc_fails (sz : Z) (h : allocator) (s : list bool) :
  script h = false :: s ->
  malloc sz h = (0, {| brk := brk h; live := live h; script := s; events := events h |}).
Proof. intros H. unfold malloc. rewrite H. reflexivity. Qed.

Lemma never_fails_next (h : allocator) : never_fails h -> next_succeeds h.
Proof.
  unfold never_fails, next_succeeds. destruct (script h) as [|[] s]; intros H; try exact I.
  inversion H; discriminate.
Qed.

Lemma never_fails_tl (b : Z) (lv : list (Z * Z)) (s : list bool) (ev : list heap_event) :
  Forall (fun b => b = true) s ->
  never_fails {| brk := b; live := lv; script := tl s; events := ev |}.
Proof. unfold never_fails. simpl. destruct s; simpl; intros H; [constructor | inversion H; assumption]. Qed.

(** * Layout computed by app_pg_io_prepare *)

Lemma arr_set_spec {A} (l : list A) (i : Z) (x : A) :
  0 <= i < Z.of_nat (length l) ->
  exists l', arr_set l i x = Some l' /\ length l' = length l /\
    forall j, arr_get l' j = if j =? i then Some x else arr_get l j.
Proof.
  intros H. exists (<[Z.to_nat i := x]> l). split; [apply arr_set_in; exact H|].
  split; [apply length_insert|]. intros j. apply arr_get_insert. exact H.
Qed.

Section Prepare.
Variable g : nvm_mmgr_geometry.

Lemma prepare_sector_spec (pl sec : Z) (d : app_io_data) (p : Z) (r : sec_row) :
  arr_get (pl_vec d) pl = Some p ->
  0 <= (sec_per_pg g) * pl + sec < Z.of_nat (length (oob_vec d)) ->
  arr_get (sec_vec d) pl = Some r ->
  0 <= sec < Z.of_nat (length (row r)) ->
  exists d' r',
    prepare_sector g pl sec d = Some d' /\
    scalars d' = scalars d /\ pl_vec d' = pl_vec d /\
    length (oob_vec d') = length (oob_vec d) /\
    (forall i, arr_get (oob_vec d') i =
               if i =? (sec_per_pg g) * pl + sec then Some (p + pg_sz d + sec_oob_sz g * sec)
               else arr_get (oob_vec d) i) /\
    length (sec_vec d') = length (sec_vec d) /\
    (forall i, i <> pl -> arr_get (sec_vec d') i = arr_get (sec_vec d) i) /\
    arr_get (sec_vec d') pl = Some r' /\ row_p r' = row_p r /\
    length (row r') = length (row r) /\
    (forall s, arr_get (row r') s =
               if s =? sec then Some (p + sec_size g * sec) else arr_get (row r) s).
Proof.
  intros Hp Ho Hr Hs.
  destruct (arr_set_spec (oob_vec d) ((sec_per_pg g) * pl + sec) (p + pg_sz d + sec_oob_sz g * sec) Ho)
    as (o' & Eo & Lo & Go).
  destruct (arr_set_spec (row r) sec (p + sec_size g * sec) Hs) as (rw' & Er & Lr & Gr).
  pose proof (arr_get_in _ _ _ Hr) as Hpl.
  destruct (arr_set_spec (sec_vec d) pl {| row_p := row_p r; row := rw' |} Hpl)
    as (sv' & Es & Ls & Gs).
  exists (set_sec_vec (set_oob_vec d o') sv'), {| row_p := row_p r; row := rw' |}.
  split.
  { unfold prepare_sector. rewrite Hp. simpl. rewrite Eo. simpl. rewrite Hr. simpl.
    rewrite Er. simpl. rewrite Es. reflexivity. }
  simpl. repeat split; auto.
  - intros i Hi. rewrite Gs. destruct (Z.eqb_spec i pl); [contradiction | reflexivity].
  - rewrite Gs. rewrite Z.eqb_refl. reflexivity.
Qed.

Lemma prepare_sectors_spec (pl : Z) (k : nat) :
  forall (sec : Z) (d : app_io_data) (p : Z) (r : sec_row),
  arr_get (pl_vec d) pl = Some p ->
  0 <= sec -> sec + Z.of_nat k <= (sec_per_pg g) -> (sec_per_pg g) < 2 ^ 16 ->
  0 <= (sec_per_pg g) * pl -> (sec_per_pg g) * pl + (sec_per_pg g) <= Z.of_nat (length (oob_vec d)) ->
  arr_get (sec_vec d) pl = Some r ->
  (sec_per_pg g) < Z.of_nat (length (row r)) ->
  exists d' r',
    prepare_sectors g pl k sec d = Some d' /\
    scalars d' = scalars d /\ pl_vec d' = pl_vec d /\
    length (oob_vec d') = length (oob_vec d) /\
    (forall i, arr_get (oob_vec d') i =
               if ((sec_per_pg g) * pl + sec <=? i) && (i <? (sec_per_pg g) * pl + sec + Z.of_nat k)
               then Some (p + pg_sz d + sec_oob_sz g * (i - (sec_per_pg g) * pl))
               else arr_get (oob_vec d) i) /\
    length (sec_vec d') = length (sec_vec d) /\
    (forall i, i <> pl -> arr_get (sec_vec d') i = arr_get (sec_vec d) i) /\
    arr_get (sec_vec d') pl = Some r' /\ row_p r' = row_p r /\
    length (row r') = length (row r) /\
    (forall s, arr_get (row r') s =
               if (sec <=? s) && (s <? sec + Z.of_nat k)
               then Some (p + sec_size g * s) else arr_get (row r) s).
Proof.
  induction k as [|k IH]; intros sec d p r Hp Hs0 Hk Hb Hpl Ho Hr Hlen.
  - exists d, r. simpl. repeat split; auto.
    + intros i. zbool.
    + intros s. zbool.
  - destruct (prepare_sector_spec pl sec d p r Hp ltac:(lia) Hr ltac:(lia))
      as (d1 & r1 & E1 & S1 & P1 & Lo1 & Go1 & Ls1 & Gs1 & Gr1 & Rp1 & Lr1 & Grow1).
    assert (Hu : u16 (sec + 1) = sec + 1) by (apply u16_small; lia).
    destruct (IH (sec + 1) d1 p r1) as
      (d2 & r2 & E2 & S2 & P2 & Lo2 & Go2 & Ls2 & Gs2 & Gr2 & Rp2 & Lr2 & Grow2);
      try lia; try congruence.
    exists d2, r2. split.
    { simpl. rewrite E1. simpl. rewrite Hu. exact E2. }
    assert (Hpg : pg_sz d1 = pg_sz d) by (unfold scalars in S1; congruence).
    repeat split; try congruence.
    + intros i. rewrite Go2, Go1, Hpg. zbool. subst i. do 3 f_equal. lia.
    + intros i Hi. rewrite Gs2, Gs1; auto.
    + intros s. rewrite Grow2, Grow1. zbool. subst s. reflexivity.
Qed.

Lemma prepare_plane_spec (j : Z) (d : app_io_data) :
  0 <= j < n_pl d -> n_pl d < 2 ^ 16 -> 0 <= buf_sz d < 2 ^ 32 ->
  0 <= (sec_per_pg g) < 2 ^ 16 -> arrays_sized g d ->
  exists d',
    prepare_plane g j d = Some d' /\
    scalars d' = scalars d /\
    length (pl_vec d') = length (pl_vec d) /\
    (forall i, i <> j -> arr_get (pl_vec d') i = arr_get (pl_vec d) i) /\
    length (oob_vec d') = length (oob_vec d) /\
    (forall i, ~ ((sec_per_pg g) * j <= i < (sec_per_pg g) * j + (sec_per_pg g)) ->
               arr_get (oob_vec d') i = arr_get (oob_vec d) i) /\
    length (sec_vec d') = length (sec_vec d) /\
    (forall i, i <> j -> arr_get (sec_vec d') i = arr_get (sec_vec d) i) /\
    arrays_sized g d' /\
    plane_laid g d' (buf_sz d / n_pl d) j.
Proof.
  intros Hj Hn Hb Hs Hsz. destruct Hsz as (Lp & Lo & Lo' & Rows).
  assert (Hstride : 0 <= j * (buf_sz d / n_pl d) <= buf_sz d).
  { assert (0 <= buf_sz d / n_pl d) by (apply Z.div_pos; lia).
    split; [nia|].
    transitivity (n_pl d * (buf_sz d / n_pl d)); [nia | apply Z.mul_div_le; lia]. }
  assert (Hu : u32 (u32 j * (buf_sz d / u32 (n_pl d))) = j * (buf_sz d / n_pl d)).
  { rewrite (u32_small j), (u32_small (n_pl d)) by lia. apply u32_small. lia. }
  destruct (arr_set_spec (pl_vec d) j (buf d + j * (buf_sz d / n_pl d)) ltac:(lia))
    as (pv & Ep & Lpv & Gp).
  destruct (Rows j Hj) as (r & Hr & Hrl).
  destruct (prepare_sectors_spec j (Z.to_nat (sec_per_pg g)) 0 (set_pl_vec d pv)
              (buf d + j * (buf_sz d / n_pl d)) r)
    as (d2 & r2 & E2 & S2 & P2 & Lo2 & Go2 & Ls2 & Gs2 & Gr2 & Rp2 & Lr2 & Grow2);
    simpl; try lia; try nia; auto.
  { rewrite Gp, Z.eqb_refl. reflexivity. }
  simpl in *.
  assert (Hoidx : 0 <= (sec_per_pg g) * j < Z.of_nat (length (oob_vec d2))) by nia.
  destruct (arr_get_is_Some (oob_vec d2) ((sec_per_pg g) * j) Hoidx) as (o & Ho).
  destruct (arr_set_spec (row r2) (sec_per_pg g) o ltac:(lia)) as (rw & Erw & Lrw & Grw).
  pose proof (arr_get_in _ _ _ Gr2) as Hj2.
  destruct (arr_set_spec (sec_vec d2) j {| row_p := row_p r2; row := rw |} Hj2)
    as (sv & Esv & Lsv & Gsv).
  exists (set_sec_vec d2 sv). split.
  { unfold prepare_plane. rewrite Hu, Ep. simpl. rewrite E2. simpl. rewrite Ho. simpl.
    rewrite Gr2. simpl. rewrite Erw. simpl. rewrite Esv. reflexivity. }
  assert (Hpg : pg_sz d2 = pg_sz d) by (unfold scalars in S2; simpl in S2; congruence).
  assert (Hbuf : buf d2 = buf d) by (unfold scalars in S2; simpl in S2; congruence).
  assert (Hnpl : n_pl d2 = n_pl d) by (unfold scalars in S2; simpl in S2; congruence).
  simpl. split; [exact S2|]. split; [congruence|]. split.
  { intros i Hi. rewrite P2, Gp. zbool. }
  split; [congruence|]. split.
  { intros i Hi. rewrite Go2. zbool. }
  split; [congruence|]. split.
  { intros i Hi. rewrite Gsv. zbool. auto. }
  split.
  { unfold arrays_sized. simpl. rewrite Hnpl, P2, Lpv, Lo2.
    repeat split; auto. intros pl Hpl. rewrite Gsv.
    destruct (Z.eqb_spec pl j) as [->|Hne].
    - eexists; split; [reflexivity|]. simpl. lia.
    - rewrite Gs2 by exact Hne. apply Rows. exact Hpl. }
  unfold plane_laid. simpl. rewrite Hbuf, Hpg, P2, Gp, Z.eqb_refl. split; [reflexivity|].
  exists {| row_p := row_p r2; row := rw |}. rewrite Gsv, Z.eqb_refl. split; [reflexivity|].
  simpl. split.
  - intros s Hsr. rewrite Grw, Grow2, Go2. split.
    + zbool. do 2 f_equal. lia.
    + zbool. do 2 f_equal. nia.
  - exists o. rewrite Grw, Z.eqb_refl. auto.
Qed.

Lemma plane_laid_frame (d d' : app_io_data) (stride pl j : Z) :
  0 <= pl -> 0 <= j -> pl <> j -> 0 <= (sec_per_pg g) ->
  scalars d' = scalars d ->
  (forall i, i <> j -> arr_get (pl_vec d') i = arr_get (pl_vec d) i) ->
  (forall i, ~ ((sec_per_pg g) * j <= i < (sec_per_pg g) * j + (sec_per_pg g)) ->
             arr_get (oob_vec d') i = arr_get (oob_vec d) i) ->
  (forall i, i <> j -> arr_get (sec_vec d') i = arr_get (sec_vec d) i) ->
  plane_laid g d stride pl -> plane_laid g d' stride pl.
Proof.
  intros Hpl Hj Hne Hs S Gp Go Gs Hl. destruct Hl as (Hp & r & Hr & Hsec & o & Hsent & Hoob).
  assert (Hpg : pg_sz d' = pg_sz d) by (unfold scalars in S; congruence).
  assert (Hbuf : buf d' = buf d) by (unfold scalars in S; congruence).
  unfold plane_laid. rewrite Hbuf, Hpg, Gp, Gs by exact Hne.
  split; [exact Hp|]. exists r. split; [exact Hr|]. split.
  - intros s Hsr. destruct (Hsec s Hsr) as (H1 & H2). split; [exact H1|].
    rewrite Go; [exact H2|]. nia.
  - exists o. split; [exact Hsent|]. rewrite Go; [exact Hoob|]. nia.
Qed.

Lemma prepare_planes_spec (k : nat) :
  forall (j : Z) (d : app_io_data),
  0 <= j -> j + Z.of_nat k = n_pl d -> n_pl d < 2 ^ 16 -> 0 <= buf_sz d < 2 ^ 32 ->
  0 <= (sec_per_pg g) < 2 ^ 16 -> arrays_sized g d ->
  (forall pl, 0 <= pl < j -> plane_laid g d (buf_sz d / n_pl d) pl) ->
  exists d',
    prepare_planes g k j d = Some d' /\
    scalars d' = scalars d /\
    arrays_sized g d' /\
    forall pl, 0 <= pl < n_pl d -> plane_laid g d' (buf_sz d / n_pl d) pl.
Proof.
  induction k as [|k IH]; intros j d Hj Hk Hn Hb Hs Hsz Hlaid.
  - exists d. simpl. split; [reflexivity|]. split; [reflexivity|]. split; [exact Hsz|].
    intros pl Hpl. apply Hlaid. lia.
  - destruct (prepare_plane_spec j d) as
      (d1 & E1 & S1 & Lp1 & Gp1 & Lo1 & Go1 & Ls1 & Gs1 & Sz1 & Laid1); try lia; auto.
    assert (Hnpl : n_pl d1 = n_pl d) by (unfold scalars in S1; congruence).
    assert (Hbsz : buf_sz d1 = buf_sz d) by (unfold scalars in S1; congruence).
    destruct (IH (j + 1) d1) as (d2 & E2 & S2 & Sz2 & Laid2); try lia; auto.
    { rewrite Hnpl, Hbsz. intros pl Hpl. destruct (Z.eq_dec pl j) as [->|Hne].
      - exact Laid1.
      - apply (plane_laid_frame d d1 _ pl j); auto; try lia. apply Hlaid. lia. }
    exists d2. split.
    { simpl. rewrite E1. simpl. rewrite u16_small by lia. exact E2. }
    split; [congruence|]. split; [exact Sz2|].
    rewrite Hnpl, Hbsz in Laid2. exact Laid2.
Qed.

End Prepare.

(** [app_pg_io_prepare] on a descriptor with the capacities of
    [app_alloc_pg_io] lays out every plane. *)
Lemma app_pg_io_prepare_spec (lch : app_channel) (c : nvm_channel) (d : app_io_data) :
  ch lch = Some c ->
  0 <= n_pl d < 2 ^ 16 -> 0 <= buf_sz d < 2 ^ 32 ->
  0 <= sec_per_pg (geometry c) < 2 ^ 16 -> arrays_sized (geometry c) d ->
  exists d',
    app_pg_io_prepare lch d = Some d' /\
    scalars d' = scalars d /\
    arrays_sized (geometry c) d' /\
    forall pl, 0 <= pl < n_pl d -> plane_laid (geometry c) d' (buf_sz d / n_pl d) pl.
Proof.
  intros Hc Hn Hb Hs Hsz. unfold app_pg_io_prepare. rewrite Hc. simpl.
  apply prepare_planes_spec; auto; try lia.
Qed.

(** * Allocation of the I/O buffer *)

Section Alloc.
Context {HD : Header} {MM : MediaManager}.

Lemma alloc_rows_succeeds (g : nvm_mmgr_geometry) (k : nat) :
  forall (j : Z) (d : app_io_data) (h : allocator),
  never_fails h -> 0 < brk h ->
  0 <= j -> j + Z.of_nat k <= Z.of_nat (length (sec_vec d)) -> j + Z.of_nat k < 2 ^ 16 ->
  exists d' h',
    alloc_rows g k j d h = Some (true, j + Z.of_nat k, d', h') /\
    scalars d' = scalars d /\ pl_vec d' = pl_vec d /\ oob_vec d' = oob_vec d /\
    length (sec_vec d') = length (sec_vec d) /\
    (forall i, j <= i < j + Z.of_nat k ->
       exists r, arr_get (sec_vec d') i = Some r /\
                 length (row r) = Z.to_nat (sec_per_pg g + 1)) /\
    (forall i, ~ (j <= i < j + Z.of_nat k) ->
       arr_get (sec_vec d') i = arr_get (sec_vec d) i) /\
    never_fails h' /\ brk h <= brk h' /\
    (forall b, In b (live h) -> In b (live h')).
Proof.
  induction k as [|k IH]; intros j d h Hnf Hbrk Hj Hlen Hb.
  - exists d, h. simpl. replace (j + Z.of_nat 0) with j by lia.
    split_and!; auto; try lia.
  - simpl alloc_rows. rewrite malloc_succeeds by (apply never_fails_next; exact Hnf).
    destruct (arr_set_spec (sec_vec d) j
                {| row_p := brk h; row := replicate (Z.to_nat (sec_per_pg g + 1)) 0 |}
                ltac:(lia)) as (sv & Esv & Lsv & Gsv).
    rewrite Esv. simpl.
    replace (brk h =? 0) with false by (symmetry; apply Z.eqb_neq; lia).
    rewrite u16_small by lia.
    match goal with |- context [alloc_rows g k (j + 1) ?d1 ?h1] =>
      destruct (IH (j + 1) d1 h1) as (d2 & h2 & E2 & S2 & P2 & O2 & L2 & R2 & F2 & N2 & B2 & I2)
    end; simpl; try lia.
    { apply never_fails_tl. exact Hnf. }
    exists d2, h2. split.
    { rewrite E2. do 4 f_equal. lia. }
    simpl in *. split_and!; auto; try congruence; try lia.
    + intros i Hi. destruct (Z.eq_dec i j) as [->|Hne].
      * rewrite F2 by lia. rewrite Gsv, Z.eqb_refl. eexists; split; [reflexivity|].
        simpl. apply length_replicate.
      * apply R2. lia.
    + intros i Hi. rewrite F2 by lia. rewrite Gsv. zbool.
Qed.


Lemma heap_ok_malloc (sz : Z) (h : allocator) :
  heap_ok h -> next_succeeds h -> heap_ok (snd (malloc sz h)).
Proof.
  intros [Hb Hl] Hn. rewrite malloc_succeeds by exact Hn. simpl.
  split; simpl; [lia|]. constructor; simpl; [lia|].
  eapply Forall_impl; [exact Hl|]. simpl. intros b Hbb. lia.
Qed.

Lemma malloc_never_fails (sz : Z) (h : allocator) :
  never_fails h ->
  exists h', malloc sz h = (brk h, h') /\ never_fails h' /\
    brk h' = brk h + Z.max sz 1 /\ live h' = (brk h, sz) :: live h /\
    events h' = events h ++ [EvAlloc (brk h) sz].
Proof.
  intros Hnf. eexists. split; [apply malloc_succeeds, never_fails_next, Hnf|].
  split; [apply never_fails_tl, Hnf|]. simpl. auto.
Qed.


Lemma app_alloc_pg_io_succeeds (lch : app_channel) (c : nvm_channel) (w : world) :
  ch lch = Some c -> geometry_fits (geometry c) ->
  heap_ok (heap w) -> never_fails (heap w) ->
  exists d w',
    app_alloc_pg_io lch w = Ok (Some d) w' /\
    io_lch d = lch /\ io_ch d = Some c /\
    n_pl d = n_of_planes (geometry c) /\ pg_sz d = pg_size (geometry c) /\
    meta_sz d = sec_oob_sz (geometry c) * sec_per_pg (geometry c) /\
    buf_sz d = plane_bytes (geometry c) * n_of_planes (geometry c) /\
    brk (heap w) <= buf d /\ buf d + buf_sz d <= brk (heap w') /\
    In (buf d, buf_sz d) (live (heap w')) /\
    mem w' = memset (mem w) (buf d) 0 (buf_sz d) /\
    arrays_sized (geometry c) d /\
    (forall pl, 0 <= pl < n_of_planes (geometry c) ->
       plane_laid (geometry c) d (plane_bytes (geometry c)) pl) /\
    never_fails (heap w') /\ 0 < brk (heap w') /\
    ppas w' = ppas w /\ media w' = media w /\ issued w' = issued w /\
    flushed w' = flushed w.
Proof.
  intros Hc (Hn & Hs & Hpg & Hoob & Hsz & Hcap1 & Hcap2) [Hbrk Hlive] Hnf.
  unfold app_alloc_pg_io.
  remember (geometry c) as g eqn:Hg.
  destruct (malloc_never_fails sizeof_app_io_data (heap w) Hnf)
    as (h1 & E1 & N1 & B1 & L1 & _). rewrite E1. cbv beta iota zeta.
  replace (brk (heap w) =? 0) with false by neq0.
  rewrite Hc. cbv beta iota zeta. rewrite <- Hg. unfold calloc.
  destruct (malloc_never_fails ((pg_size g + sec_oob_sz g * sec_per_pg g) * n_of_planes g * 1)
              h1 N1) as (h2 & E2 & N2 & B2 & L2 & _). rewrite E2. cbv beta iota zeta.
  replace (brk h1 =? 0) with false by neq0. cbv beta iota zeta.
  replace (brk h1 =? 0) with false by neq0.
  destruct (malloc_never_fails (sizeof_ptr * n_of_planes g) h2 N2)
    as (h3 & E3 & N3 & B3 & L3 & _). rewrite E3. cbv beta iota zeta.
  replace (brk h2 =? 0) with false by neq0.
  destruct (malloc_never_fails (sizeof_ptr * sec_per_pl_pg g) h3 N3)
    as (h4 & E4 & N4 & B4 & L4 & _). rewrite E4. cbv beta iota zeta.
  replace (brk h3 =? 0) with false by neq0.
  destruct (malloc_never_fails (sizeof_ptr * sec_per_pl_pg g) h4 N4)
    as (h5 & E5 & N5 & B5 & L5 & _). rewrite E5. cbv beta iota zeta.
  replace (brk h4 =? 0) with false by neq0.
  match goal with |- context [alloc_rows g _ 0 ?d4 h5] =>
    destruct (alloc_rows_succeeds g (Z.to_nat (n_of_planes g)) 0 d4 h5)
      as (d5 & h6 & E6 & S6 & P6 & O6 & Ls6 & R6 & F6 & N6 & B6 & I6)
  end; simpl; try exact N5; try (rewrite ?length_replicate; lia).
  rewrite E6. simpl in S6, P6, O6, Ls6.
  assert (Hsc : n_pl d5 = n_of_planes g /\ buf_sz d5 = plane_bytes g * n_of_planes g
                /\ buf d5 = brk h1 /\ pg_sz d5 = pg_size g /\ io_ch d5 = Some c
                /\ io_lch d5 = lch
                /\ meta_sz d5 = sec_oob_sz g * sec_per_pg g).
  { unfold scalars in S6. simpl in S6. unfold plane_bytes.
    inversion S6. auto 10. }
  destruct Hsc as (Hnpl & Hbsz & Hbuf & Hpgsz & Hioch & Hiolch & Hmeta).
  assert (Hpos : 0 <= plane_bytes g) by (unfold plane_bytes; nia).
  destruct (app_pg_io_prepare_spec lch c d5 Hc) as (d6 & E7 & S7 & Sz7 & Laid7);
    rewrite <- ?Hg; try lia.
  { rewrite Hbsz. unfold plane_bytes. nia. }
  { unfold arrays_sized. rewrite Hnpl, P6, O6, !length_replicate.
    split_and!; try lia. intros pl Hpl. destruct (R6 pl ltac:(lia)) as (r & Hr & Hrl).
    exists r. split; [exact Hr|]. rewrite Hrl. lia. }
  rewrite E7. exists d6. eexists. split; [reflexivity|].
  rewrite <- Hg in Sz7, Laid7.
  unfold scalars in S7. inversion S7 as [[S1 S2 S3 S4 S5 S6' S7' S8 S9 S10 S11]].
  simpl. rewrite S2, S3, S4, S5, S6', S7', S8, Hnpl, Hbsz, Hbuf, Hpgsz.
  split_and!; auto; try lia.
  - etransitivity; [|exact B6]. rewrite B5, B4, B3, B2.
    unfold plane_bytes. lia.
  - apply I6. rewrite L5, L4, L3, L2. unfold plane_bytes.
    replace ((pg_size g + sec_oob_sz g * sec_per_pg g) * n_of_planes g * 1)
      with ((pg_size g + sec_oob_sz g * sec_per_pg g) * n_of_planes g) by lia.
    simpl. auto.
  - unfold plane_bytes.
    replace ((pg_size g + sec_oob_sz g * sec_per_pg g) * n_of_planes g * 1)
      with ((pg_size g + sec_oob_sz g * sec_per_pg g) * n_of_planes g) by lia.
    reflexivity.
  - intros pl Hpl. rewrite Hnpl, Hbsz in Laid7.
    destruct (Z.eq_dec (n_of_planes g) 0) as [E0|E0]; [lia|].
    rewrite Z.div_mul in Laid7 by exact E0. apply Laid7. exact Hpl.
Qed.

(** C6: the buffer [app_alloc_pg_io] returns and the layout computed on it. *)
Theorem app_alloc_pg_io_layout (lch : app_channel) (c : nvm_channel) (w : world) :
  ch lch = Some c -> geometry_fits (geometry c) ->
  heap_ok (heap w) -> never_fails (heap w) ->
  exists d w',
    app_alloc_pg_io lch w = Ok (Some d) w' /\
    buf_sz d = (pg_size (geometry c) + sec_oob_sz (geometry c) * sec_per_pg (geometry c))
               * n_of_planes (geometry c) /\
    In (buf d, buf_sz d) (live (heap w')) /\
    (forall a, buf d <= a < buf d + buf_sz d -> mem w' a = 0) /\
    forall pl, 0 <= pl < n_of_planes (geometry c) ->
      let base := buf d + pl * (pg_size (geometry c)
                                + sec_oob_sz (geometry c) * sec_per_pg (geometry c)) in
      arr_get (pl_vec d) pl = Some base /\
      exists r, arr_get (sec_vec d) pl = Some r /\
        (forall s, 0 <= s < sec_per_pg (geometry c) ->
           arr_get (row r) s = Some (base + s * sec_size (geometry c)) /\
           arr_get (oob_vec d) (sec_per_pg (geometry c) * pl + s) =
             Some (base + pg_size (geometry c) + s * sec_oob_sz (geometry c))) /\
        exists o, arr_get (row r) (sec_per_pg (geometry c)) = Some o /\
                  arr_get (oob_vec d) (sec_per_pg (geometry c) * pl) = Some o.
Proof.
  intros Hc Hg Hh Hnf.
  destruct (app_alloc_pg_io_succeeds lch c w Hc Hg Hh Hnf)
    as (d & w' & E & _ & _ & Hnpl & Hpg & _ & Hbsz & _ & _ & Hin & Hmem & _ & Hlaid & _).
  exists d, w'. split; [exact E|]. split; [exact Hbsz|]. split; [exact Hin|]. split.
  - intros a Ha. rewrite Hmem. unfold memset. rewrite in_range_true by lia. reflexivity.
  - intros pl Hpl. specialize (Hlaid pl Hpl). unfold plane_laid in Hlaid.
    rewrite Hpg in Hlaid. exact Hlaid.
Qed.


(** ** Failure of an allocation step *)

Lemma malloc_next (sz : Z) (h : allocator) (s : list bool) :
  script h = true :: s ->
  exists h', malloc sz h = (brk h, h') /\ script h' = s /\
    brk h' = brk h + Z.max sz 1 /\ live h' = (brk h, sz) :: live h /\
    events h' = events h ++ [EvAlloc (brk h) sz].
Proof.
  intros Hs. eexists. split.
  - apply malloc_succeeds. unfold next_succeeds. rewrite Hs. exact I.
  - simpl. rewrite Hs. auto.
Qed.

Lemma row_blocks_snoc (b sz : Z) (m : nat) :
  row_blocks b sz (S m) = row_blocks b sz m ++ [(b + Z.of_nat m * Z.max sz 1, sz)].
Proof.
  revert b. induction m as [|m IH]; intros b.
  - simpl. do 2 f_equal. lia.
  - change (row_blocks b sz (S (S m)))
      with ((b, sz) :: row_blocks (b + Z.max sz 1) sz (S m)).
    rewrite IH. rewrite Nat2Z.inj_succ. cbn [row_blocks app].
    do 4 f_equal. lia.
Qed.

Lemma row_blocks_below (b sz : Z) (m : nat) :
  Forall (fun x => b <= fst x < b + Z.of_nat m * Z.max sz 1) (row_blocks b sz m).
Proof.
  revert b. induction m as [|m IH]; intros b; simpl; constructor.
  - simpl. lia.
  - eapply Forall_impl; [apply IH|]. simpl. intros x Hx. lia.
Qed.

Lemma filter_pop (p sz : Z) (l : list (Z * Z)) :
  Forall (fun b => fst b < p) l ->
  filter (fun b : Z * Z => fst b ≠ p) ((p, sz) :: l) = l.
Proof.
  intros Hl. rewrite filter_cons_False by (simpl; intros H; apply H; reflexivity).
  induction Hl as [|x l Hx Hl IH]; [reflexivity|].
  rewrite filter_cons_True by (simpl in *; lia). f_equal. exact IH.
Qed.

Lemma alloc_rows_fails (g : nvm_mmgr_geometry) (k : nat) :
  forall (m : nat) (j : Z) (d : app_io_data) (h : allocator) (rest : list bool),
  (m < k)%nat -> script h = replicate m true ++ false :: rest -> 0 < brk h ->
  0 <= j -> j + Z.of_nat m < Z.of_nat (length (sec_vec d)) -> j + Z.of_nat k < 2 ^ 16 ->
  exists d' h',
    alloc_rows g k j d h = Some (false, j + Z.of_nat m, d', h') /\
    scalars d' = scalars d /\
    events h' = events h ++
      map ev_alloc (row_blocks (brk h) (sizeof_ptr * (sec_per_pg g + 1)) m) /\
    live h' = rev (row_blocks (brk h) (sizeof_ptr * (sec_per_pg g + 1)) m) ++ live h /\
    script h' = rest /\
    (forall i, 0 <= i < Z.of_nat m ->
       exists r, arr_get (sec_vec d') (j + i) = Some r /\
         row_p r = brk h + i * Z.max (sizeof_ptr * (sec_per_pg g + 1)) 1) /\
    (forall i, i < j -> arr_get (sec_vec d') i = arr_get (sec_vec d) i).
Proof.
  induction k as [|k IH]; intros m j d h rest Hm Hs Hbrk Hj Hlen Hb; [lia|].
  destruct m as [|m].
  - simpl in Hs. simpl alloc_rows. rewrite (malloc_fails _ _ _ Hs).
    destruct (arr_set_spec (sec_vec d) j
                {| row_p := 0; row := replicate (Z.to_nat (sec_per_pg g + 1)) 0 |}
                ltac:(lia)) as (sv & Esv & Lsv & Gsv).
    rewrite Esv. simpl. eexists _, _. split; [do 4 f_equal; lia|].
    simpl. split_and!; auto.
    + rewrite app_nil_r. reflexivity.
    + intros i Hi. lia.
    + intros i Hi. rewrite Gsv. zbool.
  - simpl in Hs. simpl alloc_rows.
    destruct (malloc_next (sizeof_ptr * (sec_per_pg g + 1)) h _ Hs)
      as (h1 & E1 & Sc1 & B1 & L1 & Ev1).
    rewrite E1.
    destruct (arr_set_spec (sec_vec d) j
                {| row_p := brk h; row := replicate (Z.to_nat (sec_per_pg g + 1)) 0 |}
                ltac:(lia)) as (sv & Esv & Lsv & Gsv).
    rewrite Esv. simpl.
    replace (brk h =? 0) with false by neq0.
    rewrite u16_small by lia.
    destruct (IH m (j + 1) (set_sec_vec d sv) h1 rest)
      as (d2 & h2 & E2 & S2 & Ev2 & L2 & Sc2 & R2 & F2); simpl; try lia; auto.
    exists d2, h2. split; [rewrite E2; do 4 f_equal; lia|].
    split; [exact S2|]. rewrite Ev2, L2, Ev1, L1, B1. simpl.
    split_and!; auto.
    + rewrite <- app_assoc. reflexivity.
    + rewrite <- app_assoc. reflexivity.
    + intros i Hi. destruct (Z.eq_dec i 0) as [->|Hne].
      * rewrite F2 by lia. simpl. rewrite Gsv. replace (j + 0 =? j) with true by (symmetry; apply Z.eqb_eq; lia).
        eexists; split; [reflexivity|]. simpl. lia.
      * destruct (R2 (i - 1) ltac:(lia)) as (r & Hr & Hrp).
        exists r. replace (j + i) with (j + 1 + (i - 1)) by lia. split; [exact Hr|].
        rewrite Hrp, B1. lia.
    + intros i Hi. rewrite F2 by lia. simpl. rewrite Gsv. zbool.
Qed.


Lemma free_rows_down_spec (d : app_io_data) (base sz : Z) (m : nat) :
  forall (h : allocator) (lv : list (Z * Z)),
  Z.of_nat m < 2 ^ 16 ->
  (forall i, 0 <= i < Z.of_nat m ->
     exists r, arr_get (sec_vec d) i = Some r /\ row_p r = base + i * Z.max sz 1) ->
  live h = rev (row_blocks base sz m) ++ lv ->
  Forall (fun b => fst b < base) lv ->
  exists h',
    free_rows_down m (Z.of_nat m) d h = Some h' /\ live h' = lv /\
    events h' = events h ++ map EvFree (rev (map fst (row_blocks base sz m))) /\
    script h' = script h /\ brk h' = brk h.
Proof.
  induction m as [|m IH]; intros h lv Hb Hrows Hlive Hlv.
  - exists h. simpl in *. rewrite app_nil_r. auto.
  - cbn [free_rows_down].
    replace (u16 (Z.of_nat (S m) - 1)) with (Z.of_nat m) by (rewrite u16_small; lia).
    destruct (Hrows (Z.of_nat m) ltac:(lia)) as (r & Hr & Hrp). rewrite Hr.
    cbn [mbind option_bind].
    rewrite row_blocks_snoc, rev_app_distr in Hlive. simpl in Hlive.
    destruct (IH (free (row_p r) h) lv) as (h' & E & L & Ev & Sc & B); auto; try lia.
    { intros i Hi. apply Hrows. lia. }
    { simpl. rewrite Hlive, Hrp. apply filter_pop. apply Forall_app. split.
      - apply Forall_rev. eapply Forall_impl; [apply row_blocks_below|].
        simpl. intros x Hx. lia.
      - eapply Forall_impl; [exact Hlv|]. simpl. intros x Hx. lia. }
    exists h'. split; [exact E|]. split; [exact L|].
    split; [|split; [rewrite Sc; reflexivity | rewrite B; reflexivity]].
    rewrite Ev. cbn [events free]. rewrite row_blocks_snoc, map_app, rev_app_distr.
    cbn [map rev app fst]. rewrite <- app_assoc, Hrp. reflexivity.
Qed.

Lemma live_free_top (h : allocator) (p sz : Z) (l : list (Z * Z)) :
  live h = (p, sz) :: l -> Forall (fun b => fst b < p) l -> live (free p h) = l.
Proof. intros Hl Hf. simpl. rewrite Hl. apply filter_pop. exact Hf. Qed.

Lemma Forall_below_weaken (l : list (Z * Z)) (p q : Z) :
  Forall (fun b => 0 < fst b < p) l -> p <= q -> Forall (fun b => fst b < q) l.
Proof. intros H Hpq. eapply Forall_impl; [exact H|]. simpl. intros b Hb. lia. Qed.

Lemma memset_below (m : memory) (p c n a : Z) : a < p -> memset m p c n a = m a.
Proof. intros H. unfold memset. rewrite in_range_false by lia. reflexivity. Qed.


Ltac alloc_step Hs h E Sc B L Ev :=
  match goal with
  | |- context [malloc ?sz ?h0] =>
      destruct (malloc_next sz h0 _ Hs) as (h & E & Sc & B & L & Ev);
      rewrite E; cbv beta iota zeta
  end.

Ltac alloc_fail Hs :=
  match goal with
  | |- context [malloc ?sz ?h0] =>
      rewrite (malloc_fails sz h0 _ Hs); cbv beta iota zeta
  end.

(** C5: when the allocation of some step fails, [app_alloc_pg_io]
    releases what it has acquired, last acquired first, and returns
    [NULL]. *)
Theorem app_alloc_pg_io_unwinds (lch : app_channel) (c : nvm_channel) (w : world)
  (s : nat) (rest : list bool) :
  ch lch = Some c -> geometry_fits (geometry c) -> heap_ok (heap w) ->
  (s < 5 + Z.to_nat (n_of_planes (geometry c)))%nat ->
  script (heap w) = replicate s true ++ false :: rest ->
  exists acquired w',
    app_alloc_pg_io lch w = Ok None w' /\
    length acquired = s /\
    events (heap w') = events (heap w) ++ map ev_alloc acquired
                         ++ map EvFree (rev (map fst acquired)) /\
    live (heap w') = live (heap w) /\
    (forall a, a < brk (heap w) -> mem w' a = mem w a) /\
    ppas w' = ppas w /\ media w' = media w /\ issued w' = issued w /\
    flushed w' = flushed w.
Proof.
  intros Hc (Hn & Hspp & Hpg & Hoob & Hsz & Hcap1 & Hcap2) [Hbrk Hlive] Hs Hscr.
  unfold app_alloc_pg_io. remember (geometry c) as g eqn:Hg.
  destruct s as [|s]; simpl in Hscr.
  { alloc_fail Hscr. simpl. exists []. eexists. split; [reflexivity|]. simpl.
    rewrite app_nil_r. auto 10. }
  alloc_step Hscr h1 E1 Sc1 B1 L1 Ev1.
  replace (brk (heap w) =? 0) with false by neq0.
  rewrite Hc. cbv beta iota zeta. rewrite <- Hg. unfold calloc.
  assert (F0 : Forall (fun b : Z * Z => fst b < brk (heap w)) (live (heap w)))
    by (eapply Forall_below_weaken; [exact Hlive | lia]).
  destruct s as [|s]; simpl in Sc1.
  { alloc_fail Sc1. simpl. exists [(brk (heap w), sizeof_app_io_data)]. eexists. split; [reflexivity|]. simpl.
    rewrite L1, Ev1, <- app_assoc. simpl. split_and!; auto.
    apply filter_pop. exact F0. }
  alloc_step Sc1 h2 E2 Sc2 B2 L2 Ev2.
  replace (brk h1 =? 0) with false by neq0. cbv beta iota zeta.
  replace (brk h1 =? 0) with false by neq0.
  assert (F1 : Forall (fun b : Z * Z => fst b < brk h1) (live h1)).
  { rewrite L1. constructor; [simpl; lia|].
    eapply Forall_below_weaken; [exact Hlive | lia]. }
  assert (Hmem : forall a, a < brk (heap w) ->
            memset (mem w) (brk h1) 0
              ((pg_size g + sec_oob_sz g * sec_per_pg g) * n_of_planes g * 1) a = mem w a)
    by (intros a Ha; apply memset_below; lia).
  destruct s as [|s]; simpl in Sc2.
  { alloc_fail Sc2. simpl. exists [(brk (heap w), sizeof_app_io_data);
      (brk h1, (pg_size g + sec_oob_sz g * sec_per_pg g) * n_of_planes g * 1)]. eexists. split; [reflexivity|]. simpl.
    rewrite L2, Ev2, Ev1, <- !app_assoc. simpl. split_and!; auto.
    rewrite filter_pop by exact F1. rewrite L1. apply filter_pop. exact F0. }
  alloc_step Sc2 h3 E3 Sc3 B3 L3 Ev3.
  replace (brk h2 =? 0) with false by neq0.
  assert (F2 : Forall (fun b : Z * Z => fst b < brk h2) (live h2)).
  { rewrite L2. constructor; [simpl; lia|].
    eapply Forall_impl; [exact F1|]. simpl. intros b Hb. lia. }
  destruct s as [|s]; simpl in Sc3.
  { alloc_fail Sc3. simpl. exists [(brk (heap w), sizeof_app_io_data);
      (brk h1, (pg_size g + sec_oob_sz g * sec_per_pg g) * n_of_planes g * 1);
      (brk h2, sizeof_ptr * n_of_planes g)]. eexists. split; [reflexivity|]. simpl.
    rewrite L3, Ev3, Ev2, Ev1, <- !app_assoc. simpl. split_and!; auto.
    rewrite filter_pop by exact F2. rewrite L2.
    rewrite filter_pop by exact F1. rewrite L1. apply filter_pop. exact F0. }
  alloc_step Sc3 h4 E4 Sc4 B4 L4 Ev4.
  replace (brk h3 =? 0) with false by neq0.
  assert (F3 : Forall (fun b : Z * Z => fst b < brk h3) (live h3)).
  { rewrite L3. constructor; [simpl; lia|].
    eapply Forall_impl; [exact F2|]. simpl. intros b Hb. lia. }
  destruct s as [|s]; simpl in Sc4.
  { alloc_fail Sc4. simpl. exists [(brk (heap w), sizeof_app_io_data);
      (brk h1, (pg_size g + sec_oob_sz g * sec_per_pg g) * n_of_planes g * 1);
      (brk h2, sizeof_ptr * n_of_planes g);
      (brk h3, sizeof_ptr * sec_per_pl_pg g)]. eexists. split; [reflexivity|]. simpl.
    rewrite L4, Ev4, Ev3, Ev2, Ev1, <- !app_assoc. simpl. split_and!; auto.
    rewrite filter_pop by exact F3. rewrite L3.
    rewrite filter_pop by exact F2. rewrite L2.
    rewrite filter_pop by exact F1. rewrite L1. apply filter_pop. exact F0. }
  alloc_step Sc4 h5 E5 Sc5 B5 L5 Ev5.
  replace (brk h4 =? 0) with false by neq0.
  assert (F4 : Forall (fun b : Z * Z => fst b < brk h4) (live h4)).
  { rewrite L4. constructor; [simpl; lia|].
    eapply Forall_impl; [exact F3|]. simpl. intros b Hb. lia. }
  assert (F5 : Forall (fun b : Z * Z => fst b < brk h5) (live h5)).
  { rewrite L5. constructor; [simpl; lia|].
    eapply Forall_impl; [exact F4|]. simpl. intros b Hb. lia. }
  match goal with |- context [alloc_rows g _ 0 ?d4 h5] =>
    destruct (alloc_rows_fails g (Z.to_nat (n_of_planes g)) s 0 d4 h5 rest)
      as (d5 & h6 & E6 & S6 & Ev6 & L6 & Sc6 & R6 & _)
  end; simpl; try lia; auto; try (rewrite ?length_replicate; lia).
  rewrite E6. unfold unwind_FREE_SEC.
  replace (Z.to_nat (0 + Z.of_nat s)) with s by lia.
  replace (0 + Z.of_nat s) with (Z.of_nat s) by lia.
  destruct (free_rows_down_spec d5 (brk h5) (sizeof_ptr * (sec_per_pg g + 1)) s h6 (live h5))
    as (h7 & E7 & L7 & Ev7 & Sc7 & B7); try lia; auto.
  rewrite E7. cbn [mbind option_bind].
  unfold scalars in S6. simpl in S6.
  inversion S6 as [[S1 S2 S3 S4 S5 S6' S7' S8 S9 S10 S11]].
  exists ((brk (heap w), sizeof_app_io_data) ::
    (brk h1, (pg_size g + sec_oob_sz g * sec_per_pg g) * n_of_planes g * 1) ::
    (brk h2, sizeof_ptr * n_of_planes g) ::
    (brk h3, sizeof_ptr * sec_per_pl_pg g) ::
    (brk h4, sizeof_ptr * sec_per_pl_pg g) ::
    row_blocks (brk h5) (sizeof_ptr * (sec_per_pg g + 1)) s).
  eexists. split; [reflexivity|].
  unfold unwind_FREE_OOB, unwind_FREE_VEC, unwind_FREE_BUF, unwind_FREE.
  rewrite S1, S8, S9, S10, S11.
  split.
  { cbn [length]. do 5 f_equal. clear. generalize (brk h5).
    induction s as [|s IH]; intros b; simpl; [reflexivity | f_equal; apply IH]. }
  cbn [heap set_heap set_mem mem ppas media issued flushed].
  split.
  { cbn [events free]. rewrite Ev7, Ev6, Ev5, Ev4, Ev3, Ev2, Ev1.
    cbn [map rev fst]. rewrite !map_app, <- !app_assoc. reflexivity. }
  split.
  { cbn [live free]. rewrite L7, L5.
    rewrite filter_pop by exact F4. rewrite L4.
    rewrite filter_pop by exact F3. rewrite L3.
    rewrite filter_pop by exact F2. rewrite L2.
    rewrite filter_pop by exact F1. rewrite L1. apply filter_pop. exact F0. }
  split; [|auto].
  intros a Ha. apply memset_below. lia.
Qed.

End Alloc.

(** * Plane I/O *)

Section PlaneIO.
Context {HD : Header} {MM : MediaManager}.

Lemma plane_loop_spec (c : nvm_channel) (cmdtype : mmgr_cmdtype) (plv : list Z)
  (lun blk pg : Z) (k : nat) :
  forall (pl b ret : Z) (w : world),
  0 <= pl ->
  (is_erase cmdtype = false -> pl + Z.of_nat k <= Z.of_nat (length plv)) ->
  exists recs r w',
    plane_loop c cmdtype plv (Some (lun, blk, pg)) k pl b ret w = Ok r w' /\
    issued w' = issued w ++ recs /\
    heap w' = heap w /\ ppas w' = ppas w /\ flushed w' = flushed w /\
    (forall (i : nat) rec, recs !! i = Some rec ->
       io_cmd rec = plane_cmd c lun blk pg (pl + Z.of_nat i) /\
       io_type rec = cmdtype /\
       (is_erase cmdtype = false ->
        arr_get plv (pl + Z.of_nat i) = Some (io_buf rec))) /\
    (forall (i : nat) rec, recs !! i = Some rec -> (S i < length recs)%nat ->
       io_status rec = 0) /\
    (length recs = k \/ exists rec, last recs = Some rec /\ io_status rec <> 0) /\
    (length recs <= k)%nat /\
    r = match last recs with Some rec => io_status rec | None => ret end.
Proof.
  induction k as [|k IH]; intros pl b ret w Hpl Hlen.
  - exists [], ret, w. simpl. rewrite app_nil_r. split_and!; auto; intros i rec Hi; discriminate.
  - cbn [plane_loop].
    assert (Hb : exists b', (if is_erase cmdtype then Some b else arr_get plv pl) = Some b'
                  /\ (is_erase cmdtype = false -> arr_get plv pl = Some b')).
    { destruct (is_erase cmdtype) eqn:Ee.
      - exists b. split; [reflexivity | discriminate].
      - destruct (arr_get_is_Some plv pl) as (x & Hx); [specialize (Hlen eq_refl); lia|].
        exists x. auto. }
    destruct Hb as (b' & Eb & Hb'). rewrite Eb.
    destruct (nvm_submit_sync_io c _ b' cmdtype (media w) (mem w)) as [[r mm'] m'] eqn:Es.
    set (rec0 := {| io_cmd := plane_cmd c lun blk pg pl; io_buf := b';
                    io_type := cmdtype; io_status := r |}).
    fold (plane_cmd c lun blk pg pl). fold rec0.
    destruct (Z.eqb_spec r 0) as [Hr|Hr].
    + destruct (IH (pl + 1) b' r (log_io w rec0 mm' m')) as
        (recs & r' & w' & E & Hiss & Hh & Hp & Hf & Hcmd & Hst & Hfin & Hle & Hret);
        [lia | intros He; specialize (Hlen He); lia |].
      exists (rec0 :: recs), r', w'. split; [exact E|].
      rewrite Hiss, Hh, Hp, Hf. simpl. rewrite <- app_assoc. simpl.
      split_and!; auto; try lia.
      * intros [|i] rec Hi; simpl in Hi.
        -- inversion Hi; subst rec. cbn [Z.of_nat]. rewrite Z.add_0_r. simpl. auto.
        -- destruct (Hcmd i rec Hi) as (H1 & H2 & H3).
           replace (pl + Z.of_nat (S i)) with (pl + 1 + Z.of_nat i) by lia. auto.
      * intros [|i] rec Hi Hlt; simpl in Hi.
        -- inversion Hi; subst rec. exact Hr.
        -- apply (Hst i rec Hi). lia.
      * destruct Hfin as [Hfin | (rec & Hl & Hs)]; [left; lia|].
        right. exists rec. split; [|exact Hs]. rewrite last_cons, Hl. reflexivity.
      * rewrite Hret, last_cons. destruct (last recs); reflexivity.
    + exists [rec0], r, (log_io w rec0 mm' m'). simpl. split_and!; auto; try lia.
      * intros [|i] rec Hi; simpl in Hi; [|discriminate].
        inversion Hi; subst rec. cbn [Z.of_nat]. rewrite Z.add_0_r. simpl. auto.
      * right. exists rec0. auto.
Qed.


Lemma plane_loop_run (c : nvm_channel) (cmdtype : mmgr_cmdtype) (plv : list Z)
  (lun blk pg : Z) (n : Z) (w : world) :
  0 <= n -> (is_erase cmdtype = false -> n <= Z.of_nat (length plv)) ->
  exists recs r w',
    plane_loop c cmdtype plv (Some (lun, blk, pg)) (Z.to_nat n) 0 0 (-1) w = Ok r w' /\
    issued w' = issued w ++ recs /\
    heap w' = heap w /\ ppas w' = ppas w /\ flushed w' = flushed w /\
    plane_run c cmdtype plv lun blk pg n recs /\
    r = match last recs with Some rec => io_status rec | None => -1 end.
Proof.
  intros Hn Hlen.
  destruct (plane_loop_spec c cmdtype plv lun blk pg (Z.to_nat n) 0 0 (-1) w)
    as (recs & r & w' & E & Hiss & Hh & Hp & Hf & Hcmd & Hst & Hfin & Hle & Hret);
    [lia | intros He; specialize (Hlen He); lia |].
  exists recs, r, w'. split_and!; auto.
  unfold plane_run. split_and!; auto; try lia.
  destruct Hfin as [Hfin | Hfin]; [left; lia | right; exact Hfin].
Qed.

(** The statuses of the log are the answers of the media manager, and the
    media and the memory are as its calls left them. *)
Lemma plane_loop_answered (c : nvm_channel) (cmdtype : mmgr_cmdtype) (plv : list Z)
  (addr : option (Z * Z * Z)) (k : nat) :
  forall (pl b ret : Z) (w : world) (r : Z) (w' : world),
  plane_loop c cmdtype plv addr k pl b ret w = Ok r w' ->
  exists recs,
    issued w' = issued w ++ recs /\
    answered c recs (media w) (mem w) (media w') (mem w') /\
    (is_erase cmdtype = true -> Forall (fun rec => io_buf rec = b) recs).
Proof.
  induction k as [|k IH]; intros pl b ret w r w' E.
  - cbn [plane_loop] in E. inversion E; subst. exists []. rewrite app_nil_r.
    simpl. auto.
  - cbn [plane_loop] in E. destruct addr as [[[lun blk] pg]|]; [|discriminate].
    destruct (if is_erase cmdtype then Some b else arr_get plv pl) as [b'|] eqn:Eb;
      [|discriminate].
    assert (Hb : is_erase cmdtype = true -> b' = b).
    { intros He. rewrite He in Eb. congruence. }
    destruct (nvm_submit_sync_io c _ b' cmdtype (media w) (mem w)) as [[r0 mm'] m'] eqn:Es.
    destruct (r0 =? 0).
    + destruct (IH _ _ _ _ _ _ E) as (recs & Hiss & Hans & Hbuf).
      eexists (_ :: recs). simpl in Hiss. rewrite Hiss, <- app_assoc.
      split; [reflexivity|]. split.
      * cbn [answered io_cmd io_buf io_type io_status]. rewrite Es. auto.
      * intros He. constructor; [exact (Hb He)|].
        rewrite <- (Hb He). exact (Hbuf He).
    + inversion E; subst. eexists [_]. split; [reflexivity|]. split.
      * cbn [answered io_cmd io_buf io_type io_status]. rewrite Es. simpl. auto.
      * intros He. constructor; [exact (Hb He)|constructor].
Qed.

(** C4: the commands [app_pg_io] submits: one per plane, planes 0, 1, ...
    in this order, each handed to [nvm_submit_sync_io]; the loop stops at
    the first one for which the media manager returns a status other than
    0 and the call returns that status, 0 when every plane succeeded. *)
Theorem app_pg_io_commands (lch : app_channel) (c : nvm_channel)
  (cmdtype : mmgr_cmdtype) (plv : list Z) (ppa : Z) (a : nvm_ppa_addr) (w : world) :
  ch lch = Some c -> 0 <= n_of_planes (geometry c) ->
  (is_erase cmdtype = false -> n_of_planes (geometry c) <= Z.of_nat (length plv)) ->
  ppas w !! ppa = Some a ->
  next_succeeds (heap w) -> 0 < brk (heap w) ->
  exists recs r w',
    app_pg_io lch cmdtype plv ppa w = Ok r w' /\
    issued w' = issued w ++ recs /\
    plane_run c cmdtype plv (g_lun a) (g_blk a) (g_pg a) (n_of_planes (geometry c)) recs /\
    r = match last recs with Some rec => io_status rec | None => -1 end /\
    answered c recs (media w) (mem w) (media w') (mem w') /\
    (is_erase cmdtype = true -> Forall (fun rec => io_buf rec = 0) recs) /\
    ppas w' = ppas w /\ flushed w' = flushed w.
Proof.
  intros Hc Hn Hlen Ha Hnext Hbrk. unfold app_pg_io.
  rewrite malloc_succeeds by exact Hnext.
  replace (brk (heap w) =? 0) with false by neq0.
  rewrite Hc, Ha. cbn [mbind option_bind].
  match goal with |- context [plane_loop _ _ _ _ _ _ _ _ ?w1] =>
    destruct (plane_loop_run c cmdtype plv (g_lun a) (g_blk a) (g_pg a)
                (n_of_planes (geometry c)) w1 Hn Hlen)
      as (recs & r & w' & E & Hiss & _ & Hp & Hf & Hrun & Hret);
    destruct (plane_loop_answered _ _ _ _ _ _ _ _ _ _ _ E) as (recs' & Hiss' & Hans & Hbuf)
  end.
  assert (recs' = recs) by (rewrite Hiss in Hiss'; exact (app_inv_head _ _ _ (eq_sym Hiss'))).
  subst recs'.
  rewrite E. exists recs, r. eexists. split; [reflexivity|].
  simpl. rewrite Hiss. simpl. split_and!; auto.
Qed.

(** C8: the commands [app_io_rsv_blk] submits, all on lun 0 with the
    block and page given: one per plane, planes 0, 1, ... in this order,
    each handed to [nvm_submit_sync_io]; the loop stops at the first one
    for which the media manager returns a status other than 0 and the call
    returns that status, 0 when every plane succeeded. *)
Theorem app_io_rsv_blk_commands (lch : app_channel) (c : nvm_channel)
  (cmdtype : mmgr_cmdtype) (plv : list Z) (blk pg : Z) (w : world) :
  ch lch = Some c -> 0 <= n_of_planes (geometry c) ->
  (is_erase cmdtype = false -> n_of_planes (geometry c) <= Z.of_nat (length plv)) ->
  next_succeeds (heap w) -> 0 < brk (heap w) ->
  exists recs r w',
    app_io_rsv_blk lch cmdtype plv blk pg w = Ok r w' /\
    issued w' = issued w ++ recs /\
    plane_run c cmdtype plv 0 blk pg (n_of_planes (geometry c)) recs /\
    Forall (fun rec => g_lun (cmd_ppa (io_cmd rec)) = 0) recs /\
    r = match last recs with Some rec => io_status rec | None => -1 end /\
    answered c recs (media w) (mem w) (media w') (mem w') /\
    (is_erase cmdtype = true -> Forall (fun rec => io_buf rec = 0) recs) /\
    ppas w' = ppas w /\ flushed w' = flushed w.
Proof.
  intros Hc Hn Hlen Hnext Hbrk. unfold app_io_rsv_blk.
  rewrite malloc_succeeds by exact Hnext.
  replace (brk (heap w) =? 0) with false by neq0.
  rewrite Hc.
  match goal with |- context [plane_loop _ _ _ _ _ _ _ _ ?w1] =>
    destruct (plane_loop_run c cmdtype plv 0 blk pg
                (n_of_planes (geometry c)) w1 Hn Hlen)
      as (recs & r & w' & E & Hiss & _ & Hp & Hf & Hrun & Hret);
    destruct (plane_loop_answered _ _ _ _ _ _ _ _ _ _ _ E) as (recs' & Hiss' & Hans & Hbuf)
  end.
  assert (recs' = recs) by (rewrite Hiss in Hiss'; exact (app_inv_head _ _ _ (eq_sym Hiss'))).
  subst recs'.
  rewrite E. exists recs, r. eexists. split; [reflexivity|].
  simpl. rewrite Hiss. simpl. split_and!; auto.
  apply Forall_lookup. intros i rec Hi. destruct Hrun as (Hcmd & _).
  destruct (Hcmd i rec Hi) as (H1 & _). rewrite H1. reflexivity.
Qed.

End PlaneIO.

(** * Bad-block table *)

Section BadBlockTable.
Context {HD : Header} {MM : MediaManager} {AG : AppGlobal}.

(** What [app_ftl_set_bbtbl] does for a location that passes its check. *)
Lemma app_ftl_set_bbtbl_spec (ppa value : Z) (a : nvm_ppa_addr)
  (lch : app_channel) (c : nvm_channel) (w : world) :
  ppas w !! ppa = Some a -> channels_get_fn (g_ch a) = Some lch -> ch lch = Some c ->
  g_blk a * n_of_planes (geometry c) + g_pl a
    <= blk_per_lun (geometry c) * n_of_planes (geometry c) - 1 ->
  exists w',
    app_ftl_set_bbtbl ppa value w = Ok 0 w' /\
    mem w' (bbtbl_cell lch c a) = value /\
    (forall x, x <> bbtbl_cell lch c a -> mem w' x = mem w x) /\
    (mem w (bbtbl_cell lch c a) = value -> flushed w' = flushed w) /\
    (mem w (bbtbl_cell lch c a) <> value ->
     exists r, flushed w' = flushed w ++ [(lch, r)] /\
               bbt_flush_fn lch (mem w') (media w) = (r, media w')).
Proof.
  intros Ha Hl Hc Hin. unfold app_ftl_set_bbtbl. rewrite Ha, Hl, Hc.
  replace (g_blk a * n_of_planes (geometry c) + g_pl a
           >? blk_per_lun (geometry c) * n_of_planes (geometry c) - 1) with false
    by (symmetry; rewrite Z.gtb_ltb; apply Z.ltb_ge; lia).
  fold (bbtbl_cell lch c a).
  destruct (Z.eqb_spec (mem w (bbtbl_cell lch c a)) value) as [He|Hne].
  - simpl. eexists. split; [reflexivity|]. simpl. rewrite Z.eqb_refl.
    split_and!; auto.
    + intros x Hx. replace (x =? bbtbl_cell lch c a) with false by neq0. reflexivity.
    + intros Hn. contradiction.
  - simpl.
    destruct (bbt_flush_fn lch
                (fun x => if x =? bbtbl_cell lch c a then value else mem w x) (media w))
      as [r mm'] eqn:Ef.
    eexists. split; [reflexivity|]. simpl. rewrite Z.eqb_refl.
    split_and!; auto.
    + intros x Hx. replace (x =? bbtbl_cell lch c a) with false by neq0. reflexivity.
    + intros He. contradiction.
    + intros _. exists r. auto.
Qed.

(** C3: [app_ftl_set_bbtbl] flushes once when the stored byte changes
    and not at all when it does not; whatever the flush returns, the
    table holds the new value and the call returns 0. *)
Theorem app_ftl_set_bbtbl_flush (ppa value : Z) (a : nvm_ppa_addr)
  (lch : app_channel) (c : nvm_channel) (w : world) :
  ppas w !! ppa = Some a -> channels_get_fn (g_ch a) = Some lch -> ch lch = Some c ->
  g_blk a * n_of_planes (geometry c) + g_pl a
    <= blk_per_lun (geometry c) * n_of_planes (geometry c) - 1 ->
  exists w',
    app_ftl_set_bbtbl ppa value w = Ok 0 w' /\
    mem w' (bbtbl_cell lch c a) = value /\
    (forall x, x <> bbtbl_cell lch c a -> mem w' x = mem w x) /\
    (mem w (bbtbl_cell lch c a) = value -> flushed w' = flushed w) /\
    (mem w (bbtbl_cell lch c a) <> value ->
     exists r, flushed w' = flushed w ++ [(lch, r)] /\
               bbt_flush_fn lch (mem w') (media w) = (r, media w')).
Proof. exact (app_ftl_set_bbtbl_spec ppa value a lch c w). Qed.

(** The length and output-pointer checks of [app_ftl_get_bbtbl] and the
    slice it copies, for a channel whose [ch] is not null. *)
Lemma app_ftl_get_bbtbl_spec (ppa bbtbl nb : Z) (a : nvm_ppa_addr)
  (lch : app_channel) (c : nvm_channel) (w : world) :
  ppas w !! ppa = Some a -> channels_get_fn (g_ch a) = Some lch -> ch lch = Some c ->
  0 <= n_of_planes (geometry c) < 2 ^ 16 ->
  0 <= blk_per_lun (geometry c) * n_of_planes (geometry c) < 2 ^ 32 ->
  (bbtbl = 0 \/ nb <> blk_per_lun (geometry c) * n_of_planes (geometry c) ->
   app_ftl_get_bbtbl ppa bbtbl nb w = Ok (-1) w) /\
  (bbtbl <> 0 -> nb = blk_per_lun (geometry c) * n_of_planes (geometry c) ->
   exists w',
     app_ftl_get_bbtbl ppa bbtbl nb w = Ok 0 w' /\
     (forall i, 0 <= i < nb ->
        mem w' (bbtbl + i) =
        mem w (bbtbl_tbl lch
               + g_lun a * blk_per_lun (geometry c) * n_of_planes (geometry c) + i)) /\
     (forall x, ~ (bbtbl <= x < bbtbl + nb) -> mem w' x = mem w x) /\
     heap w' = heap w /\ ppas w' = ppas w /\ media w' = media w /\
     issued w' = issued w /\ flushed w' = flushed w).
Proof.
  intros Ha Hl Hc Hn Hsz. unfold app_ftl_get_bbtbl. rewrite Ha, Hl, Hc.
  assert (Hland : Z.land (n_of_planes (geometry c)) 65535 = n_of_planes (geometry c)).
  { change 65535 with (Z.ones 16). rewrite Z.land_ones by lia. apply Z.mod_small. lia. }
  rewrite Hland. rewrite u32_small by lia. unfold nvm_memcheck_buf. simpl nvm_memcheck.
  split.
  - intros [Hb | Hnb].
    + subst bbtbl. reflexivity.
    + replace (nb =? _) with false by neq0. rewrite orb_true_r. reflexivity.
  - intros Hb Hnb. replace (bbtbl =? 0) with false by neq0.
    replace (nb =? _) with true by (symmetry; apply Z.eqb_eq; exact Hnb).
    simpl. eexists. split; [reflexivity|]. simpl. split_and!; auto.
    + intros i Hi. unfold memcpy. rewrite in_range_true by lia. f_equal. lia.
    + intros x Hx. unfold memcpy. rewrite in_range_false by lia. reflexivity.
Qed.

(** C9: a value stored by [app_ftl_set_bbtbl] is found by
    [app_ftl_get_bbtbl] for the same lun at [block * num_planes + plane]. *)
Theorem bbtbl_set_then_get (ppa ppa' value bbtbl nb : Z) (a a' : nvm_ppa_addr)
  (lch : app_channel) (c : nvm_channel) (w : world) :
  ppas w !! ppa = Some a -> ppas w !! ppa' = Some a' ->
  g_ch a' = g_ch a -> g_lun a' = g_lun a ->
  channels_get_fn (g_ch a) = Some lch -> ch lch = Some c ->
  0 <= n_of_planes (geometry c) < 2 ^ 16 ->
  0 <= blk_per_lun (geometry c) * n_of_planes (geometry c) < 2 ^ 32 ->
  0 <= g_blk a -> 0 <= g_pl a ->
  g_blk a * n_of_planes (geometry c) + g_pl a
    <= blk_per_lun (geometry c) * n_of_planes (geometry c) - 1 ->
  bbtbl <> 0 -> nb = blk_per_lun (geometry c) * n_of_planes (geometry c) ->
  exists w1 w2,
    app_ftl_set_bbtbl ppa value w = Ok 0 w1 /\
    app_ftl_get_bbtbl ppa' bbtbl nb w1 = Ok 0 w2 /\
    mem w2 (bbtbl + (g_blk a * n_of_planes (geometry c) + g_pl a)) = value.
Proof.
  intros Ha Ha' Hch Hlun Hl Hc Hn Hsz Hblk Hpl Hin Hb Hnb.
  destruct (app_ftl_set_bbtbl_spec ppa value a lch c w Ha Hl Hc Hin)
    as (w1 & E1 & Hcell & _ & _ & _).
  assert (Hp1 : ppas w1 = ppas w).
  { revert E1. unfold app_ftl_set_bbtbl. rewrite Ha, Hl, Hc.
    destruct (_ >? _); [intros H; inversion H|].
    destruct (negb _).
    - destruct (bbt_flush_fn _ _ _). intros H; inversion H; reflexivity.
    - intros H; inversion H; reflexivity. }
  assert (Ha1 : ppas w1 !! ppa' = Some a') by (rewrite Hp1; exact Ha').
  rewrite <- Hch in Hl.
  destruct (app_ftl_get_bbtbl_spec ppa' bbtbl nb a' lch c w1 Ha1 Hl Hc Hn Hsz)
    as (_ & Hget).
  destruct (Hget Hb Hnb) as (w2 & E2 & Hcopy & _).
  exists w1, w2. split; [exact E1|]. split; [exact E2|].
  rewrite Hcopy by nia. rewrite Hlun. rewrite <- Hcell. f_equal.
  unfold bbtbl_cell. lia.
Qed.

(** [app_ftl_get_bbtbl] reads the geometry through [ch] before it checks
    [ch]: with a null [ch] the call has no defined outcome. *)
Lemma app_ftl_get_bbtbl_null_ch (ppa bbtbl nb : Z) (a : nvm_ppa_addr)
  (lch : app_channel) (w : world) :
  ppas w !! ppa = Some a -> channels_get_fn (g_ch a) = Some lch -> ch lch = None ->
  app_ftl_get_bbtbl ppa bbtbl nb w = Undef.
Proof. intros Ha Hl Hc. unfold app_ftl_get_bbtbl. rewrite Ha, Hl, Hc. reflexivity. Qed.

End BadBlockTable.

(** * Sequential table transfer: address structures *)

Section Transfer.
Context {HD : Header} {MM : MediaManager}.

(** ** The address structures under a transfer *)

Lemma app_pg_io_returns (lch : app_channel) (c : nvm_channel)
  (cmdtype : mmgr_cmdtype) (plv : list Z) (ppa : Z) (a : nvm_ppa_addr) (w : world) :
  ch lch = Some c -> 0 <= n_of_planes (geometry c) ->
  (is_erase cmdtype = false -> n_of_planes (geometry c) <= Z.of_nat (length plv)) ->
  ppas w !! ppa = Some a ->
  exists r w', app_pg_io lch cmdtype plv ppa w = Ok r w' /\ ppas w' = ppas w.
Proof.
  intros Hc Hn Hlen Ha. unfold app_pg_io.
  destruct (malloc sizeof_io_cmd (heap w)) as [p h1].
  destruct (p =? 0); [eauto|]. rewrite Hc, Ha. cbn [mbind option_bind].
  destruct (plane_loop_run c cmdtype plv (g_lun a) (g_blk a) (g_pg a)
              (n_of_planes (geometry c)) (set_heap w h1) Hn Hlen)
    as (recs & r & w' & E & _ & _ & Hp & _).
  rewrite E. eexists _, _. split; [reflexivity|]. simpl. exact Hp.
Qed.

Lemma app_io_rsv_blk_returns (lch : app_channel) (c : nvm_channel)
  (cmdtype : mmgr_cmdtype) (plv : list Z) (blk pg : Z) (w : world) :
  ch lch = Some c -> 0 <= n_of_planes (geometry c) ->
  (is_erase cmdtype = false -> n_of_planes (geometry c) <= Z.of_nat (length plv)) ->
  exists r w', app_io_rsv_blk lch cmdtype plv blk pg w = Ok r w' /\ ppas w' = ppas w.
Proof.
  intros Hc Hn Hlen. unfold app_io_rsv_blk.
  destruct (malloc sizeof_io_cmd (heap w)) as [p h1].
  destruct (p =? 0); [eauto|]. rewrite Hc.
  destruct (plane_loop_run c cmdtype plv 0 blk pg
              (n_of_planes (geometry c)) (set_heap w h1) Hn Hlen)
    as (recs & r & w' & E & _ & _ & Hp & _).
  rewrite E. eexists _, _. split; [reflexivity|]. simpl. exact Hp.
Qed.

Lemma app_pg_io_switch_returns (lch : app_channel) (c : nvm_channel)
  (cmdtype : mmgr_cmdtype) (plv : list Z) (ppa : Z) (a : nvm_ppa_addr)
  (type : app_io_type) (w : world) :
  ch lch = Some c -> 0 <= n_of_planes (geometry c) ->
  (is_erase cmdtype = false -> n_of_planes (geometry c) <= Z.of_nat (length plv)) ->
  ppas w !! ppa = Some a ->
  exists r w', app_pg_io_switch lch cmdtype plv ppa type w = Ok r w' /\ ppas w' = ppas w.
Proof.
  intros Hc Hn Hlen Ha. destruct type as [| |code]; simpl.
  - eapply app_pg_io_returns; eauto.
  - rewrite Ha. eapply app_io_rsv_blk_returns; eauto.
  - unfold ret. eauto.
Qed.

Lemma transfer_planes_returns (io : app_io_data) (user_buf i pg_ent_sz ent_per_pg
  entry_sz : Z) (direction : app_direction) (k : nat) :
  forall (pl ent_left : Z) (m : memory),
  0 <= pl -> pl + Z.of_nat k <= Z.of_nat (length (pl_vec io)) -> pl + Z.of_nat k < 2 ^ 32 ->
  exists el m', transfer_planes io user_buf i pg_ent_sz ent_per_pg entry_sz direction
                  k pl ent_left m = Some (el, m').
Proof.
  induction k as [|k IH]; intros pl el m Hpl Hlen Hb; [simpl; eauto|].
  cbn [transfer_planes].
  destruct (arr_get_is_Some (pl_vec io) pl) as (p & Hp); [lia|].
  rewrite Hp. cbn [mbind option_bind].
  destruct (_ =? 0); [eauto|].
  rewrite u32_small by lia. apply IH; lia.
Qed.

Lemma transfer_pages_returns (io : app_io_data) (c : nvm_channel)
  (l user_buf pg_ent_sz ent_per_pg entry_sz : Z) (direction : app_direction)
  (reserved : app_io_type) (start_pg : Z) (k : nat) :
  ch (io_lch io) = Some c ->
  0 <= n_of_planes (geometry c) <= Z.of_nat (length (pl_vec io)) ->
  0 <= n_pl io <= Z.of_nat (length (pl_vec io)) -> n_pl io < 2 ^ 32 ->
  forall (i ent_left : Z) (w : world),
  is_Some (ppas w !! l) ->
  exists r w',
    transfer_pages io l user_buf pg_ent_sz ent_per_pg entry_sz direction reserved
      start_pg k i ent_left w = Ok r w' /\
    is_Some (ppas w' !! l) /\
    forall x, x <> l -> ppas w' !! x = ppas w !! x.
Proof.
  intros Hc Hn Hnpl Hnb.
  induction k as [|k IH]; intros i el w [a Ha]; [simpl; eauto|].
  cbn [transfer_pages]. rewrite Ha.
  set (w1 := set_ppas w (<[l:=set_g_pg a (u32 (start_pg + i))]> (ppas w))).
  assert (Ha1 : ppas w1 !! l = Some (set_g_pg a (u32 (start_pg + i))))
    by (simpl; apply lookup_insert_eq).
  assert (Hfr1 : forall x, x <> l -> ppas w1 !! x = ppas w !! x)
    by (intros x Hx; simpl; apply lookup_insert_ne; congruence).
  assert (Hrd : exists r w2,
            (if is_from_nvm direction
             then app_pg_io_switch (io_lch io) MMGR_READ_PG (pl_vec io) l reserved w1
             else Ok 0 w1) = Ok r w2 /\ ppas w2 = ppas w1).
  { destruct (is_from_nvm direction); [|eauto].
    eapply app_pg_io_switch_returns; eauto; intros; lia. }
  destruct Hrd as (r & w2 & Erd & Hp2). rewrite Erd.
  destruct (negb (r =? 0)).
  { eexists _, _. split; [reflexivity|]. rewrite Hp2. split; [eauto|exact Hfr1]. }
  destruct (transfer_planes_returns io user_buf i pg_ent_sz ent_per_pg entry_sz direction
              (Z.to_nat (n_pl io)) 0 el (mem w2)) as (el' & m3 & Etp); try lia.
  rewrite Etp.
  assert (Hwr : exists r' w4,
            (if is_to_nvm direction
             then app_pg_io_switch (io_lch io) MMGR_WRITE_PG (pl_vec io) l reserved
                    (set_mem w2 m3)
             else Ok 0 (set_mem w2 m3)) = Ok r' w4 /\ ppas w4 = ppas w1).
  { destruct (is_to_nvm direction).
    - destruct (app_pg_io_switch_returns (io_lch io) c MMGR_WRITE_PG (pl_vec io) l
                  (set_g_pg a (u32 (start_pg + i))) reserved (set_mem w2 m3))
        as (r' & w4 & E & Hp); auto; try lia.
      { simpl. rewrite Hp2. exact Ha1. }
      exists r', w4. split; [exact E|]. rewrite Hp. simpl. exact Hp2.
    - eexists _, _. split; [reflexivity|]. simpl. exact Hp2. }
  destruct Hwr as (r' & w4 & Ewr & Hp4). rewrite Ewr.
  destruct (negb (r' =? 0)).
  { eexists _, _. split; [reflexivity|]. rewrite Hp4. split; [eauto|exact Hfr1]. }
  destruct (IH (u32 (i + 1)) el' w4) as (r'' & w5 & E5 & Hs5 & Hfr5).
  { rewrite Hp4. eauto. }
  exists r'', w5. split; [exact E5|]. split; [exact Hs5|].
  intros x Hx. rewrite Hfr5 by exact Hx. rewrite Hp4. apply Hfr1. exact Hx.
Qed.

(** C10: [app_nvm_seq_transfer] returns and leaves the caller's address
    structure, like every other address structure, as it was. *)
Theorem app_nvm_seq_transfer_keeps_ppa (io : app_io_data) (c : nvm_channel)
  (ppa user_buf pgs ent_per_pg ent_left entry_sz : Z) (direction : app_direction)
  (reserved : app_io_type) (a : nvm_ppa_addr) (w : world) :
  ch (io_lch io) = Some c ->
  0 <= n_of_planes (geometry c) <= Z.of_nat (length (pl_vec io)) ->
  0 <= n_pl io <= Z.of_nat (length (pl_vec io)) -> n_pl io < 2 ^ 32 ->
  ppas w !! ppa = Some a ->
  exists r w',
    app_nvm_seq_transfer io ppa user_buf pgs ent_per_pg ent_left entry_sz
      direction reserved w = Ok r w' /\
    ppas w' !! ppa = Some a /\ ppas w' = ppas w.
Proof.
  intros Hc Hn Hnpl Hnb Ha. unfold app_nvm_seq_transfer. rewrite Ha.
  set (l := fresh (dom (ppas w))).
  assert (Hl : ppas w !! l = None).
  { apply not_elem_of_dom. apply is_fresh. }
  destruct (transfer_pages_returns io c l user_buf (usz (ent_per_pg * entry_sz))
              ent_per_pg entry_sz direction reserved (u32 (g_pg a)) (Z.to_nat pgs)
              Hc Hn Hnpl Hnb 0 ent_left (set_ppas w (<[l:=a]> (ppas w))))
    as (r & w' & E & _ & Hfr).
  { simpl. rewrite lookup_insert_eq. eauto. }
  rewrite E. eexists _, _. split; [reflexivity|].
  assert (Heq : delete l (ppas w') = ppas w).
  { apply map_eq. intros x. destruct (decide (x = l)) as [->|Hx].
    - rewrite lookup_delete_eq. symmetry. exact Hl.
    - rewrite lookup_delete_ne by congruence. rewrite Hfr by exact Hx.
      simpl. apply lookup_insert_ne. congruence. }
  simpl. rewrite Heq. auto.
Qed.

End Transfer.

(** * The flash media manager *)

Section Flash.
Context {HD : Header}.

Lemma plane_cmd_inj (c : nvm_channel) (lun blk pg i j : Z) :
  i <> j -> cmd_ppa (plane_cmd c lun blk pg i) <> cmd_ppa (plane_cmd c lun blk pg j).
Proof. intros Hij H. apply Hij. unfold plane_cmd in H. simpl in H. congruence. Qed.

(** The plane loop writing to good units stores every plane's buffer. *)
Lemma flash_write_planes (c : nvm_channel) (plv : list Z) (lun blk pg : Z)
  (P : Z -> Z) (k : nat) :
  forall (pl b ret : Z) (w : world),
  0 <= pl ->
  (forall i, pl <= i < pl + Z.of_nat k -> arr_get plv i = Some (P i)) ->
  (forall i, pl <= i < pl + Z.of_nat k ->
     fl_bad (media w) (cmd_ppa (plane_cmd c lun blk pg i)) = false) ->
  exists w',
    plane_loop c MMGR_WRITE_PG plv (Some (lun, blk, pg)) k pl b ret w
      = Ok (match k with O => ret | S _ => 0 end) w' /\
    heap w' = heap w /\ mem w' = mem w /\ ppas w' = ppas w /\
    fl_bad (media w') = fl_bad (media w) /\
    (forall i off, pl <= i < pl + Z.of_nat k -> 0 <= off < plane_bytes (geometry c) ->
       fl_data (media w') (cmd_ppa (plane_cmd c lun blk pg i)) off = mem w (P i + off)) /\
    (forall key off,
       (forall i, pl <= i < pl + Z.of_nat k -> key <> cmd_ppa (plane_cmd c lun blk pg i)) ->
       fl_data (media w') key off = fl_data (media w) key off).
Proof.
  induction k as [|k IH]; intros pl b ret w Hpl Hplv Hbad.
  - exists w. simpl. split_and!; auto. intros i off Hi. lia.
  - cbn [plane_loop is_erase]. rewrite (Hplv pl) by lia.
    cbn [nvm_submit_sync_io flash_mmgr flash_submit].
    fold (plane_cmd c lun blk pg pl). unfold flash_submit.
    rewrite (Hbad pl) by lia. cbn [Z.eqb].
    match goal with |- context [plane_loop _ _ _ _ k _ _ _ ?w1] =>
      destruct (IH (pl + 1) (P pl) 0 w1) as (w' & E & Hh & Hm & Hp & Hb & Hin & Hout)
    end; [lia | intros i Hi; apply Hplv; lia | intros i Hi; simpl; apply Hbad; lia |].
    exists w'. split.
    { rewrite E. destruct k; reflexivity. }
    simpl in Hh, Hm, Hp, Hb. split_and!; auto.
    + intros i off Hi Hoff. destruct (Z.eq_dec i pl) as [->|Hne].
      * rewrite Hout by (intros j Hj; apply plane_cmd_inj; lia).
        simpl. rewrite decide_True by reflexivity.
        rewrite in_range_true by lia. reflexivity.
      * rewrite Hin by lia. reflexivity.
    + intros key off Hkey. rewrite Hout by (intros j Hj; apply Hkey; lia).
      simpl. rewrite decide_False by (apply Hkey; lia). reflexivity.
Qed.

(** The plane loop reading good units loads every plane's buffer, the
    buffers being [S] bytes apart from [B]. *)
Lemma flash_read_planes (c : nvm_channel) (plv : list Z) (lun blk pg B : Z) (k : nat) :
  forall (pl b ret : Z) (w : world),
  0 <= pl -> 0 <= plane_bytes (geometry c) ->
  (forall i, pl <= i < pl + Z.of_nat k ->
     arr_get plv i = Some (B + i * plane_bytes (geometry c))) ->
  (forall i, pl <= i < pl + Z.of_nat k ->
     fl_bad (media w) (cmd_ppa (plane_cmd c lun blk pg i)) = false) ->
  exists w',
    plane_loop c MMGR_READ_PG plv (Some (lun, blk, pg)) k pl b ret w
      = Ok (match k with O => ret | S _ => 0 end) w' /\
    heap w' = heap w /\ media w' = media w /\ ppas w' = ppas w /\
    (forall i off, pl <= i < pl + Z.of_nat k -> 0 <= off < plane_bytes (geometry c) ->
       mem w' (B + i * plane_bytes (geometry c) + off)
       = fl_data (media w) (cmd_ppa (plane_cmd c lun blk pg i)) off) /\
    (forall x, ~ (B + pl * plane_bytes (geometry c) <= x
                  < B + (pl + Z.of_nat k) * plane_bytes (geometry c)) ->
       mem w' x = mem w x).
Proof.
  induction k as [|k IH]; intros pl b ret w Hpl HS Hplv Hbad.
  - exists w. simpl. split_and!; auto. intros i off Hi. lia.
  - cbn [plane_loop is_erase]. rewrite (Hplv pl) by lia.
    cbn [nvm_submit_sync_io flash_mmgr flash_submit].
    fold (plane_cmd c lun blk pg pl). unfold flash_submit.
    rewrite (Hbad pl) by lia. cbn [Z.eqb].
    match goal with |- context [plane_loop _ _ _ _ k _ _ _ ?w1] =>
      destruct (IH (pl + 1) (B + pl * plane_bytes (geometry c)) 0 w1)
        as (w' & E & Hh & Hmd & Hp & Hin & Hout)
    end; [lia | lia | intros i Hi; apply Hplv; lia | intros i Hi; simpl; apply Hbad; lia |].
    exists w'. split.
    { rewrite E. destruct k; reflexivity. }
    simpl in Hh, Hmd, Hp, Hin, Hout. split_and!; auto.
    + intros i off Hi Hoff. destruct (Z.eq_dec i pl) as [->|Hne].
      * rewrite Hout by nia.
        rewrite in_range_true by lia. f_equal. lia.
      * apply Hin; lia.
    + intros x Hx. rewrite Hout by nia.
      rewrite in_range_false by nia. reflexivity.
Qed.


Lemma heap_after_cmd (h : allocator) (sz : Z) :
  never_fails h -> 0 < brk h ->
  exists h1, malloc sz h = (brk h, h1) /\
    never_fails (free (brk h) h1) /\ 0 < brk (free (brk h) h1).
Proof.
  intros Hnf Hb. destruct (malloc_never_fails sz h Hnf) as (h1 & E & N1 & B1 & _).
  exists h1. split; [exact E|]. split; [exact N1 | simpl; lia].
Qed.

Lemma flash_switch_write (lch : app_channel) (c : nvm_channel) (plv : list Z)
  (l : Z) (reserved : app_io_type) (a al : nvm_ppa_addr) (i : Z) (P : Z -> Z)
  (w : world) :
  ch lch = Some c -> 1 <= n_of_planes (geometry c) ->
  (reserved = APP_IO_NORMAL \/ reserved = APP_IO_RESERVED) ->
  never_fails (heap w) -> 0 < brk (heap w) ->
  ppas w !! l = Some al ->
  g_lun al = g_lun a -> g_blk al = g_blk a ->
  (reserved = APP_IO_RESERVED -> u16 (g_pg al) = g_pg al) -> g_pg al = g_pg a + i ->
  (forall pl, 0 <= pl < n_of_planes (geometry c) -> arr_get plv pl = Some (P pl)) ->
  (forall pl, 0 <= pl < n_of_planes (geometry c) ->
     fl_bad (media w) (table_unit c reserved a i pl) = false) ->
  exists w',
    app_pg_io_switch lch MMGR_WRITE_PG plv l reserved w = Ok 0 w' /\
    never_fails (heap w') /\ 0 < brk (heap w') /\
    mem w' = mem w /\ ppas w' = ppas w /\
    fl_bad (media w') = fl_bad (media w) /\
    (forall pl off, 0 <= pl < n_of_planes (geometry c) ->
       0 <= off < plane_bytes (geometry c) ->
       fl_data (media w') (table_unit c reserved a i pl) off = mem w (P pl + off)) /\
    (forall key off,
       (forall pl, 0 <= pl < n_of_planes (geometry c) ->
          key <> table_unit c reserved a i pl) ->
       fl_data (media w') key off = fl_data (media w) key off).
Proof.
  intros Hc Hn Hres Hnf Hbrk Hl Hlun Hblk Hpg16 Hpg Hplv Hbad.
  destruct (heap_after_cmd (heap w) sizeof_io_cmd Hnf Hbrk) as (h1 & E & N1 & B1).
  assert (Hunit : forall pl, cmd_ppa (plane_cmd c (target_lun reserved a)
                    (target_blk reserved a) (g_pg a + i) pl) = table_unit c reserved a i pl)
    by reflexivity.
  destruct (flash_write_planes c plv (target_lun reserved a) (target_blk reserved a)
              (g_pg a + i) P (Z.to_nat (n_of_planes (geometry c))) 0 0 (-1) (set_heap w h1))
    as (w' & Ew & Hh & Hm & Hp & Hb & Hin & Hout); [lia | | |].
  { intros pl Hpl. apply Hplv. lia. }
  { intros pl Hpl. rewrite Hunit. simpl. apply Hbad. lia. }
  assert (Hk : match Z.to_nat (n_of_planes (geometry c)) with O => -1 | S _ => 0 end = 0)
    by (destruct (Z.to_nat (n_of_planes (geometry c))) eqn:Ek; [lia | reflexivity]).
  rewrite Hk in Ew.
  assert (Hgoal : exists w'',
    Ok 0 (set_heap w' (free (brk (heap w)) (heap w'))) = Ok 0 w'' /\
    never_fails (heap w'') /\ 0 < brk (heap w'') /\
    mem w'' = mem w /\ ppas w'' = ppas w /\
    fl_bad (media w'') = fl_bad (media w) /\
    (forall pl off, 0 <= pl < n_of_planes (geometry c) ->
       0 <= off < plane_bytes (geometry c) ->
       fl_data (media w'') (table_unit c reserved a i pl) off = mem w (P pl + off)) /\
    (forall key off,
       (forall pl, 0 <= pl < n_of_planes (geometry c) ->
          key <> table_unit c reserved a i pl) ->
       fl_data (media w'') key off = fl_data (media w) key off)).
  { eexists. split; [reflexivity|]. simpl in *. rewrite Hh. split_and!; auto.
    - intros pl off Hpl Hoff. rewrite <- Hunit. apply Hin; lia.
    - intros key off Hkey. apply Hout. intros pl Hpl. rewrite Hunit. apply Hkey. lia. }
  destruct Hres as [-> | ->]; cbn [app_pg_io_switch].
  - unfold app_pg_io. rewrite E.
    replace (brk (heap w) =? 0) with false by neq0.
    rewrite Hc, Hl. cbn [mbind option_bind].
    rewrite Hlun, Hblk, Hpg. simpl target_lun in Ew. simpl target_blk in Ew.
    rewrite Ew. exact Hgoal.
  - rewrite Hl. unfold app_io_rsv_blk. rewrite E.
    replace (brk (heap w) =? 0) with false by neq0.
    rewrite Hc. rewrite (Hpg16 eq_refl), Hblk, Hpg.
    simpl target_lun in Ew. simpl target_blk in Ew.
    rewrite Ew. exact Hgoal.
Qed.

Lemma flash_switch_read (lch : app_channel) (c : nvm_channel) (plv : list Z)
  (l : Z) (reserved : app_io_type) (a al : nvm_ppa_addr) (i B : Z) (w : world) :
  ch lch = Some c -> 1 <= n_of_planes (geometry c) -> 0 <= plane_bytes (geometry c) ->
  (reserved = APP_IO_NORMAL \/ reserved = APP_IO_RESERVED) ->
  never_fails (heap w) -> 0 < brk (heap w) ->
  ppas w !! l = Some al ->
  g_lun al = g_lun a -> g_blk al = g_blk a ->
  (reserved = APP_IO_RESERVED -> u16 (g_pg al) = g_pg al) -> g_pg al = g_pg a + i ->
  (forall pl, 0 <= pl < n_of_planes (geometry c) ->
     arr_get plv pl = Some (B + pl * plane_bytes (geometry c))) ->
  (forall pl, 0 <= pl < n_of_planes (geometry c) ->
     fl_bad (media w) (table_unit c reserved a i pl) = false) ->
  exists w',
    app_pg_io_switch lch MMGR_READ_PG plv l reserved w = Ok 0 w' /\
    never_fails (heap w') /\ 0 < brk (heap w') /\
    media w' = media w /\ ppas w' = ppas w /\
    (forall pl off, 0 <= pl < n_of_planes (geometry c) ->
       0 <= off < plane_bytes (geometry c) ->
       mem w' (B + pl * plane_bytes (geometry c) + off)
       = fl_data (media w) (table_unit c reserved a i pl) off) /\
    (forall x, ~ (B <= x < B + n_of_planes (geometry c) * plane_bytes (geometry c)) ->
       mem w' x = mem w x).
Proof.
  intros Hc Hn HS Hres Hnf Hbrk Hl Hlun Hblk Hpg16 Hpg Hplv Hbad.
  destruct (heap_after_cmd (heap w) sizeof_io_cmd Hnf Hbrk) as (h1 & E & N1 & B1).
  assert (Hunit : forall pl, cmd_ppa (plane_cmd c (target_lun reserved a)
                    (target_blk reserved a) (g_pg a + i) pl) = table_unit c reserved a i pl)
    by reflexivity.
  destruct (flash_read_planes c plv (target_lun reserved a) (target_blk reserved a)
              (g_pg a + i) B (Z.to_nat (n_of_planes (geometry c))) 0 0 (-1) (set_heap w h1))
    as (w' & Ew & Hh & Hmd & Hp & Hin & Hout); [lia | lia | | |].
  { intros pl Hpl. apply Hplv. lia. }
  { intros pl Hpl. rewrite Hunit. simpl. apply Hbad. lia. }
  assert (Hk : match Z.to_nat (n_of_planes (geometry c)) with O => -1 | S _ => 0 end = 0)
    by (destruct (Z.to_nat (n_of_planes (geometry c))) eqn:Ek; [lia | reflexivity]).
  rewrite Hk in Ew.
  assert (Hgoal : exists w'',
    Ok 0 (set_heap w' (free (brk (heap w)) (heap w'))) = Ok 0 w'' /\
    never_fails (heap w'') /\ 0 < brk (heap w'') /\
    media w'' = media w /\ ppas w'' = ppas w /\
    (forall pl off, 0 <= pl < n_of_planes (geometry c) ->
       0 <= off < plane_bytes (geometry c) ->
       mem w'' (B + pl * plane_bytes (geometry c) + off)
       = fl_data (media w) (table_unit c reserved a i pl) off) /\
    (forall x, ~ (B <= x < B + n_of_planes (geometry c) * plane_bytes (geometry c)) ->
       mem w'' x = mem w x)).
  { eexists. split; [reflexivity|]. simpl in *. rewrite Hh. split_and!; auto.
    - intros pl off Hpl Hoff. rewrite <- Hunit. apply Hin; lia.
    - intros x Hx. apply Hout. rewrite Z2Nat.id by lia. lia. }
  destruct Hres as [-> | ->]; cbn [app_pg_io_switch].
  - unfold app_pg_io. rewrite E.
    replace (brk (heap w) =? 0) with false by neq0.
    rewrite Hc, Hl. cbn [mbind option_bind].
    rewrite Hlun, Hblk, Hpg. simpl target_lun in Ew. simpl target_blk in Ew.
    rewrite Ew. exact Hgoal.
  - rewrite Hl. unfold app_io_rsv_blk. rewrite E.
    replace (brk (heap w) =? 0) with false by neq0.
    rewrite Hc. rewrite (Hpg16 eq_refl), Hblk, Hpg.
    simpl target_lun in Ew. simpl target_blk in Ew.
    rewrite Ew. exact Hgoal.
Qed.

End Flash.

(** * Sequential table transfer: the plane loop of one page *)


Section PlaneCopy.
Variables (io : app_io_data) (n e esz T S B N : Z).
Variables (i pges : Z).
Hypothesis Hn : n_pl io = n.
Hypothesis Hn1 : 1 <= n < 2 ^ 32.
Hypothesis He : 0 <= e.
Hypothesis Hesz : 0 <= esz.
Hypothesis HT : T = e * esz.
Hypothesis HTS : T <= S.
Hypothesis HN : 0 <= N < 2 ^ 32.
Hypothesis HN64 : N * esz < 2 ^ 64.
Hypothesis Hpges : pges = n * T.
Hypothesis Hi : 0 <= i.
Hypothesis Hpges64 : pges * (i + 1) < 2 ^ 64.
Hypothesis Hplv : forall pl, 0 <= pl < n -> arr_get (pl_vec io) pl = Some (B + pl * S).

Lemma plane_share : n * e / n = e /\ pges / n = T.
Proof.
  split; [|rewrite Hpges]; rewrite (Z.mul_comm n); apply Z.div_mul; lia.
Qed.

Lemma T_range : 0 <= T < 2 ^ 64.
Proof.
  assert (0 <= T) by nia.
  assert (T <= pges) by nia.
  assert (pges <= pges * (i + 1)) by nia.
  lia.
Qed.

(** To the flash: the table bytes of the planes reached are copied into
    the plane buffers; nothing else changes. *)
Lemma planes_to_nvm (ub : Z) (k : nat) :
  (forall y, 0 <= y < N * esz -> ~ (B <= ub + y < B + n * S)) ->
  forall (pl L : Z) (m : memory),
  0 <= pl -> pl + Z.of_nat k <= n -> 0 <= L <= N ->
  (0 < L -> pges * i + pl * T = (N - L) * esz) ->
  exists m',
    transfer_planes io ub i pges (n * e) esz APP_TRANS_TO_NVM k pl L m
      = Some (Z.max 0 (L - Z.of_nat k * e), m') /\
    (forall x, ~ (B + pl * S <= x < B + (pl + Z.of_nat k) * S) -> m' x = m x) /\
    (forall j off, 0 <= j < Z.of_nat k -> 0 <= off < T ->
       (N - L) * esz + j * T + off < N * esz ->
       m' (B + (pl + j) * S + off) = m (ub + (N - L) * esz + j * T + off)).
Proof.
  intros Hdisj. destruct plane_share as [Hper HpT]. pose proof T_range as HTr.
  induction k as [|k IH]; intros pl L m Hpl Hk HL Hrel.
  - exists m. simpl. replace (L - 0) with L by lia.
    split_and!; auto; [f_equal; f_equal; lia | intros j off Hj; lia].
  - cbn [transfer_planes is_to_nvm]. rewrite Hn, Hper, HpT.
    rewrite (Hplv pl) by lia. cbn [mbind option_bind].
    assert (Hmono1 : L < e -> 0 <= L * esz <= T) by (intros; nia).
    assert (Hmono2 : e <= L -> T <= L * esz) by (intros; nia).
    assert (HplT : 0 <= pl * T <= pges) by nia.
    rewrite (usz_small (pges * i)) by nia.
    rewrite (usz_small (pl * T)) by nia.
    set (trf := if L >=? e then usz (e * esz) else usz (L * esz)).
    assert (Htrf : trf = if L >=? e then T else L * esz).
    { unfold trf. rewrite Z.geb_leb.
      destruct (Z.leb_spec e L); rewrite usz_small; lia. }
    set (m1 := memcpy m (B + pl * S) (ub + pges * i + pl * T) trf).
    assert (Hm1out : forall x, ~ (B + pl * S <= x < B + pl * S + T) -> m1 x = m x).
    { intros x Hx. unfold m1, memcpy. rewrite in_range_false; [reflexivity|].
      rewrite Htrf, Z.geb_leb. destruct (Z.leb_spec e L); lia. }
    assert (Hm1in : forall off, 0 <= off < T -> (N - L) * esz + off < N * esz ->
              m1 (B + pl * S + off) = m (ub + (N - L) * esz + off)).
    { intros off Hoff Hlt. unfold m1, memcpy. rewrite in_range_true.
      - f_equal. assert (0 < L) by nia. specialize (Hrel H). lia.
      - rewrite Htrf, Z.geb_leb. destruct (Z.leb_spec e L); lia. }
    set (L1 := if L >=? e then u32 (L - e) else 0).
    assert (HL1 : L1 = Z.max 0 (L - e)).
    { unfold L1. rewrite Z.geb_leb. destruct (Z.leb_spec e L); [rewrite u32_small|]; lia. }
    destruct (Z.eqb_spec L1 0) as [Hz|Hnz].
    + exists m1. split; [do 2 f_equal; nia|]. split.
      * intros x Hx. apply Hm1out. nia.
      * intros j off Hj Hoff Hlt. destruct (Z.eq_dec j 0) as [->|Hj0].
        -- replace (pl + 0) with pl by lia. rewrite Hm1in by lia. f_equal. lia.
        -- exfalso. assert (L * esz <= T) by nia. nia.
    + rewrite u32_small by lia.
      destruct (IH (pl + 1) L1 m1) as (m' & E & Hout & Hin); try lia.
      exists m'. split; [rewrite E; do 2 f_equal; lia|]. split.
      * intros x Hx. rewrite Hout by nia. apply Hm1out. nia.
      * intros j off Hj Hoff Hlt. destruct (Z.eq_dec j 0) as [->|Hj0].
        -- replace (pl + 0) with pl by lia. rewrite Hout by nia.
           rewrite Hm1in by lia. f_equal. lia.
        -- replace (pl + j) with (pl + 1 + (j - 1)) by lia.
           rewrite Hin by nia.
           rewrite Hm1out.
           ++ f_equal. nia.
           ++ intros Hx.
              assert (HL1e : L1 = L - e) by lia.
              assert (HA : (N - L1) * esz = (N - L) * esz + T)
                by (rewrite HL1e, HT; ring).
              assert (0 <= (N - L) * esz) by (apply Z.mul_nonneg_nonneg; lia).
              assert (0 <= (j - 1) * T) by (apply Z.mul_nonneg_nonneg; lia).
              assert (0 <= pl * S) by (apply Z.mul_nonneg_nonneg; lia).
              assert ((pl + 1) * S <= n * S)
                by (apply Z.mul_le_mono_nonneg_r; lia).
              apply (Hdisj ((N - L1) * esz + (j - 1) * T + off)); lia.
Qed.

(** From the flash: the bytes of the plane buffers reached are copied to
    their place in the table; nothing else changes. *)
Lemma planes_from_nvm (dst : Z) (k : nat) :
  (forall y, 0 <= y < N * esz -> ~ (B <= dst + y < B + n * S)) ->
  forall (pl L : Z) (m : memory),
  0 <= pl -> pl + Z.of_nat k <= n -> 0 <= L <= N ->
  (0 < L -> pges * i + pl * T = (N - L) * esz) ->
  exists m',
    transfer_planes io dst i pges (n * e) esz APP_TRANS_FROM_NVM k pl L m
      = Some (Z.max 0 (L - Z.of_nat k * e), m') /\
    (forall x, ~ (dst + (N - L) * esz <= x
                  < dst + (N - Z.max 0 (L - Z.of_nat k * e)) * esz) -> m' x = m x) /\
    (forall j off, 0 <= j < Z.of_nat k -> 0 <= off < T ->
       (N - L) * esz + j * T + off < N * esz ->
       m' (dst + (N - L) * esz + j * T + off) = m (B + (pl + j) * S + off)).
Proof.
  intros Hdisj. destruct plane_share as [Hper HpT]. pose proof T_range as HTr.
  induction k as [|k IH]; intros pl L m Hpl Hk HL Hrel.
  - exists m. simpl. replace (L - 0) with L by lia.
    split_and!; auto; [f_equal; f_equal; lia | intros j off Hj; lia].
  - cbn [transfer_planes is_to_nvm]. rewrite Hn, Hper, HpT.
    rewrite (Hplv pl) by lia. cbn [mbind option_bind].
    assert (Hmono1 : L < e -> 0 <= L * esz <= T) by (intros; nia).
    assert (Hmono2 : e <= L -> T <= L * esz) by (intros; nia).
    assert (HplT : 0 <= pl * T <= pges) by nia.
    rewrite (usz_small (pges * i)) by nia.
    rewrite (usz_small (pl * T)) by nia.
    set (trf := if L >=? e then usz (e * esz) else usz (L * esz)).
    assert (Htrf : trf = if L >=? e then T else L * esz).
    { unfold trf. rewrite Z.geb_leb.
      destruct (Z.leb_spec e L); rewrite usz_small; lia. }
    set (L1 := if L >=? e then u32 (L - e) else 0).
    assert (HL1 : L1 = Z.max 0 (L - e)).
    { unfold L1. rewrite Z.geb_leb. destruct (Z.leb_spec e L); [rewrite u32_small|]; lia. }
    assert (Htrf' : trf = (L - L1) * esz).
    { rewrite Htrf, HL1, Z.geb_leb. destruct (Z.leb_spec e L); nia. }
    set (m1 := memcpy m (dst + pges * i + pl * T) (B + pl * S) trf).
    assert (Hm1out : forall x, ~ (dst + (N - L) * esz <= x < dst + (N - L1) * esz) ->
              m1 x = m x).
    { intros x Hx. unfold m1, memcpy. destruct (Z.eq_dec L 0) as [HL0|HL0].
      - rewrite in_range_false; [reflexivity|]. rewrite Htrf'. nia.
      - assert (HLp : 0 < L) by lia. specialize (Hrel HLp).
        rewrite in_range_false; [reflexivity|]. rewrite Htrf'. nia. }
    assert (Hm1in : forall off, 0 <= off < T -> (N - L) * esz + off < N * esz ->
              m1 (dst + (N - L) * esz + off) = m (B + pl * S + off)).
    { intros off Hoff Hlt. assert (HLp : 0 < L) by nia. specialize (Hrel HLp).
      unfold m1, memcpy. rewrite in_range_true.
      - f_equal. lia.
      - rewrite Htrf, Z.geb_leb. destruct (Z.leb_spec e L); lia. }
    assert (Hke : 0 <= Z.of_nat k * e) by (apply Z.mul_nonneg_nonneg; lia).
    assert (HNL : 0 <= (N - L) * esz) by (apply Z.mul_nonneg_nonneg; lia).
    assert (HL1esz : 0 <= L1 * esz) by (apply Z.mul_nonneg_nonneg; lia).
    destruct (Z.eqb_spec L1 0) as [Hz|Hnz].
    + assert (Hfin0 : Z.max 0 (L - Z.of_nat (Datatypes.S k) * e) = L1) by lia.
      rewrite Hfin0. exists m1. split; [reflexivity|]. split.
      * exact Hm1out.
      * intros j off Hj Hoff Hlt. destruct (Z.eq_dec j 0) as [->|Hj0].
        -- replace (pl + 0) with pl by lia. rewrite <- Hm1in by lia. f_equal. lia.
        -- exfalso.
           assert (L * esz <= T).
           { destruct (Z.lt_ge_cases L e) as [Hlt'|Hge]; [apply Hmono1; lia|].
             assert (L = e) by lia. subst L. lia. }
           assert (0 <= (j - 1) * T) by (apply Z.mul_nonneg_nonneg; lia).
           lia.
    + rewrite u32_small by lia.
      destruct (IH (pl + 1) L1 m1) as (m' & E & Hout & Hin); try lia.
      assert (Hfin : Z.max 0 (L1 - Z.of_nat k * e)
                     = Z.max 0 (L - Z.of_nat (Datatypes.S k) * e)) by lia.
      rewrite Hfin in *.
      assert (HL1e : L1 = L - e) by lia.
      assert (HA : (N - L1) * esz = (N - L) * esz + T) by (rewrite HL1e, HT; ring).
      assert (HLf : (N - L1) * esz
                    <= (N - Z.max 0 (L - Z.of_nat (Datatypes.S k) * e)) * esz)
        by (apply Z.mul_le_mono_nonneg_r; lia).
      exists m'. split; [rewrite E; reflexivity|]. split.
      * intros x Hx. rewrite Hout by lia. apply Hm1out. lia.
      * intros j off Hj Hoff Hlt. destruct (Z.eq_dec j 0) as [->|Hj0].
        -- replace (pl + 0) with pl by lia. rewrite Hout by lia.
           rewrite <- Hm1in by lia. f_equal. lia.
        -- replace (dst + (N - L) * esz + j * T + off)
             with (dst + (N - L1) * esz + (j - 1) * T + off) by lia.
           rewrite Hin by lia.
           replace (pl + 1 + (j - 1)) with (pl + j) by lia.
           apply Hm1out.
           intros Hx.
           assert (0 <= (pl + j) * S) by (apply Z.mul_nonneg_nonneg; lia).
           assert ((pl + j + 1) * S <= n * S)
             by (apply Z.mul_le_mono_nonneg_r; lia).
           apply (Hdisj (B + (pl + j) * S + off - dst)); lia.
Qed.

End PlaneCopy.

(** * Sequential table transfer: the page loop *)

Section PageLoop.
Context {HD : Header}.
Variables (io : app_io_data) (c : nvm_channel) (reserved : app_io_type)
  (a : nvm_ppa_addr) (l : Z).
Variables (n e esz T B N pgs : Z).
Hypothesis Hc : ch (io_lch io) = Some c.
Hypothesis Hnc : n_of_planes (geometry c) = n.
Hypothesis Hn : n_pl io = n.
Hypothesis Hn1 : 1 <= n < 2 ^ 32.
Hypothesis He : 0 <= e.
Hypothesis Hesz : 0 <= esz.
Hypothesis HT : T = e * esz.
Hypothesis HTS : T <= plane_bytes (geometry c).
Hypothesis HN : 0 <= N < 2 ^ 32.
Hypothesis Hpgs : 0 <= pgs < 2 ^ 16.
Hypothesis Hspan : n * T * pgs < 2 ^ 64.
Hypothesis HNspan : N <= pgs * (n * e).
Hypothesis Hplv : forall pl, 0 <= pl < n ->
  arr_get (pl_vec io) pl = Some (B + pl * plane_bytes (geometry c)).
Hypothesis Hres : reserved = APP_IO_NORMAL \/ reserved = APP_IO_RESERVED.
Hypothesis Hpg : 0 <= g_pg a /\ g_pg a + pgs <= page_limit reserved.


Lemma table_unit_inj (i i' pl pl' : Z) :
  table_unit c reserved a i pl = table_unit c reserved a i' pl' -> i = i' /\ pl = pl'.
Proof. unfold table_unit. intros H. inversion H. split; lia. Qed.

Lemma page_limit_32 : page_limit reserved <= 2 ^ 32.
Proof. destruct reserved; simpl; lia. Qed.

Lemma T_nonneg : 0 <= T.
Proof. rewrite HT. apply Z.mul_nonneg_nonneg; assumption. Qed.

Lemma span_facts (i : Z) :
  0 <= i < pgs -> 0 <= n * T * i /\ n * T * (i + 1) < 2 ^ 64 /\ N * esz < 2 ^ 64.
Proof.
  intros Hi. pose proof T_nonneg as HT0.
  assert (0 <= n * T) by (apply Z.mul_nonneg_nonneg; lia).
  assert (n * T * (i + 1) <= n * T * pgs) by (apply Z.mul_le_mono_nonneg_l; lia).
  assert (N * esz <= pgs * (n * e) * esz) by (apply Z.mul_le_mono_nonneg_r; lia).
  assert (pgs * (n * e) * esz = n * T * pgs) by (rewrite HT; ring).
  split; [apply Z.mul_nonneg_nonneg; lia | lia].
Qed.

Lemma left_rel (i : Z) :
  0 <= i -> 0 < (entries_left N (n * e)) i -> n * T * i + 0 * T = (N - (entries_left N (n * e)) i) * esz.
Proof.
  unfold entries_left. intros Hi Hl.
  replace (Z.max 0 (N - i * (n * e))) with (N - i * (n * e)) by lia.
  rewrite HT. ring.
Qed.

Lemma left_next (i : Z) :
  0 <= i -> Z.max 0 ((entries_left N (n * e)) i - Z.of_nat (Z.to_nat n) * e) = (entries_left N (n * e)) (i + 1).
Proof.
  unfold entries_left. intros Hi. rewrite Z2Nat.id by lia.
  assert (0 <= n * e) by (apply Z.mul_nonneg_nonneg; lia).
  replace ((i + 1) * (n * e)) with (i * (n * e) + n * e) by ring. lia.
Qed.

(** To the flash, pages [i .. i + k): every page gets its share of the
    table; the table in memory and the rest of the flash stay. *)
Lemma pages_to_nvm (ub : Z) (k : nat) :
  (forall y, 0 <= y < N * esz -> ~ (B <= ub + y < B + n * (plane_bytes (geometry c)))) ->
  forall (i : Z) (w : world) (al : nvm_ppa_addr),
  0 <= i -> i + Z.of_nat k <= pgs ->
  never_fails (heap w) -> 0 < brk (heap w) ->
  ppas w !! l = Some al -> g_lun al = g_lun a -> g_blk al = g_blk a ->
  (forall i' pl, i <= i' < i + Z.of_nat k -> 0 <= pl < n ->
     fl_bad (media w) (table_unit c reserved a i' pl) = false) ->
  exists w',
    transfer_pages io l ub (n * T) (n * e) esz APP_TRANS_TO_NVM reserved (g_pg a)
      k i ((entries_left N (n * e)) i) w = Ok 0 w' /\
    never_fails (heap w') /\ 0 < brk (heap w') /\
    fl_bad (media w') = fl_bad (media w) /\
    (forall x, ~ (B <= x < B + n * (plane_bytes (geometry c))) -> mem w' x = mem w x) /\
    (forall i' pl off, i <= i' < i + Z.of_nat k -> 0 <= pl < n -> 0 <= off < T ->
       (i' * n + pl) * T + off < N * esz ->
       fl_data (media w') (table_unit c reserved a i' pl) off
       = mem w (ub + ((i' * n + pl) * T + off))) /\
    (forall key off,
       (forall i' pl, i <= i' < i + Z.of_nat k -> 0 <= pl < n ->
          key <> table_unit c reserved a i' pl) ->
       fl_data (media w') key off = fl_data (media w) key off).
Proof.
  intros Hdisj. pose proof T_nonneg as HT0. pose proof page_limit_32 as Hlim.
  induction k as [|k IH]; intros i w al Hi Hk Hnf Hbrk Hl Hlun Hblk Hbad.
  - exists w. simpl. split_and!; auto. intros i' pl off Hi'. lia.
  - cbn [transfer_pages is_from_nvm is_to_nvm]. rewrite Hl.
    rewrite (u32_small (g_pg a + i)) by lia.
    set (al' := set_g_pg al (g_pg a + i)).
    set (w1 := set_ppas w (<[l:=al']> (ppas w))).
    cbn [Z.eqb negb]. rewrite Hn.
    destruct (span_facts i ltac:(lia)) as (Hs1 & Hs2 & Hs3).
    assert (HLr : 0 <= (entries_left N (n * e)) i <= N).
    { unfold entries_left.
      assert (0 <= i * (n * e)) by (apply Z.mul_nonneg_nonneg; nia). lia. }
    destruct (planes_to_nvm io n e esz T (plane_bytes (geometry c)) B N i (n * T) Hn Hn1 He Hesz HT HTS HN Hs3
                eq_refl Hi Hs2 Hplv ub (Z.to_nat n) Hdisj 0 ((entries_left N (n * e)) i) (mem w1)
                ltac:(lia) ltac:(lia) HLr (left_rel i Hi))
      as (m3 & Epl & Hm3out & Hm3in).
    rewrite Epl, left_next by exact Hi.
    destruct (flash_switch_write (io_lch io) c (pl_vec io) l reserved a al' i
                (fun pl => B + pl * (plane_bytes (geometry c))) (set_mem w1 m3))
      as (w4 & Ew & N4 & B4 & M4 & P4 & Bd4 & F4in & F4out); auto; try (rewrite Hnc; lia).
    { simpl. apply lookup_insert_eq. }
    { intros Hr. subst reserved. simpl in Hpg. simpl. apply u16_small. lia. }
    { rewrite Hnc. exact Hplv. }
    { rewrite Hnc. intros pl Hpl. simpl. apply Hbad; lia. }
    rewrite Ew. cbn [Z.eqb negb]. rewrite (u32_small (i + 1)) by lia.
    destruct (IH (i + 1) w4 al') as (w' & E & N' & B' & Bd' & M' & Fin' & Fout');
      try lia; auto.
    { rewrite P4. simpl. apply lookup_insert_eq. }
    { intros i' pl Hi' Hpl. rewrite Bd4. simpl. apply Hbad; lia. }
    rewrite Hnc in F4in, F4out.
    assert (Hmem4 : forall x, ~ (B <= x < B + n * (plane_bytes (geometry c))) -> mem w4 x = mem w x).
    { intros x Hx. rewrite M4. simpl. apply Hm3out. lia. }
    exists w'. split; [exact E|]. split_and!; auto.
    + rewrite Bd', Bd4. reflexivity.
    + intros x Hx. rewrite M' by exact Hx. apply Hmem4. exact Hx.
    + intros i' pl off Hi' Hpl Hoff Hlt. destruct (Z.eq_dec i' i) as [->|Hne].
      * rewrite Fout'.
        2:{ intros i'' pl'' Hi'' Hpl'' Heq. apply table_unit_inj in Heq. lia. }
        rewrite F4in by lia. simpl.
        assert (Hpos : 0 < (entries_left N (n * e)) i).
        { unfold entries_left. assert (0 <= pl * T) by (apply Z.mul_nonneg_nonneg; lia).
          assert (i * (n * e) * esz < N * esz).
          { replace (i * (n * e) * esz) with (i * n * T) by (rewrite HT; ring).
            replace ((i * n + pl) * T) with (i * n * T + pl * T) in Hlt by ring. lia. }
          assert (i * (n * e) < N) by (apply (Z.mul_lt_mono_pos_r esz); nia).
          lia. }
        pose proof (left_rel i Hi Hpos) as Hrel.
        replace (B + pl * (plane_bytes (geometry c)) + off) with (B + (0 + pl) * (plane_bytes (geometry c)) + off) by (f_equal; lia).
        rewrite Hm3in; [f_equal; nia | lia | lia |].
        replace ((i * n + pl) * T) with (n * T * i + pl * T) in Hlt by ring. lia.
      * rewrite Fin' by lia. apply Hmem4.
        assert (0 <= (i' * n + pl) * T) by (apply Z.mul_nonneg_nonneg; nia).
        apply Hdisj. lia.
    + intros key off Hkey. rewrite Fout' by (intros i' pl Hi' Hpl; apply Hkey; lia).
      apply F4out. intros pl Hpl. apply Hkey; lia.
Qed.


Lemma left_mono (i j : Z) : 0 <= i <= j -> 0 <= (entries_left N (n * e)) j <= (entries_left N (n * e)) i /\ (entries_left N (n * e)) i <= N.
Proof.
  intros Hij. unfold entries_left.
  assert (0 <= n * e) by (apply Z.mul_nonneg_nonneg; lia).
  assert (i * (n * e) <= j * (n * e)) by (apply Z.mul_le_mono_nonneg_r; lia).
  assert (0 <= i * (n * e)) by (apply Z.mul_nonneg_nonneg; lia).
  lia.
Qed.

Lemma done_mono (i j : Z) :
  0 <= i <= j ->
  0 <= (N - (entries_left N (n * e)) i) * esz <= (N - (entries_left N (n * e)) j) * esz /\
  (N - (entries_left N (n * e)) j) * esz <= N * esz.
Proof.
  intros Hij. destruct (left_mono i j Hij) as (H1 & H2).
  assert (0 <= (N - (entries_left N (n * e)) i) * esz) by (apply Z.mul_nonneg_nonneg; lia).
  assert ((N - (entries_left N (n * e)) i) * esz <= (N - (entries_left N (n * e)) j) * esz)
    by (apply Z.mul_le_mono_nonneg_r; lia).
  assert ((N - (entries_left N (n * e)) j) * esz <= N * esz) by (apply Z.mul_le_mono_nonneg_r; lia).
  lia.
Qed.

Lemma done_step (i : Z) :
  0 <= i -> (N - (entries_left N (n * e)) (i + 1)) * esz - (N - (entries_left N (n * e)) i) * esz <= n * T.
Proof.
  intros Hi. unfold entries_left.
  assert (0 <= n * e) by (apply Z.mul_nonneg_nonneg; lia).
  assert (0 <= i * (n * e)) by (apply Z.mul_nonneg_nonneg; lia).
  replace ((i + 1) * (n * e)) with (i * (n * e) + n * e) by ring.
  replace ((N - Z.max 0 (N - (i * (n * e) + n * e))) * esz
           - (N - Z.max 0 (N - i * (n * e))) * esz)
    with ((Z.max 0 (N - i * (n * e)) - Z.max 0 (N - (i * (n * e) + n * e))) * esz) by ring.
  replace (n * T) with (n * e * esz) by (rewrite HT; ring).
  apply Z.mul_le_mono_nonneg_r; lia.
Qed.

(** From the flash, pages [i .. i + k): the part of the table these
    pages hold arrives at its place; only the table and the I/O buffer
    are written. *)
Lemma pages_from_nvm (dst : Z) (src : Z -> Z) (k : nat) :
  (forall y, 0 <= y < N * esz -> ~ (B <= dst + y < B + n * (plane_bytes (geometry c)))) ->
  forall (i : Z) (w : world) (al : nvm_ppa_addr),
  0 <= i -> i + Z.of_nat k <= pgs ->
  never_fails (heap w) -> 0 < brk (heap w) ->
  ppas w !! l = Some al -> g_lun al = g_lun a -> g_blk al = g_blk a ->
  (forall i' pl, i <= i' < i + Z.of_nat k -> 0 <= pl < n ->
     fl_bad (media w) (table_unit c reserved a i' pl) = false) ->
  table_stored (media w) c reserved a n T (N * esz) pgs src ->
  exists w',
    transfer_pages io l dst (n * T) (n * e) esz APP_TRANS_FROM_NVM reserved (g_pg a)
      k i ((entries_left N (n * e)) i) w = Ok 0 w' /\
    never_fails (heap w') /\ 0 < brk (heap w') /\ media w' = media w /\
    (forall y, (N - (entries_left N (n * e)) i) * esz <= y < (N - (entries_left N (n * e)) (i + Z.of_nat k)) * esz ->
       mem w' (dst + y) = src y) /\
    (forall x, ~ (dst + (N - (entries_left N (n * e)) i) * esz <= x
                  < dst + (N - (entries_left N (n * e)) (i + Z.of_nat k)) * esz) ->
       ~ (B <= x < B + n * (plane_bytes (geometry c))) -> mem w' x = mem w x).
Proof.
  intros Hdisj. pose proof T_nonneg as HT0. pose proof page_limit_32 as Hlim.
  induction k as [|k IH]; intros i w al Hi Hk Hnf Hbrk Hl Hlun Hblk Hbad Hst.
  - exists w. cbn [transfer_pages]. replace (i + Z.of_nat 0) with i by lia.
    split_and!; auto. intros y Hy. lia.
  - cbn [transfer_pages is_from_nvm is_to_nvm]. rewrite Hl.
    rewrite (u32_small (g_pg a + i)) by lia.
    set (al' := set_g_pg al (g_pg a + i)).
    set (w1 := set_ppas w (<[l:=al']> (ppas w))).
    destruct (flash_switch_read (io_lch io) c (pl_vec io) l reserved a al' i B w1)
      as (w2 & Er & N2 & B2 & Md2 & P2 & R2in & R2out); auto;
      try lia; try (rewrite Hnc; lia).
    { simpl. apply lookup_insert_eq. }
    { intros Hr. subst reserved. simpl in Hpg. simpl. apply u16_small. lia. }
    { rewrite Hnc. exact Hplv. }
    { rewrite Hnc. intros pl Hpl. simpl. apply Hbad; lia. }
    rewrite Er. cbn [Z.eqb negb]. rewrite Hn.
    rewrite Hnc in R2in, R2out.
    destruct (span_facts i ltac:(lia)) as (Hs1 & Hs2 & Hs3).
    destruct (left_mono i i ltac:(lia)) as (HLr1 & HLr2).
    destruct (planes_from_nvm io n e esz T (plane_bytes (geometry c)) B N i (n * T) Hn Hn1 He Hesz HT HTS HN Hs3
                eq_refl Hi Hs2 Hplv dst (Z.to_nat n) Hdisj 0 ((entries_left N (n * e)) i) (mem w2)
                ltac:(lia) ltac:(lia) ltac:(lia) (left_rel i Hi))
      as (m3 & Epl & Hm3out & Hm3in).
    rewrite left_next in Epl, Hm3out by exact Hi.
    rewrite Epl. cbn [Z.eqb negb]. rewrite (u32_small (i + 1)) by lia.
    destruct (IH (i + 1) (set_mem w2 m3) al') as (w' & E & N' & B' & Md' & C' & F');
      try lia; auto.
    { simpl. rewrite P2. simpl. apply lookup_insert_eq. }
    { intros i' pl Hi' Hpl. simpl. rewrite Md2. simpl. apply Hbad; lia. }
    { simpl. rewrite Md2. exact Hst. }
    replace (i + 1 + Z.of_nat k) with (i + Z.of_nat (Datatypes.S k)) in C', F' by lia.
    destruct (done_mono i (i + 1) ltac:(lia)) as (D1 & D2).
    destruct (done_mono (i + 1) (i + Z.of_nat (Datatypes.S k)) ltac:(lia)) as (D3 & D4).
    pose proof (done_step i Hi) as D5.
    exists w'. split; [exact E|]. split_and!; auto.
    + rewrite Md'. simpl. rewrite Md2. reflexivity.
    + intros y Hy.
      destruct (Z.lt_ge_cases y ((N - (entries_left N (n * e)) (i + 1)) * esz)) as [Hlo|Hhi];
        [|apply C'; lia].
      rewrite F'; [|lia|apply Hdisj; lia]. simpl.
      assert (Hpos : 0 < (entries_left N (n * e)) i).
      { destruct (Z.eq_dec ((entries_left N (n * e)) i) 0) as [Hz|Hz]; [|lia].
        destruct (left_mono i (i + 1) ltac:(lia)) as (Hm1 & _). exfalso.
        assert ((entries_left N (n * e)) (i + 1) = 0) by lia. lia. }
      pose proof (left_rel i Hi Hpos) as Hrel.
      set (y' := y - (N - (entries_left N (n * e)) i) * esz).
      assert (Hy' : 0 <= y' < n * T) by (unfold y'; lia).
      assert (HTpos : 0 < T) by nia.
      assert (Hj : 0 <= y' / T < n).
      { split; [apply Z.div_pos; lia | apply Z.div_lt_upper_bound; lia]. }
      pose proof (Z.mod_pos_bound y' T HTpos) as Hoff.
      pose proof (Z.div_mod y' T ltac:(lia)) as Hdm.
      replace (dst + y) with (dst + (N - (entries_left N (n * e)) i) * esz + (y' / T) * T + y' mod T)
        by (unfold y' in *; lia).
      rewrite Hm3in; [| lia | lia | unfold y' in *; lia].
      replace (0 + y' / T) with (y' / T) by lia.
      rewrite R2in by lia. simpl.
      rewrite Hst; [f_equal; unfold y' in *; nia | lia | lia | lia |].
      replace ((i * n + y' / T) * T) with (n * T * i + (y' / T) * T) by ring.
      unfold y' in *. lia.
    + intros x Hx HxB. rewrite F' by (try exact HxB; lia). simpl.
      rewrite Hm3out by lia. apply R2out. exact HxB.
Qed.

End PageLoop.

(** * Sequential table transfer: round trip *)

Section RoundTrip.
Context {HD : Header}.

Lemma entries_left_0 (N per : Z) : 0 <= N -> entries_left N per 0 = N.
Proof. intros H. unfold entries_left. lia. Qed.

Lemma entries_left_end (N per pgs : Z) : N <= pgs * per -> entries_left N per pgs = 0.
Proof. intros H. unfold entries_left. lia. Qed.

(** C2, as amended: with an entry count per page that is a multiple of the
    plane count, a table written to the flash and read back with the same
    parameters arrives as it was. *)
Theorem seq_transfer_round_trip (io : app_io_data) (c : nvm_channel)
  (reserved : app_io_type) (ppa : Z) (a : nvm_ppa_addr)
  (ub dst pgs e N esz : Z) (w : world) :
  ch (io_lch io) = Some c ->
  n_pl io = n_of_planes (geometry c) -> 1 <= n_of_planes (geometry c) < 2 ^ 32 ->
  (forall pl, 0 <= pl < n_of_planes (geometry c) ->
     arr_get (pl_vec io) pl = Some (buf io + pl * plane_bytes (geometry c))) ->
  reserved = APP_IO_NORMAL \/ reserved = APP_IO_RESERVED ->
  0 <= e -> n_of_planes (geometry c) * e < 2 ^ 16 ->
  0 <= esz -> e * esz <= plane_bytes (geometry c) ->
  0 <= N < 2 ^ 32 -> 0 <= pgs < 2 ^ 16 -> N <= pgs * (n_of_planes (geometry c) * e) ->
  n_of_planes (geometry c) * e * esz < 2 ^ 64 ->
  n_of_planes (geometry c) * (e * esz) * pgs < 2 ^ 64 ->
  0 <= g_pg a /\ g_pg a + pgs <= page_limit reserved -> g_pg a < 2 ^ 32 ->
  (forall y, 0 <= y < N * esz ->
     ~ (buf io <= ub + y
        < buf io + n_of_planes (geometry c) * plane_bytes (geometry c))) ->
  (forall y, 0 <= y < N * esz ->
     ~ (buf io <= dst + y
        < buf io + n_of_planes (geometry c) * plane_bytes (geometry c))) ->
  ppas w !! ppa = Some a -> never_fails (heap w) -> 0 < brk (heap w) ->
  (forall i pl, 0 <= i < pgs -> 0 <= pl < n_of_planes (geometry c) ->
     fl_bad (media w) (table_unit c reserved a i pl) = false) ->
  exists w1,
    app_nvm_seq_transfer io ppa ub pgs (n_of_planes (geometry c) * e) N esz
      APP_TRANS_TO_NVM reserved w = Ok 0 w1 /\
    table_stored (media w1) c reserved a (n_of_planes (geometry c)) (e * esz)
      (N * esz) pgs (fun y => mem w (ub + y)) /\
    forall w2 : world,
      media w2 = media w1 -> ppas w2 !! ppa = Some a ->
      never_fails (heap w2) -> 0 < brk (heap w2) ->
      exists w3,
        app_nvm_seq_transfer io ppa dst pgs (n_of_planes (geometry c) * e) N esz
          APP_TRANS_FROM_NVM reserved w2 = Ok 0 w3 /\
        forall y, 0 <= y < N * esz -> mem w3 (dst + y) = mem w (ub + y).
Proof.
  intros Hc Hn Hn1 Hplv Hres He Hepp Hesz HTS HN Hpgs HNspan Hpe Hspan Hpg Hpg32
    Hdu Hdd Ha Hnf Hbrk Hbad.
  set (n := n_of_planes (geometry c)) in *.
  assert (Hlim : page_limit reserved <= 2 ^ 32) by (destruct reserved; simpl; lia).
  assert (Hpges : usz (n * e * esz) = n * (e * esz)).
  { replace (n * (e * esz)) with (n * e * esz) by ring. apply usz_small.
    split; [|lia]. apply Z.mul_nonneg_nonneg; [apply Z.mul_nonneg_nonneg|]; lia. }
  assert (Hstart : u32 (g_pg a) = g_pg a) by (apply u32_small; lia).
  unfold app_nvm_seq_transfer. rewrite Ha, Hpges, Hstart.
  set (l := fresh (dom (ppas w))).
  destruct (pages_to_nvm io c reserved a l n e esz (e * esz) (buf io) N pgs
              Hc eq_refl Hn Hn1 He Hesz eq_refl HTS HN Hpgs Hspan HNspan Hplv Hres Hpg
              ub (Z.to_nat pgs) Hdu 0 (set_ppas w (<[l:=a]> (ppas w))) a)
    as (w1 & E1 & N1 & B1 & Bd1 & M1 & Fin1 & _); auto; try lia.
  { simpl. apply lookup_insert_eq. }
  { intros i pl Hi Hpl. simpl. apply Hbad; lia. }
  rewrite entries_left_0 in E1 by lia. rewrite E1.
  eexists. split; [reflexivity|].
  assert (Hst : table_stored (media w1) c reserved a n (e * esz) (N * esz) pgs
                  (fun y => mem w (ub + y))).
  { intros i pl off Hi Hpl Hoff Hlt. rewrite Fin1 by lia. reflexivity. }
  split; [exact Hst|].
  intros w2 Hmd Ha2 Hnf2 Hbrk2. rewrite Ha2, Hstart.
  set (l2 := fresh (dom (ppas w2))).
  destruct (pages_from_nvm io c reserved a l2 n e esz (e * esz) (buf io) N pgs
              Hc eq_refl Hn Hn1 He Hesz eq_refl HTS HN Hpgs Hspan HNspan Hplv Hres Hpg
              dst (fun y => mem w (ub + y)) (Z.to_nat pgs) Hdd 0
              (set_ppas w2 (<[l2:=a]> (ppas w2))) a)
    as (w3 & E3 & N3 & B3 & Md3 & C3 & _); auto; try lia.
  { simpl. apply lookup_insert_eq. }
  { intros i pl Hi Hpl. simpl. simpl in Hmd. rewrite Hmd, Bd1. simpl. apply Hbad; lia. }
  { simpl. simpl in Hmd. rewrite Hmd. exact Hst. }
  rewrite entries_left_0 in E3, C3 by lia. rewrite E3.
  eexists. split; [reflexivity|]. simpl.
  intros y Hy. apply C3. rewrite Z.add_0_l, Z2Nat.id by lia.
  rewrite entries_left_end by lia. lia.
Qed.

End RoundTrip.

(** * Recency scan *)

Lemma bounded_search (f : Z -> bool) (k : nat) :
  (forall j, 0 <= j < Z.of_nat k -> f j = false) \/
  (exists j, 0 <= j < Z.of_nat k /\ f j = true).
Proof.
  induction k as [|k [IH | (j & Hj & Hf)]].
  - left. intros j Hj. lia.
  - destruct (f (Z.of_nat k)) eqn:E.
    + right. exists (Z.of_nat k). split; [lia | exact E].
    + left. intros j Hj. destruct (Z.eq_dec j (Z.of_nat k)) as [->|Hne]; [exact E|].
      apply IH. lia.
  - right. exists j. split; [lia | exact Hf].
Qed.

Section Scan.
Context {HD : Header}.

(** The plane loop reading a page with a bad unit returns an error. *)
Lemma flash_read_planes_bad (c : nvm_channel) (plv : list Z) (lun blk pg : Z) (k : nat) :
  forall (pl b ret : Z) (w : world),
  0 <= pl -> pl + Z.of_nat k <= Z.of_nat (length plv) ->
  (exists j, pl <= j < pl + Z.of_nat k /\
             fl_bad (media w) (cmd_ppa (plane_cmd c lun blk pg j)) = true) ->
  exists w',
    plane_loop c MMGR_READ_PG plv (Some (lun, blk, pg)) k pl b ret w = Ok (-1) w' /\
    heap w' = heap w /\ media w' = media w /\ ppas w' = ppas w.
Proof.
  induction k as [|k IH]; intros pl b ret w Hpl Hlen (j & Hj & Hbad); [lia|].
  cbn [plane_loop is_erase].
  destruct (arr_get_is_Some plv pl) as (p & Hp); [lia|]. rewrite Hp.
  cbn [nvm_submit_sync_io flash_mmgr]. fold (plane_cmd c lun blk pg pl).
  unfold flash_submit.
  destruct (fl_bad (media w) (cmd_ppa (plane_cmd c lun blk pg pl))) eqn:Eb.
  - cbn [Z.eqb]. eexists. split; [reflexivity|]. simpl. auto.
  - cbn [Z.eqb].
    match goal with |- context [plane_loop _ _ _ _ k _ _ _ ?w1] =>
      destruct (IH (pl + 1) p 0 w1) as (w' & E & Hh & Hm & Hpp)
    end; [lia | lia | |].
    { exists j. split; [|exact Hbad]. destruct (Z.eq_dec j pl) as [->|Hne]; [congruence|lia]. }
    exists w'. split; [exact E|]. simpl in *. auto.
Qed.

Variables (lch : app_channel) (c : nvm_channel) (d : app_io_data) (blk offset : Z).
Hypothesis Hc : ch lch = Some c.
Hypothesis Hioc : io_ch d = Some c.
Hypothesis Hpgsz : pg_sz d = pg_size (geometry c).
Hypothesis Hplv : forall pl, 0 <= pl < n_of_planes (geometry c) ->
  arr_get (pl_vec d) pl = Some (buf d + pl * plane_bytes (geometry c)).
Hypothesis Hn1 : 1 <= n_of_planes (geometry c).
Hypothesis Hpg0 : 0 <= pg_size (geometry c).
Hypothesis Hmagic : 0 <= sizeof_app_magic
                    <= sec_oob_sz (geometry c) * sec_per_pg (geometry c).

Lemma plv_length : n_of_planes (geometry c) <= Z.of_nat (length (pl_vec d)).
Proof.
  pose proof (Hplv (n_of_planes (geometry c) - 1) ltac:(lia)) as H.
  apply arr_get_in in H. lia.
Qed.

Lemma scan_read_good (pg : Z) (w : world) :
  never_fails (heap w) -> 0 < brk (heap w) ->
  page_readable (media w) c blk pg ->
  exists w2,
    app_io_rsv_blk lch MMGR_READ_PG (pl_vec d) blk pg w = Ok 0 w2 /\
    never_fails (heap w2) /\ 0 < brk (heap w2) /\ media w2 = media w /\
    magic_of (read_bytes (mem w2) (buf d + pg_sz d) sizeof_app_magic)
    = page_stamp (media w) c blk pg.
Proof.
  intros Hnf Hbrk Hrd. unfold app_io_rsv_blk.
  destruct (heap_after_cmd (heap w) sizeof_io_cmd Hnf Hbrk) as (h1 & E & N1 & B1).
  rewrite E. replace (brk (heap w) =? 0) with false by neq0. rewrite Hc.
  assert (HS : 0 <= plane_bytes (geometry c)) by (unfold plane_bytes; lia).
  destruct (flash_read_planes c (pl_vec d) 0 blk pg (buf d)
              (Z.to_nat (n_of_planes (geometry c))) 0 0 (-1) (set_heap w h1))
    as (w' & Ew & Hh & Hmd & Hp & Hin & Hout); [lia | lia | | |].
  { intros pl Hpl. apply Hplv. lia. }
  { intros pl Hpl. simpl. apply Hrd. lia. }
  assert (Hk : match Z.to_nat (n_of_planes (geometry c)) with O => -1 | S _ => 0 end = 0)
    by (destruct (Z.to_nat (n_of_planes (geometry c))) eqn:Ek; [lia | reflexivity]).
  rewrite Hk in Ew. rewrite Ew. eexists. split; [reflexivity|].
  simpl in *. rewrite Hh. split_and!; auto.
  unfold page_stamp, read_bytes. f_equal. apply map_ext_in. intros i Hi.
  apply in_seq in Hi. rewrite Hpgsz.
  replace (buf d + pg_size (geometry c) + Z.of_nat i)
    with (buf d + 0 * plane_bytes (geometry c) + (pg_size (geometry c) + Z.of_nat i))
    by lia.
  rewrite Hin; [reflexivity | lia | unfold plane_bytes; lia].
Qed.

Lemma scan_read_bad (pg : Z) (w : world) :
  never_fails (heap w) -> 0 < brk (heap w) ->
  ~ page_readable (media w) c blk pg ->
  exists w2,
    app_io_rsv_blk lch MMGR_READ_PG (pl_vec d) blk pg w = Ok (-1) w2 /\
    never_fails (heap w2) /\ 0 < brk (heap w2) /\ media w2 = media w.
Proof.
  intros Hnf Hbrk Hrd. unfold app_io_rsv_blk.
  destruct (heap_after_cmd (heap w) sizeof_io_cmd Hnf Hbrk) as (h1 & E & N1 & B1).
  rewrite E. replace (brk (heap w) =? 0) with false by neq0. rewrite Hc.
  assert (Hex : exists j, 0 <= j < 0 + Z.of_nat (Z.to_nat (n_of_planes (geometry c))) /\
            fl_bad (media w) (cmd_ppa (plane_cmd c 0 blk pg j)) = true).
  { destruct (bounded_search (fun j => fl_bad (media w) (rsv_unit c blk pg j))
                (Z.to_nat (n_of_planes (geometry c)))) as [Hall | (j & Hj & Hb)].
    - exfalso. apply Hrd. intros pl Hpl. apply Hall. lia.
    - exists j. split; [lia | exact Hb]. }
  pose proof plv_length as Hlen.
  destruct (flash_read_planes_bad c (pl_vec d) 0 blk pg
              (Z.to_nat (n_of_planes (geometry c))) 0 0 (-1) (set_heap w h1))
    as (w' & Ew & Hh & Hmd & Hp); [lia | lia | exact Hex |].
  rewrite Ew. eexists. split; [reflexivity|]. simpl in *. rewrite Hh. auto.
Qed.


Hypothesis Hoff : 0 < offset.
Hypothesis Hppb : pg_per_blk (geometry c) <= 2 ^ 16.


(** One iteration of the loop, by what the page read holds. *)
Lemma scan_iter_unreadable (fuel : nat) (pg : Z) (w : world) :
  never_fails (heap w) -> 0 < brk (heap w) -> 0 <= pg < 2 ^ 16 ->
  ~ page_readable (media w) c blk pg ->
  exists w', scan_loop (S fuel) lch d blk offset pg w = Ok (pg, -1) w'.
Proof.
  intros Hnf Hbrk Hpg Hrd. cbn [scan_loop]. rewrite u16_small by lia.
  destruct (scan_read_bad pg (set_mem w (memset (mem w) (buf d) 0 (buf_sz d))))
    as (w2 & E & _); auto.
  rewrite E. cbn [Z.eqb negb orb]. eauto.
Qed.

Lemma scan_iter_unstamped (fuel : nat) (pg : Z) (w : world) :
  never_fails (heap w) -> 0 < brk (heap w) -> 0 <= pg < 2 ^ 16 ->
  page_readable (media w) c blk pg -> ~ page_stamped (media w) c blk pg ->
  exists w', scan_loop (S fuel) lch d blk offset pg w = Ok (pg, 0) w'.
Proof.
  intros Hnf Hbrk Hpg Hrd Hst. cbn [scan_loop]. rewrite u16_small by lia.
  destruct (scan_read_good pg (set_mem w (memset (mem w) (buf d) 0 (buf_sz d))))
    as (w2 & E & _ & _ & _ & Hm); auto.
  rewrite E. cbn [Z.eqb negb orb]. rewrite Hm. simpl media.
  unfold page_stamped in Hst.
  replace (page_stamp (media w) c blk pg =? APP_MAGIC) with false by neq0.
  simpl. eauto.
Qed.

Lemma scan_iter_stamped (fuel : nat) (pg : Z) (w : world) :
  never_fails (heap w) -> 0 < brk (heap w) -> 0 <= pg < 2 ^ 16 ->
  page_readable (media w) c blk pg -> page_stamped (media w) c blk pg ->
  exists w',
    scan_loop (S fuel) lch d blk offset pg w
    = (if pg + offset <? (pg_per_blk (geometry c) - offset) then scan_loop fuel lch d blk offset (pg + offset) w'
       else Ok (pg + offset, 0) w') /\
    never_fails (heap w') /\ 0 < brk (heap w') /\ media w' = media w.
Proof.
  intros Hnf Hbrk Hpg Hrd Hst. cbn [scan_loop]. rewrite u16_small by lia.
  destruct (scan_read_good pg (set_mem w (memset (mem w) (buf d) 0 (buf_sz d))))
    as (w2 & E & N2 & B2 & Md2 & Hm); auto.
  rewrite E. cbn [Z.eqb negb orb]. rewrite Hm. simpl media.
  unfold page_stamped in Hst. rewrite Hst, Z.eqb_refl. cbn [negb]. rewrite Hioc.
  exists w2. auto.
Qed.

(** [K] stamped pages in a row, each followed by a page below the
    limit of the loop, take [K] iterations. *)
Lemma scan_steps (K : nat) :
  forall (fuel : nat) (pg : Z) (w : world),
  never_fails (heap w) -> 0 < brk (heap w) -> 0 <= pg < 2 ^ 16 ->
  (forall j, 0 <= j < Z.of_nat K ->
     page_readable (media w) c blk (pg + j * offset) /\
     page_stamped (media w) c blk (pg + j * offset)) ->
  (forall j, 1 <= j <= Z.of_nat K -> pg + j * offset < (pg_per_blk (geometry c) - offset)) ->
  exists w',
    scan_loop (K + fuel) lch d blk offset pg w
    = scan_loop fuel lch d blk offset (pg + Z.of_nat K * offset) w' /\
    never_fails (heap w') /\ 0 < brk (heap w') /\ media w' = media w.
Proof.
  induction K as [|K IH]; intros fuel pg w Hnf Hbrk Hpg Hst Hin.
  - exists w. simpl. replace (pg + Z.of_nat 0 * offset) with pg by lia. auto.
  - destruct (Hst 0 ltac:(lia)) as (Hr0 & Hs0). replace (pg + 0 * offset) with pg in * by lia.
    destruct (scan_iter_stamped (K + fuel) pg w Hnf Hbrk Hpg Hr0 Hs0)
      as (w1 & E1 & N1 & B1 & Md1).
    pose proof (Hin 1 ltac:(lia)) as Hin1.
    replace (pg + offset <? (pg_per_blk (geometry c) - offset)) with true in E1 by (symmetry; apply Z.ltb_lt; lia).
    destruct (IH fuel (pg + offset) w1) as (w' & E & N' & B' & Md'); auto; try lia.
    { intros j Hj. rewrite Md1. replace (pg + offset + j * offset)
        with (pg + (j + 1) * offset) by ring. apply Hst. lia. }
    { intros j Hj. replace (pg + offset + j * offset)
        with (pg + (j + 1) * offset) by ring. apply Hin. lia. }
    exists w'. split.
    + change (Datatypes.S K + fuel)%nat with (Datatypes.S (K + fuel)).
      rewrite E1, E. f_equal. lia.
    + rewrite Md', Md1. auto.
Qed.

End Scan.

Section CurrentPage.
Context {HD : Header}.

Lemma free_rows_up_returns (d : app_io_data) (k : nat) :
  forall (pl : Z) (h : allocator),
  0 <= pl -> pl + Z.of_nat k < 2 ^ 32 ->
  (forall i, pl <= i < pl + Z.of_nat k -> is_Some (arr_get (sec_vec d) i)) ->
  exists h', free_rows_up k pl d h = Some h'.
Proof.
  induction k as [|k IH]; intros pl h Hpl Hb Hrows; [simpl; eauto|].
  cbn [free_rows_up]. destruct (Hrows pl ltac:(lia)) as (r & Hr). rewrite Hr.
  cbn [mbind option_bind]. rewrite u32_small by lia.
  apply IH; [lia | lia |]. intros i Hi. apply Hrows. lia.
Qed.

(** The buffer the scan uses, and how the value of the function follows
    from the exit of the loop. *)
Lemma current_page_buffer (lch : app_channel) (c : nvm_channel)
  (io : option app_io_data) (blk offset : Z) (fuel : nat) (w : world) :
  ch lch = Some c -> scan_buffer_ok c io (heap w) ->
  never_fails (heap w) -> 0 < brk (heap w) ->
  exists d w0,
    io_ch d = Some c /\ pg_sz d = pg_size (geometry c) /\
    (forall pl, 0 <= pl < n_of_planes (geometry c) ->
       arr_get (pl_vec d) pl = Some (buf d + pl * plane_bytes (geometry c))) /\
    never_fails (heap w0) /\ 0 < brk (heap w0) /\ media w0 = media w /\
    forall pg r w1,
      scan_loop fuel lch d blk offset 0 w0 = Ok (pg, r) w1 ->
      exists w2, app_blk_current_page fuel lch io blk offset w
                 = Ok (if r =? 0 then pg else -1) w2.
Proof.
  intros Hc Hbuf Hnf Hbrk. destruct io as [d|]; simpl in Hbuf.
  - destruct Hbuf as (Hioc & Hpg & Hplv). exists d, w. split_and!; auto.
    intros pg r w1 E. unfold app_blk_current_page. rewrite E. eauto.
  - destruct Hbuf as (Hg & Hh).
    destruct (app_alloc_pg_io_succeeds lch c w Hc Hg Hh Hnf)
      as (d & w0 & E0 & _ & Hioc & Hnpl & Hpg & _ & _ & _ & _ & _ & _ & Hsz & Hlaid
          & N0 & B0 & _ & Hmd & _).
    exists d, w0. split_and!; auto.
    { intros pl Hpl. destruct (Hlaid pl Hpl) as (H & _). exact H. }
    intros pg r w1 E. unfold app_blk_current_page. rewrite E0, E.
    destruct Hg as (Hn & _).
    destruct (free_rows_up_returns d (Z.to_nat (n_pl d)) 0 (heap w1)) as (h' & Ef);
      [lia | lia | |].
    { intros i Hi. destruct Hsz as (_ & _ & _ & Hrows).
      destruct (Hrows i ltac:(lia)) as (r0 & Hr0 & _). eauto. }
    unfold app_free_pg_io. rewrite Ef. eauto.
Qed.

(** C1, as amended: for a stride above 0, when each of the pages stride,
    ..., [k * stride] lies below [pg_per_blk - stride] (the limit of the
    loop), the pages 0, stride, ..., [k * stride] can be read and carry
    the stamp, and page [(k + 1) * stride] lies at or beyond
    [pg_per_blk - stride] or can be read and does not carry the stamp,
    the scan returns [(k + 1) * stride], the page after the last stamped
    page it has read; [0] when page 0 can be read and is not stamped;
    [-1] when the read of page 0 fails. *)
Theorem app_blk_current_page_scan (lch : app_channel) (c : nvm_channel)
  (io : option app_io_data) (blk stride k : Z) (fuel : nat) (w : world) :
  ch lch = Some c -> scan_buffer_ok c io (heap w) ->
  1 <= n_of_planes (geometry c) -> 0 <= pg_size (geometry c) ->
  0 <= sizeof_app_magic <= sec_oob_sz (geometry c) * sec_per_pg (geometry c) ->
  pg_per_blk (geometry c) <= 2 ^ 16 -> 0 < stride ->
  never_fails (heap w) -> 0 < brk (heap w) ->
  0 <= k -> (Z.to_nat k + 2 <= fuel)%nat ->
  ((forall j, 0 <= j <= k ->
      page_readable (media w) c blk (j * stride) /\
      page_stamped (media w) c blk (j * stride)) ->
   (forall j, 1 <= j <= k -> j * stride < pg_per_blk (geometry c) - stride) ->
   (pg_per_blk (geometry c) - stride <= (k + 1) * stride \/
    (page_readable (media w) c blk ((k + 1) * stride) /\
     ~ page_stamped (media w) c blk ((k + 1) * stride))) ->
   exists w', app_blk_current_page fuel lch io blk stride w
              = Ok ((k + 1) * stride) w') /\
  (page_readable (media w) c blk 0 -> ~ page_stamped (media w) c blk 0 ->
   exists w', app_blk_current_page fuel lch io blk stride w = Ok 0 w') /\
  (~ page_readable (media w) c blk 0 ->
   exists w', app_blk_current_page fuel lch io blk stride w = Ok (-1) w').
Proof.
  intros Hc Hbuf Hn1 Hpg0 Hmagic Hppb Hoff Hnf Hbrk Hk Hfuel.
  destruct (current_page_buffer lch c io blk stride fuel w Hc Hbuf Hnf Hbrk)
    as (d & w0 & Hioc & Hpgsz & Hplv & N0 & B0 & Md0 & Hres).
  rewrite <- Md0.
  destruct fuel as [|fuel1]; [lia|].
  split_and!.
  - intros Hst Hin Hend.
    destruct (Z.lt_ge_cases ((k + 1) * stride) (pg_per_blk (geometry c) - stride))
      as [Hlt|Hge].
    + destruct Hend as [Hend|(Hrd & Hns)]; [lia|].
      destruct (scan_steps lch c d blk stride Hc Hioc Hpgsz Hplv Hn1 Hpg0 Hmagic Hoff Hppb
                  (Z.to_nat (k + 1)) (fuel1 - Z.to_nat k)%nat 0 w0 N0 B0 ltac:(lia))
        as (w1 & E1 & N1 & B1 & Md1).
      { intros j Hj. rewrite Z.add_0_l. apply Hst. lia. }
      { intros j Hj. rewrite Z.add_0_l.
        destruct (Z.eq_dec j (k + 1)) as [->|Hne]; [exact Hlt | apply Hin; lia]. }
      replace (Z.to_nat (k + 1) + (fuel1 - Z.to_nat k))%nat with (Datatypes.S fuel1)
        in E1 by lia.
      rewrite Z.add_0_l, Z2Nat.id in E1 by lia.
      destruct (fuel1 - Z.to_nat k)%nat as [|f2] eqn:Ef; [lia|].
      destruct (scan_iter_unstamped lch c d blk stride Hc Hpgsz Hplv Hn1 Hpg0 Hmagic
                  f2 ((k + 1) * stride) w1 N1 B1) as (w2 & E2).
      { split; [nia | lia]. }
      { rewrite Md1. exact Hrd. }
      { rewrite Md1. exact Hns. }
      rewrite E2 in E1. destruct (Hres _ _ _ E1) as (w3 & E3). eauto.
    + destruct (scan_steps lch c d blk stride Hc Hioc Hpgsz Hplv Hn1 Hpg0 Hmagic Hoff Hppb
                  (Z.to_nat k) (Datatypes.S (fuel1 - Z.to_nat k))%nat 0 w0 N0 B0 ltac:(lia))
        as (w1 & E1 & N1 & B1 & Md1).
      { intros j Hj. rewrite Z.add_0_l. apply Hst. lia. }
      { intros j Hj. rewrite Z.add_0_l. apply Hin. lia. }
      replace (Z.to_nat k + Datatypes.S (fuel1 - Z.to_nat k))%nat with (Datatypes.S fuel1)
        in E1 by lia.
      rewrite Z.add_0_l, Z2Nat.id in E1 by lia.
      destruct (Hst k ltac:(lia)) as (Hrk & Hsk).
      destruct (scan_iter_stamped lch c d blk stride Hc Hioc Hpgsz Hplv Hn1 Hpg0 Hmagic
                  (fuel1 - Z.to_nat k)%nat (k * stride) w1 N1 B1) as (w2 & E2 & _).
      { split; [nia|]. destruct (Z.eq_dec k 0) as [->|Hk0]; [lia|].
        specialize (Hin k ltac:(lia)). lia. }
      { rewrite Md1. exact Hrk. }
      { rewrite Md1. exact Hsk. }
      replace (k * stride + stride <? pg_per_blk (geometry c) - stride) with false in E2
        by (symmetry; apply Z.ltb_ge; lia).
      rewrite E2 in E1. destruct (Hres _ _ _ E1) as (w3 & E3).
      replace ((k + 1) * stride) with (k * stride + stride) by ring. eauto.
  - intros Hrd Hns.
    destruct (scan_iter_unstamped lch c d blk stride Hc Hpgsz Hplv Hn1 Hpg0 Hmagic
                fuel1 0 w0 N0 B0 ltac:(lia) Hrd Hns) as (w2 & E2).
    destruct (Hres _ _ _ E2) as (w3 & E3). eauto.
  - intros Hrd.
    destruct (scan_iter_unreadable lch c d blk stride Hc Hplv Hn1
                fuel1 0 w0 N0 B0 ltac:(lia) Hrd) as (w2 & E2).
    destruct (Hres _ _ _ E2) as (w3 & E3). eauto.
Qed.

End CurrentPage.

(** * The functions run on the small configuration *)

Ltac ex_arith := unfold plane_bytes, page_limit; cbn; lia.

Lemma ex_plv (pl : Z) :
  0 <= pl < 2 -> arr_get (pl_vec ex_io) pl = Some (100 + pl * 5).
Proof.
  intros H. assert (Hc : pl = 0 \/ pl = 1) by lia. destruct Hc; subst; reflexivity.
Defined.

(** C1, counterexample: with page 0 stamped and page 1 not, the scan with
    stride 1 returns 1, not 0; with page 0 not stamped it returns 0, not
    -1. *)
Lemma app_blk_current_page_counterexample :
  (page_stamped (HD := ex_header) (ex_flash 1 8) ex_channel 0 (0 * 1) /\
   ~ page_stamped (HD := ex_header) (ex_flash 1 8) ex_channel 0 ((0 + 1) * 1) /\
   value_of (app_blk_current_page (HD := ex_header) 10 ex_lch (Some ex_io) 0 1
               (ex_world (ex_flash 1 8) [])) = Some 1 /\
   1 <> 0 * 1) /\
  (~ page_stamped (HD := ex_header) (ex_flash 0 8) ex_channel 0 0 /\
   value_of (app_blk_current_page (HD := ex_header) 10 ex_lch (Some ex_io) 0 1
               (ex_world (ex_flash 0 8) [])) = Some 0 /\
   0 <> -1).
Proof.
  split; split_and!; try (vm_compute; congruence); try lia; vm_compute; reflexivity.
Qed.

(** C2, counterexample: three one-byte entries, three entries a page, two
    planes, one page: both transfers succeed and the third entry does not
    come back. *)
Lemma seq_transfer_counterexample :
  match app_nvm_seq_transfer (HD := ex_header) ex_io 1 200 1 3 3 1
          APP_TRANS_TO_NVM APP_IO_NORMAL (ex_world (ex_flash 0 8) []) with
  | Ok r1 w1 =>
      match app_nvm_seq_transfer (HD := ex_header) ex_io 1 300 1 3 3 1
              APP_TRANS_FROM_NVM APP_IO_NORMAL w1 with
      | Ok r3 w3 =>
          r1 = 0 /\ r3 = 0 /\
          map (mem (ex_world (ex_flash 0 8) [])) [200; 201; 202] = [11; 22; 33] /\
          map (mem w3) [300; 301; 302] = [11; 22; 0]
      | _ => False
      end
  | _ => False
  end.
Proof. vm_compute. auto. Qed.

(** C7, the failing input: a channel structure whose [ch] is null. *)
Lemma app_ftl_get_bbtbl_null_channel :
  app_ftl_get_bbtbl (AG := ex_global ex_lch_null) 1 500 8
    (ex_world (ex_flash 0 8) []) = Undef.
Proof. reflexivity. Qed.

Lemma ex_geometry_fits : geometry_fits ex_geometry.
Proof. unfold geometry_fits. cbn. lia. Defined.

Lemma ex_heap_ok (fl : flash) (s : list bool) : heap_ok (heap (ex_world fl s)).
Proof. split; [cbn; lia | constructor]. Defined.

Lemma ex_never_fails (fl : flash) : never_fails (heap (ex_world fl [])).
Proof. constructor. Defined.

Lemma app_alloc_pg_io_layout_witness :
  exists d w',
    app_alloc_pg_io (HD := ex_header) ex_lch (ex_world (ex_flash 0 8) [])
      = Ok (Some d) w' /\
    buf_sz d = 10 /\ In (buf d, buf_sz d) (live (heap w')) /\
    arr_get (pl_vec d) 1 = Some (buf d + 5).
Proof.
  destruct (app_alloc_pg_io_layout (HD := ex_header) ex_lch ex_channel
              (ex_world (ex_flash 0 8) []) eq_refl ex_geometry_fits
              (ex_heap_ok _ _) (ex_never_fails _))
    as (d & w' & E & Hsz & Hin & _ & Hl).
  exists d, w'. split; [exact E|]. split; [exact Hsz|]. split; [exact Hin|].
  destruct (Hl 1 ltac:(ex_arith)) as (Hp & _). exact Hp.
Defined.

Lemma app_alloc_pg_io_unwinds_witness :
  exists (acquired : list (Z * Z)) w',
    app_alloc_pg_io (HD := ex_header) ex_lch
      (ex_world (ex_flash 0 8) [true; true; true; true; true; true; false])
      = Ok None w' /\
    length acquired = 6%nat /\ live (heap w') = [].
Proof.
  destruct (app_alloc_pg_io_unwinds (HD := ex_header) ex_lch ex_channel
              (ex_world (ex_flash 0 8) [true; true; true; true; true; true; false])
              6 [] eq_refl ex_geometry_fits (ex_heap_ok _ _)
              ltac:(ex_arith) eq_refl)
    as (acq & w' & E & Hlen & _ & Hlive & _).
  exists acq, w'. auto.
Defined.

Lemma app_pg_io_commands_witness :
  exists recs r w',
    app_pg_io (HD := ex_header) ex_lch MMGR_WRITE_PG [100; 105] 1
      (ex_world (ex_flash 0 8) []) = Ok r w' /\
    issued w' = recs /\
    plane_run ex_channel MMGR_WRITE_PG [100; 105] 1 3 0 2 recs /\
    r = match last recs with Some rec => io_status rec | None => -1 end.
Proof.
  destruct (app_pg_io_commands (HD := ex_header) ex_lch ex_channel MMGR_WRITE_PG
              [100; 105] 1 ex_addr (ex_world (ex_flash 0 8) [])
              eq_refl ltac:(ex_arith) ltac:(intros _; ex_arith) eq_refl I
              ltac:(ex_arith))
    as (recs & r & w' & E & Hiss & Hrun & Hr & _).
  exists recs, r, w'. auto.
Defined.

Lemma app_io_rsv_blk_commands_witness :
  exists recs r w',
    app_io_rsv_blk (HD := ex_header) ex_lch MMGR_READ_PG [100; 105] 3 5
      (ex_world (ex_flash 0 8) []) = Ok r w' /\
    issued w' = recs /\
    Forall (fun rec => g_lun (cmd_ppa (io_cmd rec)) = 0) recs.
Proof.
  destruct (app_io_rsv_blk_commands (HD := ex_header) ex_lch ex_channel MMGR_READ_PG
              [100; 105] 3 5 (ex_world (ex_flash 0 8) [])
              eq_refl ltac:(ex_arith) ltac:(intros _; ex_arith) I ltac:(ex_arith))
    as (recs & r & w' & E & Hiss & Hrun & Hlun & Hr).
  exists recs, r, w'. auto.
Defined.

Lemma app_ftl_set_bbtbl_flush_witness :
  exists w',
    app_ftl_set_bbtbl (AG := ex_global ex_lch) 1 7 (ex_world (ex_flash 0 8) [])
      = Ok 0 w' /\
    mem w' (bbtbl_cell ex_lch ex_channel ex_addr) = 7 /\
    flushed w' = [(ex_lch, -1)].
Proof.
  destruct (app_ftl_set_bbtbl_flush (AG := ex_global ex_lch) 1 7 ex_addr ex_lch
              ex_channel (ex_world (ex_flash 0 8) []) eq_refl eq_refl eq_refl
              ltac:(ex_arith))
    as (w' & E & Hcell & _ & _ & Hflush).
  exists w'. split; [exact E|]. split; [exact Hcell|].
  destruct (Hflush ltac:(vm_compute; congruence)) as (r & Hf & Hr).
  rewrite Hf. cbn in Hr. inversion Hr. reflexivity.
Defined.

Lemma bbtbl_set_then_get_witness :
  exists w1 w2,
    app_ftl_set_bbtbl (AG := ex_global ex_lch) 1 7 (ex_world (ex_flash 0 8) [])
      = Ok 0 w1 /\
    app_ftl_get_bbtbl (AG := ex_global ex_lch) 1 500 8 w1 = Ok 0 w2 /\
    mem w2 (500 + 7) = 7.
Proof.
  destruct (bbtbl_set_then_get (AG := ex_global ex_lch) 1 1 7 500 8 ex_addr ex_addr
              ex_lch ex_channel (ex_world (ex_flash 0 8) [])
              eq_refl eq_refl eq_refl eq_refl eq_refl eq_refl
              ltac:(ex_arith) ltac:(ex_arith) ltac:(ex_arith) ltac:(ex_arith)
              ltac:(ex_arith) ltac:(lia) eq_refl)
    as (w1 & w2 & E1 & E2 & Hv).
  exists w1, w2. auto.
Defined.

Lemma app_nvm_seq_transfer_keeps_ppa_witness :
  exists r w',
    app_nvm_seq_transfer (HD := ex_header) ex_io 1 200 1 3 3 1
      APP_TRANS_TO_NVM APP_IO_NORMAL (ex_world (ex_flash 0 8) []) = Ok r w' /\
    ppas w' !! 1 = Some ex_addr.
Proof.
  destruct (app_nvm_seq_transfer_keeps_ppa (HD := ex_header) ex_io ex_channel
              1 200 1 3 3 1 APP_TRANS_TO_NVM APP_IO_NORMAL ex_addr
              (ex_world (ex_flash 0 8) [])
              eq_refl ltac:(ex_arith) ltac:(ex_arith) ltac:(ex_arith) eq_refl)
    as (r & w' & E & Hp & _).
  exists r, w'. auto.
Defined.

Lemma seq_transfer_round_trip_witness :
  exists w1,
    app_nvm_seq_transfer (HD := ex_header) ex_io 1 200 2 2 3 1
      APP_TRANS_TO_NVM APP_IO_NORMAL (ex_world (ex_flash 0 8) []) = Ok 0 w1 /\
    exists w3,
      app_nvm_seq_transfer (HD := ex_header) ex_io 1 300 2 2 3 1
        APP_TRANS_FROM_NVM APP_IO_NORMAL (ex_world_later w1) = Ok 0 w3 /\
      map (mem w3) [300; 301; 302] = [11; 22; 33].
Proof.
  destruct (seq_transfer_round_trip (HD := ex_header) ex_io ex_channel APP_IO_NORMAL
              1 ex_addr 200 300 2 1 3 1 (ex_world (ex_flash 0 8) [])
              eq_refl eq_refl ltac:(ex_arith) ex_plv (or_introl eq_refl)
              ltac:(lia) ltac:(ex_arith) ltac:(lia) ltac:(ex_arith) ltac:(lia)
              ltac:(lia) ltac:(ex_arith) ltac:(ex_arith) ltac:(ex_arith)
              ltac:(ex_arith) ltac:(ex_arith)
              ltac:(intros y Hy; ex_arith) ltac:(intros y Hy; ex_arith)
              eq_refl (ex_never_fails _) ltac:(ex_arith)
              ltac:(intros i pl Hi Hpl; cbn; apply Z.leb_gt; lia))
    as (w1 & E1 & _ & Hback).
  exists w1. split; [exact E1|].
  destruct (Hback (ex_world_later w1) eq_refl eq_refl
              ltac:(constructor) ltac:(cbn; lia)) as (w3 & E3 & Hmem).
  exists w3. split; [exact E3|].
  cbn [map]. f_equal; [exact (Hmem 0 ltac:(lia))|].
  f_equal; [exact (Hmem 1 ltac:(lia))|]. f_equal. exact (Hmem 2 ltac:(lia)).
Defined.

Lemma ex_stamped (j : Z) :
  0 <= j <= 2 ->
  page_readable (ex_flash 3 8) ex_channel 0 (j * 1) /\
  page_stamped (HD := ex_header) (ex_flash 3 8) ex_channel 0 (j * 1).
Proof.
  intros Hj. split.
  - intros pl Hpl. cbn. apply Z.leb_gt. lia.
  - assert (Hc : j = 0 \/ j = 1 \/ j = 2) by lia.
    destruct Hc as [-> | [-> | ->]]; reflexivity.
Defined.

Lemma app_blk_current_page_scan_witness :
  exists w',
    app_blk_current_page (HD := ex_header) 10 ex_lch None 0 1
      (ex_world (ex_flash 3 8) []) = Ok 3 w'.
Proof.
  destruct (app_blk_current_page_scan (HD := ex_header) ex_lch ex_channel None 0 1 2 10
              (ex_world (ex_flash 3 8) []) eq_refl
              (conj ex_geometry_fits (ex_heap_ok _ _))
              ltac:(ex_arith) ltac:(ex_arith) ltac:(ex_arith) ltac:(ex_arith)
              ltac:(lia) (ex_never_fails _) ltac:(ex_arith) ltac:(lia) ltac:(ex_arith))
    as (HA & _ & _).
  apply HA.
  - exact ex_stamped.
  - intros j Hj. cbn. lia.
  - right. split.
    + intros pl Hpl. cbn. reflexivity.
    + vm_compute. congruence.
Defined.

(** * More on the bad-block table *)

Section BadBlockTableMore.
Context {HD : Header} {MM : MediaManager} {AG : AppGlobal}.

(** X1: [app_ftl_set_bbtbl] returns [-1] exactly for a block and plane
    beyond the last of a lun, and then leaves the state as it was: no
    byte stored, no flush. *)
Theorem app_ftl_set_bbtbl_rejects (ppa value : Z) (a : nvm_ppa_addr)
  (lch : app_channel) (c : nvm_channel) (w : world) :
  ppas w !! ppa = Some a -> channels_get_fn (g_ch a) = Some lch -> ch lch = Some c ->
  exists r w',
    app_ftl_set_bbtbl ppa value w = Ok r w' /\
    (r = 0 \/ r = -1) /\
    (r = -1 <->
     blk_per_lun (geometry c) * n_of_planes (geometry c) - 1
     < g_blk a * n_of_planes (geometry c) + g_pl a) /\
    (r = -1 -> w' = w).
Proof.
  intros Ha Hl Hc.
  destruct (Z_lt_le_dec (blk_per_lun (geometry c) * n_of_planes (geometry c) - 1)
              (g_blk a * n_of_planes (geometry c) + g_pl a)) as [Hout|Hin].
  - exists (-1), w. unfold app_ftl_set_bbtbl. rewrite Ha, Hl, Hc.
    replace (g_blk a * n_of_planes (geometry c) + g_pl a
             >? blk_per_lun (geometry c) * n_of_planes (geometry c) - 1) with true
      by (symmetry; rewrite Z.gtb_ltb; apply Z.ltb_lt; lia).
    split; [reflexivity|]. split; [auto|]. split; [tauto|]. reflexivity.
  - destruct (app_ftl_set_bbtbl_spec ppa value a lch c w Ha Hl Hc Hin) as (w' & E & _).
    exists 0, w'. split; [exact E|]. split; [auto|]. split; [split; lia|]. intros; lia.
Qed.

(** X2: for a channel whose [ch] is not null, [app_ftl_get_bbtbl] returns
    [-1] and copies nothing when the output pointer is null or the length
    is not [blk_per_lun * n_of_planes]; otherwise it copies the slice of
    the lun and changes nothing else. *)
Theorem app_ftl_get_bbtbl_checked (ppa bbtbl nb : Z) (a : nvm_ppa_addr)
  (lch : app_channel) (c : nvm_channel) (w : world) :
  ppas w !! ppa = Some a -> channels_get_fn (g_ch a) = Some lch -> ch lch = Some c ->
  0 <= n_of_planes (geometry c) < 2 ^ 16 ->
  0 <= blk_per_lun (geometry c) * n_of_planes (geometry c) < 2 ^ 32 ->
  (bbtbl = 0 \/ nb <> blk_per_lun (geometry c) * n_of_planes (geometry c) ->
   app_ftl_get_bbtbl ppa bbtbl nb w = Ok (-1) w) /\
  (bbtbl <> 0 -> nb = blk_per_lun (geometry c) * n_of_planes (geometry c) ->
   exists w',
     app_ftl_get_bbtbl ppa bbtbl nb w = Ok 0 w' /\
     (forall i, 0 <= i < nb ->
        mem w' (bbtbl + i) =
        mem w (bbtbl_tbl lch
               + g_lun a * blk_per_lun (geometry c) * n_of_planes (geometry c) + i)) /\
     (forall x, ~ (bbtbl <= x < bbtbl + nb) -> mem w' x = mem w x) /\
     heap w' = heap w /\ ppas w' = ppas w /\ media w' = media w /\
     issued w' = issued w /\ flushed w' = flushed w).
Proof.
  intros Ha Hl Hc Hn Hsz.
  destruct (app_ftl_get_bbtbl_spec ppa bbtbl nb a lch c w Ha Hl Hc Hn Hsz) as (H1 & H2).
  split; [exact H1|]. intros Hb Hnb. destruct (H2 Hb Hnb) as (w' & E & Hcopy & Hfr & Hrest).
  exists w'. split_and!; auto; apply Hrest.
Qed.

(** What [app_ftl_set_bbtbl] leaves as it was. *)
Lemma app_ftl_set_bbtbl_frame (ppa value : Z) (w : world) (r : Z) (w' : world) :
  app_ftl_set_bbtbl ppa value w = Ok r w' ->
  ppas w' = ppas w /\ heap w' = heap w /\ issued w' = issued w /\
  (flushed w' = flushed w -> media w' = media w).
Proof.
  unfold app_ftl_set_bbtbl.
  destruct (ppas w !! ppa) as [a|]; [|discriminate].
  destruct (channels_get_fn (g_ch a)) as [lch|]; [|discriminate].
  destruct (ch lch) as [c|]; [|discriminate].
  destruct (_ >? _); [intros H; inversion H; subst; auto|].
  destruct (negb _).
  - destruct (bbt_flush_fn _ _ _) as [r0 mm']. intros H; inversion H; subst; simpl.
    split_and!; auto. intros Hf. exfalso.
    apply (f_equal (@length _)) in Hf. rewrite length_app in Hf. simpl in Hf. lia.
  - intros H; inversion H; subst; simpl. auto.
Qed.

(** X3: a status stored for a location of one lun does not show in the
    slice [app_ftl_get_bbtbl] copies for another lun of the channel. *)
Theorem bbtbl_set_other_lun (ppa ppa' value bbtbl nb : Z) (a a' : nvm_ppa_addr)
  (lch : app_channel) (c : nvm_channel) (w : world) :
  ppas w !! ppa = Some a -> ppas w !! ppa' = Some a' ->
  g_ch a' = g_ch a -> g_lun a' <> g_lun a ->
  channels_get_fn (g_ch a) = Some lch -> ch lch = Some c ->
  0 <= n_of_planes (geometry c) < 2 ^ 16 ->
  0 <= blk_per_lun (geometry c) * n_of_planes (geometry c) < 2 ^ 32 ->
  0 <= g_blk a -> 0 <= g_pl a ->
  g_blk a * n_of_planes (geometry c) + g_pl a
    <= blk_per_lun (geometry c) * n_of_planes (geometry c) - 1 ->
  bbtbl <> 0 -> nb = blk_per_lun (geometry c) * n_of_planes (geometry c) ->
  exists w1 w2,
    app_ftl_set_bbtbl ppa value w = Ok 0 w1 /\
    app_ftl_get_bbtbl ppa' bbtbl nb w1 = Ok 0 w2 /\
    forall i, 0 <= i < nb ->
      mem w2 (bbtbl + i) =
      mem w (bbtbl_tbl lch
             + g_lun a' * blk_per_lun (geometry c) * n_of_planes (geometry c) + i).
Proof.
  intros Ha Ha' Hch Hlun Hl Hc Hn Hsz Hblk Hpl Hin Hb Hnb.
  destruct (app_ftl_set_bbtbl_spec ppa value a lch c w Ha Hl Hc Hin)
    as (w1 & E1 & _ & Hfr & _).
  destruct (app_ftl_set_bbtbl_frame ppa value w 0 w1 E1) as (Hp1 & _).
  assert (Ha1 : ppas w1 !! ppa' = Some a') by (rewrite Hp1; exact Ha').
  rewrite <- Hch in Hl.
  destruct (app_ftl_get_bbtbl_spec ppa' bbtbl nb a' lch c w1 Ha1 Hl Hc Hn Hsz)
    as (_ & Hget).
  destruct (Hget Hb Hnb) as (w2 & E2 & Hcopy & _).
  exists w1, w2. split; [exact E1|]. split; [exact E2|].
  intros i Hi. rewrite Hcopy by exact Hi. apply Hfr. unfold bbtbl_cell.
  remember (blk_per_lun (geometry c) * n_of_planes (geometry c)) as S eqn:HS.
  remember (g_blk a * n_of_planes (geometry c) + g_pl a) as off eqn:Hoff.
  assert (Hoff0 : 0 <= off) by (subst off; nia).
  replace (g_lun a' * blk_per_lun (geometry c) * n_of_planes (geometry c))
    with (g_lun a' * S) by (subst S; ring).
  replace (g_lun a * blk_per_lun (geometry c) * n_of_planes (geometry c))
    with (g_lun a * S) by (subst S; ring).
  intros Heq.
  assert (Hd : (g_lun a' - g_lun a) * S = off - i) by lia.
  destruct (Z.lt_trichotomy (g_lun a') (g_lun a)) as [Hlt|[He|Hgt]]; [|contradiction|]; nia.
Qed.

(** X4: storing the status a location already has changes nothing: the
    second of two equal [app_ftl_set_bbtbl] calls does not flush, and the
    two together flush at most once. *)
Theorem app_ftl_set_bbtbl_twice (ppa value : Z) (a : nvm_ppa_addr)
  (lch : app_channel) (c : nvm_channel) (w : world) :
  ppas w !! ppa = Some a -> channels_get_fn (g_ch a) = Some lch -> ch lch = Some c ->
  g_blk a * n_of_planes (geometry c) + g_pl a
    <= blk_per_lun (geometry c) * n_of_planes (geometry c) - 1 ->
  exists w1 w2,
    app_ftl_set_bbtbl ppa value w = Ok 0 w1 /\
    app_ftl_set_bbtbl ppa value w1 = Ok 0 w2 /\
    flushed w2 = flushed w1 /\ media w2 = media w1 /\
    (forall x, mem w2 x = mem w1 x) /\
    (length (flushed w2) <= S (length (flushed w)))%nat.
Proof.
  intros Ha Hl Hc Hin.
  destruct (app_ftl_set_bbtbl_spec ppa value a lch c w Ha Hl Hc Hin)
    as (w1 & E1 & Hcell & _ & Hsame & Hdiff).
  destruct (app_ftl_set_bbtbl_frame ppa value w 0 w1 E1) as (Hp1 & _).
  assert (Ha1 : ppas w1 !! ppa = Some a) by (rewrite Hp1; exact Ha).
  destruct (app_ftl_set_bbtbl_spec ppa value a lch c w1 Ha1 Hl Hc Hin)
    as (w2 & E2 & Hcell2 & Hfr2 & Hsame2 & _).
  destruct (app_ftl_set_bbtbl_frame ppa value w1 0 w2 E2) as (_ & _ & _ & Hmd).
  exists w1, w2. split; [exact E1|]. split; [exact E2|].
  specialize (Hsame2 Hcell). split; [exact Hsame2|]. split; [exact (Hmd Hsame2)|]. split.
  - intros x. destruct (Z.eq_dec x (bbtbl_cell lch c a)) as [->|Hx].
    + congruence.
    + apply Hfr2. exact Hx.
  - rewrite Hsame2.
    destruct (Z.eq_dec (mem w (bbtbl_cell lch c a)) value) as [He|Hne].
    + rewrite (Hsame He). lia.
    + destruct (Hdiff Hne) as (r & Hf & _). rewrite Hf, length_app. simpl. lia.
Qed.

End BadBlockTableMore.

(** * More on plane I/O *)

Section PlaneIOMore.
Context {HD : Header} {MM : MediaManager}.

(** The heap around the command descriptor of one call: allocated, used
    by [body], released. *)
Lemma cmd_scope (h : allocator) :
  heap_ok h ->
  match malloc sizeof_io_cmd h with
  | (p, h1) =>
      if p =? 0
      then script h = false :: script h1 /\ live h1 = live h /\
           events h1 = events h /\ brk h1 = brk h
      else next_succeeds h /\ p = brk h /\
           live (free p h1) = live h /\ heap_ok (free p h1) /\
           events (free p h1) = events h ++ [EvAlloc p sizeof_io_cmd; EvFree p]
  end.
Proof.
  intros [Hb Hl]. unfold malloc, next_succeeds.
  destruct (script h) as [|[] s] eqn:Es; simpl.
  - replace (brk h =? 0) with false by neq0. split_and!; auto.
    + apply filter_pop. eapply Forall_impl; [exact Hl|]. simpl. intros b Hbb. lia.
    + split; simpl; [lia|].
      rewrite filter_pop by (eapply Forall_impl; [exact Hl|]; simpl; intros b Hbb; lia).
      eapply Forall_impl; [exact Hl|]. simpl. intros b Hbb. lia.
    + rewrite <- app_assoc. reflexivity.
  - replace (brk h =? 0) with false by neq0. split_and!; auto.
    + apply filter_pop. eapply Forall_impl; [exact Hl|]. simpl. intros b Hbb. lia.
    + split; simpl; [lia|].
      rewrite filter_pop by (eapply Forall_impl; [exact Hl|]; simpl; intros b Hbb; lia).
      eapply Forall_impl; [exact Hl|]. simpl. intros b Hbb. lia.
    + rewrite <- app_assoc. reflexivity.
  - auto.
Qed.

(** X5: the command descriptor of a page I/O lives for the call only.
    Whatever the media manager answers, the call returns with the live
    blocks of the heap as they were; when the descriptor cannot be
    allocated it returns [EMEM] and submits nothing; an unknown addressing
    mode gives [-1] and touches nothing. *)
Theorem app_pg_io_switch_scoped (lch : app_channel) (c : nvm_channel)
  (cmdtype : mmgr_cmdtype) (plv : list Z) (ppa : Z) (a : nvm_ppa_addr)
  (type : app_io_type) (w : world) :
  ch lch = Some c -> 0 <= n_of_planes (geometry c) ->
  (is_erase cmdtype = false -> n_of_planes (geometry c) <= Z.of_nat (length plv)) ->
  ppas w !! ppa = Some a -> heap_ok (heap w) ->
  exists r w',
    app_pg_io_switch lch cmdtype plv ppa type w = Ok r w' /\
    live (heap w') = live (heap w) /\ heap_ok (heap w') /\
    ((exists code, type = APP_IO_OTHER code) -> r = -1 /\ w' = w) /\
    ((type = APP_IO_NORMAL \/ type = APP_IO_RESERVED) ->
     (~ next_succeeds (heap w) ->
      r = EMEM /\ issued w' = issued w /\ mem w' = mem w /\ media w' = media w /\
      events (heap w') = events (heap w)) /\
     (next_succeeds (heap w) ->
      events (heap w') =
      events (heap w) ++ [EvAlloc (brk (heap w)) sizeof_io_cmd; EvFree (brk (heap w))])).
Proof.
  intros Hc Hn Hlen Ha Hok.
  assert (Hbody : forall lun blk pg,
    exists r w',
      (let '(cmd, h1) := malloc sizeof_io_cmd (heap w) in
       if cmd =? 0 then Ok EMEM (set_heap w h1) else
       match plane_loop c cmdtype plv (Some (lun, blk, pg))
               (Z.to_nat (n_of_planes (geometry c))) 0 0 (-1) (set_heap w h1) with
       | Ok r w' => Ok r (set_heap w' (free cmd (heap w')))
       | Undef => Undef
       | OutOfFuel => OutOfFuel
       end) = Ok r w' /\
      live (heap w') = live (heap w) /\ heap_ok (heap w') /\
      (~ next_succeeds (heap w) ->
       r = EMEM /\ issued w' = issued w /\ mem w' = mem w /\ media w' = media w /\
       events (heap w') = events (heap w)) /\
      (next_succeeds (heap w) ->
       events (heap w') =
       events (heap w) ++ [EvAlloc (brk (heap w)) sizeof_io_cmd; EvFree (brk (heap w))])).
  { intros lun blk pg. pose proof (cmd_scope (heap w) Hok) as Hs.
    destruct (malloc sizeof_io_cmd (heap w)) as [p h1].
    destruct (p =? 0) eqn:Ep.
    - destruct Hs as (Hsc & Hl & Hev & Hb).
      eexists _, _. split; [reflexivity|]. simpl. split; [exact Hl|]. split.
      { destruct Hok as [Hb0 Hl0]. split; [lia|]. rewrite Hl, Hb. exact Hl0. }
      split; [auto|]. intros Hnx. unfold next_succeeds in Hnx. rewrite Hsc in Hnx.
      destruct Hnx.
    - destruct Hs as (Hnx & -> & Hl & Hok' & Hev).
      destruct (plane_loop_run c cmdtype plv lun blk pg
                  (n_of_planes (geometry c)) (set_heap w h1) Hn Hlen)
        as (recs & r & w' & E & _ & Hh & _).
      rewrite E. eexists _, _. split; [reflexivity|]. simpl. rewrite Hh. simpl.
      split; [exact Hl|]. split; [exact Hok'|]. split; [intros Hx; contradiction|].
      intros _. exact Hev. }
  destruct type as [| |code].
  - destruct (Hbody (g_lun a) (g_blk a) (g_pg a)) as (r & w' & E & Hl & Hok' & H1 & H2).
    exists r, w'. split.
    { simpl. unfold app_pg_io. rewrite Hc, Ha. cbn [mbind option_bind]. exact E. }
    split; [exact Hl|]. split; [exact Hok'|]. split.
    + intros [code Hx]; discriminate.
    + intros _. auto.
  - destruct (Hbody 0 (u16 (g_blk a)) (u16 (g_pg a))) as (r & w' & E & Hl & Hok' & H1 & H2).
    exists r, w'. split.
    { simpl. rewrite Ha. unfold app_io_rsv_blk. rewrite Hc. exact E. }
    split; [exact Hl|]. split; [exact Hok'|]. split.
    + intros [code Hx]; discriminate.
    + intros _. auto.
  - exists (-1), w. simpl. unfold ret. split_and!; auto.
    intros [H|H]; discriminate.
Qed.

(** An erase never looks at the plane vector and passes the buffer it
    starts with. *)
Lemma plane_loop_erase (c : nvm_channel) (plv plv' : list Z) (addr : Z * Z * Z) (k : nat) :
  forall (pl b ret : Z) (w : world),
  plane_loop c MMGR_ERASE_BLK plv (Some addr) k pl b ret w
  = plane_loop c MMGR_ERASE_BLK plv' (Some addr) k pl b ret w /\
  exists recs r w',
    plane_loop c MMGR_ERASE_BLK plv (Some addr) k pl b ret w = Ok r w' /\
    issued w' = issued w ++ recs /\
    Forall (fun rec => io_buf rec = b /\ io_type rec = MMGR_ERASE_BLK) recs.
Proof.
  induction k as [|k IH]; intros pl b ret w.
  - simpl. split; [reflexivity|]. exists [], ret, w. rewrite app_nil_r. auto.
  - cbn [plane_loop]. destruct addr as [[lun blk] pg]. cbn [is_erase].
    destruct (nvm_submit_sync_io c _ b MMGR_ERASE_BLK (media w) (mem w))
      as [[r mm'] m'] eqn:Es.
    destruct (r =? 0).
    + destruct (IH (pl + 1) b r
                  (log_io w {| io_cmd := plane_cmd c lun blk pg pl; io_buf := b;
                               io_type := MMGR_ERASE_BLK; io_status := r |} mm' m'))
        as (Heq & recs & r' & w' & E & Hiss & Hall).
      split; [exact Heq|]. eexists (_ :: recs), r', w'. split; [exact E|].
      rewrite Hiss. simpl. rewrite <- app_assoc. split; [reflexivity|].
      constructor; [simpl; auto | exact Hall].
    + split; [reflexivity|]. eexists [_], r, _. split; [reflexivity|]. simpl.
      split; [reflexivity|]. constructor; [simpl; auto | constructor].
Qed.

(** X6: an erase passes no buffer: every command of [app_pg_io] for
    [MMGR_ERASE_BLK] carries the null pointer, and the plane vector is not
    read (any other vector, the empty one included, gives the same
    outcome). *)
Theorem app_pg_io_erase (lch : app_channel) (c : nvm_channel)
  (plv plv' : list Z) (ppa : Z) (a : nvm_ppa_addr) (w : world) :
  ch lch = Some c -> ppas w !! ppa = Some a ->
  app_pg_io lch MMGR_ERASE_BLK plv' ppa w = app_pg_io lch MMGR_ERASE_BLK plv ppa w /\
  exists recs r w',
    app_pg_io lch MMGR_ERASE_BLK plv ppa w = Ok r w' /\
    issued w' = issued w ++ recs /\
    Forall (fun rec => io_buf rec = 0 /\ io_type rec = MMGR_ERASE_BLK) recs.
Proof.
  intros Hc Ha. unfold app_pg_io.
  destruct (malloc sizeof_io_cmd (heap w)) as [p h1].
  destruct (p =? 0).
  { split; [reflexivity|]. exists [], EMEM. eexists. split; [reflexivity|].
    simpl. rewrite app_nil_r. auto. }
  rewrite Hc, Ha. cbn [mbind option_bind].
  destruct (plane_loop_erase c plv plv' (g_lun a, g_blk a, g_pg a)
              (Z.to_nat (n_of_planes (geometry c))) 0 0 (-1) (set_heap w h1))
    as (Heq & recs & r & w' & E & Hiss & Hall).
  rewrite <- Heq, E. split; [reflexivity|].
  exists recs, r. eexists. split; [reflexivity|]. simpl. auto.
Qed.

End PlaneIOMore.

(** * Allocation and release of the I/O buffer *)

Lemma filter_all {A} (P : A -> Prop) `{!forall x, Decision (P x)} (l : list A) :
  Forall P l -> filter P l = l.
Proof.
  induction 1 as [|x l Hx Hl IH]; [reflexivity|].
  rewrite filter_cons_True by exact Hx. f_equal. exact IH.
Qed.

Lemma filter_none {A} (P : A -> Prop) `{!forall x, Decision (P x)} (l : list A) :
  Forall (fun x => ~ P x) l -> filter P l = [].
Proof.
  induction 1 as [|x l Hx Hl IH]; [reflexivity|].
  rewrite filter_cons_False by exact Hx. exact IH.
Qed.

Lemma free_all_spec (ps : list Z) :
  forall h : allocator,
  live (free_all ps h) = filter (fun b : Z * Z => fst b ∉ ps) (live h) /\
  events (free_all ps h) = events h ++ map EvFree ps /\
  brk (free_all ps h) = brk h /\ script (free_all ps h) = script h.
Proof.
  induction ps as [|p ps IH]; intros h.
  - simpl. rewrite app_nil_r. split_and!; auto.
    symmetry. apply filter_all. apply Forall_forall. intros b _. apply not_elem_of_nil.
  - cbn [free_all foldl]. fold (free_all ps (free p h)).
    destruct (IH (free p h)) as (Hl & He & Hb & Hs).
    rewrite Hl, He, Hb, Hs. simpl. rewrite <- app_assoc. split_and!; auto.
    rewrite list_filter_filter. apply list_filter_iff. intros b.
    rewrite not_elem_of_cons. tauto.
Qed.

Lemma free_all_app (ps qs : list Z) (h : allocator) :
  free_all (ps ++ qs) h = free_all qs (free_all ps h).
Proof. unfold free_all. apply foldl_app. Qed.

(** The row loop of [app_free_pg_io] releases the row pointers of the
    slots it visits. *)
Lemma free_rows_up_all (d : app_io_data) (k : nat) :
  forall (pl : Z) (h : allocator),
  0 <= pl -> pl + Z.of_nat k < 2 ^ 32 ->
  pl + Z.of_nat k <= Z.of_nat (length (sec_vec d)) ->
  free_rows_up k pl d h
  = Some (free_all (map row_p (take k (drop (Z.to_nat pl) (sec_vec d)))) h).
Proof.
  induction k as [|k IH]; intros pl h Hpl Hb Hlen; [reflexivity|].
  cbn [free_rows_up].
  destruct (arr_get_is_Some (sec_vec d) pl) as (r & Hr); [lia|]. rewrite Hr.
  cbn [mbind option_bind]. rewrite u32_small by lia.
  rewrite IH by lia.
  assert (Hlk : sec_vec d !! Z.to_nat pl = Some r).
  { unfold arr_get in Hr. destruct (_ && _); [exact Hr | discriminate]. }
  rewrite (drop_S _ _ _ Hlk). cbn [take map free_all foldl].
  replace (Z.to_nat (pl + 1)) with (S (Z.to_nat pl)) by lia. reflexivity.
Qed.

(** ** The pointers [app_pg_io_prepare] keeps *)

Lemma arr_set_row_p (l l' : list sec_row) (i : Z) (r : sec_row) (x : list Z) :
  arr_get l i = Some r ->
  arr_set l i {| row_p := row_p r; row := x |} = Some l' ->
  map row_p l' = map row_p l.
Proof.
  unfold arr_get, arr_set. destruct (_ && _); [|discriminate].
  intros Hr Hs. inversion Hs; subst l'. clear Hs.
  revert l Hr. generalize (Z.to_nat i) as n. intros n.
  induction n as [|n IH]; intros [|y l] Hr; simpl in *; try discriminate.
  - inversion Hr; subst y. reflexivity.
  - f_equal. apply IH. exact Hr.
Qed.

Ltac bind_inv H :=
  repeat match type of H with
  | mbind _ ?m = Some _ =>
      let E := fresh "E" in
      destruct m eqn:E; cbn [mbind option_bind] in H; [|discriminate H]
  end.

Lemma prepare_sector_rows (g : nvm_mmgr_geometry) (pl sec : Z) (d d' : app_io_data) :
  prepare_sector g pl sec d = Some d' ->
  map row_p (sec_vec d') = map row_p (sec_vec d) /\ scalars d' = scalars d.
Proof.
  unfold prepare_sector. intros H. bind_inv H. inversion H; subst d'. simpl.
  split; [|reflexivity]. simpl in *. eapply arr_set_row_p; eauto.
Qed.

Lemma prepare_sectors_rows (g : nvm_mmgr_geometry) (pl : Z) (k : nat) :
  forall (sec : Z) (d d' : app_io_data),
  prepare_sectors g pl k sec d = Some d' ->
  map row_p (sec_vec d') = map row_p (sec_vec d) /\ scalars d' = scalars d.
Proof.
  induction k as [|k IH]; intros sec d d' H; simpl in H.
  - inversion H; auto.
  - bind_inv H. destruct (prepare_sector_rows _ _ _ _ _ E) as [H1 H2].
    destruct (IH _ _ _ H) as [H3 H4]. split; congruence.
Qed.

Lemma prepare_plane_rows (g : nvm_mmgr_geometry) (pl : Z) (d d' : app_io_data) :
  prepare_plane g pl d = Some d' ->
  map row_p (sec_vec d') = map row_p (sec_vec d) /\ scalars d' = scalars d.
Proof.
  unfold prepare_plane. intros H. bind_inv H. inversion H; subst d'. simpl.
  match goal with E : prepare_sectors _ _ _ _ _ = Some _ |- _ =>
    destruct (prepare_sectors_rows _ _ _ _ _ _ E) as [H1 H2] end.
  simpl in H1, H2. split; [|exact H2]. rewrite <- H1. eapply arr_set_row_p; eauto.
Qed.

Lemma prepare_planes_rows (g : nvm_mmgr_geometry) (k : nat) :
  forall (pl : Z) (d d' : app_io_data),
  prepare_planes g k pl d = Some d' ->
  map row_p (sec_vec d') = map row_p (sec_vec d) /\ scalars d' = scalars d.
Proof.
  induction k as [|k IH]; intros pl d d' H; simpl in H.
  - inversion H; auto.
  - bind_inv H. destruct (prepare_plane_rows _ _ _ _ E) as [H1 H2].
    destruct (IH _ _ _ H) as [H3 H4]. split; congruence.
Qed.

Lemma app_pg_io_prepare_rows (lch : app_channel) (d d' : app_io_data) :
  app_pg_io_prepare lch d = Some d' ->
  map row_p (sec_vec d') = map row_p (sec_vec d) /\ scalars d' = scalars d.
Proof.
  unfold app_pg_io_prepare. intros H. bind_inv H. eapply prepare_planes_rows; eauto.
Qed.

(** ** The blocks of a descriptor *)

Section AllocFree.
Context {HD : Header} {MM : MediaManager}.

Lemma alloc_rows_blocks (g : nvm_mmgr_geometry) (k : nat) :
  forall (j : nat) (d : app_io_data) (h : allocator),
  never_fails h -> 0 < brk h ->
  (j + k <= length (sec_vec d))%nat -> Z.of_nat (j + k) < 2 ^ 16 ->
  exists d' h',
    alloc_rows g k (Z.of_nat j) d h = Some (true, Z.of_nat (j + k), d', h') /\
    take j (sec_vec d') = take j (sec_vec d) /\
    map row_p (take k (drop j (sec_vec d')))
    = map fst (row_blocks (brk h) (sizeof_ptr * (sec_per_pg g + 1)) k) /\
    live h'
    = rev (row_blocks (brk h) (sizeof_ptr * (sec_per_pg g + 1)) k) ++ live h /\
    events h'
    = events h ++ map ev_alloc (row_blocks (brk h) (sizeof_ptr * (sec_per_pg g + 1)) k) /\
    brk h' = brk h + Z.of_nat k * Z.max (sizeof_ptr * (sec_per_pg g + 1)) 1.
Proof.
  induction k as [|k IH]; intros j d h Hnf Hbrk Hlen Hb.
  - exists d, h. simpl. rewrite Nat.add_0_r, app_nil_r. split_and!; auto. lia.
  - cbn [alloc_rows].
    destruct (malloc_never_fails (sizeof_ptr * (sec_per_pg g + 1)) h Hnf)
      as (h1 & E1 & N1 & B1 & L1 & Ev1).
    rewrite E1.
    rewrite arr_set_in by lia. cbn [mbind option_bind]. rewrite Nat2Z.id.
    replace (brk h =? 0) with false by neq0.
    rewrite u16_small by lia.
    set (r0 := {| row_p := brk h; row := replicate (Z.to_nat (sec_per_pg g + 1)) 0 |}).
    replace (Z.of_nat j + 1) with (Z.of_nat (S j)) by lia.
    destruct (IH (S j) (set_sec_vec d (<[j:=r0]> (sec_vec d))) h1)
      as (d' & h' & E & Ht & Hr & Hl & Hev & Hbk); auto; try lia.
    { simpl. rewrite length_insert. lia. }
    simpl in Ht.
    exists d', h'. split; [rewrite E; do 4 f_equal; lia|].
    assert (Hj : sec_vec d' !! j = Some r0).
    { rewrite <- (lookup_take_lt _ (S j)) by lia. rewrite Ht.
      rewrite lookup_take_lt by lia. apply list_lookup_insert_eq. lia. }
    split_and!.
    + transitivity (take j (take (S j) (sec_vec d'))).
      { rewrite take_take. f_equal. lia. }
      rewrite Ht, take_take. replace (j `min` S j)%nat with j by lia.
      apply take_insert_ge. lia.
    + rewrite (drop_S _ _ _ Hj). cbn [take map row_blocks fst]. rewrite Hr, B1.
      reflexivity.
    + rewrite Hl, L1, B1. cbn [row_blocks rev]. rewrite <- app_assoc. reflexivity.
    + rewrite Hev, Ev1, B1. cbn [row_blocks map]. rewrite <- app_assoc. reflexivity.
    + rewrite Hbk, B1. lia.
Qed.

Lemma not_elem_of_above (x : Z) (l : list Z) : Forall (fun y => x < y) l -> x ∉ l.
Proof.
  intros H Hin. rewrite Forall_forall in H. specialize (H x Hin). lia.
Qed.

Lemma row_blocks_NoDup (b sz : Z) (m : nat) : NoDup (map fst (row_blocks b sz m)).
Proof.
  revert b. induction m as [|m IH]; intros b; simpl; constructor.
  - apply not_elem_of_above. apply Forall_map.
    eapply Forall_impl; [apply row_blocks_below|]. simpl. intros x Hx. lia.
  - apply IH.
Qed.

(** The blocks a successful [app_alloc_pg_io] has acquired, in the order
    of acquisition: the five of the descriptor, then the rows. *)
Lemma app_alloc_pg_io_blocks (lch : app_channel) (c : nvm_channel) (w : world)
  (d : app_io_data) (w1 : world) :
  ch lch = Some c -> geometry_fits (geometry c) ->
  heap_ok (heap w) -> never_fails (heap w) ->
  app_alloc_pg_io lch w = Ok (Some d) w1 ->
  exists fixed rows,
    map fst fixed = [io_self d; buf d; pl_vec_p d; oob_vec_p d; sec_vec_p d] /\
    map fst rows = row_pointers d (Z.to_nat (n_pl d)) /\
    n_pl d = n_of_planes (geometry c) /\
    (Z.to_nat (n_pl d) <= length (sec_vec d))%nat /\
    live (heap w1) = rev (fixed ++ rows) ++ live (heap w) /\
    events (heap w1) = events (heap w) ++ map ev_alloc (fixed ++ rows) /\
    NoDup (map fst (fixed ++ rows)) /\
    Forall (fun b => brk (heap w) <= fst b) (fixed ++ rows) /\
    never_fails (heap w1) /\ heap_ok (heap w1) /\
    ppas w1 = ppas w /\ media w1 = media w /\ issued w1 = issued w /\
    flushed w1 = flushed w.
Proof.
  intros Hc (Hn & Hs & Hpg & Hoob & Hsz & Hcap1 & Hcap2) [Hbrk Hlive] Hnf.
  unfold app_alloc_pg_io.
  remember (geometry c) as g eqn:Hg.
  destruct (malloc_never_fails sizeof_app_io_data (heap w) Hnf)
    as (h1 & E1 & N1 & B1 & L1 & Ev1). rewrite E1. cbv beta iota zeta.
  replace (brk (heap w) =? 0) with false by neq0.
  rewrite Hc. cbv beta iota zeta. rewrite <- Hg. unfold calloc.
  destruct (malloc_never_fails ((pg_size g + sec_oob_sz g * sec_per_pg g) * n_of_planes g * 1)
              h1 N1) as (h2 & E2 & N2 & B2 & L2 & Ev2). rewrite E2. cbv beta iota zeta.
  replace (brk h1 =? 0) with false by neq0. cbv beta iota zeta.
  replace (brk h1 =? 0) with false by neq0.
  destruct (malloc_never_fails (sizeof_ptr * n_of_planes g) h2 N2)
    as (h3 & E3 & N3 & B3 & L3 & Ev3). rewrite E3. cbv beta iota zeta.
  replace (brk h2 =? 0) with false by neq0.
  destruct (malloc_never_fails (sizeof_ptr * sec_per_pl_pg g) h3 N3)
    as (h4 & E4 & N4 & B4 & L4 & Ev4). rewrite E4. cbv beta iota zeta.
  replace (brk h3 =? 0) with false by neq0.
  destruct (malloc_never_fails (sizeof_ptr * sec_per_pl_pg g) h4 N4)
    as (h5 & E5 & N5 & B5 & L5 & Ev5). rewrite E5. cbv beta iota zeta.
  replace (brk h4 =? 0) with false by neq0.
  match goal with |- context [alloc_rows g _ 0 ?d4 h5] =>
    destruct (alloc_rows_succeeds g (Z.to_nat (n_of_planes g)) 0 d4 h5)
      as (d5 & h6 & E6 & S6 & P6 & O6 & Ls6 & R6 & F6 & N6 & B6 & I6);
    [exact N5 | lia | lia | simpl; rewrite ?length_replicate; lia | lia |];
    destruct (alloc_rows_blocks g (Z.to_nat (n_of_planes g)) 0 d4 h5)
      as (d5' & h6' & E6' & _ & Hrows & Hl6 & Hev6 & Hb6);
    [exact N5 | lia | simpl; rewrite ?length_replicate; lia | lia |]
  end.
  change (Z.of_nat 0) with 0 in E6'. rewrite E6 in E6'.
  assert (d5' = d5 /\ h6' = h6) as [-> ->] by (inversion E6'; auto). clear E6'.
  rewrite E6. simpl in S6, Ls6, Hrows. rewrite drop_0 in Hrows.
  destruct (app_pg_io_prepare lch d5) as [d6|] eqn:Ep; [|discriminate].
  intros Hret. inversion Hret; subst d w1. clear Hret.
  destruct (app_pg_io_prepare_rows lch d5 d6 Ep) as [Hrp Hsc].
  assert (Hsc' : scalars d6 = scalars d5) by exact Hsc.
  unfold scalars in Hsc, S6. simpl in S6.
  inversion Hsc as [[S1 S2 S3 S4 S5 S6' S7 S8 S9 S10 S11]]. clear Hsc.
  inversion S6 as [[T1 T2 T3 T4 T5 T6 T7 T8 T9 T10 T11]]. clear S6.
  set (rsz := sizeof_ptr * (sec_per_pg g + 1)) in *.
  exists [(brk (heap w), sizeof_app_io_data);
          (brk h1, (pg_size g + sec_oob_sz g * sec_per_pg g) * n_of_planes g * 1);
          (brk h2, sizeof_ptr * n_of_planes g);
          (brk h3, sizeof_ptr * sec_per_pl_pg g);
          (brk h4, sizeof_ptr * sec_per_pl_pg g)],
         (row_blocks (brk h5) rsz (Z.to_nat (n_of_planes g))).
  assert (Hlen6 : length (sec_vec d6) = length (sec_vec d5)).
  { rewrite <- (length_map row_p (sec_vec d6)), Hrp. apply length_map. }
  simpl. rewrite S1, S4, S8, S9, S10, S11, T1, T4, T8, T9, T10, T11.
  split; [reflexivity|]. split.
  { unfold row_pointers. rewrite <- Hrows.
    rewrite <- !firstn_map. rewrite Hrp. reflexivity. }
  split; [reflexivity|]. split.
  { rewrite Hlen6, Ls6, length_replicate. lia. }
  split.
  { rewrite Hl6, L5, L4, L3, L2, L1. simpl.
    rewrite <- !app_assoc. reflexivity. }
  split.
  { rewrite Hev6, Ev5, Ev4, Ev3, Ev2, Ev1. simpl.
    rewrite <- !app_assoc. reflexivity. }
  assert (Hrb : Forall (fun x => brk h5 <= fst x) (row_blocks (brk h5) rsz (Z.to_nat (n_of_planes g)))).
  { eapply Forall_impl; [apply row_blocks_below|]. simpl. intros x Hx. lia. }
  split.
  { repeat (constructor; [
      apply not_elem_of_above; repeat (constructor; [simpl; lia|]);
      apply Forall_map; eapply Forall_impl; [exact Hrb|]; simpl; intros x Hx; lia|]).
    apply row_blocks_NoDup. }
  split.
  { repeat (constructor; [simpl; lia|]).
    eapply Forall_impl; [exact Hrb|]. simpl. intros x Hx. lia. }
  split; [exact N6|]. split; [|auto].
  split; [lia|]. rewrite Hl6, L5, L4, L3, L2, L1.
  assert (Hmx : 0 <= Z.of_nat (Z.to_nat (n_of_planes g)) * Z.max rsz 1) by nia.
  apply Forall_app. split.
  - apply Forall_rev. eapply Forall_impl; [apply row_blocks_below|]. simpl.
    intros x Hx. lia.
  - repeat (constructor; [simpl; lia|]).
    eapply Forall_impl; [exact Hlive|]. simpl. intros x Hx. lia.
Qed.

(** [app_free_pg_io] on a heap whose newest blocks are those of the
    descriptor releases the rows, first row first, then the five blocks of
    the descriptor, last acquired first. *)
Lemma app_free_pg_io_blocks (d : app_io_data) (w1 : world)
  (fixed rows l0 : list (Z * Z)) (b0 : Z) :
  map fst fixed = [io_self d; buf d; pl_vec_p d; oob_vec_p d; sec_vec_p d] ->
  map fst rows = row_pointers d (Z.to_nat (n_pl d)) ->
  0 <= n_pl d < 2 ^ 32 -> (Z.to_nat (n_pl d) <= length (sec_vec d))%nat ->
  live (heap w1) = rev (fixed ++ rows) ++ l0 ->
  Forall (fun b => b0 <= fst b) (fixed ++ rows) -> Forall (fun b => fst b < b0) l0 ->
  exists w2,
    app_free_pg_io d w1 = Ok tt w2 /\
    live (heap w2) = l0 /\
    events (heap w2)
    = events (heap w1) ++ map EvFree (map fst rows ++ rev (map fst fixed)) /\
    brk (heap w2) = brk (heap w1) /\ script (heap w2) = script (heap w1) /\
    mem w2 = mem w1 /\ ppas w2 = ppas w1 /\ media w2 = media w1 /\
    issued w2 = issued w1 /\ flushed w2 = flushed w1.
Proof.
  intros Hfix Hrows Hn Hlen Hlive Hge Hlt. unfold app_free_pg_io.
  rewrite free_rows_up_all by lia. rewrite drop_0.
  fold (row_pointers d (Z.to_nat (n_pl d))). rewrite <- Hrows.
  set (ps := map fst rows ++ rev (map fst fixed)).
  assert (Hall : free (io_self d) (free (buf d) (free (pl_vec_p d) (free (oob_vec_p d)
                   (free (sec_vec_p d) (free_all (map fst rows) (heap w1))))))
                 = free_all ps (heap w1)).
  { unfold ps. rewrite free_all_app, Hfix. reflexivity. }
  rewrite Hall. eexists. split; [reflexivity|]. simpl.
  destruct (free_all_spec ps (heap w1)) as (Hl & He & Hb & Hs).
  rewrite Hl, He, Hb, Hs, Hlive. split_and!; auto.
  rewrite filter_app, filter_none, filter_all; [reflexivity| |].
  - eapply Forall_impl; [exact Hlt|]. simpl. intros b Hb0 Hin.
    apply list_elem_of_In in Hin. unfold ps in Hin.
    assert (Hin' : In (fst b) (map fst (fixed ++ rows))).
    { rewrite map_app. apply in_or_app. apply in_app_or in Hin.
      destruct Hin as [Hin|Hin]; [right; exact Hin | left; apply in_rev; exact Hin]. }
    apply in_map_iff in Hin'. destruct Hin' as (x & Hx & Hxin).
    rewrite List.Forall_forall in Hge. specialize (Hge x Hxin). lia.
  - apply Forall_rev. apply List.Forall_forall. intros b Hin Hnot. apply Hnot.
    apply list_elem_of_In. unfold ps. apply in_or_app. apply in_app_or in Hin.
    destruct Hin as [Hin|Hin].
    + right. apply -> in_rev. apply in_map. exact Hin.
    + left. apply in_map. exact Hin.
Qed.

(** X7: [app_alloc_pg_io] followed by [app_free_pg_io] leaks nothing and
    releases nothing twice: every block acquired is released exactly once
    and the live blocks of the heap are those of the start. *)
Theorem app_alloc_free_pg_io (lch : app_channel) (c : nvm_channel) (w : world) :
  ch lch = Some c -> geometry_fits (geometry c) ->
  heap_ok (heap w) -> never_fails (heap w) ->
  exists d w1 w2 acquired released,
    app_alloc_pg_io lch w = Ok (Some d) w1 /\
    app_free_pg_io d w1 = Ok tt w2 /\
    events (heap w1) = events (heap w) ++ map ev_alloc acquired /\
    events (heap w2) = events (heap w1) ++ map EvFree released /\
    length acquired = (5 + Z.to_nat (n_of_planes (geometry c)))%nat /\
    NoDup (map fst acquired) /\ released ≡ₚ map fst acquired /\
    live (heap w2) = live (heap w).
Proof.
  intros Hc Hg Hok Hnf.
  destruct (app_alloc_pg_io_succeeds lch c w Hc Hg Hok Hnf) as (d & w1 & E & _).
  destruct (app_alloc_pg_io_blocks lch c w d w1 Hc Hg Hok Hnf E)
    as (fixed & rows & Hfix & Hrows & Hnpl & Hlen & Hlive & Hev & Hnd & Hge & _).
  destruct Hg as (Hn & _). destruct Hok as [Hb Hl0].
  destruct (app_free_pg_io_blocks d w1 fixed rows (live (heap w)) (brk (heap w))
              Hfix Hrows ltac:(lia) Hlen Hlive Hge)
    as (w2 & E2 & Hl2 & Hev2 & _).
  { eapply Forall_impl; [exact Hl0|]. simpl. intros b Hbb. lia. }
  exists d, w1, w2, (fixed ++ rows), (map fst rows ++ rev (map fst fixed)).
  split_and!; auto.
  - rewrite length_app. apply (f_equal (@length _)) in Hfix, Hrows.
    rewrite !length_map in Hfix. rewrite Hfix. simpl.
    rewrite length_map in Hrows. rewrite Hrows. unfold row_pointers.
    rewrite length_map, length_take. lia.
  - rewrite map_app. rewrite (Permutation_app_comm (map fst fixed)).
    apply Permutation_app; [reflexivity|]. symmetry. apply Permutation_rev.
Qed.

End AllocFree.

(** * The layout, once more *)

Lemma arr_set_id {A} (l : list A) (i : Z) (x : A) :
  arr_get l i = Some x -> arr_set l i x = Some l.
Proof.
  unfold arr_get, arr_set. destruct (_ && _); [|discriminate].
  intros H. f_equal. apply list_insert_id. exact H.
Qed.

Lemma set_oob_vec_id (d : app_io_data) : set_oob_vec d (oob_vec d) = d.
Proof. destruct d; reflexivity. Qed.

Lemma set_sec_vec_id (d : app_io_data) : set_sec_vec d (sec_vec d) = d.
Proof. destruct d; reflexivity. Qed.

Lemma set_pl_vec_id (d : app_io_data) : set_pl_vec d (pl_vec d) = d.
Proof. destruct d; reflexivity. Qed.

Section Settled.
Variable g : nvm_mmgr_geometry.

(** Where the pointers that the loops store are in place already, the
    loops leave the descriptor as it is. *)
Lemma prepare_sector_settled (pl sec : Z) (d : app_io_data) (p : Z) (r : sec_row) :
  arr_get (pl_vec d) pl = Some p ->
  arr_get (oob_vec d) (sec_per_pg g * pl + sec) = Some (p + pg_sz d + sec_oob_sz g * sec) ->
  arr_get (sec_vec d) pl = Some r ->
  arr_get (row r) sec = Some (p + sec_size g * sec) ->
  prepare_sector g pl sec d = Some d.
Proof.
  intros Hp Ho Hr Hs. unfold prepare_sector. rewrite Hp. cbn [mbind option_bind].
  rewrite (arr_set_id _ _ _ Ho). cbn [mbind option_bind]. rewrite set_oob_vec_id.
  rewrite Hr. cbn [mbind option_bind]. rewrite (arr_set_id _ _ _ Hs).
  cbn [mbind option_bind].
  replace {| row_p := row_p r; row := row r |} with r by (destruct r; reflexivity).
  rewrite (arr_set_id _ _ _ Hr). cbn [mbind option_bind]. rewrite set_sec_vec_id.
  reflexivity.
Qed.

Lemma prepare_sectors_settled (pl : Z) (d : app_io_data) (p : Z) (r : sec_row) (k : nat) :
  forall sec : Z,
  arr_get (pl_vec d) pl = Some p -> arr_get (sec_vec d) pl = Some r ->
  0 <= sec -> sec + Z.of_nat k < 2 ^ 16 ->
  (forall s, sec <= s < sec + Z.of_nat k ->
     arr_get (oob_vec d) (sec_per_pg g * pl + s) = Some (p + pg_sz d + sec_oob_sz g * s) /\
     arr_get (row r) s = Some (p + sec_size g * s)) ->
  prepare_sectors g pl k sec d = Some d.
Proof.
  induction k as [|k IH]; intros sec Hp Hr Hs Hb Hall; [reflexivity|].
  cbn [prepare_sectors]. destruct (Hall sec ltac:(lia)) as [Ho Hrow].
  rewrite (prepare_sector_settled pl sec d p r Hp Ho Hr Hrow). cbn [mbind option_bind].
  rewrite u16_small by lia. apply IH; auto; try lia. intros s Hsr. apply Hall. lia.
Qed.

Lemma prepare_plane_settled (j : Z) (d : app_io_data) :
  0 <= j < n_pl d -> n_pl d < 2 ^ 16 -> 0 <= buf_sz d < 2 ^ 32 ->
  0 <= sec_per_pg g < 2 ^ 16 ->
  plane_laid g d (buf_sz d / n_pl d) j ->
  prepare_plane g j d = Some d.
Proof.
  intros Hj Hn Hb Hs (Hp & r & Hr & Hsec & o & Hsent & Hoob).
  assert (Hstride : 0 <= j * (buf_sz d / n_pl d) <= buf_sz d).
  { assert (0 <= buf_sz d / n_pl d) by (apply Z.div_pos; lia).
    split; [nia|].
    transitivity (n_pl d * (buf_sz d / n_pl d)); [nia | apply Z.mul_div_le; lia]. }
  assert (Hu : u32 (u32 j * (buf_sz d / u32 (n_pl d))) = j * (buf_sz d / n_pl d)).
  { rewrite (u32_small j), (u32_small (n_pl d)) by lia. apply u32_small. lia. }
  unfold prepare_plane. rewrite Hu. rewrite (arr_set_id _ _ _ Hp).
  cbn [mbind option_bind]. rewrite set_pl_vec_id.
  rewrite (prepare_sectors_settled j d (buf d + j * (buf_sz d / n_pl d)) r
             (Z.to_nat (sec_per_pg g)) 0 Hp Hr); try lia.
  - cbn [mbind option_bind]. rewrite Hoob. cbn [mbind option_bind].
    rewrite Hr. cbn [mbind option_bind]. rewrite (arr_set_id _ _ _ Hsent).
    cbn [mbind option_bind].
    replace {| row_p := row_p r; row := row r |} with r by (destruct r; reflexivity).
    rewrite (arr_set_id _ _ _ Hr). cbn [mbind option_bind]. rewrite set_sec_vec_id.
    reflexivity.
  - intros s Hsr. destruct (Hsec s ltac:(lia)) as [H1 H2]. split.
    + rewrite H2. do 2 f_equal. lia.
    + rewrite H1. do 2 f_equal. lia.
Qed.

Lemma prepare_planes_settled (d : app_io_data) (k : nat) :
  forall j : Z,
  0 <= j -> j + Z.of_nat k <= n_pl d -> n_pl d < 2 ^ 16 -> 0 <= buf_sz d < 2 ^ 32 ->
  0 <= sec_per_pg g < 2 ^ 16 ->
  (forall pl, j <= pl < j + Z.of_nat k -> plane_laid g d (buf_sz d / n_pl d) pl) ->
  prepare_planes g k j d = Some d.
Proof.
  induction k as [|k IH]; intros j Hj Hk Hn Hb Hs Hall; [reflexivity|].
  cbn [prepare_planes].
  rewrite (prepare_plane_settled j d) by (auto; try lia; apply Hall; lia).
  cbn [mbind option_bind]. rewrite u16_small by lia. apply IH; auto; try lia.
  intros pl Hpl. apply Hall. lia.
Qed.

End Settled.

(** X8: [app_pg_io_prepare] is idempotent: run on a descriptor it has laid
    out, it returns the descriptor unchanged. *)
Theorem app_pg_io_prepare_idempotent (lch : app_channel) (c : nvm_channel)
  (d : app_io_data) :
  ch lch = Some c ->
  0 <= n_pl d < 2 ^ 16 -> 0 <= buf_sz d < 2 ^ 32 ->
  0 <= sec_per_pg (geometry c) < 2 ^ 16 -> arrays_sized (geometry c) d ->
  exists d1,
    app_pg_io_prepare lch d = Some d1 /\ app_pg_io_prepare lch d1 = Some d1.
Proof.
  intros Hc Hn Hb Hs Hsz.
  destruct (app_pg_io_prepare_spec lch c d Hc Hn Hb Hs Hsz) as (d1 & E & Hsc & _ & Hlaid).
  exists d1. split; [exact E|].
  assert (Hnpl : n_pl d1 = n_pl d) by (unfold scalars in Hsc; congruence).
  assert (Hbsz : buf_sz d1 = buf_sz d) by (unfold scalars in Hsc; congruence).
  unfold app_pg_io_prepare. rewrite Hc. cbn [mbind option_bind].
  apply prepare_planes_settled; rewrite ?Hnpl, ?Hbsz; auto; try lia.
  intros pl Hpl. apply Hlaid. lia.
Qed.

Section Apart.
Context {HD : Header} {MM : MediaManager}.

(** X9: the plane units of a descriptor tile its buffer: each lies inside
    the allocated buffer, the units of two planes do not overlap, and the
    out-of-band area of every sector lies inside the unit of its plane,
    after the page data. *)
Theorem app_alloc_pg_io_planes_apart (lch : app_channel) (c : nvm_channel) (w : world) :
  ch lch = Some c -> geometry_fits (geometry c) ->
  heap_ok (heap w) -> never_fails (heap w) ->
  exists d w',
    app_alloc_pg_io lch w = Ok (Some d) w' /\
    In (buf d, buf_sz d) (live (heap w')) /\
    forall pl, 0 <= pl < n_of_planes (geometry c) ->
      exists p,
        arr_get (pl_vec d) pl = Some p /\
        buf d <= p /\ p + plane_bytes (geometry c) <= buf d + buf_sz d /\
        (forall pl' p', pl < pl' < n_of_planes (geometry c) ->
           arr_get (pl_vec d) pl' = Some p' -> p + plane_bytes (geometry c) <= p') /\
        (forall s, 0 <= s < sec_per_pg (geometry c) ->
           exists o,
             arr_get (oob_vec d) (sec_per_pg (geometry c) * pl + s) = Some o /\
             p + pg_size (geometry c) <= o /\
             o + sec_oob_sz (geometry c) <= p + plane_bytes (geometry c)).
Proof.
  intros Hc Hg Hok Hnf.
  destruct (app_alloc_pg_io_succeeds lch c w Hc Hg Hok Hnf)
    as (d & w' & E & _ & _ & _ & Hpg & _ & Hbsz & _ & _ & Hin & _ & _ & Hlaid & _).
  destruct Hg as (Hn & Hs & Hpg0 & Hoob & _).
  assert (Hpb : 0 <= plane_bytes (geometry c)) by (unfold plane_bytes; nia).
  exists d, w'. split; [exact E|]. split; [exact Hin|].
  intros pl Hpl. destruct (Hlaid pl Hpl) as (Hp & r & Hr & Hsec & _).
  exists (buf d + pl * plane_bytes (geometry c)). split; [exact Hp|].
  split; [nia|]. split; [rewrite Hbsz; nia|]. split.
  - intros pl' p' Hpl' Hp'. destruct (Hlaid pl' ltac:(lia)) as (Hq & _).
    rewrite Hq in Hp'. inversion Hp'; subst p'. nia.
  - intros s Hsr. destruct (Hsec s Hsr) as (_ & Ho').
    eexists. split; [exact Ho'|]. rewrite Hpg. unfold plane_bytes. nia.
Qed.

End Apart.

(** * The commands of a table transfer *)

Section TransferLog.
Context {HD : Header} {MM : MediaManager}.

Lemma plane_run_ok (c : nvm_channel) (t : mmgr_cmdtype) (plv : list Z)
  (lun blk pg n : Z) (recs : list io_record) (r : Z) :
  plane_run c t plv lun blk pg n recs ->
  r = match last recs with Some rec => io_status rec | None => -1 end ->
  Forall (fun rec => io_type rec = t /\
            exists pl, 0 <= pl < n /\ io_cmd rec = plane_cmd c lun blk pg pl) recs /\
  (r = 0 -> Forall (fun rec => io_status rec = 0) recs /\ Z.of_nat (length recs) = n).
Proof.
  intros (Hcmd & Hst & Hfin & Hle) Hr. split.
  - apply Forall_lookup. intros i rec Hi. destruct (Hcmd i rec Hi) as (H1 & H2 & _).
    split; [exact H2|]. exists (Z.of_nat i). split; [|exact H1].
    apply lookup_lt_Some in Hi. lia.
  - intros H0. subst r. destruct (last recs) as [lst|] eqn:El; [|lia]. split.
    + apply Forall_lookup. intros i rec Hi.
      destruct (decide (S i < length recs)%nat) as [Hlt|Hge].
      * apply (Hst i rec Hi Hlt).
      * assert (Hil : i = pred (length recs)).
        { apply lookup_lt_Some in Hi. lia. }
        rewrite last_lookup in El. rewrite <- Hil in El. congruence.
    + destruct Hfin as [Hfin | (rec & Hl & Hs)]; [exact Hfin|]. congruence.
Qed.

(** What one page I/O of a transfer logs. *)
Lemma app_pg_io_switch_log (lch : app_channel) (c : nvm_channel)
  (cmdtype : mmgr_cmdtype) (plv : list Z) (l : Z) (al : nvm_ppa_addr)
  (type : app_io_type) (w : world) :
  ch lch = Some c -> 0 <= n_of_planes (geometry c) ->
  (is_erase cmdtype = false -> n_of_planes (geometry c) <= Z.of_nat (length plv)) ->
  ppas w !! l = Some al ->
  exists recs r w',
    app_pg_io_switch lch cmdtype plv l type w = Ok r w' /\
    issued w' = issued w ++ recs /\ ppas w' = ppas w /\
    Forall (page_command c type al cmdtype (g_pg al)) recs /\
    (r = 0 -> Forall (fun rec => io_status rec = 0) recs) /\
    (r = 0 -> EMEM <> 0 -> Z.of_nat (length recs) = n_of_planes (geometry c)) /\
    ((exists code, type = APP_IO_OTHER code) -> recs = [] /\ r = -1).
Proof.
  intros Hc Hn Hlen Ha.
  assert (Hbody : forall lun blk pg,
    exists recs r w',
      (let '(cmd, h1) := malloc sizeof_io_cmd (heap w) in
       if cmd =? 0 then Ok EMEM (set_heap w h1) else
       match plane_loop c cmdtype plv (Some (lun, blk, pg))
               (Z.to_nat (n_of_planes (geometry c))) 0 0 (-1) (set_heap w h1) with
       | Ok r w' => Ok r (set_heap w' (free cmd (heap w')))
       | Undef => Undef
       | OutOfFuel => OutOfFuel
       end) = Ok r w' /\
      issued w' = issued w ++ recs /\ ppas w' = ppas w /\
      Forall (fun rec => io_type rec = cmdtype /\
                exists pl, 0 <= pl < n_of_planes (geometry c) /\
                  io_cmd rec = plane_cmd c lun blk pg pl) recs /\
      (r = 0 -> Forall (fun rec => io_status rec = 0) recs) /\
      (r = 0 -> EMEM <> 0 -> Z.of_nat (length recs) = n_of_planes (geometry c))).
  { intros lun blk pg. destruct (malloc sizeof_io_cmd (heap w)) as [p h1].
    destruct (p =? 0).
    - exists [], EMEM. eexists. split; [reflexivity|]. simpl. rewrite app_nil_r.
      split_and!; auto. intros H1 H2. contradiction.
    - destruct (plane_loop_run c cmdtype plv lun blk pg
                  (n_of_planes (geometry c)) (set_heap w h1) Hn Hlen)
        as (recs & r & w' & E & Hiss & _ & Hp & _ & Hrun & Hret).
      rewrite E. destruct (plane_run_ok _ _ _ _ _ _ _ _ _ Hrun Hret) as (H1 & H2).
      exists recs, r. eexists. split; [reflexivity|]. simpl.
      split_and!; auto.
      + intros H0. apply H2. exact H0.
      + intros H0 _. apply H2. exact H0. }
  destruct type as [| |code].
  - destruct (Hbody (g_lun al) (g_blk al) (g_pg al))
      as (recs & r & w' & E & Hiss & Hp & Hall & H0 & Hcnt).
    exists recs, r, w'. split.
    { simpl. unfold app_pg_io. rewrite Hc, Ha. cbn [mbind option_bind]. exact E. }
    split_and!; auto. intros [code Hx]; discriminate.
  - destruct (Hbody 0 (u16 (g_blk al)) (u16 (g_pg al)))
      as (recs & r & w' & E & Hiss & Hp & Hall & H0 & Hcnt).
    exists recs, r, w'. split.
    { simpl. rewrite Ha. unfold app_io_rsv_blk. rewrite Hc. exact E. }
    split_and!; auto. intros [code Hx]; discriminate.
  - exists [], (-1), w. simpl. unfold ret. rewrite app_nil_r. split_and!; auto.
    all: intros; lia.
Qed.

Lemma page_command_same (c : nvm_channel) (type : app_io_type) (a a' : nvm_ppa_addr)
  (t : mmgr_cmdtype) (pg : Z) (rec : io_record) :
  g_lun a' = g_lun a -> g_blk a' = g_blk a ->
  page_command c type a' t pg rec -> page_command c type a t pg rec.
Proof.
  intros Hl Hb (Ht & pl & Hpl & Hc). split; [exact Ht|]. exists pl. split; [exact Hpl|].
  rewrite Hc. destruct type; simpl; rewrite ?Hl, ?Hb; reflexivity.
Qed.

(** The log of the page loop of a transfer. *)
Lemma transfer_pages_log (io : app_io_data) (c : nvm_channel)
  (l user_buf pg_ent_sz ent_per_pg entry_sz : Z) (direction : app_direction)
  (reserved : app_io_type) (start_pg : Z) (a : nvm_ppa_addr) (k : nat) :
  ch (io_lch io) = Some c ->
  0 <= n_of_planes (geometry c) <= Z.of_nat (length (pl_vec io)) ->
  0 <= n_pl io <= Z.of_nat (length (pl_vec io)) -> n_pl io < 2 ^ 32 ->
  forall (i ent_left : Z) (w : world),
  0 <= i -> i + Z.of_nat k < 2 ^ 32 ->
  (exists al, ppas w !! l = Some al /\ g_lun al = g_lun a /\ g_blk al = g_blk a) ->
  exists r w' recs,
    transfer_pages io l user_buf pg_ent_sz ent_per_pg entry_sz direction reserved
      start_pg k i ent_left w = Ok r w' /\
    issued w' = issued w ++ recs /\ (r = 0 \/ r = -1) /\
    Forall (fun rec => exists i', i <= i' < i + Z.of_nat k /\
              page_command c reserved a (transfer_cmdtype direction)
                (u32 (start_pg + i')) rec) recs /\
    (r = 0 -> Forall (fun rec => io_status rec = 0) recs) /\
    (r = 0 -> EMEM <> 0 -> is_from_nvm direction || is_to_nvm direction = true ->
     Z.of_nat (length recs) = Z.of_nat k * n_of_planes (geometry c)) /\
    (is_from_nvm direction || is_to_nvm direction = false -> recs = [] /\ r = 0) /\
    ((exists code, reserved = APP_IO_OTHER code) ->
     recs = [] /\
     (is_from_nvm direction || is_to_nvm direction = true -> (0 < k)%nat -> r = -1)).
Proof.
  intros Hc Hn Hnpl Hnb.
  induction k as [|k IH]; intros i el w Hi Hik (al & Ha & Hlun & Hblk).
  { exists 0, w, []. simpl. rewrite app_nil_r. split_and!; auto; try lia.
    intros _. split; [reflexivity|]. intros; lia. }
  cbn [transfer_pages]. rewrite Ha.
  set (al1 := set_g_pg al (u32 (start_pg + i))).
  set (w1 := set_ppas w (<[l:=al1]> (ppas w))).
  assert (Ha1 : ppas w1 !! l = Some al1) by (simpl; apply lookup_insert_eq).
  assert (Hcmd1 : forall t rec,
            page_command c reserved al1 t (g_pg al1) rec ->
            exists i', i <= i' < i + Z.of_nat (S k) /\
              page_command c reserved a t (u32 (start_pg + i')) rec).
  { intros t rec Hpc. exists i. split; [lia|].
    apply (page_command_same c reserved a al1); auto. }
  assert (Hplanes : forall m, exists el' m3,
            transfer_planes io user_buf i pg_ent_sz ent_per_pg entry_sz direction
              (Z.to_nat (n_pl io)) 0 el m = Some (el', m3)).
  { intros m. apply transfer_planes_returns; lia. }
  assert (Hnext : forall (w4 : world) el',
            ppas w4 = ppas w1 ->
            exists r w' recs,
              transfer_pages io l user_buf pg_ent_sz ent_per_pg entry_sz direction
                reserved start_pg k (u32 (i + 1)) el' w4 = Ok r w' /\
              issued w' = issued w4 ++ recs /\ (r = 0 \/ r = -1) /\
              Forall (fun rec => exists i', i <= i' < i + Z.of_nat (S k) /\
                        page_command c reserved a (transfer_cmdtype direction)
                          (u32 (start_pg + i')) rec) recs /\
              (r = 0 -> Forall (fun rec => io_status rec = 0) recs) /\
              (r = 0 -> EMEM <> 0 ->
               is_from_nvm direction || is_to_nvm direction = true ->
               Z.of_nat (length recs) = Z.of_nat k * n_of_planes (geometry c)) /\
              (is_from_nvm direction || is_to_nvm direction = false ->
               recs = [] /\ r = 0) /\
              ((exists code, reserved = APP_IO_OTHER code) -> recs = [])).
  { intros w4 el' Hp4. rewrite u32_small by lia.
    destruct (IH (i + 1) el' w4) as (r & w' & recs & E & Hiss & Hr & Hall & H0 & Hcnt & Hno & Hoth);
      try lia.
    { exists al1. rewrite Hp4. split; [exact Ha1|]. simpl. auto. }
    exists r, w', recs. split_and!; auto.
    - eapply Forall_impl; [exact Hall|]. simpl. intros rec (i' & Hi' & Hpc).
      exists i'. split; [lia | exact Hpc].
    - intros Hx. apply Hoth. exact Hx. }
  destruct direction as [| |dcode]; cbn [is_from_nvm is_to_nvm transfer_cmdtype orb] in *.
  - (* from the media *)
    destruct (app_pg_io_switch_log (io_lch io) c MMGR_READ_PG (pl_vec io) l al1 reserved w1
                Hc ltac:(lia) ltac:(intros; lia) Ha1)
      as (recs1 & r1 & w2 & E1 & Hiss1 & Hp1 & Hall1 & H01 & Hcnt1 & Hoth1).
    rewrite E1.
    assert (Hall1' : Forall (fun rec => exists i', i <= i' < i + Z.of_nat (S k) /\
                       page_command c reserved a MMGR_READ_PG (u32 (start_pg + i')) rec) recs1).
    { eapply Forall_impl; [exact Hall1|]. intros rec Hpc. apply Hcmd1. exact Hpc. }
    destruct (Z.eqb_spec r1 0) as [Hr1|Hr1]; cbn [negb].
    + destruct (Hplanes (mem w2)) as (el' & m3 & Etp). rewrite Etp.
      cbn [negb Z.eqb].
      destruct (Hnext (set_mem w2 m3) el' Hp1)
        as (r & w' & recs & E & Hiss & Hr & Hall & H0 & Hcnt & Hno & Hoth).
      rewrite E. exists r, w', (recs1 ++ recs). split; [reflexivity|].
      split; [rewrite Hiss; simpl; rewrite Hiss1; simpl; symmetry; apply app_assoc|].
      split; [exact Hr|]. split; [apply Forall_app; auto|]. split.
      { intros Hz. apply Forall_app. auto. }
      split.
      { intros Hz He _. rewrite length_app, Nat2Z.inj_add, Hcnt1, Hcnt by auto. lia. }
      split; [intros Hx; discriminate|].
      intros Hx. destruct (Hoth1 Hx) as [_ Hm]. lia.
    + exists (-1), w2, recs1. split; [reflexivity|].
      split; [rewrite Hiss1; reflexivity|]. split; [auto|]. split; [exact Hall1'|].
      split; [intros; lia|]. split; [intros; lia|]. split; [intros Hx; discriminate|].
      intros Hx. destruct (Hoth1 Hx) as [Hm _]. auto.
  - (* to the media *)
    cbn [negb Z.eqb].
    destruct (Hplanes (mem w1)) as (el' & m3 & Etp). rewrite Etp.
    assert (Ha3 : ppas (set_mem w1 m3) !! l = Some al1) by exact Ha1.
    destruct (app_pg_io_switch_log (io_lch io) c MMGR_WRITE_PG (pl_vec io) l al1 reserved
                (set_mem w1 m3) Hc ltac:(lia) ltac:(intros; lia) Ha3)
      as (recs1 & r1 & w4 & E1 & Hiss1 & Hp1 & Hall1 & H01 & Hcnt1 & Hoth1).
    rewrite E1.
    assert (Hall1' : Forall (fun rec => exists i', i <= i' < i + Z.of_nat (S k) /\
                       page_command c reserved a MMGR_WRITE_PG (u32 (start_pg + i')) rec) recs1).
    { eapply Forall_impl; [exact Hall1|]. intros rec Hpc. apply Hcmd1. exact Hpc. }
    destruct (Z.eqb_spec r1 0) as [Hr1|Hr1]; cbn [negb].
    + destruct (Hnext w4 el' Hp1)
        as (r & w' & recs & E & Hiss & Hr & Hall & H0 & Hcnt & Hno & Hoth).
      rewrite E. exists r, w', (recs1 ++ recs). split; [reflexivity|].
      split; [rewrite Hiss, Hiss1; simpl; symmetry; apply app_assoc|].
      split; [exact Hr|]. split; [apply Forall_app; auto|]. split.
      { intros Hz. apply Forall_app. auto. }
      split.
      { intros Hz He _. rewrite length_app, Nat2Z.inj_add, Hcnt1, Hcnt by auto. lia. }
      split; [intros Hx; discriminate|].
      intros Hx. destruct (Hoth1 Hx) as [_ Hm]. lia.
    + exists (-1), w4, recs1. split; [reflexivity|].
      split; [rewrite Hiss1; reflexivity|]. split; [auto|]. split; [exact Hall1'|].
      split; [intros; lia|]. split; [intros; lia|]. split; [intros Hx; discriminate|].
      intros Hx. destruct (Hoth1 Hx) as [Hm _]. auto.
  - (* another direction: no page I/O *)
    cbn [negb Z.eqb].
    destruct (Hplanes (mem w1)) as (el' & m3 & Etp). rewrite Etp.
    destruct (Hnext (set_mem w1 m3) el' eq_refl)
      as (r & w' & recs & E & Hiss & Hr & Hall & H0 & Hcnt & Hno & Hoth).
    rewrite E. destruct (Hno eq_refl) as [-> ->].
    exists 0, w', []. split; [reflexivity|]. split; [exact Hiss|].
    split_and!; auto; try discriminate.
    intros _. split; [reflexivity|]. intros Hx; discriminate.
Qed.

Lemma app_nvm_seq_transfer_log (io : app_io_data) (c : nvm_channel)
  (ppa user_buf pgs ent_per_pg ent_left entry_sz : Z) (direction : app_direction)
  (reserved : app_io_type) (a : nvm_ppa_addr) (w : world) :
  ch (io_lch io) = Some c ->
  0 <= n_of_planes (geometry c) <= Z.of_nat (length (pl_vec io)) ->
  0 <= n_pl io <= Z.of_nat (length (pl_vec io)) -> n_pl io < 2 ^ 32 ->
  ppas w !! ppa = Some a -> 0 <= pgs < 2 ^ 16 ->
  exists r w' recs,
    app_nvm_seq_transfer io ppa user_buf pgs ent_per_pg ent_left entry_sz
      direction reserved w = Ok r w' /\
    issued w' = issued w ++ recs /\ (r = 0 \/ r = -1) /\
    Forall (fun rec => exists i, 0 <= i < pgs /\
              page_command c reserved a (transfer_cmdtype direction)
                (u32 (u32 (g_pg a) + i)) rec) recs /\
    (r = 0 -> Forall (fun rec => io_status rec = 0) recs) /\
    (r = 0 -> EMEM <> 0 -> is_from_nvm direction || is_to_nvm direction = true ->
     Z.of_nat (length recs) = pgs * n_of_planes (geometry c)) /\
    (is_from_nvm direction || is_to_nvm direction = false -> recs = [] /\ r = 0) /\
    ((exists code, reserved = APP_IO_OTHER code) ->
     recs = [] /\
     (is_from_nvm direction || is_to_nvm direction = true -> 0 < pgs -> r = -1)).
Proof.
  intros Hc Hn Hnpl Hnb Ha Hpgs. unfold app_nvm_seq_transfer. rewrite Ha.
  set (l := fresh (dom (ppas w))).
  destruct (transfer_pages_log io c l user_buf (usz (ent_per_pg * entry_sz)) ent_per_pg
              entry_sz direction reserved (u32 (g_pg a)) a (Z.to_nat pgs)
              Hc Hn Hnpl Hnb 0 ent_left (set_ppas w (<[l:=a]> (ppas w))))
    as (r & w' & recs & E & Hiss & Hr & Hall & H0 & Hcnt & Hno & Hoth); try lia.
  { exists a. simpl. rewrite lookup_insert_eq. auto. }
  rewrite E. exists r. eexists. exists recs. split; [reflexivity|].
  simpl. split; [exact Hiss|]. split; [exact Hr|]. split.
  { eapply Forall_impl; [exact Hall|]. simpl. intros rec (i' & Hi' & Hpc).
    exists i'. split; [lia | exact Hpc]. }
  split; [exact H0|]. split.
  { intros Hz He Hd. rewrite (Hcnt Hz He Hd). lia. }
  split; [exact Hno|]. intros Hx. destruct (Hoth Hx) as [Hm Hk].
  split; [exact Hm|]. intros Hd Hp. apply Hk; [exact Hd | lia].
Qed.

(** X10: the commands of a table transfer: page reads in the direction from
    the media, page writes in the direction to it, each for a plane of one
    of the pages [start, start + pgs) of the block and lun of the address;
    a transfer that returns 0 has submitted one command for every plane of
    every page. *)
Theorem app_nvm_seq_transfer_commands (io : app_io_data) (c : nvm_channel)
  (ppa user_buf pgs ent_per_pg ent_left entry_sz : Z) (direction : app_direction)
  (reserved : app_io_type) (a : nvm_ppa_addr) (w : world) :
  ch (io_lch io) = Some c ->
  0 <= n_of_planes (geometry c) <= Z.of_nat (length (pl_vec io)) ->
  0 <= n_pl io <= Z.of_nat (length (pl_vec io)) -> n_pl io < 2 ^ 32 ->
  ppas w !! ppa = Some a -> 0 <= pgs < 2 ^ 16 -> EMEM <> 0 ->
  direction = APP_TRANS_FROM_NVM \/ direction = APP_TRANS_TO_NVM ->
  exists r w' recs,
    app_nvm_seq_transfer io ppa user_buf pgs ent_per_pg ent_left entry_sz
      direction reserved w = Ok r w' /\
    issued w' = issued w ++ recs /\
    Forall (fun rec => exists i, 0 <= i < pgs /\
              page_command c reserved a (transfer_cmdtype direction)
                (u32 (u32 (g_pg a) + i)) rec) recs /\
    (r = 0 -> Z.of_nat (length recs) = pgs * n_of_planes (geometry c)).
Proof.
  intros Hc Hn Hnpl Hnb Ha Hpgs He Hd.
  destruct (app_nvm_seq_transfer_log io c ppa user_buf pgs ent_per_pg ent_left entry_sz
              direction reserved a w Hc Hn Hnpl Hnb Ha Hpgs)
    as (r & w' & recs & E & Hiss & _ & Hall & _ & Hcnt & _).
  exists r, w', recs. split_and!; auto.
  intros Hz. apply Hcnt; auto. destruct Hd as [-> | ->]; reflexivity.
Qed.

(** X11: what a table transfer returns: 0 or -1, whatever the status codes
    of the media manager; 0 only when every command it submitted
    succeeded.  An unknown addressing mode gives -1 on the first page,
    with no command submitted; an unknown direction is not refused: the
    call submits nothing and returns 0. *)
Theorem app_nvm_seq_transfer_status (io : app_io_data) (c : nvm_channel)
  (ppa user_buf pgs ent_per_pg ent_left entry_sz : Z) (direction : app_direction)
  (reserved : app_io_type) (a : nvm_ppa_addr) (w : world) :
  ch (io_lch io) = Some c ->
  0 <= n_of_planes (geometry c) <= Z.of_nat (length (pl_vec io)) ->
  0 <= n_pl io <= Z.of_nat (length (pl_vec io)) -> n_pl io < 2 ^ 32 ->
  ppas w !! ppa = Some a -> 0 <= pgs < 2 ^ 16 ->
  exists r w' recs,
    app_nvm_seq_transfer io ppa user_buf pgs ent_per_pg ent_left entry_sz
      direction reserved w = Ok r w' /\
    issued w' = issued w ++ recs /\
    (r = 0 \/ r = -1) /\
    (r = 0 -> Forall (fun rec => io_status rec = 0) recs) /\
    ((exists code, direction = APP_TRANS_OTHER code) -> recs = [] /\ r = 0) /\
    ((exists code, reserved = APP_IO_OTHER code) ->
     recs = [] /\
     (direction = APP_TRANS_FROM_NVM \/ direction = APP_TRANS_TO_NVM -> 0 < pgs ->
      r = -1)).
Proof.
  intros Hc Hn Hnpl Hnb Ha Hpgs.
  destruct (app_nvm_seq_transfer_log io c ppa user_buf pgs ent_per_pg ent_left entry_sz
              direction reserved a w Hc Hn Hnpl Hnb Ha Hpgs)
    as (r & w' & recs & E & Hiss & Hr & _ & H0 & _ & Hno & Hoth).
  exists r, w', recs. split_and!; auto.
  - intros [code ->]. apply Hno. reflexivity.
  - intros Hx. destruct (Hoth Hx) as [Hm Hk]. split; [exact Hm|].
    intros Hd Hp. apply Hk; [|exact Hp]. destruct Hd as [-> | ->]; reflexivity.
Qed.

End TransferLog.

(** * What a table transfer leaves alone *)

Section TransferFrame.
Context {HD : Header}.

(** X12: writing a table to the flash changes no memory outside the I/O
    buffer and no unit of the flash other than the units of the table's
    pages; reading it back changes nothing on the flash and no memory
    outside the I/O buffer and the destination table. *)
Theorem seq_transfer_frame (io : app_io_data) (c : nvm_channel)
  (reserved : app_io_type) (ppa : Z) (a : nvm_ppa_addr)
  (ub dst pgs e N esz : Z) (w : world) :
  ch (io_lch io) = Some c ->
  n_pl io = n_of_planes (geometry c) -> 1 <= n_of_planes (geometry c) < 2 ^ 32 ->
  (forall pl, 0 <= pl < n_of_planes (geometry c) ->
     arr_get (pl_vec io) pl = Some (buf io + pl * plane_bytes (geometry c))) ->
  reserved = APP_IO_NORMAL \/ reserved = APP_IO_RESERVED ->
  0 <= e -> n_of_planes (geometry c) * e < 2 ^ 16 ->
  0 <= esz -> e * esz <= plane_bytes (geometry c) ->
  0 <= N < 2 ^ 32 -> 0 <= pgs < 2 ^ 16 -> N <= pgs * (n_of_planes (geometry c) * e) ->
  n_of_planes (geometry c) * e * esz < 2 ^ 64 ->
  n_of_planes (geometry c) * (e * esz) * pgs < 2 ^ 64 ->
  0 <= g_pg a /\ g_pg a + pgs <= page_limit reserved -> g_pg a < 2 ^ 32 ->
  (forall y, 0 <= y < N * esz ->
     ~ (buf io <= ub + y
        < buf io + n_of_planes (geometry c) * plane_bytes (geometry c))) ->
  (forall y, 0 <= y < N * esz ->
     ~ (buf io <= dst + y
        < buf io + n_of_planes (geometry c) * plane_bytes (geometry c))) ->
  ppas w !! ppa = Some a -> never_fails (heap w) -> 0 < brk (heap w) ->
  (forall i pl, 0 <= i < pgs -> 0 <= pl < n_of_planes (geometry c) ->
     fl_bad (media w) (table_unit c reserved a i pl) = false) ->
  exists w1,
    app_nvm_seq_transfer io ppa ub pgs (n_of_planes (geometry c) * e) N esz
      APP_TRANS_TO_NVM reserved w = Ok 0 w1 /\
    (forall x, ~ (buf io <= x
                  < buf io + n_of_planes (geometry c) * plane_bytes (geometry c)) ->
       mem w1 x = mem w x) /\
    (forall key off,
       (forall i pl, 0 <= i < pgs -> 0 <= pl < n_of_planes (geometry c) ->
          key <> table_unit c reserved a i pl) ->
       fl_data (media w1) key off = fl_data (media w) key off) /\
    fl_bad (media w1) = fl_bad (media w) /\
    forall w2 : world,
      media w2 = media w1 -> ppas w2 !! ppa = Some a ->
      never_fails (heap w2) -> 0 < brk (heap w2) ->
      exists w3,
        app_nvm_seq_transfer io ppa dst pgs (n_of_planes (geometry c) * e) N esz
          APP_TRANS_FROM_NVM reserved w2 = Ok 0 w3 /\
        media w3 = media w2 /\
        forall x, ~ (dst <= x < dst + N * esz) ->
          ~ (buf io <= x
             < buf io + n_of_planes (geometry c) * plane_bytes (geometry c)) ->
          mem w3 x = mem w2 x.
Proof.
  intros Hc Hn Hn1 Hplv Hres He Hepp Hesz HTS HN Hpgs HNspan Hpe Hspan Hpg Hpg32
    Hdu Hdd Ha Hnf Hbrk Hbad.
  set (n := n_of_planes (geometry c)) in *.
  assert (Hpges : usz (n * e * esz) = n * (e * esz)).
  { replace (n * (e * esz)) with (n * e * esz) by ring. apply usz_small.
    split; [|lia]. apply Z.mul_nonneg_nonneg; [apply Z.mul_nonneg_nonneg|]; lia. }
  assert (Hstart : u32 (g_pg a) = g_pg a) by (apply u32_small; lia).
  unfold app_nvm_seq_transfer. rewrite Ha, Hpges, Hstart.
  set (l := fresh (dom (ppas w))).
  destruct (pages_to_nvm io c reserved a l n e esz (e * esz) (buf io) N pgs
              Hc eq_refl Hn Hn1 He Hesz eq_refl HTS HN Hpgs Hspan HNspan Hplv Hres Hpg
              ub (Z.to_nat pgs) Hdu 0 (set_ppas w (<[l:=a]> (ppas w))) a)
    as (w1 & E1 & N1 & B1 & Bd1 & M1 & Fin1 & Fr1); auto; try lia.
  { simpl. apply lookup_insert_eq. }
  { intros i pl Hi Hpl. simpl. apply Hbad; lia. }
  rewrite entries_left_0 in E1 by lia. rewrite E1.
  eexists. split; [reflexivity|]. simpl.
  split; [exact M1|]. split.
  { intros key off Hk. apply Fr1. intros i pl Hi Hpl. apply Hk; lia. }
  split; [exact Bd1|].
  assert (Hst : table_stored (media w1) c reserved a n (e * esz) (N * esz) pgs
                  (fun y => mem w (ub + y))).
  { intros i pl off Hi Hpl Hoff Hlt. rewrite Fin1 by lia. reflexivity. }
  intros w2 Hmd Ha2 Hnf2 Hbrk2. rewrite Ha2, Hstart.
  set (l2 := fresh (dom (ppas w2))).
  destruct (pages_from_nvm io c reserved a l2 n e esz (e * esz) (buf io) N pgs
              Hc eq_refl Hn Hn1 He Hesz eq_refl HTS HN Hpgs Hspan HNspan Hplv Hres Hpg
              dst (fun y => mem w (ub + y)) (Z.to_nat pgs) Hdd 0
              (set_ppas w2 (<[l2:=a]> (ppas w2))) a)
    as (w3 & E3 & N3 & B3 & Md3 & C3 & Fr3); auto; try lia.
  { simpl. apply lookup_insert_eq. }
  { intros i pl Hi Hpl. simpl. simpl in Hmd. rewrite Hmd, Bd1. simpl. apply Hbad; lia. }
  { simpl. simpl in Hmd. rewrite Hmd. exact Hst. }
  rewrite entries_left_0 in E3, Fr3 by lia. rewrite E3.
  eexists. split; [reflexivity|]. simpl. split; [exact Md3|].
  intros x Hx1 Hx2. rewrite Fr3; [reflexivity| |exact Hx2].
  rewrite Z.add_0_l, Z2Nat.id by lia. rewrite entries_left_end by lia. lia.
Qed.

End TransferFrame.

(** * More on the recency scan *)

Section ScanLog.
Context {HD : Header} {MM : MediaManager}.

(** One page read of the scan, for any media manager. *)
Lemma rsv_read_log (lch : app_channel) (c : nvm_channel) (plv : list Z)
  (blk pg : Z) (w : world) :
  ch lch = Some c ->
  0 <= n_of_planes (geometry c) <= Z.of_nat (length plv) ->
  heap_ok (heap w) -> never_fails (heap w) ->
  exists recs r w',
    app_io_rsv_blk lch MMGR_READ_PG plv blk pg w = Ok r w' /\
    issued w' = issued w ++ recs /\
    Forall (fun rec => io_type rec = MMGR_READ_PG /\
              exists pl, 0 <= pl < n_of_planes (geometry c) /\
                io_cmd rec = plane_cmd c 0 blk pg pl) recs /\
    heap_ok (heap w') /\ never_fails (heap w') /\
    live (heap w') = live (heap w) /\ ppas w' = ppas w /\ flushed w' = flushed w.
Proof.
  intros Hc Hn Hok Hnf. unfold app_io_rsv_blk.
  pose proof (cmd_scope (heap w) Hok) as Hs.
  destruct (heap_after_cmd (heap w) sizeof_io_cmd Hnf ltac:(destruct Hok; lia))
    as (h1 & E & Hnf1 & _).
  rewrite E in *. replace (brk (heap w) =? 0) with false in * by (destruct Hok; neq0).
  destruct Hs as (_ & _ & Hl & Hok' & _). rewrite Hc.
  destruct (plane_loop_run c MMGR_READ_PG plv 0 blk pg
              (n_of_planes (geometry c)) (set_heap w h1) ltac:(lia) ltac:(intros; lia))
    as (recs & r & w' & E1 & Hiss & Hh & Hp & Hf & (Hcmd & _ & _ & Hle) & _).
  rewrite E1. exists recs, r. eexists. split; [reflexivity|]. simpl.
  rewrite Hh. simpl. split_and!; auto.
  apply Forall_lookup. intros i rec Hi. destruct (Hcmd i rec Hi) as (H1 & H2 & _).
  split; [exact H2|]. exists (Z.of_nat i). split; [|exact H1].
  apply lookup_lt_Some in Hi. lia.
Qed.

(** A command of the scan: the read of a plane of a page the loop can
    reach from [pg] in steps of [offset]. *)
Lemma scan_loop_log (lch : app_channel) (c : nvm_channel) (d : app_io_data)
  (blk offset : Z) :
  ch lch = Some c -> io_ch d = Some c ->
  0 <= n_of_planes (geometry c) <= Z.of_nat (length (pl_vec d)) ->
  0 < offset -> pg_per_blk (geometry c) <= 2 ^ 16 ->
  forall (fuel : nat) (pg : Z) (w : world),
  0 <= pg < 2 ^ 16 -> (Z.to_nat (pg_per_blk (geometry c) - pg) < fuel)%nat ->
  heap_ok (heap w) -> never_fails (heap w) ->
  exists pg' r w' recs,
    scan_loop fuel lch d blk offset pg w = Ok (pg', r) w' /\
    issued w' = issued w ++ recs /\
    Forall (scan_command c blk offset pg) recs /\
    (exists j, 0 <= j /\ pg' = pg + j * offset /\
               (j <= 1 \/ pg' < pg_per_blk (geometry c))) /\
    heap_ok (heap w') /\ never_fails (heap w') /\
    live (heap w') = live (heap w) /\ ppas w' = ppas w /\ flushed w' = flushed w.
Proof.
  intros Hc Hioc Hn Hoff Hppb.
  induction fuel as [|fuel IH]; intros pg w Hpg Hfuel Hok Hnf; [lia|].
  cbn [scan_loop]. rewrite (u16_small pg) by lia.
  destruct (rsv_read_log lch c (pl_vec d) blk pg
              (set_mem w (memset (mem w) (buf d) 0 (buf_sz d))) Hc Hn Hok Hnf)
    as (recs1 & r1 & w2 & E1 & Hiss1 & Hall1 & Hok2 & Hnf2 & Hl2 & Hp2 & Hf2).
  rewrite E1.
  assert (Hall1' : Forall (scan_command c blk offset pg) recs1).
  { eapply Forall_impl; [exact Hall1|]. intros rec (Ht & pl & Hpl & Hcm).
    split; [exact Ht|]. exists 0, pl. split; [lia|]. split; [left; reflexivity|].
    split; [exact Hpl|]. rewrite Hcm.
    replace (pg + 0 * offset) with pg by ring. reflexivity. }
  destruct (negb (r1 =? 0) || negb (_ =? APP_MAGIC)).
  { exists pg, r1, w2, recs1. split; [reflexivity|]. split_and!; auto.
    exists 0. split_and!; auto; lia. }
  rewrite Hioc.
  destruct (Z.ltb_spec (pg + offset) (pg_per_blk (geometry c) - offset)) as [Hlt|Hge].
  - destruct (IH (pg + offset) w2) as (pg' & r & w' & recs & E & Hiss & Hall & Hres
                                        & Hok' & Hnf' & Hl' & Hp' & Hf'); auto; try lia.
    exists pg', r, w', (recs1 ++ recs). split; [exact E|].
    split; [rewrite Hiss, Hiss1; simpl; symmetry; apply app_assoc|].
    split.
    { apply Forall_app. split; [exact Hall1'|].
      eapply Forall_impl; [exact Hall|]. intros rec (Ht & j & pl & Hj & Hr & Hpl & Hcm).
      split; [exact Ht|]. exists (j + 1), pl. split; [lia|]. split.
      - right. destruct Hr as [-> | Hr]; lia.
      - split; [exact Hpl|]. rewrite Hcm.
        replace (pg + offset + j * offset) with (pg + (j + 1) * offset) by ring.
        reflexivity. }
    split.
    { destruct Hres as (j & Hj & Hpg' & Hb). exists (j + 1). split; [lia|].
      split; [lia|]. destruct Hb as [Hb|Hb]; [|right; exact Hb].
      right. nia. }
    rewrite Hl', Hp', Hf'. simpl in *. split_and!; auto.
  - exists (pg + offset), r1, w2, recs1. split; [reflexivity|]. split_and!; auto.
    exists 1. split_and!; auto; lia.
Qed.

Lemma plv_covers (c : nvm_channel) (d : app_io_data) :
  0 <= n_of_planes (geometry c) ->
  (forall pl, 0 <= pl < n_of_planes (geometry c) ->
     arr_get (pl_vec d) pl = Some (buf d + pl * plane_bytes (geometry c))) ->
  0 <= n_of_planes (geometry c) <= Z.of_nat (length (pl_vec d)).
Proof.
  intros Hn Hplv. split; [exact Hn|].
  destruct (Z.eq_dec (n_of_planes (geometry c)) 0) as [->|Hne]; [lia|].
  pose proof (arr_get_in _ _ _ (Hplv (n_of_planes (geometry c) - 1) ltac:(lia))). lia.
Qed.

(** The scan as a whole, for any media manager. *)
Lemma app_blk_current_page_log (lch : app_channel) (c : nvm_channel)
  (io : option app_io_data) (blk stride : Z) (fuel : nat) (w : world) :
  ch lch = Some c -> scan_buffer_ok c io (heap w) ->
  0 <= n_of_planes (geometry c) -> pg_per_blk (geometry c) <= 2 ^ 16 -> 0 < stride ->
  heap_ok (heap w) -> never_fails (heap w) ->
  (Z.to_nat (pg_per_blk (geometry c)) < fuel)%nat ->
  exists r w' recs,
    app_blk_current_page fuel lch io blk stride w = Ok r w' /\
    issued w' = issued w ++ recs /\
    Forall (scan_command c blk stride 0) recs /\
    (r = -1 \/
     exists j, 0 <= j /\ r = j * stride /\ (j <= 1 \/ r < pg_per_blk (geometry c))) /\
    live (heap w') = live (heap w) /\ ppas w' = ppas w /\ flushed w' = flushed w.
Proof.
  intros Hc Hbuf Hn Hppb Hoff Hok Hnf Hfuel.
  assert (Hres : forall (pg' r : Z),
            (exists j, 0 <= j /\ pg' = 0 + j * stride /\
                       (j <= 1 \/ pg' < pg_per_blk (geometry c))) ->
            (if r =? 0 then pg' else -1) = -1 \/
            exists j, 0 <= j /\ (if r =? 0 then pg' else -1) = j * stride /\
                      (j <= 1 \/ (if r =? 0 then pg' else -1) < pg_per_blk (geometry c))).
  { intros pg' r (j & Hj & Hpg' & Hb). destruct (r =? 0); [|left; reflexivity].
    right. exists j. split; [exact Hj|]. split; [lia|]. exact Hb. }
  unfold app_blk_current_page. destruct io as [d|]; simpl in Hbuf.
  - destruct Hbuf as (Hioc & Hpg & Hplv).
    destruct (scan_loop_log lch c d blk stride Hc Hioc (plv_covers c d Hn Hplv) Hoff Hppb
                fuel 0 w ltac:(lia) ltac:(rewrite Z.sub_0_r; exact Hfuel) Hok Hnf)
      as (pg' & r & w' & recs & E & Hiss & Hall & Hj & _ & _ & Hl & Hp & Hf).
    rewrite E. exists (if r =? 0 then pg' else -1), w', recs.
    split; [reflexivity|]. split_and!; auto.
  - destruct Hbuf as (Hg & _).
    destruct (app_alloc_pg_io_succeeds lch c w Hc Hg Hok Hnf)
      as (d & w0 & E0 & _ & Hioc & _ & _ & _ & _ & _ & _ & _ & _ & _ & Hlaid & _).
    destruct (app_alloc_pg_io_blocks lch c w d w0 Hc Hg Hok Hnf E0)
      as (fixed & rows & Hfix & Hrows & Hnpl & Hlen & Hlive & _ & _ & Hge & Hnf0 & Hok0
          & Hp0 & _ & Hi0 & Hf0).
    rewrite E0.
    assert (Hplv : forall pl, 0 <= pl < n_of_planes (geometry c) ->
              arr_get (pl_vec d) pl = Some (buf d + pl * plane_bytes (geometry c))).
    { intros pl Hpl. destruct (Hlaid pl Hpl) as (H & _). exact H. }
    destruct (scan_loop_log lch c d blk stride Hc Hioc (plv_covers c d Hn Hplv) Hoff Hppb
                fuel 0 w0 ltac:(lia) ltac:(rewrite Z.sub_0_r; exact Hfuel) Hok0 Hnf0)
      as (pg' & r & w1 & recs & E & Hiss & Hall & Hj & _ & _ & Hl & Hp & Hf).
    rewrite E.
    destruct Hg as (Hn16 & _). destruct Hok as [Hb Hl0].
    destruct (app_free_pg_io_blocks d w1 fixed rows (live (heap w)) (brk (heap w))
                Hfix Hrows ltac:(lia) Hlen ltac:(rewrite Hl; exact Hlive) Hge)
      as (w2 & E2 & Hl2 & _ & _ & _ & _ & Hp2 & _ & Hi2 & Hf2).
    { eapply Forall_impl; [exact Hl0|]. simpl. intros b Hbb. lia. }
    rewrite E2. exists (if r =? 0 then pg' else -1), w2, recs.
    split; [reflexivity|]. rewrite Hi2, Hiss, Hi0, Hp2, Hp, Hp0, Hf2, Hf, Hf0.
    split_and!; auto.
Qed.

(** X13: for a stride above 0 the scan ends, whatever the media manager
    answers, within [pg_per_blk] iterations; it submits page reads only,
    for block [blk] on lun 0 and pages that are multiples of the stride;
    it returns [-1] or a multiple of the stride that is the stride itself
    or lies below [pg_per_blk]. *)
Theorem app_blk_current_page_ends (lch : app_channel) (c : nvm_channel)
  (io : option app_io_data) (blk stride : Z) (fuel : nat) (w : world) :
  ch lch = Some c -> scan_buffer_ok c io (heap w) ->
  0 <= n_of_planes (geometry c) -> pg_per_blk (geometry c) <= 2 ^ 16 -> 0 < stride ->
  heap_ok (heap w) -> never_fails (heap w) ->
  (Z.to_nat (pg_per_blk (geometry c)) < fuel)%nat ->
  exists r w' recs,
    app_blk_current_page fuel lch io blk stride w = Ok r w' /\
    issued w' = issued w ++ recs /\
    Forall (scan_command c blk stride 0) recs /\
    (r = -1 \/
     exists j, 0 <= j /\ r = j * stride /\ (j <= 1 \/ r < pg_per_blk (geometry c))).
Proof.
  intros Hc Hbuf Hn Hppb Hoff Hok Hnf Hfuel.
  destruct (app_blk_current_page_log lch c io blk stride fuel w
              Hc Hbuf Hn Hppb Hoff Hok Hnf Hfuel)
    as (r & w' & recs & E & Hiss & Hall & Hr & _).
  exists r, w', recs. auto.
Qed.

(** X14: a scan that is given no buffer releases the one it allocates, on
    every way out: the live blocks of the heap are those of the start,
    whatever the media manager answers. *)
Theorem app_blk_current_page_releases (lch : app_channel) (c : nvm_channel)
  (blk stride : Z) (fuel : nat) (w : world) :
  ch lch = Some c -> geometry_fits (geometry c) ->
  pg_per_blk (geometry c) <= 2 ^ 16 -> 0 < stride ->
  heap_ok (heap w) -> never_fails (heap w) ->
  (Z.to_nat (pg_per_blk (geometry c)) < fuel)%nat ->
  exists r w',
    app_blk_current_page fuel lch None blk stride w = Ok r w' /\
    live (heap w') = live (heap w).
Proof.
  intros Hc Hg Hppb Hoff Hok Hnf Hfuel.
  destruct (app_blk_current_page_log lch c None blk stride fuel w
              Hc (conj Hg Hok) ltac:(destruct Hg; lia) Hppb Hoff Hok Hnf Hfuel)
    as (r & w' & recs & E & _ & _ & _ & Hl & _).
  exists r, w'. auto.
Qed.

End ScanLog.

Section ScanAlloc.
Context {HD : Header} {MM : MediaManager}.

(** [app_alloc_pg_io] acts on the heap and the memory only. *)
Lemma app_alloc_pg_io_frame (lch : app_channel) (w : world)
  (r : option app_io_data) (w' : world) :
  app_alloc_pg_io lch w = Ok r w' ->
  issued w' = issued w /\ media w' = media w /\ ppas w' = ppas w /\
  flushed w' = flushed w.
Proof.
  unfold app_alloc_pg_io, calloc.
  repeat match goal with
  | |- context [malloc ?a ?b] => destruct (malloc a b)
  | |- context [alloc_rows ?a ?b ?c ?d ?e] => destruct (alloc_rows a b c d e) as [[[[[] ?] ?] ?]|]
  | |- context [unwind_FREE_SEC ?a ?b ?c] => destruct (unwind_FREE_SEC a b c)
  | |- context [app_pg_io_prepare ?a ?b] => destruct (app_pg_io_prepare a b)
  | |- context [ch lch] => destruct (ch lch)
  | |- context [if ?x =? 0 then _ else _] => destruct (x =? 0)
  | |- _ = Ok _ _ -> _ => let H := fresh in intros H; inversion H; subst; simpl; auto
  | |- Undef = _ -> _ => discriminate
  end.
Qed.

(** X15: when the scan is given no buffer and cannot allocate one, it
    returns [-1] and has submitted no command. *)
Theorem app_blk_current_page_no_buffer (lch : app_channel) (blk stride : Z)
  (fuel : nat) (w w0 : world) :
  app_alloc_pg_io lch w = Ok None w0 ->
  app_blk_current_page fuel lch None blk stride w = Ok (-1) w0 /\
  issued w0 = issued w /\ media w0 = media w.
Proof.
  intros E. unfold app_blk_current_page. rewrite E. split; [reflexivity|].
  destruct (app_alloc_pg_io_frame lch w None w0 E) as (H1 & H2 & _). auto.
Qed.

End ScanAlloc.

Section ScanFlash.
Context {HD : Header}.

(** X16: a page that the scan reaches and cannot read ends it with [-1],
    also after pages that carried the stamp: when the pages 0, stride,
    ..., [(k - 1) * stride] can be read and carry the stamp, each of the
    pages stride, ..., [k * stride] lies below [pg_per_blk - stride]
    (the limit of the loop; no condition when [k] is 0) and page
    [k * stride] cannot be read, the scan returns [-1]. *)
Theorem app_blk_current_page_read_error (lch : app_channel) (c : nvm_channel)
  (io : option app_io_data) (blk stride k : Z) (fuel : nat) (w : world) :
  ch lch = Some c -> scan_buffer_ok c io (heap w) ->
  1 <= n_of_planes (geometry c) -> 0 <= pg_size (geometry c) ->
  0 <= sizeof_app_magic <= sec_oob_sz (geometry c) * sec_per_pg (geometry c) ->
  pg_per_blk (geometry c) <= 2 ^ 16 -> 0 < stride ->
  never_fails (heap w) -> 0 < brk (heap w) ->
  0 <= k -> (Z.to_nat k + 1 <= fuel)%nat ->
  (forall j, 0 <= j < k ->
     page_readable (media w) c blk (j * stride) /\
     page_stamped (media w) c blk (j * stride)) ->
  (forall j, 1 <= j <= k -> j * stride < pg_per_blk (geometry c) - stride) ->
  ~ page_readable (media w) c blk (k * stride) ->
  exists w', app_blk_current_page fuel lch io blk stride w = Ok (-1) w'.
Proof.
  intros Hc Hbuf Hn1 Hpg0 Hmagic Hppb Hoff Hnf Hbrk Hk Hfuel Hst Hin Hbad.
  destruct (current_page_buffer lch c io blk stride fuel w Hc Hbuf Hnf Hbrk)
    as (d & w0 & Hioc & Hpgsz & Hplv & N0 & B0 & Md0 & Hres).
  rewrite <- Md0 in Hst, Hbad.
  destruct (scan_steps lch c d blk stride Hc Hioc Hpgsz Hplv Hn1 Hpg0 Hmagic Hoff Hppb
              (Z.to_nat k) (fuel - Z.to_nat k)%nat 0 w0 N0 B0 ltac:(lia))
    as (w1 & E1 & N1 & B1 & Md1).
  { intros j Hj. rewrite Z.add_0_l. apply Hst. lia. }
  { intros j Hj. rewrite Z.add_0_l. apply Hin. lia. }
  replace (Z.to_nat k + (fuel - Z.to_nat k))%nat with fuel in E1 by lia.
  rewrite Z.add_0_l, Z2Nat.id in E1 by lia.
  destruct (fuel - Z.to_nat k)%nat as [|f] eqn:Ef; [lia|].
  assert (Hkr : 0 <= k * stride < 2 ^ 16).
  { destruct (Z.eq_dec k 0) as [->|Hne]; [lia|]. specialize (Hin k ltac:(lia)). nia. }
  destruct (scan_iter_unreadable lch c d blk stride Hc Hplv Hn1 f (k * stride) w1 N1 B1 Hkr)
    as (w2 & E2).
  { rewrite Md1. exact Hbad. }
  rewrite E2 in E1. destruct (Hres _ _ _ E1) as (w3 & E3). exists w3. exact E3.
Qed.

Lemma scan_loop_stride_zero (lch : app_channel) (c : nvm_channel) (d : app_io_data)
  (blk : Z) (fl : flash) :
  ch lch = Some c -> io_ch d = Some c -> pg_sz d = pg_size (geometry c) ->
  (forall pl, 0 <= pl < n_of_planes (geometry c) ->
     arr_get (pl_vec d) pl = Some (buf d + pl * plane_bytes (geometry c))) ->
  1 <= n_of_planes (geometry c) -> 0 <= pg_size (geometry c) ->
  0 <= sizeof_app_magic <= sec_oob_sz (geometry c) * sec_per_pg (geometry c) ->
  0 < pg_per_blk (geometry c) ->
  page_readable fl c blk 0 -> page_stamped fl c blk 0 ->
  forall (fuel : nat) (w : world),
  never_fails (heap w) -> 0 < brk (heap w) -> media w = fl ->
  scan_loop fuel lch d blk 0 0 w = OutOfFuel.
Proof.
  intros Hc Hioc Hpgsz Hplv Hn1 Hpg0 Hmagic Hppb Hrd Hst.
  induction fuel as [|fuel IH]; intros w Hnf Hbrk Hmd; [reflexivity|].
  destruct (scan_iter_stamped lch c d blk 0 Hc Hioc Hpgsz Hplv Hn1 Hpg0 Hmagic
              fuel 0 w Hnf Hbrk ltac:(lia))
    as (w' & E & Hnf' & Hbrk' & Hmd'); try (rewrite Hmd; assumption).
  rewrite E. replace (0 + 0 <? pg_per_blk (geometry c) - 0) with true
    by (symmetry; apply Z.ltb_lt; lia).
  apply IH; auto. congruence.
Qed.

(** X17: with stride 0 and a readable first page that carries the stamp
    the scan never ends: the loop reads page 0 again and again, and no
    number of iterations gives a result. *)
Theorem app_blk_current_page_stride_zero (lch : app_channel) (c : nvm_channel)
  (io : option app_io_data) (blk : Z) (w : world) :
  ch lch = Some c -> scan_buffer_ok c io (heap w) ->
  1 <= n_of_planes (geometry c) -> 0 <= pg_size (geometry c) ->
  0 <= sizeof_app_magic <= sec_oob_sz (geometry c) * sec_per_pg (geometry c) ->
  0 < pg_per_blk (geometry c) ->
  never_fails (heap w) -> 0 < brk (heap w) ->
  page_readable (media w) c blk 0 -> page_stamped (media w) c blk 0 ->
  forall fuel : nat, app_blk_current_page fuel lch io blk 0 w = OutOfFuel.
Proof.
  intros Hc Hbuf Hn1 Hpg0 Hmagic Hppb Hnf Hbrk Hrd Hst fuel.
  unfold app_blk_current_page. destruct io as [d|]; simpl in Hbuf.
  - destruct Hbuf as (Hioc & Hpg & Hplv).
    rewrite (scan_loop_stride_zero lch c d blk (media w) Hc Hioc Hpg Hplv Hn1 Hpg0 Hmagic
               Hppb Hrd Hst fuel w Hnf Hbrk eq_refl).
    reflexivity.
  - destruct Hbuf as (Hg & Hh).
    destruct (app_alloc_pg_io_succeeds lch c w Hc Hg Hh Hnf)
      as (d & w0 & E0 & _ & Hioc & _ & Hpg & _ & _ & _ & _ & _ & _ & _ & Hlaid
          & N0 & B0 & _ & Hmd & _).
    rewrite E0.
    rewrite (scan_loop_stride_zero lch c d blk (media w) Hc Hioc Hpg
               ltac:(intros pl Hpl; destruct (Hlaid pl Hpl) as (H & _); exact H)
               Hn1 Hpg0 Hmagic Hppb Hrd Hst fuel w0 N0 B0 Hmd).
    reflexivity.
Qed.

End ScanFlash.

(** * Channel lifecycle, global functions and registration *)

Section LifecycleProofs.
Import Lifecycle.
Context {FH : FtlHeader} {OS : Outside}.

(** What a call leaves as it was. *)
Lemma call_spec (c : ext_call) (s : state) :
  calls (snd (call c s)) = calls s ++ [c] /\
  gl_fn (snd (call c s)) = gl_fn s /\ app_nch (snd (call c s)) = app_nch s /\
  app_ftl (snd (call c s)) = app_ftl s /\
  busy_counter (snd (call c s)) = busy_counter s.
Proof. unfold call. destruct (respond c (outside s)); simpl. auto. Qed.

Lemma call__spec (c : ext_call) (s : state) :
  calls (call_ c s) = calls s ++ [c] /\
  gl_fn (call_ c s) = gl_fn s /\ app_nch (call_ c s) = app_nch s /\
  app_ftl (call_ c s) = app_ftl s /\ busy_counter (call_ c s) = busy_counter s.
Proof. apply call_spec. Qed.

(** The value and the environment of a call are the answer's. *)
Lemma call_respond (c : ext_call) (s : state) :
  fst (call c s) = fst (respond c (outside s)) /\
  outside (snd (call c s)) = snd (respond c (outside s)).
Proof. unfold call. destruct (respond c (outside s)); simpl. auto. Qed.

Lemma started_cons (c : ext_call) (rest : list ext_call) (s : state) :
  started (c :: rest) (outside s)
  = if fst (call c s) =? 0 then S (started rest (outside (snd (call c s)))) else O.
Proof. cbn [started]. unfold call. destruct (respond c (outside s)). reflexivity. Qed.

(** The log and the flags after [app_global_init]. *)
Lemma app_global_init_spec (s : state) :
  exists (k : nat) (tr : list ext_call),
    (k <= 5)%nat /\
    calls (snd (app_global_init s)) = calls s ++ tr /\
    acts tr = take (S k) global_steps
              ++ (if (k <? 5)%nat then rev (map undo_step (take k global_steps)) else []) /\
    fst (app_global_init s) = (if (k <? 5)%nat then -1 else 0) /\
    gl_fn (snd (app_global_init s)) = gl_fn s /\
    app_nch (snd (app_global_init s)) = app_nch s /\
    app_ftl (snd (app_global_init s)) = app_ftl s /\
    k = started global_steps (outside s).
Proof.
  unfold app_global_init, NS_MUTEX, EXIT_LBA_IO, EXIT_GL_MAP, EXIT_GL_PROV, call_, global_steps.
  fold global_steps.
  pose proof (started_cons gl_prov_init_fn
                [gl_map_init_fn; lba_io_init_fn; pthread_mutex_init gc_ns_mutex;
                 pthread_mutex_init gc_map_mutex] s) as K1.
  pose proof (call_spec gl_prov_init_fn s) as E1.
  destruct (call gl_prov_init_fn s) as [r1 s1]. cbn [fst snd] in E1, K1.
  destruct E1 as (C1 & G1 & N1 & F1 & _).
  destruct (r1 =? 0); cbn [negb].
  2:{ exists 0%nat, [gl_prov_init_fn; log_err]. cbn [fst snd].
    destruct (call_spec log_err s1) as (C & G & N & F & _).
    rewrite C, C1, G, G1, N, N1, F, F1, <- app_assoc. split_and!; auto; try lia; try reflexivity;
      unfold global_steps; congruence. }
  pose proof (started_cons gl_map_init_fn
                [lba_io_init_fn; pthread_mutex_init gc_ns_mutex;
                 pthread_mutex_init gc_map_mutex] s1) as K2.
  pose proof (call_spec gl_map_init_fn s1) as E2.
  destruct (call gl_map_init_fn s1) as [r2 s2]. cbn [fst snd] in E2, K2.
  destruct E2 as (C2 & G2 & N2 & F2 & _).
  destruct (r2 =? 0); cbn [negb].
  2:{ exists 1%nat, [gl_prov_init_fn; gl_map_init_fn; log_err; gl_prov_exit_fn].
    cbn [fst snd].
    destruct (call_spec log_err s2) as (C & G & N & F & _).
    destruct (call_spec gl_prov_exit_fn (snd (call log_err s2))) as (C' & G' & N' & F' & _).
    rewrite C', C, C2, C1, G', G, G2, G1, N', N, N2, N1, F', F, F2, F1, <- !app_assoc.
    split_and!; auto; try lia; try reflexivity;
      unfold global_steps; congruence. }
  pose proof (started_cons lba_io_init_fn
                [pthread_mutex_init gc_ns_mutex; pthread_mutex_init gc_map_mutex] s2) as K3.
  pose proof (call_spec lba_io_init_fn s2) as E3.
  destruct (call lba_io_init_fn s2) as [r3 s3]. cbn [fst snd] in E3, K3.
  destruct E3 as (C3 & G3 & N3 & F3 & _).
  destruct (r3 =? 0); cbn [negb].
  2:{ exists 2%nat, [gl_prov_init_fn; gl_map_init_fn; lba_io_init_fn; log_err;
                   gl_map_exit_fn; gl_prov_exit_fn].
    cbn [fst snd].
    destruct (call_spec log_err s3) as (C & G & N & F & _).
    destruct (call_spec gl_map_exit_fn (snd (call log_err s3))) as (C' & G' & N' & F' & _).
    destruct (call_spec gl_prov_exit_fn (snd (call gl_map_exit_fn (snd (call log_err s3)))))
      as (C'' & G'' & N'' & F'' & _).
    rewrite C'', C', C, C3, C2, C1, G'', G', G, G3, G2, G1, N'', N', N, N3, N2, N1,
      F'', F', F, F3, F2, F1, <- !app_assoc.
    split_and!; auto; try lia; try reflexivity;
      unfold global_steps; congruence. }
  pose proof (started_cons (pthread_mutex_init gc_ns_mutex)
                [pthread_mutex_init gc_map_mutex] s3) as K4.
  pose proof (call_spec (pthread_mutex_init gc_ns_mutex) s3) as E4.
  destruct (call (pthread_mutex_init gc_ns_mutex) s3) as [r4 s4]. cbn [fst snd] in E4, K4.
  destruct E4 as (C4 & G4 & N4 & F4 & _).
  destruct (r4 =? 0); cbn [negb].
  2:{ exists 3%nat, [gl_prov_init_fn; gl_map_init_fn; lba_io_init_fn;
                   pthread_mutex_init gc_ns_mutex;
                   lba_io_exit_fn; gl_map_exit_fn; gl_prov_exit_fn].
    cbn [fst snd].
    destruct (call_spec lba_io_exit_fn s4) as (C & G & N & F & _).
    destruct (call_spec gl_map_exit_fn (snd (call lba_io_exit_fn s4))) as (C' & G' & N' & F' & _).
    destruct (call_spec gl_prov_exit_fn
                (snd (call gl_map_exit_fn (snd (call lba_io_exit_fn s4)))))
      as (C'' & G'' & N'' & F'' & _).
    rewrite C'', C', C, C4, C3, C2, C1, G'', G', G, G4, G3, G2, G1,
      N'', N', N, N4, N3, N2, N1, F'', F', F, F4, F3, F2, F1, <- !app_assoc.
    split_and!; auto; try lia; try reflexivity;
      unfold global_steps; congruence. }
  pose proof (started_cons (pthread_mutex_init gc_map_mutex) [] s4) as K5.
  pose proof (call_spec (pthread_mutex_init gc_map_mutex) s4) as E5.
  destruct (call (pthread_mutex_init gc_map_mutex) s4) as [r5 s5]. cbn [fst snd] in E5, K5.
  destruct E5 as (C5 & G5 & N5 & F5 & _).
  destruct (r5 =? 0); cbn [negb].
  2:{ exists 4%nat, [gl_prov_init_fn; gl_map_init_fn; lba_io_init_fn;
                   pthread_mutex_init gc_ns_mutex; pthread_mutex_init gc_map_mutex;
                   pthread_mutex_destroy gc_ns_mutex;
                   lba_io_exit_fn; gl_map_exit_fn; gl_prov_exit_fn].
    cbn [fst snd].
    destruct (call_spec (pthread_mutex_destroy gc_ns_mutex) s5) as (C & G & N & F & _).
    set (t1 := snd (call (pthread_mutex_destroy gc_ns_mutex) s5)) in *.
    destruct (call_spec lba_io_exit_fn t1) as (C' & G' & N' & F' & _).
    set (t2 := snd (call lba_io_exit_fn t1)) in *.
    destruct (call_spec gl_map_exit_fn t2) as (C'' & G'' & N'' & F'' & _).
    set (t3 := snd (call gl_map_exit_fn t2)) in *.
    destruct (call_spec gl_prov_exit_fn t3) as (C''' & G''' & N''' & F''' & _).
    rewrite C''', C'', C', C, C5, C4, C3, C2, C1, G''', G'', G', G, G5, G4, G3, G2, G1,
      N''', N'', N', N, N5, N4, N3, N2, N1, F''', F'', F', F, F5, F4, F3, F2, F1,
      <- !app_assoc.
    split_and!; auto; try lia; try reflexivity;
      unfold global_steps; congruence. }
  change (started [] (outside s5)) with O in K5.
  exists 5%nat, global_steps. cbn [fst snd].
  rewrite C5, C4, C3, C2, C1, G5, G4, G3, G2, G1, N5, N4, N3, N2, N1,
    F5, F4, F3, F2, F1, <- !app_assoc.
  split_and!; auto; try lia; try reflexivity;
      unfold global_steps; congruence.
Qed.

(** X18: [app_global_init] starts global provisioning, global mapping and
    LBA I/O and initialises the two mutexes, in this order, and stops at
    the first of these steps whose answer is not 0: with [k] the number of
    steps that the environment lets succeed before the first failure, it
    makes the first [k + 1] steps (all five when [k] is 5); when [k] is
    below 5 it then undoes the [k] steps that succeeded, last first, and
    returns [-1]; it returns 0 exactly when all five succeeded. *)
Theorem app_global_init_unwinds (s : state) :
  exists (k : nat) (tr : list ext_call),
    k = started global_steps (outside s) /\ (k <= 5)%nat /\
    calls (snd (app_global_init s)) = calls s ++ tr /\
    acts tr = take (S k) global_steps
              ++ (if (k <? 5)%nat then rev (map undo_step (take k global_steps)) else []) /\
    fst (app_global_init s) = (if (k <? 5)%nat then -1 else 0).
Proof.
  destruct (app_global_init_spec s) as (k & tr & Hk & Hc & Ha & Hr & _ & _ & _ & Hs).
  exists k, tr. split_and!; auto.
Qed.

Lemma app_global_exit_spec (s : state) :
  calls (app_global_exit s) = calls s ++ rev (map undo_step global_steps) /\
  gl_fn (app_global_exit s) = gl_fn s /\ app_nch (app_global_exit s) = app_nch s.
Proof.
  unfold app_global_exit.
  set (s1 := call_ (pthread_mutex_destroy gc_map_mutex) s).
  set (s2 := call_ (pthread_mutex_destroy gc_ns_mutex) s1).
  set (s3 := call_ lba_io_exit_fn s2).
  set (s4 := call_ gl_map_exit_fn s3).
  destruct (call__spec gl_prov_exit_fn s4) as (C5 & G5 & N5 & _).
  destruct (call__spec gl_map_exit_fn s3) as (C4 & G4 & N4 & _).
  destruct (call__spec lba_io_exit_fn s2) as (C3 & G3 & N3 & _).
  destruct (call__spec (pthread_mutex_destroy gc_ns_mutex) s1) as (C2 & G2 & N2 & _).
  destruct (call__spec (pthread_mutex_destroy gc_map_mutex) s) as (C1 & G1 & N1 & _).
  fold s1 in C1, G1, N1, C2, G2, N2. fold s2 in C2, G2, N2, C3, G3, N3.
  fold s3 in C3, G3, N3, C4, G4, N4. fold s4 in C4, G4, N4.
  rewrite C5, C4, C3, C2, C1, G5, G4, G3, G2, G1, N5, N4, N3, N2, N1, <- !app_assoc.
  auto.
Qed.

Lemma registrations_spec (l : list ext_call) :
  forall s : state,
  calls (foldl (fun s c => call_ c s) s l) = calls s ++ l /\
  gl_fn (foldl (fun s c => call_ c s) s l) = gl_fn s /\
  app_nch (foldl (fun s c => call_ c s) s l) = app_nch s /\
  app_ftl (foldl (fun s c => call_ c s) s l) = app_ftl s.
Proof.
  induction l as [|c l IH]; intros s; simpl.
  - rewrite app_nil_r. auto.
  - destruct (IH (call_ c s)) as (C & G & N & F).
    destruct (call__spec c s) as (C1 & G1 & N1 & F1 & _).
    rewrite C, G, N, F, C1, G1, N1, F1, <- app_assoc. auto.
Qed.

Lemma cap_set_bits (c k c' : Z) :
  cap_set c k = Some c' ->
  0 <= k < 31 /\ 0 <= c' < 2 ^ 32 /\
  forall i, 0 <= i < 32 -> Z.testbit c' i = Z.testbit c i || (i =? k).
Proof.
  unfold cap_set. destruct (Z.leb_spec 0 k); [|discriminate].
  destruct (Z.ltb_spec k 31); [|discriminate]. simpl. intros Hs. inversion Hs; subst c'.
  split; [lia|]. split; [apply Z.mod_pos_bound; lia|].
  intros i Hi. unfold u32. rewrite Z.mod_pow2_bits_low by lia.
  rewrite Z.lor_spec, Z.shiftl_1_l, Z.pow2_bits_eqb by lia.
  rewrite (Z.eqb_sym k i). reflexivity.
Qed.

(** The outcome of [ftl_appnvm_init]. *)
Lemma ftl_appnvm_init_spec (s : state) :
  0 <= FTL_CAP_GET_BBTBL < 31 -> 0 <= FTL_CAP_SET_BBTBL < 31 ->
  0 <= FTL_CAP_INIT_FN < 31 -> 0 <= FTL_CAP_EXIT_FN < 31 ->
  exists r s',
    ftl_appnvm_init s = Some (r, s') /\
    gl_fn s' = 0 /\ app_nch s' = 0 /\
    calls s' = calls s ++ registrations ++ [nvm_register_ftl (app_ftl s')] /\
    bbtbl_format (app_ftl s') = FTL_BBTBL_BYTE /\
    ftl_id (app_ftl s') = ftl_id (app_ftl s) /\ nq (app_ftl s') = nq (app_ftl s) /\
    0 <= cap (app_ftl s') < 2 ^ 32 /\
    forall i, 0 <= i < 32 ->
      Z.testbit (cap (app_ftl s')) i
      = Z.testbit (cap (app_ftl s)) i
        || (i =? FTL_CAP_GET_BBTBL) || (i =? FTL_CAP_SET_BBTBL)
        || (i =? FTL_CAP_INIT_FN) || (i =? FTL_CAP_EXIT_FN).
Proof.
  intros H1 H2 H3 H4. unfold ftl_appnvm_init.
  set (s0 := set_app_nch (set_gl_fn s 0) 0).
  destruct (registrations_spec registrations s0) as (C & G & N & F).
  set (s1 := foldl (fun s c => call_ c s) s0 registrations) in *.
  assert (Hset : forall c k, 0 <= k < 31 -> exists c', cap_set c k = Some c').
  { intros c k Hk. unfold cap_set.
    replace ((0 <=? k) && (k <? 31)) with true; [eauto|].
    symmetry. apply andb_true_intro. split; [apply Z.leb_le | apply Z.ltb_lt]; lia. }
  destruct (Hset (cap (app_ftl s1)) _ H1) as (c1 & E1). rewrite E1.
  destruct (Hset c1 _ H2) as (c2 & E2). cbn [mbind option_bind]. rewrite E2.
  destruct (Hset c2 _ H3) as (c3 & E3). cbn [mbind option_bind]. rewrite E3.
  destruct (Hset c3 _ H4) as (c4 & E4). cbn [mbind option_bind]. rewrite E4.
  cbn [mbind option_bind].
  set (f := set_bbtbl_format (set_cap (app_ftl s1) c4) FTL_BBTBL_BYTE).
  destruct (call_spec (nvm_register_ftl f) (set_app_ftl s1 f)) as (C' & G' & N' & F' & _).
  destruct (call (nvm_register_ftl f) (set_app_ftl s1 f)) as [r s'] eqn:Ec.
  cbn [snd] in *. exists r, s'. split; [reflexivity|].
  rewrite G', N', C', F'. simpl. rewrite G, N, C, F. simpl.
  split; [reflexivity|]. split; [reflexivity|].
  split; [rewrite <- app_assoc; reflexivity|]. split; [reflexivity|].
  split; [reflexivity|]. split; [reflexivity|].
  destruct (cap_set_bits _ _ _ E1) as (_ & _ & B1).
  destruct (cap_set_bits _ _ _ E2) as (_ & _ & B2).
  destruct (cap_set_bits _ _ _ E3) as (_ & _ & B3).
  destruct (cap_set_bits _ _ _ E4) as (_ & R4 & B4).
  split; [exact R4|]. intros i Hi.
  rewrite B4, B3, B2, B1 by exact Hi. rewrite F. reflexivity.
Qed.

(** X19: [ftl_appnvm_init] registers the ten subsystems, in the order of
    the source, and then the FTL; the capability word it registers has
    the bits of the four capabilities (bad-block table get and set, init
    and exit by id) set and every other bit as it was, and the format of
    the bad-block table is the byte format. *)
Theorem ftl_appnvm_init_capabilities (s : state) :
  0 <= FTL_CAP_GET_BBTBL < 31 -> 0 <= FTL_CAP_SET_BBTBL < 31 ->
  0 <= FTL_CAP_INIT_FN < 31 -> 0 <= FTL_CAP_EXIT_FN < 31 ->
  exists r s',
    ftl_appnvm_init s = Some (r, s') /\
    calls s' = calls s ++ registrations ++ [nvm_register_ftl (app_ftl s')] /\
    bbtbl_format (app_ftl s') = FTL_BBTBL_BYTE /\
    0 <= cap (app_ftl s') < 2 ^ 32 /\
    forall i, 0 <= i < 32 ->
      Z.testbit (cap (app_ftl s')) i
      = Z.testbit (cap (app_ftl s)) i
        || (i =? FTL_CAP_GET_BBTBL) || (i =? FTL_CAP_SET_BBTBL)
        || (i =? FTL_CAP_INIT_FN) || (i =? FTL_CAP_EXIT_FN).
Proof.
  intros H1 H2 H3 H4.
  destruct (ftl_appnvm_init_spec s H1 H2 H3 H4)
    as (r & s' & E & _ & _ & C & B & _ & _ & R & Hbits).
  exists r, s'. auto.
Qed.

(** X20: [app_exit_fn (APP_FN_GLOBAL)] tears down exactly when
    [app_init_fn (APP_FN_GLOBAL)] has been called since the registration:
    it does nothing while [gl_fn] is 0, as [ftl_appnvm_init] leaves it;
    after [app_init_fn (APP_FN_GLOBAL)], whatever that call returned, it
    destroys the two mutexes and exits LBA I/O, global mapping and global
    provisioning, the reverse of the order of the start.  Any other id
    makes [app_init_fn] return [-1]; both functions then only log. *)
Theorem app_exit_fn_guard (s : state) (fn_id : Z) :
  (gl_fn s = 0 -> app_exit_fn APP_FN_GLOBAL s = s) /\
  (forall r s1, ftl_appnvm_init s = Some (r, s1) -> app_exit_fn APP_FN_GLOBAL s1 = s1) /\
  (forall r s1, app_init_fn APP_FN_GLOBAL s = (r, s1) ->
     calls (app_exit_fn APP_FN_GLOBAL s1)
     = calls s1 ++ rev (map undo_step global_steps)) /\
  (fn_id <> APP_FN_GLOBAL ->
   fst (app_init_fn fn_id s) = -1 /\
   gl_fn (snd (app_init_fn fn_id s)) = gl_fn s /\
   calls (snd (app_init_fn fn_id s)) = calls s ++ [log_info] /\
   calls (app_exit_fn fn_id s) = calls s ++ [log_info]).
Proof.
  split_and!.
  - intros Hg. unfold app_exit_fn. rewrite Z.eqb_refl, Hg. reflexivity.
  - intros r s1 E. unfold ftl_appnvm_init in E.
    set (s0 := set_app_nch (set_gl_fn s 0) 0) in E.
    destruct (registrations_spec registrations s0) as (_ & G & _).
    set (sr := foldl (fun s c => call_ c s) s0 registrations) in *.
    destruct (cap_set _ _) as [c1|]; [|discriminate]. cbn [mbind option_bind] in E.
    destruct (cap_set _ _) as [c2|]; [|discriminate]. cbn [mbind option_bind] in E.
    destruct (cap_set _ _) as [c3|]; [|discriminate]. cbn [mbind option_bind] in E.
    destruct (cap_set _ _) as [c4|]; [|discriminate]. cbn [mbind option_bind] in E.
    match type of E with Some (call ?c ?s2) = _ =>
      destruct (call_spec c s2) as (_ & G' & _); destruct (call c s2) as [r' s'] end.
    inversion E; subst r' s'. cbn [snd] in G'. simpl in G'. rewrite G in G'. simpl in G'.
    unfold app_exit_fn. rewrite Z.eqb_refl, G'. reflexivity.
  - intros r s1 E. unfold app_init_fn in E. rewrite Z.eqb_refl in E.
    destruct (app_global_init_spec (set_gl_fn s 1)) as (k & tr & _ & _ & _ & _ & G & _).
    rewrite E in G. simpl in G.
    unfold app_exit_fn. rewrite Z.eqb_refl, G. simpl.
    apply app_global_exit_spec.
  - intros Hne. unfold app_init_fn, app_exit_fn.
    replace (fn_id =? APP_FN_GLOBAL) with false by (symmetry; apply Z.eqb_neq; exact Hne).
    destruct (call__spec log_info s) as (C & G & _). simpl. auto.
Qed.

(** ** Channels *)

Lemma answer_all_app (cs cs' : list ext_call) (e : env) :
  answer_all (cs ++ cs') e = answer_all cs' (answer_all cs e).
Proof. unfold answer_all. apply fold_left_app. Qed.

Lemma waited_le (l : Z) (limit : nat) :
  forall e, (waited limit l e <= limit)%nat.
Proof.
  induction limit as [|limit IH]; intros e; cbn [waited]; [lia|].
  destruct (respond (appnvm_ch_nthreads l) e) as [nth e1].
  destruct (nth =? 0); [lia|]. specialize (IH (snd (respond (usleep 5000) e1))). lia.
Qed.

Lemma wait_calls_S (l : Z) (n limit : nat) :
  wait_calls l (S n) (S limit)
  = [appnvm_ch_nthreads l; usleep 5000] ++ wait_calls l n limit.
Proof. reflexivity. Qed.

(** The wait of [app_exit] for one channel, against the environment. *)
Lemma drain_waited (l : Z) (fuel : nat) :
  forall (retry : Z) (s : state),
  0 <= retry < 200 -> (Z.to_nat (200 - retry) <= fuel)%nat ->
  exists s',
    drain fuel l retry s = Some s' /\
    calls s' = calls s
               ++ wait_calls l (waited (Z.to_nat (200 - retry)) l (outside s))
                    (Z.to_nat (200 - retry)) /\
    outside s'
    = answer_all (wait_calls l (waited (Z.to_nat (200 - retry)) l (outside s))
                    (Z.to_nat (200 - retry))) (outside s) /\
    gl_fn s' = gl_fn s /\ app_nch s' = app_nch s.
Proof.
  induction fuel as [|fuel IH]; intros retry s Hr Hf; [lia|].
  cbn [drain].
  replace (Z.to_nat (200 - retry)) with (S (Z.to_nat (200 - (retry + 1)))) by lia.
  cbn [waited].
  destruct (call_spec (appnvm_ch_nthreads l) s) as (C1 & G1 & N1 & _).
  destruct (call_respond (appnvm_ch_nthreads l) s) as (V1 & O1).
  destruct (call (appnvm_ch_nthreads l) s) as [nth s1]. cbn [fst snd] in *.
  destruct (respond (appnvm_ch_nthreads l) (outside s)) as [nth' e1] eqn:Heqp. cbn [fst snd] in *.
  subst nth'.
  destruct (nth =? 0).
  { exists s1. split; [reflexivity|]. unfold wait_calls, answer_all. simpl.
    rewrite Heqp. simpl. split_and!; auto. }
  destruct (call_spec (usleep 5000) s1) as (C2 & G2 & N2 & _).
  destruct (call_respond (usleep 5000) s1) as (_ & O2).
  fold (call_ (usleep 5000) s1) in C2, G2, N2, O2. rewrite O1 in O2.
  destruct (Z.ltb_spec (retry + 1) 200) as [Hlt|Hge].
  - destruct (IH (retry + 1) (call_ (usleep 5000) s1)) as (s' & E & C & O & G & N);
      try lia.
    exists s'. split; [exact E|]. rewrite O2 in C, O.
    rewrite wait_calls_S, answer_all_app, C, C2, C1, O, G, G2, G1, N, N2, N1, <- !app_assoc.
    split_and!; auto. unfold answer_all at 2. simpl. rewrite Heqp. reflexivity.
  - replace (Z.to_nat (200 - (retry + 1))) with O by lia. cbn [waited].
    exists (call_ (usleep 5000) s1). split; [reflexivity|].
    rewrite C2, C1, O2, G2, G1, N2, N1, <- !app_assoc. unfold wait_calls, answer_all. simpl.
    rewrite Heqp. split_and!; auto.
Qed.

Lemma exit_channels_waits (lst : list Z) (k : nat) :
  forall (i : nat) (s : state),
  (i + k <= length lst)%nat -> Z.of_nat k <= app_nch s < 2 ^ 16 ->
  exists s',
    exit_channels k (Z.of_nat i) lst s = Some s' /\
    calls s' = calls s
               ++ concat (zip_with exit_calls (take k (drop i lst))
                            (exit_waits (take k (drop i lst)) (outside s))) /\
    app_nch s' = app_nch s - Z.of_nat k /\
    gl_fn s' = gl_fn s.
Proof.
  induction k as [|k IH]; intros i s Hlen Hn.
  { exists s. simpl. rewrite app_nil_r. split_and!; auto; lia. }
  cbn [exit_channels].
  destruct (lookup_lt_is_Some_2 lst i ltac:(lia)) as (l & Hl).
  assert (Hget : arr_get lst (Z.of_nat i) = Some l).
  { unfold arr_get. rewrite Nat2Z.id, Hl.
    replace ((0 <=? Z.of_nat i) && (Z.of_nat i <? Z.of_nat (length lst))) with true;
      [reflexivity|].
    symmetry. apply andb_true_intro. split; [apply Z.leb_le | apply Z.ltb_lt]; lia. }
  rewrite Hget. cbn [mbind option_bind].
  destruct (drain_waited l 200 0 s ltac:(lia) ltac:(lia)) as (s1 & E1 & C1 & O1 & G1 & N1).
  change (Z.to_nat (200 - 0)) with 200%nat in C1, O1.
  rewrite E1. cbn [mbind option_bind].
  set (s2 := call_ (pthread_spin_destroy l busy_spin) s1).
  set (s3 := call_ (pthread_spin_destroy l active_spin) s2).
  set (s4 := call_ (pthread_spin_destroy l need_gc_spin) s3).
  set (s5 := call_ (channels_exit_fn l) s4).
  destruct (call_spec (pthread_spin_destroy l busy_spin) s1) as (C2 & G2 & N2 & _).
  destruct (call_spec (pthread_spin_destroy l active_spin) s2) as (C3 & G3 & N3 & _).
  destruct (call_spec (pthread_spin_destroy l need_gc_spin) s3) as (C4 & G4 & N4 & _).
  destruct (call_spec (channels_exit_fn l) s4) as (C5 & G5 & N5 & _).
  destruct (call_respond (pthread_spin_destroy l busy_spin) s1) as (_ & O2).
  destruct (call_respond (pthread_spin_destroy l active_spin) s2) as (_ & O3).
  destruct (call_respond (pthread_spin_destroy l need_gc_spin) s3) as (_ & O4).
  destruct (call_respond (channels_exit_fn l) s4) as (_ & O5).
  fold (call_ (pthread_spin_destroy l busy_spin) s1) in C2, G2, N2, O2.
  fold (call_ (pthread_spin_destroy l active_spin) s2) in C3, G3, N3, O3.
  fold (call_ (pthread_spin_destroy l need_gc_spin) s3) in C4, G4, N4, O4.
  fold (call_ (channels_exit_fn l) s4) in C5, G5, N5, O5.
  fold s2 in C2, G2, N2, O2, C3, G3, N3, O3. fold s3 in C3, G3, N3, O3, C4, G4, N4, O4.
  fold s4 in C4, G4, N4, O4, C5, G5, N5, O5. fold s5 in C5, G5, N5, O5.
  assert (Hn5 : app_nch s5 = app_nch s) by congruence.
  assert (Ho5 : outside s5
                = answer_all (exit_calls l (waited 200 l (outside s))) (outside s)).
  { unfold exit_calls. rewrite answer_all_app, <- O1, O5, O4, O3, O2. reflexivity. }
  replace (Z.of_nat i + 1) with (Z.of_nat (S i)) by lia.
  destruct (IH (S i) (set_app_nch s5 (u16 (app_nch s5 - 1))))
    as (s' & E & C & N & G); [lia | | ].
  { simpl. rewrite Hn5, u16_small by lia. lia. }
  exists s'. split; [exact E|]. simpl in C, N, G.
  rewrite (drop_S _ _ _ Hl). cbn [take exit_waits zip_with concat].
  rewrite C, C5, C4, C3, C2, C1, N, G, G5, G4, G3, G2, G1, Hn5, Ho5, u16_small by lia.
  unfold exit_calls at 3. rewrite <- !app_assoc. simpl.
  split_and!; auto. lia.
Qed.

Lemma exit_waits_spec (ls : list Z) :
  forall e, length (exit_waits ls e) = length ls /\
            Forall (fun n => (n <= 200)%nat) (exit_waits ls e).
Proof.
  induction ls as [|l ls IH]; intros e; cbn [exit_waits]; [split; [reflexivity|constructor]|].
  destruct (IH (answer_all (exit_calls l (waited 200 l e)) e)) as (H1 & H2).
  split; [cbn [length]; rewrite H1; reflexivity|].
  constructor; [apply waited_le | exact H2].
Qed.

(** X21: [app_exit] takes the channels of the list in order.  For each
    it asks for the thread count and sleeps 5 ms as long as the count is
    not 0, 200 times at most: the rounds it waits are the counts other
    than 0 that the environment gives in a row, capped at 200.  It then
    destroys the three spin locks of the channel and calls
    [channels.exit_fn], whether the threads have ended or not; [app_nch]
    ends at 0. *)
Theorem app_exit_drains (s : state) :
  1 <= app_nch s < 2 ^ 16 ->
  (Z.to_nat (app_nch s) <= length (listed (app_nch s) (outside s)))%nat ->
  exists (s' : state) (ls : list Z) (ws : list nat),
    app_exit s = Some s' /\
    ls = take (Z.to_nat (app_nch s)) (listed (app_nch s) (outside s)) /\
    ws = exit_waits ls (snd (respond (channels_get_list_fn (app_nch s)) (outside s))) /\
    length ws = length ls /\ Forall (fun n => (n <= 200)%nat) ws /\
    calls s' = calls s ++ channels_get_list_fn (app_nch s)
                            :: concat (zip_with exit_calls ls ws) /\
    app_nch s' = 0.
Proof.
  intros Hn Hlen. unfold app_exit.
  replace (app_nch s =? 0) with false by (symmetry; apply Z.eqb_neq; lia).
  destruct (call_spec (channels_get_list_fn (app_nch s)) s) as (C1 & G1 & N1 & _).
  destruct (call_respond (channels_get_list_fn (app_nch s)) s) as (_ & O1).
  fold (call_ (channels_get_list_fn (app_nch s)) s) in C1, G1, N1, O1.
  destruct (exit_channels_waits (listed (app_nch s) (outside s)) (Z.to_nat (app_nch s))
              0 (call_ (channels_get_list_fn (app_nch s)) s))
    as (s' & E & C & N & G); [lia | rewrite N1; lia |].
  change (Z.of_nat 0) with 0 in E. rewrite E. rewrite drop_0, O1 in C.
  eexists s', _, _. split; [reflexivity|]. split; [reflexivity|]. split; [reflexivity|].
  destruct (exit_waits_spec (take (Z.to_nat (app_nch s)) (listed (app_nch s) (outside s)))
              (snd (respond (channels_get_list_fn (app_nch s)) (outside s)))) as (H1 & H2).
  split; [exact H1|]. split; [exact H2|].
  rewrite C, C1, N, N1, <- app_assoc. split; [reflexivity|lia].
Qed.
Section Init.
(** The channel manager finds the channel it has just initialised. *)
Hypothesis Hfound : forall id e, fst (respond (channels_get_fn id) e) <> 0.

Lemma app_init_channel_spec (ch : nvm_channel) (s : state) :
  exists r s' tr,
    app_init_channel ch s = Some (r, s') /\
    calls s' = calls s ++ channels_init_fn ch (app_nch s) :: tr /\
    List.filter is_channels_init tr = [] /\
    app_nch s' = (if r =? 0 then u16 (app_nch s + 1) else app_nch s) /\
    (r <> 0 -> tr = [] /\ busy_counter s' = busy_counter s) /\
    gl_fn s' = gl_fn s.
Proof.
  unfold app_init_channel.
  destruct (call_spec (channels_init_fn ch (app_nch s)) s) as (C1 & G1 & N1 & _ & B1).
  destruct (call (channels_init_fn ch (app_nch s)) s) as [ret s1]. cbn [snd] in *.
  destruct (Z.eqb_spec ret 0) as [Hr|Hr]; cbn [negb].
  2:{ exists ret, s1, []. split; [reflexivity|].
      replace (ret =? 0) with false by (symmetry; apply Z.eqb_neq; exact Hr).
      split_and!; auto. }
  pose proof (Hfound (app_nch s1) (outside s1)) as Hnz.
  destruct (call_spec (channels_get_fn (app_nch s1)) s1) as (C2 & G2 & N2 & _).
  unfold call in *.
  destruct (respond (channels_get_fn (app_nch s1)) (outside s1)) as [lch e2].
  cbn [fst snd] in *.
  replace (lch =? 0) with false by (symmetry; apply Z.eqb_neq; exact Hnz).
  match goal with |- context [set_busy_counter ?s2 ?b] => set (s3 := set_busy_counter s2 b) end.
  set (s4 := call_ (pthread_spin_init lch busy_spin) s3).
  set (s5 := call_ (pthread_spin_init lch active_spin) s4).
  set (s6 := call_ (pthread_spin_init lch need_gc_spin) s5).
  set (s7 := call_ (appnvm_ch_active_set lch) s6).
  set (s8 := call_ (appnvm_ch_need_gc_unset lch) s7).
  destruct (call__spec (pthread_spin_init lch busy_spin) s3) as (C4 & G4 & N4 & _).
  destruct (call__spec (pthread_spin_init lch active_spin) s4) as (C5 & G5 & N5 & _).
  destruct (call__spec (pthread_spin_init lch need_gc_spin) s5) as (C6 & G6 & N6 & _).
  destruct (call__spec (appnvm_ch_active_set lch) s6) as (C7 & G7 & N7 & _).
  destruct (call__spec (appnvm_ch_need_gc_unset lch) s7) as (C8 & G8 & N8 & _).
  fold s4 in C4, G4, N4, C5, G5, N5. fold s5 in C5, G5, N5, C6, G6, N6.
  fold s6 in C6, G6, N6, C7, G7, N7. fold s7 in C7, G7, N7, C8, G8, N8.
  fold s8 in C8, G8, N8.
  exists 0, (set_app_nch s8 (u16 (app_nch s8 + 1))),
    [channels_get_fn (app_nch s1); pthread_spin_init lch busy_spin;
     pthread_spin_init lch active_spin; pthread_spin_init lch need_gc_spin;
     appnvm_ch_active_set lch; appnvm_ch_need_gc_unset lch].
  subst ret. split; [reflexivity|]. simpl.
  rewrite C8, C7, C6, C5, C4, N8, N7, N6, N5, N4, G8, G7, G6, G5, G4.
  subst s3. simpl. rewrite C1, N1, G1, <- !app_assoc. simpl.
  split_and!; auto. intros; lia.
Qed.

Lemma successes_cons (r : Z) (rs : list Z) :
  successes (r :: rs) = (if r =? 0 then 1 else 0) + successes rs.
Proof. unfold successes. simpl. destruct (r =? 0); simpl; lia. Qed.

(** X22: channels are numbered by the count [app_nch] of the channels
    initialised so far: each [app_init_channel] hands the current count to
    [channels.init_fn] as the id of the channel; the count goes up by one
    with every call that returns 0 and stays with every other one, so the
    ids given out are consecutive and the id of a channel whose
    initialisation failed is offered again to the next channel. *)
Theorem app_init_channels_ids (chs : list nvm_channel) (s : state) :
  0 <= app_nch s -> app_nch s + Z.of_nat (length chs) < 2 ^ 16 ->
  exists rs s' tr,
    app_init_channels chs s = Some (rs, s') /\
    length rs = length chs /\
    calls s' = calls s ++ tr /\
    List.filter is_channels_init tr = init_calls chs rs (app_nch s) /\
    app_nch s' = app_nch s + successes rs.
Proof.
  revert s. induction chs as [|ch chs IH]; intros s Hn Hlen.
  { exists [], s, []. simpl. rewrite app_nil_r. unfold successes. simpl.
    split_and!; auto. lia. }
  cbn [app_init_channels].
  destruct (app_init_channel_spec ch s) as (r & s1 & tr1 & E1 & C1 & X1 & N1 & _ & _).
  rewrite E1. cbn [mbind option_bind].
  assert (Hs : 0 <= successes [r] <= 1).
  { rewrite successes_cons. unfold successes. simpl. destruct (r =? 0); lia. }
  assert (Hn1 : app_nch s1 = (if r =? 0 then app_nch s + 1 else app_nch s)).
  { rewrite N1. destruct (r =? 0); [|reflexivity]. apply u16_small.
    simpl in Hlen. lia. }
  destruct (IH s1) as (rs & s' & tr & E & L & C & X & N).
  { rewrite Hn1. destruct (r =? 0); lia. }
  { rewrite Hn1. simpl in Hlen. destruct (r =? 0); lia. }
  rewrite E. cbn [mbind option_bind].
  exists (r :: rs), s', (channels_init_fn ch (app_nch s) :: tr1 ++ tr).
  split; [reflexivity|]. split; [simpl; congruence|].
  split; [rewrite C, C1, <- app_assoc; reflexivity|]. split.
  - cbn [List.filter is_channels_init init_calls].
    rewrite List.filter_app, X1, X, Hn1. reflexivity.
  - rewrite N, Hn1, successes_cons. destruct (r =? 0); lia.
Qed.

End Init.

End LifecycleProofs.

(** * The further statements at the small configuration *)

Lemma ex_heap_ok3 (fl : flash) (s : list bool) : heap_ok (heap (ex_world3 fl s)).
Proof. split; [cbn; lia | constructor]. Defined.

Lemma app_ftl_set_bbtbl_rejects_witness :
  exists r w',
    app_ftl_set_bbtbl (AG := ex_global ex_lch) 3 7 (ex_world3 (ex_flash 0 8) [])
      = Ok r w' /\
    r = -1 /\ w' = ex_world3 (ex_flash 0 8) [].
Proof.
  destruct (app_ftl_set_bbtbl_rejects (AG := ex_global ex_lch) 3 7 ex_addr_out ex_lch
              ex_channel (ex_world3 (ex_flash 0 8) []) eq_refl eq_refl eq_refl)
    as (r & w' & E & _ & Hiff & Hsame).
  assert (Hr : r = -1) by (apply Hiff; cbn; lia).
  exists r, w'. split; [exact E|]. split; [exact Hr|]. apply Hsame. exact Hr.
Defined.

Lemma app_ftl_get_bbtbl_checked_witness :
  app_ftl_get_bbtbl (AG := ex_global ex_lch) 1 500 9 (ex_world3 (ex_flash 0 8) [])
  = Ok (-1) (ex_world3 (ex_flash 0 8) []) /\
  exists w',
    app_ftl_get_bbtbl (AG := ex_global ex_lch) 1 500 8 (ex_world3 (ex_flash 0 8) [])
      = Ok 0 w' /\
    mem w' (500 + 3) = mem (ex_world3 (ex_flash 0 8) []) (1000 + 1 * 4 * 2 + 3).
Proof.
  destruct (app_ftl_get_bbtbl_checked (AG := ex_global ex_lch) 1 500 9 ex_addr ex_lch
              ex_channel (ex_world3 (ex_flash 0 8) []) eq_refl eq_refl eq_refl
              ltac:(ex_arith) ltac:(ex_arith)) as (Hbad & _).
  destruct (app_ftl_get_bbtbl_checked (AG := ex_global ex_lch) 1 500 8 ex_addr ex_lch
              ex_channel (ex_world3 (ex_flash 0 8) []) eq_refl eq_refl eq_refl
              ltac:(ex_arith) ltac:(ex_arith)) as (_ & Hgood).
  split; [apply Hbad; right; cbn; lia|].
  destruct (Hgood ltac:(lia) eq_refl) as (w' & E & Hcopy & _).
  exists w'. split; [exact E|]. exact (Hcopy 3 ltac:(lia)).
Defined.

Lemma bbtbl_set_other_lun_witness :
  exists w1 w2,
    app_ftl_set_bbtbl (AG := ex_global ex_lch) 1 7 (ex_world3 (ex_flash 0 8) [])
      = Ok 0 w1 /\
    app_ftl_get_bbtbl (AG := ex_global ex_lch) 2 500 8 w1 = Ok 0 w2 /\
    mem w2 (500 + 7) = mem (ex_world3 (ex_flash 0 8) []) (1000 + 0 * 4 * 2 + 7).
Proof.
  destruct (bbtbl_set_other_lun (AG := ex_global ex_lch) 1 2 7 500 8 ex_addr ex_addr_lun0
              ex_lch ex_channel (ex_world3 (ex_flash 0 8) [])
              eq_refl eq_refl eq_refl ltac:(cbn; lia) eq_refl eq_refl
              ltac:(ex_arith) ltac:(ex_arith) ltac:(ex_arith) ltac:(ex_arith)
              ltac:(ex_arith) ltac:(lia) eq_refl)
    as (w1 & w2 & E1 & E2 & Hv).
  exists w1, w2. split; [exact E1|]. split; [exact E2|]. exact (Hv 7 ltac:(lia)).
Defined.

Lemma app_ftl_set_bbtbl_twice_witness :
  exists w1 w2,
    app_ftl_set_bbtbl (AG := ex_global ex_lch) 1 7 (ex_world3 (ex_flash 0 8) [])
      = Ok 0 w1 /\
    app_ftl_set_bbtbl (AG := ex_global ex_lch) 1 7 w1 = Ok 0 w2 /\
    flushed w2 = flushed w1 /\ (length (flushed w2) <= 1)%nat.
Proof.
  destruct (app_ftl_set_bbtbl_twice (AG := ex_global ex_lch) 1 7 ex_addr ex_lch
              ex_channel (ex_world3 (ex_flash 0 8) []) eq_refl eq_refl eq_refl
              ltac:(ex_arith))
    as (w1 & w2 & E1 & E2 & Hf & _ & _ & Hlen).
  exists w1, w2. auto.
Defined.

Lemma app_pg_io_switch_scoped_witness :
  exists r w',
    app_pg_io_switch (HD := ex_header) ex_lch MMGR_WRITE_PG [100; 105] 1
      APP_IO_RESERVED (ex_world (ex_flash 0 8) []) = Ok r w' /\
    live (heap w') = [] /\
    events (heap w') = [EvAlloc 2000 64; EvFree 2000].
Proof.
  destruct (app_pg_io_switch_scoped (HD := ex_header) ex_lch ex_channel MMGR_WRITE_PG
              [100; 105] 1 ex_addr APP_IO_RESERVED (ex_world (ex_flash 0 8) [])
              eq_refl ltac:(ex_arith) ltac:(intros _; ex_arith) eq_refl
              (ex_heap_ok _ _))
    as (r & w' & E & Hl & _ & _ & Hv).
  exists r, w'. split; [exact E|]. split; [exact Hl|].
  destruct (Hv (or_intror eq_refl)) as (_ & Hev). exact (Hev I).
Defined.

Lemma app_pg_io_erase_witness :
  app_pg_io (HD := ex_header) ex_lch MMGR_ERASE_BLK [] 1 (ex_world (ex_flash 0 8) [])
  = app_pg_io (HD := ex_header) ex_lch MMGR_ERASE_BLK [100; 105] 1
      (ex_world (ex_flash 0 8) []) /\
  exists recs r w',
    app_pg_io (HD := ex_header) ex_lch MMGR_ERASE_BLK [100; 105] 1
      (ex_world (ex_flash 0 8) []) = Ok r w' /\
    issued w' = recs /\
    Forall (fun rec => io_buf rec = 0 /\ io_type rec = MMGR_ERASE_BLK) recs.
Proof.
  destruct (app_pg_io_erase (HD := ex_header) ex_lch ex_channel [100; 105] [] 1 ex_addr
              (ex_world (ex_flash 0 8) []) eq_refl eq_refl)
    as (Heq & recs & r & w' & E & Hiss & Hall).
  split; [exact Heq|]. exists recs, r, w'. auto.
Defined.

Lemma app_alloc_free_pg_io_witness :
  exists d w1 w2,
    app_alloc_pg_io (HD := ex_header) ex_lch (ex_world (ex_flash 0 8) [])
      = Ok (Some d) w1 /\
    app_free_pg_io d w1 = Ok tt w2 /\
    live (heap w2) = [].
Proof.
  destruct (app_alloc_free_pg_io (HD := ex_header) ex_lch ex_channel
              (ex_world (ex_flash 0 8) []) eq_refl ex_geometry_fits
              (ex_heap_ok _ _) (ex_never_fails _))
    as (d & w1 & w2 & acq & rel & E1 & E2 & _ & _ & _ & _ & _ & Hl).
  exists d, w1, w2. auto.
Defined.

Lemma ex_arrays_sized : arrays_sized ex_geometry ex_io.
Proof.
  unfold arrays_sized. cbn. split; [lia|]. split; [lia|]. split; [lia|].
  intros pl Hpl. assert (Hc : pl = 0 \/ pl = 1) by lia.
  destruct Hc as [-> | ->]; eexists; (split; [reflexivity | cbn; lia]).
Defined.

Lemma app_pg_io_prepare_idempotent_witness :
  exists d1,
    app_pg_io_prepare ex_lch ex_io = Some d1 /\ app_pg_io_prepare ex_lch d1 = Some d1.
Proof.
  exact (app_pg_io_prepare_idempotent ex_lch ex_channel ex_io eq_refl
           ltac:(ex_arith) ltac:(ex_arith) ltac:(ex_arith) ex_arrays_sized).
Defined.

Lemma app_alloc_pg_io_planes_apart_witness :
  exists d w' p0 p1,
    app_alloc_pg_io (HD := ex_header) ex_lch (ex_world (ex_flash 0 8) [])
      = Ok (Some d) w' /\
    arr_get (pl_vec d) 0 = Some p0 /\ arr_get (pl_vec d) 1 = Some p1 /\
    buf d <= p0 /\ p0 + 5 <= p1 /\ p1 + 5 <= buf d + buf_sz d.
Proof.
  destruct (app_alloc_pg_io_planes_apart (HD := ex_header) ex_lch ex_channel
              (ex_world (ex_flash 0 8) []) eq_refl ex_geometry_fits
              (ex_heap_ok _ _) (ex_never_fails _))
    as (d & w' & E & _ & Hpl).
  destruct (Hpl 0 ltac:(ex_arith)) as (p0 & H0 & Hlo & _ & Hnext & _).
  destruct (Hpl 1 ltac:(ex_arith)) as (p1 & H1 & _ & Hhi & _).
  exists d, w', p0, p1. split; [exact E|]. split; [exact H0|]. split; [exact H1|].
  split; [exact Hlo|]. split; [exact (Hnext 1 p1 ltac:(ex_arith) H1) | exact Hhi].
Defined.

Lemma app_nvm_seq_transfer_commands_witness :
  exists r w' recs,
    app_nvm_seq_transfer (HD := ex_header) ex_io 1 200 2 2 3 1
      APP_TRANS_TO_NVM APP_IO_NORMAL (ex_world (ex_flash 0 8) []) = Ok r w' /\
    issued w' = recs /\
    Forall (fun rec => io_type rec = MMGR_WRITE_PG) recs /\
    (r = 0 -> length recs = 4%nat).
Proof.
  destruct (app_nvm_seq_transfer_commands (HD := ex_header) ex_io ex_channel
              1 200 2 2 3 1 APP_TRANS_TO_NVM APP_IO_NORMAL ex_addr
              (ex_world (ex_flash 0 8) [])
              eq_refl ltac:(ex_arith) ltac:(ex_arith) ltac:(ex_arith) eq_refl
              ltac:(lia) ltac:(cbn; lia) (or_intror eq_refl))
    as (r & w' & recs & E & Hiss & Hall & Hcnt).
  exists r, w', recs. split; [exact E|]. split; [exact Hiss|]. split.
  - eapply Forall_impl; [exact Hall|]. intros rec (i & _ & Ht & _). exact Ht.
  - intros Hr. specialize (Hcnt Hr). cbn in Hcnt. lia.
Defined.

Lemma app_nvm_seq_transfer_status_witness :
  exists r w',
    app_nvm_seq_transfer (HD := ex_header) ex_io 1 200 2 2 3 1
      APP_TRANS_TO_NVM (APP_IO_OTHER 9) (ex_world (ex_flash 0 8) []) = Ok r w' /\
    r = -1 /\ issued w' = [].
Proof.
  destruct (app_nvm_seq_transfer_status (HD := ex_header) ex_io ex_channel
              1 200 2 2 3 1 APP_TRANS_TO_NVM (APP_IO_OTHER 9) ex_addr
              (ex_world (ex_flash 0 8) [])
              eq_refl ltac:(ex_arith) ltac:(ex_arith) ltac:(ex_arith) eq_refl
              ltac:(lia))
    as (r & w' & recs & E & Hiss & _ & _ & _ & Hoth).
  destruct (Hoth (ex_intro _ 9 eq_refl)) as (Hn & Hr).
  exists r, w'. split; [exact E|]. split; [exact (Hr (or_intror eq_refl) ltac:(lia))|].
  rewrite Hiss, Hn. reflexivity.
Defined.

Lemma seq_transfer_frame_witness :
  exists w1,
    app_nvm_seq_transfer (HD := ex_header) ex_io 1 200 2 2 3 1
      APP_TRANS_TO_NVM APP_IO_NORMAL (ex_world (ex_flash 0 8) []) = Ok 0 w1 /\
    map (mem w1) [200; 201; 202] = [11; 22; 33] /\
    exists w3,
      app_nvm_seq_transfer (HD := ex_header) ex_io 1 300 2 2 3 1
        APP_TRANS_FROM_NVM APP_IO_NORMAL (ex_world_later w1) = Ok 0 w3 /\
      media w3 = media w1.
Proof.
  destruct (seq_transfer_frame (HD := ex_header) ex_io ex_channel APP_IO_NORMAL
              1 ex_addr 200 300 2 1 3 1 (ex_world (ex_flash 0 8) [])
              eq_refl eq_refl ltac:(ex_arith) ex_plv (or_introl eq_refl)
              ltac:(lia) ltac:(ex_arith) ltac:(lia) ltac:(ex_arith) ltac:(lia)
              ltac:(lia) ltac:(ex_arith) ltac:(ex_arith) ltac:(ex_arith)
              ltac:(ex_arith) ltac:(ex_arith)
              ltac:(intros y Hy; ex_arith) ltac:(intros y Hy; ex_arith)
              eq_refl (ex_never_fails _) ltac:(ex_arith)
              ltac:(intros i pl Hi Hpl; cbn; apply Z.leb_gt; lia))
    as (w1 & E1 & Hmem & _ & _ & Hback).
  exists w1. split; [exact E1|]. split.
  { cbn [map]. rewrite !Hmem by ex_arith. reflexivity. }
  destruct (Hback (ex_world_later w1) eq_refl eq_refl
              ltac:(constructor) ltac:(cbn; lia)) as (w3 & E3 & Hmd & _).
  exists w3. split; [exact E3 | exact Hmd].
Defined.

Lemma app_blk_current_page_ends_witness :
  exists r w' recs,
    app_blk_current_page (HD := ex_header) 10 ex_lch (Some ex_io) 0 1
      (ex_world (ex_flash 3 8) []) = Ok r w' /\
    issued w' = recs /\
    Forall (fun rec => io_type rec = MMGR_READ_PG) recs /\
    (r = -1 \/ 0 <= r < 8).
Proof.
  destruct (app_blk_current_page_ends (HD := ex_header) ex_lch ex_channel (Some ex_io)
              0 1 10 (ex_world (ex_flash 3 8) []) eq_refl
              (conj eq_refl (conj eq_refl ex_plv))
              ltac:(ex_arith) ltac:(ex_arith) ltac:(lia) (ex_heap_ok _ _)
              (ex_never_fails _) ltac:(cbn; lia))
    as (r & w' & recs & E & Hiss & Hall & Hr).
  exists r, w', recs. split; [exact E|]. split; [exact Hiss|]. split.
  - eapply Forall_impl; [exact Hall|]. intros rec (Ht & _). exact Ht.
  - destruct Hr as [Hr | (j & Hj & Hr & Hb)]; [left; exact Hr|].
    right. cbn in Hb. lia.
Defined.

Lemma app_blk_current_page_releases_witness :
  exists r w',
    app_blk_current_page (HD := ex_header) 10 ex_lch None 0 1
      (ex_world (ex_flash 3 8) []) = Ok r w' /\
    live (heap w') = [].
Proof.
  exact (app_blk_current_page_releases (HD := ex_header) ex_lch ex_channel 0 1 10
           (ex_world (ex_flash 3 8) []) eq_refl ex_geometry_fits
           ltac:(ex_arith) ltac:(lia) (ex_heap_ok _ _) (ex_never_fails _)
           ltac:(cbn; lia)).
Defined.

Lemma app_blk_current_page_no_buffer_witness :
  app_blk_current_page (HD := ex_header) 10 ex_lch None 0 1
    (ex_world (ex_flash 3 8) [false]) = Ok (-1) (ex_world (ex_flash 3 8) []) /\
  issued (ex_world (ex_flash 3 8) []) = [].
Proof.
  destruct (app_blk_current_page_no_buffer (HD := ex_header) ex_lch 0 1 10
              (ex_world (ex_flash 3 8) [false]) (ex_world (ex_flash 3 8) []) eq_refl)
    as (E & Hiss & _).
  split; [exact E | exact Hiss].
Defined.

Lemma ex_stamped_then_bad (j : Z) :
  0 <= j < 2 ->
  page_readable (ex_flash 3 2) ex_channel 0 (j * 1) /\
  page_stamped (HD := ex_header) (ex_flash 3 2) ex_channel 0 (j * 1).
Proof.
  intros Hj. split.
  - intros pl Hpl. cbn. apply Z.leb_gt. lia.
  - assert (Hc : j = 0 \/ j = 1) by lia.
    destruct Hc as [-> | ->]; reflexivity.
Defined.

Lemma app_blk_current_page_read_error_witness :
  exists w',
    app_blk_current_page (HD := ex_header) 10 ex_lch None 0 1
      (ex_world (ex_flash 3 2) []) = Ok (-1) w'.
Proof.
  apply (app_blk_current_page_read_error (HD := ex_header) ex_lch ex_channel None 0 1 2 10
           (ex_world (ex_flash 3 2) []) eq_refl
           (conj ex_geometry_fits (ex_heap_ok _ _))
           ltac:(ex_arith) ltac:(ex_arith) ltac:(ex_arith) ltac:(ex_arith)
           ltac:(lia) (ex_never_fails _) ltac:(ex_arith) ltac:(lia) ltac:(cbn; lia)
           ex_stamped_then_bad).
  - intros j Hj. cbn. lia.
  - intros H. specialize (H 0 ltac:(ex_arith)). cbn in H. discriminate.
Defined.

Lemma app_blk_current_page_stride_zero_witness :
  app_blk_current_page (HD := ex_header) 1000 ex_lch (Some ex_io) 0 0
    (ex_world (ex_flash 3 8) []) = OutOfFuel.
Proof.
  apply (app_blk_current_page_stride_zero (HD := ex_header) ex_lch ex_channel
           (Some ex_io) 0 (ex_world (ex_flash 3 8) []) eq_refl
           (conj eq_refl (conj eq_refl ex_plv))
           ltac:(ex_arith) ltac:(ex_arith) ltac:(ex_arith) ltac:(ex_arith)
           (ex_never_fails _) ltac:(ex_arith)).
  - intros pl Hpl. cbn. reflexivity.
  - reflexivity.
Defined.

Section LifecycleWitnesses.
Import Lifecycle.

Lemma ftl_appnvm_init_capabilities_witness :
  exists r s',
    ftl_appnvm_init (FH := ex_ftl_header) (ex_state 0 []) = Some (r, s') /\
    bbtbl_format (app_ftl s') = 1 /\
    Z.testbit (cap (app_ftl s')) 3 = true /\ Z.testbit (cap (app_ftl s')) 2 = false.
Proof.
  destruct (ftl_appnvm_init_capabilities (FH := ex_ftl_header) (ex_state 0 [])
              ltac:(cbn; lia) ltac:(cbn; lia) ltac:(cbn; lia) ltac:(cbn; lia))
    as (r & s' & E & _ & Hf & _ & Hbits).
  exists r, s'. split; [exact E|]. split; [exact Hf|].
  rewrite (Hbits 3 ltac:(lia)), (Hbits 2 ltac:(lia)). split; reflexivity.
Defined.

Lemma app_exit_drains_witness :
  exists s' ws,
    app_exit (ex_state 2 [1; 1; 0]) = Some s' /\
    ws = [1%nat; 0%nat] /\
    calls s' = channels_get_list_fn 2
               :: concat (zip_with exit_calls [4096; 4097] ws) /\
    app_nch s' = 0.
Proof.
  destruct (app_exit_drains (ex_state 2 [1; 1; 0]) ltac:(cbn; lia)
              ltac:(vm_compute; lia))
    as (s' & ls & ws & E & Hls & Hws & _ & _ & C & N).
  exists s', ws. split; [exact E|].
  assert (Hl : ls = [4096; 4097]) by (rewrite Hls; reflexivity).
  rewrite Hl in Hws, C. split; [rewrite Hws; reflexivity|]. split; [exact C | exact N].
Defined.

Lemma app_init_channels_ids_witness :
  exists rs s' tr,
    app_init_channels (FH := ex_ftl_header) [ex_channel; ex_channel; ex_channel]
      (ex_state 0 [0; 0; 0; 0; 0; 0; 5; 0]) = Some (rs, s') /\
    length rs = 3%nat /\ calls s' = tr /\
    List.filter is_channels_init tr = init_calls [ex_channel; ex_channel; ex_channel] rs 0 /\
    app_nch s' = successes rs.
Proof.
  destruct (app_init_channels_ids (FH := ex_ftl_header) (OS := ex_outside)
              ltac:(intros id e; cbn; lia)
              [ex_channel; ex_channel; ex_channel] (ex_state 0 [0; 0; 0; 0; 0; 0; 5; 0])
              ltac:(cbn; lia) ltac:(cbn; lia))
    as (rs & s' & tr & E & L & C & X & N).
  exists rs, s', tr. auto.
Defined.

End LifecycleWitnesses.
